(** * Compilador Lusitano: lexer, parser, semantic analyser and Python emitter

    A shallow embedding of [lexer.py], [parser.py], [semantico.py] and the
    emitter of [lusitano.py], followed by the properties of the pipeline
    that the specification states about them.

    Conventions of the embedding.
    - Every Python class is a module holding a record for the instance
      attributes and one definition per method, under the method's name.
    - Python integers are [Z]; sequences are lists indexed the way Python
      indexes them (negative positions count from the end, a position out
      of range is [IndexError]).
    - Source text is a list of characters; a character is an [ascii],
      read as the code point of that number, so the texts of the model are
      the texts whose code points are below 256.  The classification
      methods ([isdigit], [isalpha], [isalnum], [isprintable], [lower])
      are the ones Python has on these code points.  The messages of the
      compiler are literals and are kept as this file writes them.
    - A method that mutates [self] is a computation in the monad [M St],
      which threads the instance and may raise; what was mutated before a
      [raise] stays mutated, as in Python.
    - [print] calls of the compiler itself (banners, progress lines) are
      not modelled. *)

From Stdlib Require Import ZArith Ascii String List Bool Lia DecimalString.
From stdpp Require Import gmap strings list.

Local Open Scope Z_scope.
Set Warnings "-register-all".

(** ** The host language: indexing, slicing, characters, conversions *)

Module Py.

Definition len {A} (l : list A) : Z := Z.of_nat (length l).

(** [l[i]]; [None] stands for [IndexError]. *)
Definition index {A} (l : list A) (i : Z) : option A :=
  if 0 <=? i then l !! Z.to_nat i
  else if - len l <=? i then l !! Z.to_nat (len l + i)
  else None.

(** How a slice bound is clipped to [0 .. len l]. *)
Definition limite {A} (l : list A) (i : Z) : Z :=
  if i <? 0 then Z.max 0 (i + len l) else Z.min i (len l).

(** [l[i:j]]. *)
Definition slice {A} (l : list A) (i j : Z) : list A :=
  let a := limite l i in
  let b := limite l j in
  take (Z.to_nat (b - a)) (drop (Z.to_nat a) l).

Definition ord (c : ascii) : Z := Z.of_nat (nat_of_ascii c).

Definition entre (lo hi : Z) (c : ascii) : bool :=
  (lo <=? ord c) && (ord c <=? hi).

(** The classification methods of a character, as the host has them for
    the code points below 256: [isdecimal] for the ten digits, [isdigit]
    for these and the superscript digits, [isalpha] and [isalnum] for the
    accented letters, the ordinal indicators, the micro sign and (for
    [isalnum]) the vulgar fractions as well. *)
Definition isdecimal (c : ascii) : bool := entre 48 57 c.
Definition isdigit (c : ascii) : bool :=
  entre 48 57 c || entre 178 179 c || entre 185 185 c.
Definition isupper (c : ascii) : bool :=
  entre 65 90 c || entre 192 214 c || entre 216 222 c.
Definition isalpha (c : ascii) : bool :=
  entre 65 90 c || entre 97 122 c || entre 170 170 c || entre 181 181 c
  || entre 186 186 c || entre 192 214 c || entre 216 246 c || entre 248 255 c.
Definition isalnum (c : ascii) : bool :=
  isalpha c || isdigit c || entre 188 190 c.

(** [c.isprintable()], which [repr] asks of a character. *)
Definition isprintable (c : ascii) : bool :=
  negb (entre 0 31 c || entre 127 160 c || entre 173 173 c).

Definition lower (c : ascii) : ascii :=
  if isupper c then ascii_of_nat (nat_of_ascii c + 32) else c.

Definition str_lower (s : string) : string :=
  string_of_list_ascii (map lower (list_ascii_of_string s)).

Definition nul : ascii := ascii_of_nat 0.
Definition nova_linha : ascii := ascii_of_nat 10.
Definition tab : ascii := ascii_of_nat 9.
Definition retorno_carro : ascii := ascii_of_nat 13.
Definition aspas : ascii := ascii_of_nat 34.
Definition apostrofo : ascii := ascii_of_nat 39.
Definition barra_invertida : ascii := ascii_of_nat 92.

Definition str1 (c : ascii) : string := String c EmptyString.

(** [str(n)] of an integer. *)
Definition str_int (n : Z) : string := NilEmpty.string_of_int (Z.to_int n).

(** The most digits the host converts between an integer and its text
    ([sys.get_int_max_str_digits()], 4300 unless it is set otherwise). *)
Definition max_str_digits : nat := 4300.

(** [int(s)], for the texts the scanner hands it, which are runs of
    characters that [isdigit] accepts: the value of a run of decimal
    digits no longer than the host's limit; [None] stands for
    [ValueError], which the host raises for a superscript digit and for a
    run beyond the limit (and which the model answers for any other text). *)
Definition int (s : list ascii) : option Z :=
  match s with
  | [] => None
  | _ => if forallb isdecimal s && (length s <=? max_str_digits)%nat
         then Some (fold_left (fun acc c => 10 * acc + (ord c - 48)) s 0)
         else None
  end.

(** What is left of a text after its leading decimal digits. *)
Fixpoint apos_decimais (s : list ascii) : list ascii :=
  match s with
  | c :: r => if isdecimal c then apos_decimais r else s
  | [] => []
  end.

(** An exponent: a marker, an optional sign and decimal digits up to the
    end of the text. *)
Definition expoente_decimal (s : list ascii) : bool :=
  match s with
  | m :: r =>
    (Ascii.eqb m "e" || Ascii.eqb m "E")
    && let r := match r with
                | g :: r' => if Ascii.eqb g "+" || Ascii.eqb g "-" then r' else r
                | [] => r
                end in
       match r with
       | d :: _ => isdecimal d && match apos_decimais r with [] => true | _ => false end
       | [] => false
       end
  | [] => false
  end.

(** [float(s)], for the texts the scanner hands it, which begin with a
    digit character: the host reads decimal digits, an optional dot with
    the decimal digits after it, and an optional exponent, and raises
    [ValueError] ([None]) for anything else, a superscript digit
    included.  The value is kept as its text. *)
Definition float (s : list ascii) : option (list ascii) :=
  match s with
  | d :: _ =>
    if isdecimal d then
      let r := apos_decimais s in
      let r := match r with
               | p :: f => if Ascii.eqb p "." then apos_decimais f else r
               | [] => r
               end in
      match r with
      | [] => Some s
      | _ => if expoente_decimal r then Some s else None
      end
    else None
  | [] => None
  end.

(** [sep.join(parts)]. *)
Fixpoint join (sep : string) (parts : list string) : string :=
  match parts with
  | [] => EmptyString
  | [p] => p
  | p :: ps => p +:+ sep +:+ join sep ps
  end.

(** [s * n] for a string. *)
Fixpoint repetir (s : string) (n : nat) : string :=
  match n with
  | O => EmptyString
  | S k => s +:+ repetir s k
  end.

(** [l.find(c, start)] for a single character. *)
Fixpoint find_desde {A} (p : A -> bool) (l : list A) (i : Z) : Z :=
  match l with
  | [] => -1
  | x :: r => if p x then i else find_desde p r (i + 1)
  end.

Definition find (c : ascii) (l : list ascii) (start : Z) : Z :=
  let a := limite l start in
  find_desde (Ascii.eqb c) (drop (Z.to_nat a) l) a.

(** [l.rfind(c, 0, stop)] for a single character. *)
Fixpoint rfind_desde {A} (p : A -> bool) (l : list A) (i : Z) (achado : Z) : Z :=
  match l with
  | [] => achado
  | x :: r => rfind_desde p r (i + 1) (if p x then i else achado)
  end.

Definition rfind (c : ascii) (l : list ascii) (stop : Z) : Z :=
  rfind_desde (Ascii.eqb c) (slice l 0 stop) 0 (-1).

(** The items of [range(start, stop)], the way the host documents them:
    [start], [start + 1], ... for as long as the item is below [stop].
    At most [stop - start] items are produced. *)
Fixpoint range_itens (n : nat) (item stop : Z) : list Z :=
  match n with
  | O => []
  | S k => if item <? stop then item :: range_itens k (item + 1) stop else []
  end.

Definition range (start stop : Z) : list Z :=
  range_itens (Z.to_nat (stop - start)) start stop.

End Py.

(** ** lexer.py *)

Inductive TipoToken : Set :=
  | NUMERO_INTEIRO | NUMERO_REAL | TEXTO | VERDADEIRO | FALSO
  | IDENTIFICADOR
  | TIPO_INTEIRO | TIPO_REAL | TIPO_TEXTO | TIPO_LOGICO | TIPO_VAZIO
  | SE | SENAO | SENAOSE | ENQUANTO | PARA | DE | ATE | PASSO | FACA | REPITA
  | FUNCAO | RETORNA
  | ESCREVA | LEIA
  | E | OU | NAO
  | VAR | CONST
  | MAIS | MENOS | MULTIPLICA | DIVIDE | MODULO | POTENCIA
  | IGUAL | DIFERENTE | MENOR | MENOR_IGUAL | MAIOR | MAIOR_IGUAL
  | ATRIBUICAO | MAIS_IGUAL | MENOS_IGUAL | MULT_IGUAL | DIV_IGUAL
  | ABRE_PAREN | FECHA_PAREN | ABRE_CHAVE | FECHA_CHAVE
  | ABRE_COLCHETE | FECHA_COLCHETE
  | VIRGULA | PONTO_VIRGULA | DOIS_PONTOS | PONTO | SETA
  | FIM_ARQUIVO | NOVA_LINHA | COMENTARIO.

(** The value [auto()] gives each member; members are equal iff their
    values are. *)
Definition TipoToken_valor (t : TipoToken) : Z :=
  match t with
  | NUMERO_INTEIRO => 1 | NUMERO_REAL => 2 | TEXTO => 3 | VERDADEIRO => 4
  | FALSO => 5 | IDENTIFICADOR => 6 | TIPO_INTEIRO => 7 | TIPO_REAL => 8
  | TIPO_TEXTO => 9 | TIPO_LOGICO => 10 | TIPO_VAZIO => 11 | SE => 12
  | SENAO => 13 | SENAOSE => 14 | ENQUANTO => 15 | PARA => 16 | DE => 17
  | ATE => 18 | PASSO => 19 | FACA => 20 | REPITA => 21 | FUNCAO => 22
  | RETORNA => 23 | ESCREVA => 24 | LEIA => 25 | E => 26 | OU => 27
  | NAO => 28 | VAR => 29 | CONST => 30 | MAIS => 31 | MENOS => 32
  | MULTIPLICA => 33 | DIVIDE => 34 | MODULO => 35 | POTENCIA => 36
  | IGUAL => 37 | DIFERENTE => 38 | MENOR => 39 | MENOR_IGUAL => 40
  | MAIOR => 41 | MAIOR_IGUAL => 42 | ATRIBUICAO => 43 | MAIS_IGUAL => 44
  | MENOS_IGUAL => 45 | MULT_IGUAL => 46 | DIV_IGUAL => 47
  | ABRE_PAREN => 48 | FECHA_PAREN => 49 | ABRE_CHAVE => 50
  | FECHA_CHAVE => 51 | ABRE_COLCHETE => 52 | FECHA_COLCHETE => 53
  | VIRGULA => 54 | PONTO_VIRGULA => 55 | DOIS_PONTOS => 56 | PONTO => 57
  | SETA => 58 | FIM_ARQUIVO => 59 | NOVA_LINHA => 60 | COMENTARIO => 61
  end.

Definition TipoToken_eqb (a b : TipoToken) : bool :=
  TipoToken_valor a =? TipoToken_valor b.

(** A token's [valor] ([Any] in the source): [None], a string, an [int],
    a [float] or a [bool].  A float is kept as the lexeme it was read
    from, [VFloat l] standing for [float(l)]. *)
Inductive Valor : Set :=
  | VNone
  | VStr (s : string)
  | VInt (n : Z)
  | VFloat (lexema : string)
  | VBool (b : bool).

Module Token.
Record Token : Set := mk {
  tipo : TipoToken;
  lexema : string;
  valor : Valor;
  linha : Z;
  coluna : Z
}.
End Token.
Abbreviation Token := Token.Token.

(** What the compiler raises: its own two exception classes, and the
    host's [IndexError], [KeyError] and [ValueError].  [SemCombustivel] is
    not a Python exception: it is the answer of a loop or a recursion of
    the model whose iteration budget ran out. *)
Inductive Excecao : Set :=
  | ErroLexico (mensagem : string) (linha coluna : Z) (contexto : string)
  | ErroSintatico (mensagem : string) (token : Token)
  | IndexError
  | KeyError
  | ValueError
  | SemCombustivel.

(** ** Computations over a mutable instance *)

Inductive Resultado (A : Type) : Type :=
  | Retorno (a : A)
  | Levanta (e : Excecao).
Arguments Retorno {A} a.
Arguments Levanta {A} e.

Definition M (St A : Type) : Type := St -> Resultado A * St.

Definition ret {St A} (a : A) : M St A := fun s => (Retorno a, s).

Definition bind {St A B} (m : M St A) (k : A -> M St B) : M St B :=
  fun s => match m s with
           | (Retorno a, s') => k a s'
           | (Levanta e, s') => (Levanta e, s')
           end.

Definition levanta {St A} (e : Excecao) : M St A := fun s => (Levanta e, s).

(** Reading an attribute of [self], and assigning to [self]. *)
Definition ler {St A} (f : St -> A) : M St A := fun s => (Retorno (f s), s).
Definition mudar {St} (f : St -> St) : M St unit := fun s => (Retorno tt, f s).

(** An optional host value whose absence is the exception [e]. *)
Definition ou_levanta {St A} (e : Excecao) (o : option A) : M St A :=
  match o with Some a => ret a | None => levanta e end.

Declare Scope monada_scope.
Delimit Scope monada_scope with monada.
Notation "'let*' x ':=' m 'in' k" := (bind m (fun x => k))
  (at level 10, x name, m at level 100, k at level 200) : monada_scope.
Notation "m '>>' k" := (bind m (fun _ => k))
  (at level 100, k at level 200, right associativity) : monada_scope.
Local Open Scope monada_scope.

(** [while cond(): corpo], with a condition that reads the instance through
    methods that may raise. *)
Fixpoint enquantoM {St} (n : nat) (cond : M St bool) (corpo : M St unit) : M St unit :=
  let* c := cond in
  if c then
    match n with
    | O => levanta SemCombustivel
    | S k => corpo >> enquantoM k cond corpo
    end
  else ret tt.

Module Scanner.

Record Scanner : Set := mk {
  fonte : list ascii;
  tokens : list Token;
  inicio : Z;
  atual : Z;
  linha : Z;
  coluna : Z;
  coluna_inicio : Z
}.

Definition novo (codigo_fonte : string) : Scanner :=
  mk (list_ascii_of_string codigo_fonte) [] 0 0 1 1 1.

Definition com_tokens (v : list Token) (s : Scanner) : Scanner :=
  mk (fonte s) v (inicio s) (atual s) (linha s) (coluna s) (coluna_inicio s).
Definition com_inicio (v : Z) (s : Scanner) : Scanner :=
  mk (fonte s) (tokens s) v (atual s) (linha s) (coluna s) (coluna_inicio s).
Definition com_atual (v : Z) (s : Scanner) : Scanner :=
  mk (fonte s) (tokens s) (inicio s) v (linha s) (coluna s) (coluna_inicio s).
Definition com_linha (v : Z) (s : Scanner) : Scanner :=
  mk (fonte s) (tokens s) (inicio s) (atual s) v (coluna s) (coluna_inicio s).
Definition com_coluna (v : Z) (s : Scanner) : Scanner :=
  mk (fonte s) (tokens s) (inicio s) (atual s) (linha s) v (coluna_inicio s).
Definition com_coluna_inicio (v : Z) (s : Scanner) : Scanner :=
  mk (fonte s) (tokens s) (inicio s) (atual s) (linha s) (coluna s) v.

(** Characters left to read: the iteration budget of every loop that
    advances at least one character per iteration. *)
Definition restante (s : Scanner) : nat := Z.to_nat (Py.len (fonte s) - atual s).

Definition fim_codigo (s : Scanner) : bool := Py.len (fonte s) <=? atual s.

(** [self.fonte[i]]. *)
Definition fonte_em (i : Z) : M Scanner ascii :=
  fun s => ou_levanta IndexError (Py.index (fonte s) i) s.

Definition avancar : M Scanner ascii :=
  let* i := ler atual in
  let* char := fonte_em i in
  mudar (fun s => com_atual (atual s + 1) s) >>
  (if Ascii.eqb char Py.nova_linha
   then mudar (fun s => com_coluna 1 (com_linha (linha s + 1) s))
   else mudar (fun s => com_coluna (coluna s + 1) s)) >>
  ret char.

Definition espiar : M Scanner ascii :=
  let* fim := ler fim_codigo in
  if fim then ret Py.nul
  else let* i := ler atual in fonte_em i.

Definition espiar_proximo : M Scanner ascii :=
  let* fora := ler (fun s => Py.len (fonte s) <=? atual s + 1) in
  if fora then ret Py.nul
  else let* i := ler atual in fonte_em (i + 1).

Definition combinar (esperado : ascii) : M Scanner bool :=
  let* fim := ler fim_codigo in
  if fim then ret false
  else
    let* i := ler atual in
    let* c := fonte_em i in
    if negb (Ascii.eqb c esperado) then ret false
    else
      mudar (fun s => com_atual (atual s + 1) s) >>
      mudar (fun s => com_coluna (coluna s + 1) s) >>
      ret true.

Definition lexema_atual (s : Scanner) : string :=
  string_of_list_ascii (Py.slice (fonte s) (inicio s) (atual s)).

(** [adicionar_token(tipo, valor)]; the default [valor=None] is [VNone]. *)
Definition adicionar_token (tipo : TipoToken) (valor : Valor) : M Scanner unit :=
  let* lexema := ler lexema_atual in
  let valor := match valor with VNone => VStr lexema | v => v end in
  mudar (fun s =>
    com_tokens (tokens s ++ [Token.mk tipo lexema valor (linha s) (coluna_inicio s)]) s).

Definition linha_atual_contexto (s : Scanner) : string :=
  let inicio_linha := Py.rfind Py.nova_linha (fonte s) (inicio s) + 1 in
  let fim_linha := Py.find Py.nova_linha (fonte s) (atual s) in
  let fim_linha := if fim_linha =? -1 then Py.len (fonte s) else fim_linha in
  string_of_list_ascii (Py.slice (fonte s) inicio_linha fim_linha).

(** The [escapes] dictionary of [analisar_string], with its default. *)
Definition escapes_get (escape : ascii) : string :=
  if Ascii.eqb escape "n" then Py.str1 Py.nova_linha
  else if Ascii.eqb escape "t" then Py.str1 Py.tab
  else if Ascii.eqb escape "r" then Py.str1 Py.retorno_carro
  else if Ascii.eqb escape Py.barra_invertida then Py.str1 Py.barra_invertida
  else if Ascii.eqb escape Py.aspas then Py.str1 Py.aspas
  else if Ascii.eqb escape Py.apostrofo then Py.str1 Py.apostrofo
  else String Py.barra_invertida (Py.str1 escape).

(** The loop of [analisar_string]; it returns the decoded [valor]. *)
Fixpoint analisar_string_laco (n : nat) (aspas : ascii) (valor : string)
  : M Scanner string :=
  let* fim := ler fim_codigo in
  let* segue :=
    (if fim then ret false
     else let* c := espiar in ret (negb (Ascii.eqb c aspas))) in
  if segue then
    match n with
    | O => levanta SemCombustivel
    | S k =>
      let* char := espiar in
      if Ascii.eqb char Py.nova_linha then
        let* l := ler linha in
        let* ci := ler coluna_inicio in
        let* ctx := ler linha_atual_contexto in
        levanta (ErroLexico "String não terminada - encontrado fim de linha" l ci ctx)
      else if Ascii.eqb char Py.barra_invertida then
        avancar >>
        let* fim := ler fim_codigo in
        if fim then
          let* l := ler linha in
          let* ci := ler coluna_inicio in
          levanta (ErroLexico "String não terminada após caractere de escape" l ci "")
        else
          let* escape := avancar in
          analisar_string_laco k aspas (valor +:+ escapes_get escape)
      else
        let* c := avancar in
        analisar_string_laco k aspas (valor +:+ Py.str1 c)
    end
  else ret valor.

Definition analisar_string : M Scanner unit :=
  let* i := ler atual in
  let* aspas := fonte_em (i - 1) in
  let* n := ler restante in
  let* valor := analisar_string_laco n aspas "" in
  let* fim := ler fim_codigo in
  if fim then
    let* l := ler linha in
    let* ci := ler coluna_inicio in
    let* ctx := ler linha_atual_contexto in
    levanta (ErroLexico "String não terminada - fim de arquivo inesperado" l ci ctx)
  else
    avancar >>
    adicionar_token TEXTO (VStr valor).

(** [self.espiar().isdigit()]. *)
Definition espia_digito : M Scanner bool :=
  let* c := espiar in ret (Py.isdigit c).

(** [while self.espiar().isdigit(): self.avancar()]. *)
Definition consumir_digitos : M Scanner unit :=
  let* n := ler restante in
  enquantoM n espia_digito (avancar >> ret tt).

Definition analisar_numero : M Scanner unit :=
  consumir_digitos >>
  let* c := espiar in
  let* tem_fracao :=
    (if Ascii.eqb c "."
     then let* p := espiar_proximo in ret (Py.isdigit p)
     else ret false) in
  let* is_real :=
    (if tem_fracao
     then avancar >> consumir_digitos >> ret true
     else ret false) in
  let* c := espiar in
  let* is_real :=
    (if Ascii.eqb (Py.lower c) "e" then
       avancar >>
       let* c := espiar in
       (if Ascii.eqb c "+" || Ascii.eqb c "-" then avancar >> ret tt else ret tt) >>
       let* c := espiar in
       if negb (Py.isdigit c) then
         let* l := ler linha in
         let* co := ler coluna in
         let* ctx := ler linha_atual_contexto in
         levanta (ErroLexico
           "Número em notação científica inválido - esperado dígito após 'e'"
           l co ctx)
       else consumir_digitos >> ret true
     else ret is_real) in
  let* lexema := ler lexema_atual in
  if is_real then
    let* x := ou_levanta ValueError (Py.float (list_ascii_of_string lexema)) in
    adicionar_token NUMERO_REAL (VFloat (string_of_list_ascii x))
  else
    let* n := ou_levanta ValueError (Py.int (list_ascii_of_string lexema)) in
    adicionar_token NUMERO_INTEIRO (VInt n).

(** [PALAVRAS_CHAVE]. *)
Definition PALAVRAS_CHAVE : gmap string TipoToken :=
  list_to_map
    [ ("inteiro", TIPO_INTEIRO); ("real", TIPO_REAL); ("texto", TIPO_TEXTO);
      ("logico", TIPO_LOGICO); ("vazio", TIPO_VAZIO);
      ("verdadeiro", VERDADEIRO); ("falso", FALSO);
      ("se", SE); ("senao", SENAO); ("senaose", SENAOSE);
      ("enquanto", ENQUANTO); ("para", PARA); ("de", DE); ("ate", ATE);
      ("passo", PASSO); ("faca", FACA); ("repita", REPITA);
      ("funcao", FUNCAO); ("retorna", RETORNA);
      ("escreva", ESCREVA); ("leia", LEIA);
      ("e", E); ("ou", OU); ("nao", NAO);
      ("var", VAR); ("const", CONST) ].

Definition espia_identificador : M Scanner bool :=
  let* c := espiar in
  if Py.isalnum c then ret true
  else let* c := espiar in ret (Ascii.eqb c "_").

Definition analisar_identificador : M Scanner unit :=
  let* n := ler restante in
  enquantoM n espia_identificador (avancar >> ret tt) >>
  let* lexema := ler lexema_atual in
  let tipo := match PALAVRAS_CHAVE !! Py.str_lower lexema with
              | Some t => t
              | None => IDENTIFICADOR
              end in
  adicionar_token tipo VNone.

Definition analisar_comentario_linha : M Scanner unit :=
  let* n := ler restante in
  enquantoM n
    (let* fim := ler fim_codigo in
     if fim then ret false
     else let* c := espiar in ret (negb (Ascii.eqb c Py.nova_linha)))
    (avancar >> ret tt).

(** The loop of [analisar_comentario_bloco]; [true] when the loop was
    left by its [return]. *)
Fixpoint analisar_comentario_bloco_laco (n : nat) : M Scanner bool :=
  let* fim := ler fim_codigo in
  if fim then ret false
  else
    match n with
    | O => levanta SemCombustivel
    | S k =>
      let* c := espiar in
      let* fecha :=
        (if Ascii.eqb c "*"
         then let* p := espiar_proximo in ret (Ascii.eqb p "/")
         else ret false) in
      if fecha then avancar >> avancar >> ret true
      else avancar >> analisar_comentario_bloco_laco k
    end.

Definition analisar_comentario_bloco : M Scanner unit :=
  let* linha_inicio := ler linha in
  let* n := ler restante in
  let* saiu := analisar_comentario_bloco_laco n in
  if saiu then ret tt
  else
    let* l := ler linha in
    let* co := ler coluna in
    levanta (ErroLexico
      ("Comentário de bloco não fechado (iniciado na linha "
       +:+ Py.str_int linha_inicio +:+ ")") l co "").

(** [if self.combinar(c): sim else: nao]. *)
Definition se_combinar {A} (c : ascii) (sim nao : M Scanner A) : M Scanner A :=
  let* b := combinar c in if b then sim else nao.

Definition char_em (char : ascii) (conjunto : list ascii) : bool :=
  existsb (Ascii.eqb char) conjunto.

Definition escanear_token : M Scanner unit :=
  let* char := avancar in
  if char_em char [" "%char; Py.tab; Py.retorno_carro; Py.nova_linha] then ret tt
  else if char_em char [Py.aspas; Py.apostrofo] then analisar_string
  else if Py.isdigit char then analisar_numero
  else if Py.isalpha char || Ascii.eqb char "_" then analisar_identificador
  else if Ascii.eqb char "(" then adicionar_token ABRE_PAREN VNone
  else if Ascii.eqb char ")" then adicionar_token FECHA_PAREN VNone
  else if Ascii.eqb char "{" then adicionar_token ABRE_CHAVE VNone
  else if Ascii.eqb char "}" then adicionar_token FECHA_CHAVE VNone
  else if Ascii.eqb char "[" then adicionar_token ABRE_COLCHETE VNone
  else if Ascii.eqb char "]" then adicionar_token FECHA_COLCHETE VNone
  else if Ascii.eqb char "," then adicionar_token VIRGULA VNone
  else if Ascii.eqb char ";" then adicionar_token PONTO_VIRGULA VNone
  else if Ascii.eqb char ":" then adicionar_token DOIS_PONTOS VNone
  else if Ascii.eqb char "." then adicionar_token PONTO VNone
  else if Ascii.eqb char "+" then
    se_combinar "=" (adicionar_token MAIS_IGUAL VNone)
      (adicionar_token MAIS VNone)
  else if Ascii.eqb char "-" then
    se_combinar "=" (adicionar_token MENOS_IGUAL VNone)
      (se_combinar ">" (adicionar_token SETA VNone)
         (adicionar_token MENOS VNone))
  else if Ascii.eqb char "*" then
    se_combinar "*" (adicionar_token POTENCIA VNone)
      (se_combinar "=" (adicionar_token MULT_IGUAL VNone)
         (adicionar_token MULTIPLICA VNone))
  else if Ascii.eqb char "/" then
    se_combinar "/" analisar_comentario_linha
      (se_combinar "*" analisar_comentario_bloco
         (se_combinar "=" (adicionar_token DIV_IGUAL VNone)
            (adicionar_token DIVIDE VNone)))
  else if Ascii.eqb char "%" then adicionar_token MODULO VNone
  else if Ascii.eqb char "=" then
    se_combinar "=" (adicionar_token IGUAL VNone)
      (adicionar_token ATRIBUICAO VNone)
  else if Ascii.eqb char "!" then
    se_combinar "=" (adicionar_token DIFERENTE VNone)
      (let* l := ler linha in
       let* ci := ler coluna_inicio in
       let* ctx := ler linha_atual_contexto in
       levanta (ErroLexico
         ("Caractere inesperado: '" +:+ Py.str1 char
          +:+ "'. Você quis dizer 'nao' ou '!='?") l ci ctx))
  else if Ascii.eqb char "<" then
    se_combinar "=" (adicionar_token MENOR_IGUAL VNone)
      (adicionar_token MENOR VNone)
  else if Ascii.eqb char ">" then
    se_combinar "=" (adicionar_token MAIOR_IGUAL VNone)
      (adicionar_token MAIOR VNone)
  else
    let* l := ler linha in
    let* ci := ler coluna_inicio in
    let* ctx := ler linha_atual_contexto in
    levanta (ErroLexico
      ("Caractere não reconhecido: '" +:+ Py.str1 char
       +:+ "' (código: " +:+ Py.str_int (Py.ord char) +:+ ")") l ci ctx).

Definition escanear : M Scanner (list Token) :=
  let* n := ler restante in
  enquantoM n
    (let* fim := ler fim_codigo in ret (negb fim))
    (mudar (fun s => com_inicio (atual s) s) >>
     mudar (fun s => com_coluna_inicio (coluna s) s) >>
     escanear_token) >>
  mudar (fun s =>
    com_tokens (tokens s ++ [Token.mk FIM_ARQUIVO "" VNone (linha s) (coluna s)]) s) >>
  ler tokens.

End Scanner.

(** ** parser.py: the syntax tree *)

(** The node classes.  [NoAST] has two families of subclasses, the
    [Expressao*] ones and the [Declaracao*] ones; the parser builds an
    attribute annotated [NoAST] from one family only, so each family is
    an inductive type of its own. *)
Inductive Expressao : Set :=
  | ExpressaoLiteral (valor : Valor) (tipo : string) (token : Token)
  | ExpressaoVariavel (nome : string) (token : Token)
  | ExpressaoBinaria (esquerda : Expressao) (operador : Token) (direita : Expressao)
  | ExpressaoUnaria (operador : Token) (operando : Expressao)
  | ExpressaoAgrupamento (expressao : Expressao)
  | ExpressaoAtribuicao (nome : string) (token_nome : Token) (valor : Expressao)
  | ExpressaoLogica (esquerda : Expressao) (operador : Token) (direita : Expressao)
  | ExpressaoChamadaFuncao (nome : string) (token_nome : Token)
      (argumentos : list Expressao)
  | ExpressaoAcessoArray (objeto indice : Expressao) (token_colchete : Token).

(** [DeclaracaoFuncao.corpo] is a [DeclaracaoBloco]: the constructor holds
    the [declaracoes] of that block. *)
Inductive Declaracao : Set :=
  | DeclaracaoExpressao (expressao : Expressao)
  | DeclaracaoVariavel (nome : string) (token_nome : Token)
      (tipo_dado : option string) (inicializador : option Expressao)
      (constante : bool)
  | DeclaracaoBloco (declaracoes : list Declaracao)
  | DeclaracaoSe (condicao : Expressao) (bloco_verdadeiro : Declaracao)
      (bloco_falso : option Declaracao)
  | DeclaracaoEnquanto (condicao : Expressao) (corpo : Declaracao)
  | DeclaracaoPara (variavel : string) (token_variavel : Token)
      (inicio fim : Expressao) (passo : option Expressao) (corpo : Declaracao)
  | DeclaracaoFuncao (nome : string) (token_nome : Token)
      (parametros : list (string * string)) (tipo_retorno : option string)
      (corpo : list Declaracao)
  | DeclaracaoRetorna (token : Token) (valor : option Expressao)
  | DeclaracaoEscreva (expressoes : list Expressao)
  | DeclaracaoLeia (variavel : string) (token_variavel : Token)
      (mensagem : option Expressao).

Inductive Programa : Set :=
  | Programa_ (declaracoes : list Declaracao).

(** [try: m except ErroSintatico as e: tratador(e)]. *)
Definition tentar {St A} (m : M St A) (tratador : string -> Token -> M St A) : M St A :=
  fun s => match m s with
           | (Levanta (ErroSintatico mensagem token), s') => tratador mensagem token s'
           | r => r
           end.

(** ** parser.py: the recursive-descent parser *)

Module Parser.

Record Parser : Set := mk {
  tokens : list Token;
  atual : Z
}.

Definition novo (tokens : list Token) : Parser := mk tokens 0.

Definition com_atual (v : Z) (p : Parser) : Parser := mk (tokens p) v.

Definition token_atual : M Parser Token :=
  fun p => ou_levanta IndexError (Py.index (tokens p) (atual p)) p.

Definition token_anterior : M Parser Token :=
  fun p => ou_levanta IndexError (Py.index (tokens p) (atual p - 1)) p.

Definition fim_tokens : M Parser bool :=
  let* t := token_atual in ret (TipoToken_eqb (Token.tipo t) FIM_ARQUIVO).

Definition avancar : M Parser Token :=
  let* fim := fim_tokens in
  (if negb fim then mudar (fun p => com_atual (atual p + 1) p) else ret tt) >>
  token_anterior.

Definition verificar (tipo : TipoToken) : M Parser bool :=
  let* fim := fim_tokens in
  if fim then ret false
  else let* t := token_atual in ret (TipoToken_eqb (Token.tipo t) tipo).

Fixpoint combinar (tipos : list TipoToken) : M Parser bool :=
  match tipos with
  | [] => ret false
  | tipo :: resto =>
    let* v := verificar tipo in
    if v then avancar >> ret true else combinar resto
  end.

Definition consumir (tipo : TipoToken) (mensagem : string) : M Parser Token :=
  let* v := verificar tipo in
  if v then avancar
  else let* t := token_atual in levanta (ErroSintatico mensagem t).

Definition tipo_em (t : TipoToken) (tipos : list TipoToken) : bool :=
  existsb (TipoToken_eqb t) tipos.

(** The loop of [sincronizar]. *)
Fixpoint sincronizar_laco (n : nat) : M Parser unit :=
  let* fim := fim_tokens in
  if fim then ret tt
  else
    match n with
    | O => levanta SemCombustivel
    | S k =>
      let* ant := token_anterior in
      if TipoToken_eqb (Token.tipo ant) PONTO_VIRGULA then ret tt
      else
        let* cur := token_atual in
        if tipo_em (Token.tipo cur)
             [FUNCAO; VAR; CONST; SE; ENQUANTO; PARA; RETORNA; ESCREVA]
        then ret tt
        else avancar >> sincronizar_laco k
    end.

Definition sincronizar : M Parser unit :=
  avancar >>
  let* n := ler (fun p => length (tokens p)) in
  sincronizar_laco n.

Definition tipo_dado : M Parser string :=
  let* c := combinar [TIPO_INTEIRO] in
  if c then ret "inteiro" else
  let* c := combinar [TIPO_REAL] in
  if c then ret "real" else
  let* c := combinar [TIPO_TEXTO] in
  if c then ret "texto" else
  let* c := combinar [TIPO_LOGICO] in
  if c then ret "logico" else
  let* c := combinar [TIPO_VAZIO] in
  if c then ret "vazio" else
  let* t := token_atual in
  levanta (ErroSintatico "Esperado tipo de dado" t).

(** [op_map] of [atribuicao]; [None] stands for [KeyError]. *)
Definition op_map (t : TipoToken) : option TipoToken :=
  match t with
  | MAIS_IGUAL => Some MAIS
  | MENOS_IGUAL => Some MENOS
  | MULT_IGUAL => Some MULTIPLICA
  | DIV_IGUAL => Some DIVIDE
  | _ => None
  end.

(** [s[0]] of a string; [None] stands for [IndexError]. *)
Definition primeiro (s : string) : option string :=
  match s with
  | EmptyString => None
  | String c _ => Some (Py.str1 c)
  end.

(** The expression grammar.  The methods call one another recursively,
    so each is given a budget: [expressao n] may nest at most [n] calls
    of [expressao] inside one another, and every loop and every method
    that calls itself performs at most [n] rounds.  Within one call of
    [expressao] the methods are defined from [primario] upwards;
    [expr_rec] is [self.expressao()] with the budget that is left, and
    [*_laco] is the [while] loop of the method it is named after. *)
Section Expressoes.

Variable expr_rec : M Parser Expressao.
Variable orcamento : nat.

Definition primario : M Parser Expressao :=
  let* c := combinar [VERDADEIRO] in
  if c then
    let* t := token_anterior in ret (ExpressaoLiteral (VBool true) "logico" t)
  else
  let* c := combinar [FALSO] in
  if c then
    let* t := token_anterior in ret (ExpressaoLiteral (VBool false) "logico" t)
  else
  let* c := combinar [NUMERO_INTEIRO] in
  if c then
    let* token := token_anterior in
    ret (ExpressaoLiteral (Token.valor token) "inteiro" token)
  else
  let* c := combinar [NUMERO_REAL] in
  if c then
    let* token := token_anterior in
    ret (ExpressaoLiteral (Token.valor token) "real" token)
  else
  let* c := combinar [TEXTO] in
  if c then
    let* token := token_anterior in
    ret (ExpressaoLiteral (Token.valor token) "texto" token)
  else
  let* c := combinar [IDENTIFICADOR] in
  if c then
    let* t1 := token_anterior in
    let* t2 := token_anterior in
    ret (ExpressaoVariavel (Token.lexema t1) t2)
  else
  let* c := combinar [ABRE_PAREN] in
  if c then
    let* expr := expr_rec in
    consumir FECHA_PAREN "Esperado ')' após expressão" >>
    ret (ExpressaoAgrupamento expr)
  else
  let* t := token_atual in
  levanta (ErroSintatico "Esperado expressão" t).

Fixpoint finalizar_chamada_laco (n : nat) (argumentos : list Expressao)
  : M Parser (list Expressao) :=
  let* c := combinar [VIRGULA] in
  if c then
    match n with
    | O => levanta SemCombustivel
    | S k =>
      if 255 <=? Py.len argumentos then
        let* t := token_atual in
        levanta (ErroSintatico "Não é possível ter mais de 255 argumentos" t)
      else
        let* a := expr_rec in
        finalizar_chamada_laco k (argumentos ++ [a])
    end
  else ret argumentos.

Definition finalizar_chamada (chamado : Expressao) : M Parser Expressao :=
  let* fecha := verificar FECHA_PAREN in
  let* argumentos :=
    (if negb fecha then
       let* a := expr_rec in
       finalizar_chamada_laco orcamento [a]
     else ret []) in
  consumir FECHA_PAREN "Esperado ')' após argumentos" >>
  match chamado with
  | ExpressaoVariavel nome token =>
    ret (ExpressaoChamadaFuncao nome token argumentos)
  | _ =>
    let* t := token_atual in
    levanta (ErroSintatico "Expressão não é chamável" t)
  end.

Fixpoint chamada_laco (n : nat) (expr : Expressao) : M Parser Expressao :=
  let* c := combinar [ABRE_PAREN] in
  if c then
    match n with
    | O => levanta SemCombustivel
    | S k =>
      let* expr := finalizar_chamada expr in
      chamada_laco k expr
    end
  else
    let* c := combinar [ABRE_COLCHETE] in
    if c then
      match n with
      | O => levanta SemCombustivel
      | S k =>
        let* token := token_anterior in
        let* indice := expr_rec in
        consumir FECHA_COLCHETE "Esperado ']' após índice" >>
        chamada_laco k (ExpressaoAcessoArray expr indice token)
      end
    else ret expr.

Definition chamada : M Parser Expressao :=
  let* expr := primario in
  chamada_laco orcamento expr.

Fixpoint unario_ (n : nat) : M Parser Expressao :=
  let* c := combinar [NAO; MENOS] in
  if c then
    match n with
    | O => levanta SemCombustivel
    | S k =>
      let* operador := token_anterior in
      let* operando := unario_ k in
      ret (ExpressaoUnaria operador operando)
    end
  else chamada.

Definition unario : M Parser Expressao := unario_ orcamento.

Fixpoint potencia_ (n : nat) : M Parser Expressao :=
  let* expr := unario in
  let* c := combinar [POTENCIA] in
  if c then
    match n with
    | O => levanta SemCombustivel
    | S k =>
      let* operador := token_anterior in
      let* direita := potencia_ k in
      ret (ExpressaoBinaria expr operador direita)
    end
  else ret expr.

Definition potencia : M Parser Expressao := potencia_ orcamento.

(** The loop shared by the left-associative binary levels:
    while [combinar] accepts one of [tipos], [operador] is the token
    just passed, [direita] is read by [operando], and [expr] becomes
    the node [no expr operador direita]. *)
Fixpoint binaria_laco (tipos : list TipoToken) (operando : M Parser Expressao)
    (no : Expressao -> Token -> Expressao -> Expressao)
    (n : nat) (expr : Expressao) : M Parser Expressao :=
  let* c := combinar tipos in
  if c then
    match n with
    | O => levanta SemCombustivel
    | S k =>
      let* operador := token_anterior in
      let* direita := operando in
      binaria_laco tipos operando no k (no expr operador direita)
    end
  else ret expr.

Definition fator : M Parser Expressao :=
  let* expr := potencia in
  binaria_laco [MULTIPLICA; DIVIDE; MODULO] potencia ExpressaoBinaria orcamento expr.

Definition termo : M Parser Expressao :=
  let* expr := fator in
  binaria_laco [MAIS; MENOS] fator ExpressaoBinaria orcamento expr.

Definition comparacao : M Parser Expressao :=
  let* expr := termo in
  binaria_laco [MENOR; MENOR_IGUAL; MAIOR; MAIOR_IGUAL] termo ExpressaoBinaria
    orcamento expr.

Definition igualdade : M Parser Expressao :=
  let* expr := comparacao in
  binaria_laco [IGUAL; DIFERENTE] comparacao ExpressaoBinaria orcamento expr.

Definition logico_e : M Parser Expressao :=
  let* expr := igualdade in
  binaria_laco [E] igualdade ExpressaoLogica orcamento expr.

Definition logico_ou : M Parser Expressao :=
  let* expr := logico_e in
  binaria_laco [OU] logico_e ExpressaoLogica orcamento expr.

Fixpoint atribuicao_ (n : nat) : M Parser Expressao :=
  let* expr := logico_ou in
  let* c := combinar [ATRIBUICAO; MAIS_IGUAL; MENOS_IGUAL; MULT_IGUAL; DIV_IGUAL] in
  if c then
    match n with
    | O => levanta SemCombustivel
    | S k =>
      let* operador := token_anterior in
      let* valor := atribuicao_ k in
      match expr with
      | ExpressaoVariavel nome token =>
        let* valor :=
          (if negb (TipoToken_eqb (Token.tipo operador) ATRIBUICAO) then
             let* tipo := ou_levanta KeyError (op_map (Token.tipo operador)) in
             let* lex := ou_levanta IndexError (primeiro (Token.lexema operador)) in
             let op_token :=
               Token.mk tipo lex VNone (Token.linha operador) (Token.coluna operador) in
             ret (ExpressaoBinaria expr op_token valor)
           else ret valor) in
        ret (ExpressaoAtribuicao nome token valor)
      | _ => levanta (ErroSintatico "Alvo de atribuição inválido" operador)
      end
    end
  else ret expr.

Definition atribuicao : M Parser Expressao := atribuicao_ orcamento.

End Expressoes.

Fixpoint expressao (n : nat) : M Parser Expressao :=
  match n with
  | O => levanta SemCombustivel
  | S k => atribuicao (fun p => expressao k p) n
  end.

(** The declaration and statement grammar.  [declaracao n] and
    [statement n] may nest at most [n] calls of themselves inside one
    another; within one call, [decl_rec] and [stmt_rec] are
    [self.declaracao()] and [self.statement()] with the budget that is
    left, and expressions are read with the budget [orcamento]. *)
Section Declaracoes.

Variable decl_rec : M Parser (option Declaracao).
Variable stmt_rec : M Parser Declaracao.
Variable orcamento : nat.

(** The loop of [bloco]. *)
Fixpoint bloco_laco (n : nat) (declaracoes : list Declaracao)
  : M Parser (list Declaracao) :=
  let* fecha := verificar FECHA_CHAVE in
  let* segue := (if negb fecha then let* fim := fim_tokens in ret (negb fim)
                 else ret false) in
  if segue then
    match n with
    | O => levanta SemCombustivel
    | S k =>
      let* decl := decl_rec in
      match decl with
      | Some d => bloco_laco k (declaracoes ++ [d])
      | None => bloco_laco k declaracoes
      end
    end
  else ret declaracoes.

Definition bloco : M Parser Declaracao :=
  let* declaracoes := bloco_laco orcamento [] in
  consumir FECHA_CHAVE "Esperado '}' após bloco" >>
  ret (DeclaracaoBloco declaracoes).

(** The [while True] loop of [declaracao_funcao]. *)
Fixpoint parametros_laco (n : nat) (parametros : list (string * string))
  : M Parser (list (string * string)) :=
  let* param_nome := consumir IDENTIFICADOR "Esperado nome do parâmetro" in
  consumir DOIS_PONTOS "Esperado ':' após nome do parâmetro" >>
  let* param_tipo := tipo_dado in
  let parametros := parametros ++ [(Token.lexema param_nome, param_tipo)] in
  let* c := combinar [VIRGULA] in
  if negb c then ret parametros
  else
    match n with
    | O => levanta SemCombustivel
    | S k => parametros_laco k parametros
    end.

Definition declaracao_funcao : M Parser Declaracao :=
  let* token_nome := consumir IDENTIFICADOR "Esperado nome da função" in
  let nome := Token.lexema token_nome in
  consumir ABRE_PAREN "Esperado '(' após nome da função" >>
  let* fecha := verificar FECHA_PAREN in
  let* parametros :=
    (if negb fecha then parametros_laco orcamento [] else ret []) in
  consumir FECHA_PAREN "Esperado ')' após parâmetros" >>
  let* c := combinar [DOIS_PONTOS] in
  let* tipo_retorno :=
    (if c then let* t := tipo_dado in ret (Some t) else ret None) in
  consumir ABRE_CHAVE "Esperado '{' antes do corpo da função" >>
  let* corpo := bloco_laco orcamento [] in
  consumir FECHA_CHAVE "Esperado '}' após bloco" >>
  ret (DeclaracaoFuncao nome token_nome parametros tipo_retorno corpo).

Definition declaracao_variavel (constante : bool) : M Parser Declaracao :=
  let* token_nome := consumir IDENTIFICADOR "Esperado nome da variável" in
  let nome := Token.lexema token_nome in
  let* c := combinar [DOIS_PONTOS] in
  let* tipo_dado :=
    (if c then let* t := tipo_dado in ret (Some t) else ret None) in
  let* c := combinar [ATRIBUICAO] in
  let* inicializador :=
    (if c then let* e := expressao orcamento in ret (Some e) else ret None) in
  combinar [PONTO_VIRGULA] >>
  ret (DeclaracaoVariavel nome token_nome tipo_dado inicializador constante).

Fixpoint statement_se_ (n : nat) : M Parser Declaracao :=
  consumir ABRE_PAREN "Esperado '(' após 'se'" >>
  let* condicao := expressao orcamento in
  consumir FECHA_PAREN "Esperado ')' após condição" >>
  let* bloco_verdadeiro := stmt_rec in
  let* c := combinar [SENAO] in
  let* bloco_falso :=
    (if c then let* b := stmt_rec in ret (Some b)
     else
       let* c := combinar [SENAOSE] in
       if c then
         match n with
         | O => levanta SemCombustivel
         | S k => let* b := statement_se_ k in ret (Some b)
         end
       else ret None) in
  ret (DeclaracaoSe condicao bloco_verdadeiro bloco_falso).

Definition statement_se : M Parser Declaracao := statement_se_ orcamento.

Definition statement_enquanto : M Parser Declaracao :=
  consumir ABRE_PAREN "Esperado '(' após 'enquanto'" >>
  let* condicao := expressao orcamento in
  consumir FECHA_PAREN "Esperado ')' após condição" >>
  let* corpo := stmt_rec in
  ret (DeclaracaoEnquanto condicao corpo).

Definition statement_para : M Parser Declaracao :=
  let* token_var := consumir IDENTIFICADOR "Esperado variável após 'para'" in
  let variavel := Token.lexema token_var in
  consumir DE "Esperado 'de' após variável" >>
  let* inicio := expressao orcamento in
  consumir ATE "Esperado 'ate' após valor inicial" >>
  let* fim := expressao orcamento in
  let* c := combinar [PASSO] in
  let* passo :=
    (if c then let* e := expressao orcamento in ret (Some e) else ret None) in
  let* corpo := stmt_rec in
  ret (DeclaracaoPara variavel token_var inicio fim passo corpo).

(** The loop of [statement_escreva]. *)
Fixpoint statement_escreva_laco (n : nat) (expressoes : list Expressao)
  : M Parser (list Expressao) :=
  let* c := combinar [VIRGULA] in
  if c then
    match n with
    | O => levanta SemCombustivel
    | S k =>
      let* e := expressao orcamento in
      statement_escreva_laco k (expressoes ++ [e])
    end
  else ret expressoes.

Definition statement_escreva : M Parser Declaracao :=
  consumir ABRE_PAREN "Esperado '(' após 'escreva'" >>
  let* fecha := verificar FECHA_PAREN in
  let* expressoes :=
    (if negb fecha then
       let* e := expressao orcamento in
       statement_escreva_laco orcamento [e]
     else ret []) in
  consumir FECHA_PAREN "Esperado ')' após argumentos" >>
  combinar [PONTO_VIRGULA] >>
  ret (DeclaracaoEscreva expressoes).

Definition statement_leia : M Parser Declaracao :=
  consumir ABRE_PAREN "Esperado '(' após 'leia'" >>
  let* v := verificar TEXTO in
  let* mensagem :=
    (if v then
       let* m := expressao orcamento in
       consumir VIRGULA "Esperado ',' após mensagem" >>
       ret (Some m)
     else ret None) in
  let* token_var := consumir IDENTIFICADOR "Esperado variável para leitura" in
  consumir FECHA_PAREN "Esperado ')' após variável" >>
  combinar [PONTO_VIRGULA] >>
  ret (DeclaracaoLeia (Token.lexema token_var) token_var mensagem).

Definition statement_retorna : M Parser Declaracao :=
  let* token := token_anterior in
  let* pv := verificar PONTO_VIRGULA in
  let* tem_valor :=
    (if negb pv then let* fc := verificar FECHA_CHAVE in ret (negb fc)
     else ret false) in
  let* valor :=
    (if tem_valor then let* e := expressao orcamento in ret (Some e)
     else ret None) in
  combinar [PONTO_VIRGULA] >>
  ret (DeclaracaoRetorna token valor).

Definition statement_expressao : M Parser Declaracao :=
  let* expr := expressao orcamento in
  combinar [PONTO_VIRGULA] >>
  ret (DeclaracaoExpressao expr).

Definition statement_ : M Parser Declaracao :=
  let* c := combinar [SE] in
  if c then statement_se else
  let* c := combinar [ENQUANTO] in
  if c then statement_enquanto else
  let* c := combinar [PARA] in
  if c then statement_para else
  let* c := combinar [ESCREVA] in
  if c then statement_escreva else
  let* c := combinar [LEIA] in
  if c then statement_leia else
  let* c := combinar [RETORNA] in
  if c then statement_retorna else
  let* c := combinar [ABRE_CHAVE] in
  if c then bloco else
  statement_expressao.

Definition declaracao_ : M Parser (option Declaracao) :=
  tentar
    (let* c := combinar [FUNCAO] in
     if c then let* d := declaracao_funcao in ret (Some d) else
     let* c := combinar [VAR] in
     if c then let* d := declaracao_variavel false in ret (Some d) else
     let* c := combinar [CONST] in
     if c then let* d := declaracao_variavel true in ret (Some d) else
     let* d := statement_ in ret (Some d))
    (fun _ _ => sincronizar >> ret None).

End Declaracoes.

Fixpoint declaracao (n : nat) : M Parser (option Declaracao) :=
  match n with
  | O => levanta SemCombustivel
  | S k => declaracao_ (fun p => declaracao k p) (fun p => statement k p) n
  end
with statement (n : nat) : M Parser Declaracao :=
  match n with
  | O => levanta SemCombustivel
  | S k => statement_ (fun p => declaracao k p) (fun p => statement k p) n
  end.

(** The loop of [analisar]. *)
Fixpoint analisar_laco (orcamento n : nat) (declaracoes : list Declaracao)
  : M Parser (list Declaracao) :=
  let* fim := fim_tokens in
  if negb fim then
    match n with
    | O => levanta SemCombustivel
    | S k =>
      let* declaracoes :=
        tentar
          (let* decl := declaracao orcamento in
           match decl with
           | Some d => ret (declaracoes ++ [d])
           | None => ret declaracoes
           end)
          (fun _ _ => sincronizar >> ret declaracoes) in
      analisar_laco orcamento k declaracoes
    end
  else ret declaracoes.

(** [analisar()]; the budget is the number of tokens, which bounds both
    the nesting of the constructs and the rounds of every loop, each of
    them passing at least one token. *)
Definition analisar : M Parser Programa :=
  let* n := ler (fun p => length (tokens p)) in
  let* declaracoes := analisar_laco n n [] in
  ret (Programa_ declaracoes).

End Parser.

(** ** semantico.py: types and symbols *)

Module Tipo.

Inductive Tipo : Set :=
  | INTEIRO | REAL | TEXTO | LOGICO | VAZIO | FUNCAO | DESCONHECIDO | ERRO.

Definition valor (t : Tipo) : Z :=
  match t with
  | INTEIRO => 1 | REAL => 2 | TEXTO => 3 | LOGICO => 4
  | VAZIO => 5 | FUNCAO => 6 | DESCONHECIDO => 7 | ERRO => 8
  end.

Definition eqb (a b : Tipo) : bool := valor a =? valor b.

(** [__str__]. *)
Definition str (t : Tipo) : string :=
  match t with
  | INTEIRO => "inteiro" | REAL => "real" | TEXTO => "texto"
  | LOGICO => "logico" | VAZIO => "vazio" | FUNCAO => "funcao"
  | DESCONHECIDO => "desconhecido" | ERRO => "erro"
  end.

(** [t in tipos]. *)
Definition em (t : Tipo) (tipos : list Tipo) : bool := existsb (eqb t) tipos.

End Tipo.
Abbreviation Tipo := Tipo.Tipo.

Definition MAPA_TIPOS : gmap string Tipo :=
  list_to_map
    [ ("inteiro", Tipo.INTEIRO); ("real", Tipo.REAL); ("texto", Tipo.TEXTO);
      ("logico", Tipo.LOGICO); ("vazio", Tipo.VAZIO) ].

(** [MAPA_TIPOS.get(chave, padrao)]. *)
Definition MAPA_TIPOS_get (chave : string) (padrao : Tipo) : Tipo :=
  match MAPA_TIPOS !! chave with Some t => t | None => padrao end.

Module Simbolo.
Record Simbolo : Set := mk {
  nome : string;
  tipo : Tipo;
  categoria : string;
  escopo : Z;
  linha : Z;
  coluna : Z;
  constante : bool;
  parametros : list (string * Tipo);
  tipo_retorno : option Tipo;
  inicializado : bool
}.

Definition com_escopo (v : Z) (s : Simbolo) : Simbolo :=
  mk (nome s) (tipo s) (categoria s) v (linha s) (coluna s) (constante s)
     (parametros s) (tipo_retorno s) (inicializado s).

Definition com_inicializado (v : bool) (s : Simbolo) : Simbolo :=
  mk (nome s) (tipo s) (categoria s) (escopo s) (linha s) (coluna s)
     (constante s) (parametros s) (tipo_retorno s) v.
End Simbolo.
Abbreviation Simbolo := Simbolo.Simbolo.

(** A [Simbolo] is a mutable object that the scope which declares it,
    [todos_simbolos] and [funcao_atual] all refer to.  The objects live in
    [objetos], in the order they were constructed, and a reference to one
    is its position there. *)
Abbreviation Ref := nat (only parsing).

Module TabelaSimbolos.

Record TabelaSimbolos : Type := mk {
  objetos : list Simbolo;
  escopos : list (gmap string Ref);
  escopo_atual : Z;
  todos_simbolos : list Ref
}.

(** [__init__]. *)
Definition nova : TabelaSimbolos := mk [] [∅] 0 [].

Definition com_objetos (v : list Simbolo) (t : TabelaSimbolos) : TabelaSimbolos :=
  mk v (escopos t) (escopo_atual t) (todos_simbolos t).
Definition com_escopos (v : list (gmap string Ref)) (t : TabelaSimbolos) : TabelaSimbolos :=
  mk (objetos t) v (escopo_atual t) (todos_simbolos t).
Definition com_escopo_atual (v : Z) (t : TabelaSimbolos) : TabelaSimbolos :=
  mk (objetos t) (escopos t) v (todos_simbolos t).
Definition com_todos_simbolos (v : list Ref) (t : TabelaSimbolos) : TabelaSimbolos :=
  mk (objetos t) (escopos t) (escopo_atual t) v.

(** The object a reference points to. *)
Definition objeto (r : Ref) : M TabelaSimbolos Simbolo :=
  fun t => ou_levanta IndexError (objetos t !! r) t.

(** [Simbolo(...)]: a new object, and the reference to it. *)
Definition construir (simbolo : Simbolo) : M TabelaSimbolos Ref :=
  let* r := ler (fun t => length (objetos t)) in
  mudar (fun t => com_objetos (objetos t ++ [simbolo]) t) >>
  ret r.

(** Assignment to an attribute of the object [r]. *)
Definition atribuir (r : Ref) (f : Simbolo -> Simbolo) : M TabelaSimbolos unit :=
  mudar (fun t => com_objetos (alter f r (objetos t)) t).

Definition entrar_escopo : M TabelaSimbolos unit :=
  mudar (fun t => com_escopos (escopos t ++ [∅]) t) >>
  mudar (fun t => com_escopo_atual (escopo_atual t + 1) t).

(** [self.escopos.pop()], whose result is dropped. *)
Definition escopos_pop : M TabelaSimbolos unit :=
  fun t => match escopos t with
           | [] => (Levanta IndexError, t)
           | _ => (Retorno tt, com_escopos (removelast (escopos t)) t)
           end.

Definition sair_escopo : M TabelaSimbolos unit :=
  let* ea := ler escopo_atual in
  if 0 <? ea then
    escopos_pop >>
    mudar (fun t => com_escopo_atual (escopo_atual t - 1) t)
  else ret tt.

(** [self.escopos[self.escopo_atual]]. *)
Definition escopo_corrente : M TabelaSimbolos (gmap string Ref) :=
  fun t => ou_levanta IndexError (Py.index (escopos t) (escopo_atual t)) t.

(** [self.escopos[self.escopo_atual][nome] = r]. *)
Definition escopo_corrente_inserir (nome : string) (r : Ref) : M TabelaSimbolos unit :=
  fun t =>
    let i := escopo_atual t in
    let n := Py.len (escopos t) in
    if (0 <=? i) && (i <? n) then
      (Retorno tt, com_escopos (alter (insert nome r) (Z.to_nat i) (escopos t)) t)
    else if (- n <=? i) && (i <? 0) then
      (Retorno tt, com_escopos (alter (insert nome r) (Z.to_nat (n + i)) (escopos t)) t)
    else (Levanta IndexError, t).

Definition declarar (r : Ref) : M TabelaSimbolos bool :=
  let* simbolo := objeto r in
  let* escopo := escopo_corrente in
  match escopo !! Simbolo.nome simbolo with
  | Some _ => ret false
  | None =>
    let* ea := ler escopo_atual in
    atribuir r (Simbolo.com_escopo ea) >>
    escopo_corrente_inserir (Simbolo.nome simbolo) r >>
    mudar (fun t => com_todos_simbolos (todos_simbolos t ++ [r]) t) >>
    ret true
  end.

(** The loop of [buscar], over [reversed(self.escopos)]. *)
Fixpoint buscar_em (nome : string) (invertidos : list (gmap string Ref)) : option Ref :=
  match invertidos with
  | [] => None
  | escopo :: resto =>
    match escopo !! nome with
    | Some r => Some r
    | None => buscar_em nome resto
    end
  end.

Definition buscar (nome : string) (t : TabelaSimbolos) : option Ref :=
  buscar_em nome (rev (escopos t)).

Definition buscar_local (nome : string) : M TabelaSimbolos (option Ref) :=
  let* escopo := escopo_corrente in
  ret (escopo !! nome).

End TabelaSimbolos.
Abbreviation TabelaSimbolos := TabelaSimbolos.TabelaSimbolos.

Module ErroSemantico.
Record ErroSemantico : Set := mk {
  mensagem : string;
  linha : Z;
  coluna : Z
}.
End ErroSemantico.
Abbreviation ErroSemantico := ErroSemantico.ErroSemantico.

Module AvisoSemantico.
Record AvisoSemantico : Set := mk {
  mensagem : string;
  linha : Z;
  coluna : Z
}.
End AvisoSemantico.
Abbreviation AvisoSemantico := AvisoSemantico.AvisoSemantico.

(** ** semantico.py: the analyser *)

Module AnalisadorSemantico.

Record AnalisadorSemantico : Type := mk {
  tabela : TabelaSimbolos;
  erros : list ErroSemantico;
  avisos : list AvisoSemantico;
  funcao_atual : option Ref;
  tem_retorno : bool
}.

Definition com_tabela (v : TabelaSimbolos) (a : AnalisadorSemantico) :=
  mk v (erros a) (avisos a) (funcao_atual a) (tem_retorno a).
Definition com_erros (v : list ErroSemantico) (a : AnalisadorSemantico) :=
  mk (tabela a) v (avisos a) (funcao_atual a) (tem_retorno a).
Definition com_avisos (v : list AvisoSemantico) (a : AnalisadorSemantico) :=
  mk (tabela a) (erros a) v (funcao_atual a) (tem_retorno a).
Definition com_funcao_atual (v : option Ref) (a : AnalisadorSemantico) :=
  mk (tabela a) (erros a) (avisos a) v (tem_retorno a).
Definition com_tem_retorno (v : bool) (a : AnalisadorSemantico) :=
  mk (tabela a) (erros a) (avisos a) (funcao_atual a) v.

Abbreviation Analise := (M AnalisadorSemantico).

(** A method of [self.tabela]. *)
Definition na_tabela {A} (m : M TabelaSimbolos A) : Analise A :=
  fun a => let (r, t) := m (tabela a) in (r, com_tabela t a).

Definition erro (mensagem : string) (linha coluna : Z) : Analise unit :=
  mudar (fun a => com_erros (erros a ++ [ErroSemantico.mk mensagem linha coluna]) a).

Definition aviso (mensagem : string) (linha coluna : Z) : Analise unit :=
  mudar (fun a => com_avisos (avisos a ++ [AvisoSemantico.mk mensagem linha coluna]) a).

(** [self.tabela.declarar(Simbolo(...))]. *)
Definition declarar_novo (simbolo : Simbolo) : Analise Ref :=
  let* r := na_tabela (TabelaSimbolos.construir simbolo) in
  na_tabela (TabelaSimbolos.declarar r) >>
  ret r.

Definition builtin (nome : string) (parametros : list (string * Tipo))
    (tipo_retorno : Tipo) : Simbolo :=
  Simbolo.mk nome Tipo.FUNCAO "funcao" 0 0 0 false parametros (Some tipo_retorno) false.

Definition _registrar_builtins : Analise unit :=
  declarar_novo (builtin "paraInteiro" [("valor", Tipo.DESCONHECIDO)] Tipo.INTEIRO) >>
  declarar_novo (builtin "paraReal" [("valor", Tipo.DESCONHECIDO)] Tipo.REAL) >>
  declarar_novo (builtin "paraTexto" [("valor", Tipo.DESCONHECIDO)] Tipo.TEXTO) >>
  declarar_novo (builtin "raiz" [("x", Tipo.REAL)] Tipo.REAL) >>
  declarar_novo (builtin "absoluto" [("x", Tipo.REAL)] Tipo.REAL) >>
  declarar_novo (builtin "arredonda" [("x", Tipo.REAL)] Tipo.REAL) >>
  declarar_novo (builtin "tamanho" [("texto", Tipo.TEXTO)] Tipo.INTEIRO) >>
  ret tt.

(** [__init__]. *)
Definition novo : Resultado unit * AnalisadorSemantico :=
  _registrar_builtins (mk TabelaSimbolos.nova [] [] None false).

(** *** Type checks *)

Definition tipos_compativeis (tipo1 tipo2 : Tipo) : bool :=
  if Tipo.eqb tipo1 tipo2 then true
  else if Tipo.eqb tipo1 Tipo.INTEIRO && Tipo.eqb tipo2 Tipo.REAL then true
  else if Tipo.eqb tipo1 Tipo.REAL && Tipo.eqb tipo2 Tipo.INTEIRO then true
  else if Tipo.eqb tipo1 Tipo.DESCONHECIDO || Tipo.eqb tipo2 Tipo.DESCONHECIDO then true
  else if Tipo.eqb tipo1 Tipo.ERRO || Tipo.eqb tipo2 Tipo.ERRO then true
  else false.

(** [operador in operadores], for strings. *)
Definition op_em (operador : string) (operadores : list string) : bool :=
  existsb (String.eqb operador) operadores.

Definition tipo_resultante (tipo1 tipo2 : Tipo) (operador : string) : Tipo :=
  let aritmetico :=
    if op_em operador ["+"; "-"; "*"; "/"; "%"; "**"] then
      if Tipo.eqb tipo1 Tipo.TEXTO && Tipo.eqb tipo2 Tipo.TEXTO
         && String.eqb operador "+"
      then Some Tipo.TEXTO
      else if Tipo.em tipo1 [Tipo.INTEIRO; Tipo.REAL]
              && Tipo.em tipo2 [Tipo.INTEIRO; Tipo.REAL]
      then
        if Tipo.eqb tipo1 Tipo.REAL || Tipo.eqb tipo2 Tipo.REAL
           || String.eqb operador "/"
        then Some Tipo.REAL
        else Some Tipo.INTEIRO
      else None
    else None in
  match aritmetico with
  | Some t => t
  | None =>
    if op_em operador ["=="; "!="; "<"; "<="; ">"; ">="] then Tipo.LOGICO
    else if op_em operador ["e"; "ou"] then Tipo.LOGICO
    else Tipo.ERRO
  end.

(** *** Visitors of expressions *)

Definition buscar (nome : string) : Analise (option Ref) :=
  ler (fun a => TabelaSimbolos.buscar nome (tabela a)).

Definition objeto (r : Ref) : Analise Simbolo :=
  na_tabela (TabelaSimbolos.objeto r).

Definition visitar_literal (valor : Valor) (tipo : string) (token : Token)
  : Analise Tipo :=
  ret (MAPA_TIPOS_get tipo Tipo.DESCONHECIDO).

Definition visitar_variavel (nome : string) (token : Token) : Analise Tipo :=
  let* achado := buscar nome in
  match achado with
  | None =>
    erro ("Variável '" +:+ nome +:+ "' não foi declarada")
      (Token.linha token) (Token.coluna token) >>
    ret Tipo.ERRO
  | Some r =>
    let* simbolo := objeto r in
    (if negb (Simbolo.inicializado simbolo)
        && String.eqb (Simbolo.categoria simbolo) "variavel"
     then aviso ("Variável '" +:+ nome +:+ "' pode não estar inicializada")
            (Token.linha token) (Token.coluna token)
     else ret tt) >>
    ret (Simbolo.tipo simbolo)
  end.

Section VisitantesDeExpressoes.

(** [no.aceitar(self)] for the children of the node being visited. *)
Variable aceitar : Expressao -> Analise Tipo.

Definition visitar_binaria (esquerda : Expressao) (operador : Token)
    (direita : Expressao) : Analise Tipo :=
  let* tipo_esq := aceitar esquerda in
  let* tipo_dir := aceitar direita in
  let operador_ := Token.lexema operador in
  let tipo_resultado := tipo_resultante tipo_esq tipo_dir operador_ in
  (if Tipo.eqb tipo_resultado Tipo.ERRO then
     erro ("Operador '" +:+ operador_ +:+ "' não pode ser aplicado a '"
           +:+ Tipo.str tipo_esq +:+ "' e '" +:+ Tipo.str tipo_dir +:+ "'")
       (Token.linha operador) (Token.coluna operador)
   else ret tt) >>
  ret tipo_resultado.

Definition visitar_unaria (operador : Token) (operando : Expressao)
  : Analise Tipo :=
  let* tipo_operando := aceitar operando in
  let operador_ := Token.lexema operador in
  if String.eqb operador_ "-" then
    if negb (Tipo.em tipo_operando [Tipo.INTEIRO; Tipo.REAL]) then
      erro ("Operador '-' não pode ser aplicado a '"
            +:+ Tipo.str tipo_operando +:+ "'")
        (Token.linha operador) (Token.coluna operador) >>
      ret Tipo.ERRO
    else ret tipo_operando
  else if String.eqb operador_ "nao" then
    if negb (Tipo.eqb tipo_operando Tipo.LOGICO) then
      erro ("Operador 'nao' só pode ser aplicado a 'logico', não a '"
            +:+ Tipo.str tipo_operando +:+ "'")
        (Token.linha operador) (Token.coluna operador) >>
      ret Tipo.ERRO
    else ret Tipo.LOGICO
  else ret tipo_operando.

Definition visitar_agrupamento (expressao : Expressao) : Analise Tipo :=
  aceitar expressao.

Definition visitar_atribuicao (nome : string) (token_nome : Token)
    (valor : Expressao) : Analise Tipo :=
  let* achado := buscar nome in
  match achado with
  | None =>
    erro ("Variável '" +:+ nome +:+ "' não foi declarada")
      (Token.linha token_nome) (Token.coluna token_nome) >>
    ret Tipo.ERRO
  | Some r =>
    let* simbolo := objeto r in
    (if Simbolo.constante simbolo then
       erro ("Não é possível atribuir a constante '" +:+ nome +:+ "'")
         (Token.linha token_nome) (Token.coluna token_nome)
     else ret tt) >>
    let* tipo_valor := aceitar valor in
    let* simbolo := objeto r in
    (if negb (tipos_compativeis (Simbolo.tipo simbolo) tipo_valor) then
       erro ("Tipo incompatível: não é possível atribuir '"
             +:+ Tipo.str tipo_valor +:+ "' a '"
             +:+ Tipo.str (Simbolo.tipo simbolo) +:+ "'")
         (Token.linha token_nome) (Token.coluna token_nome)
     else ret tt) >>
    na_tabela (TabelaSimbolos.atribuir r (Simbolo.com_inicializado true)) >>
    let* simbolo := objeto r in
    ret (Simbolo.tipo simbolo)
  end.

Definition visitar_logica (esquerda : Expressao) (operador : Token)
    (direita : Expressao) : Analise Tipo :=
  let* tipo_esq := aceitar esquerda in
  let* tipo_dir := aceitar direita in
  (if negb (Tipo.eqb tipo_esq Tipo.LOGICO) then
     erro ("Operador '" +:+ Token.lexema operador
           +:+ "' requer operando esquerdo 'logico', não '"
           +:+ Tipo.str tipo_esq +:+ "'")
       (Token.linha operador) (Token.coluna operador)
   else ret tt) >>
  (if negb (Tipo.eqb tipo_dir Tipo.LOGICO) then
     erro ("Operador '" +:+ Token.lexema operador
           +:+ "' requer operando direito 'logico', não '"
           +:+ Tipo.str tipo_dir +:+ "'")
       (Token.linha operador) (Token.coluna operador)
   else ret tt) >>
  ret Tipo.LOGICO.

(** The loop of [visitar_chamada_funcao], over
    [enumerate(zip(no.argumentos, simbolo.parametros))]. *)
Fixpoint verificar_argumentos (nome : string) (token_nome : Token)
    (argumentos : list Expressao) (parametros : list (string * Tipo))
    (i : Z) : Analise unit :=
  match argumentos, parametros with
  | arg :: argumentos', param :: parametros' =>
    let* tipo_arg := aceitar arg in
    let tipo_param := snd param in
    (if negb (tipos_compativeis tipo_param tipo_arg) then
       erro ("Argumento " +:+ Py.str_int (i + 1) +:+ " de '" +:+ nome
             +:+ "': esperado '" +:+ Tipo.str tipo_param
             +:+ "', recebido '" +:+ Tipo.str tipo_arg +:+ "'")
         (Token.linha token_nome) (Token.coluna token_nome)
     else ret tt) >>
    verificar_argumentos nome token_nome argumentos' parametros' (i + 1)
  | _, _ => ret tt
  end.

Definition visitar_chamada_funcao (nome : string) (token_nome : Token)
    (argumentos : list Expressao) : Analise Tipo :=
  let* achado := buscar nome in
  match achado with
  | None =>
    erro ("Função '" +:+ nome +:+ "' não foi declarada")
      (Token.linha token_nome) (Token.coluna token_nome) >>
    ret Tipo.ERRO
  | Some r =>
    let* simbolo := objeto r in
    if negb (Tipo.eqb (Simbolo.tipo simbolo) Tipo.FUNCAO) then
      erro ("'" +:+ nome +:+ "' não é uma função")
        (Token.linha token_nome) (Token.coluna token_nome) >>
      ret Tipo.ERRO
    else
      let num_params := Py.len (Simbolo.parametros simbolo) in
      let num_args := Py.len argumentos in
      (if negb (num_args =? num_params) then
         erro ("Função '" +:+ nome +:+ "' espera " +:+ Py.str_int num_params
               +:+ " argumento(s), mas recebeu " +:+ Py.str_int num_args)
           (Token.linha token_nome) (Token.coluna token_nome)
       else ret tt) >>
      verificar_argumentos nome token_nome argumentos
        (Simbolo.parametros simbolo) 0 >>
      let* simbolo := objeto r in
      ret (match Simbolo.tipo_retorno simbolo with
           | Some t => t
           | None => Tipo.VAZIO
           end)
  end.

Definition visitar_acesso_array (objeto indice : Expressao)
    (token_colchete : Token) : Analise Tipo :=
  let* tipo_indice := aceitar indice in
  (if negb (Tipo.eqb tipo_indice Tipo.INTEIRO) then
     erro ("Índice de array deve ser 'inteiro', não '"
           +:+ Tipo.str tipo_indice +:+ "'")
       (Token.linha token_colchete) (Token.coluna token_colchete)
   else ret tt) >>
  ret Tipo.DESCONHECIDO.

End VisitantesDeExpressoes.

(** [no.aceitar(self)] for an expression node. *)
Fixpoint aceitar_expressao (no : Expressao) : Analise Tipo :=
  match no with
  | ExpressaoLiteral valor tipo token => visitar_literal valor tipo token
  | ExpressaoVariavel nome token => visitar_variavel nome token
  | ExpressaoBinaria esquerda operador direita =>
    visitar_binaria aceitar_expressao esquerda operador direita
  | ExpressaoUnaria operador operando =>
    visitar_unaria aceitar_expressao operador operando
  | ExpressaoAgrupamento expressao =>
    visitar_agrupamento aceitar_expressao expressao
  | ExpressaoAtribuicao nome token_nome valor =>
    visitar_atribuicao aceitar_expressao nome token_nome valor
  | ExpressaoLogica esquerda operador direita =>
    visitar_logica aceitar_expressao esquerda operador direita
  | ExpressaoChamadaFuncao nome token_nome argumentos =>
    visitar_chamada_funcao aceitar_expressao nome token_nome argumentos
  | ExpressaoAcessoArray objeto indice token_colchete =>
    visitar_acesso_array aceitar_expressao objeto indice token_colchete
  end.

(** *** Visitors of declarations and statements *)

(** [MAPA_TIPOS.get(nome, padrao) if nome else padrao], for an optional
    type name (the empty string, also false, is not a key of the map). *)
Definition tipo_declarado (nome : option string) (padrao : Tipo) : Tipo :=
  match nome with
  | Some n => MAPA_TIPOS_get n padrao
  | None => padrao
  end.

(** [hasattr(no, 'token')] and [no.token], for an expression node. *)
Definition token_de (no : Expressao) : option Token :=
  match no with
  | ExpressaoLiteral _ _ token => Some token
  | ExpressaoVariavel _ token => Some token
  | _ => None
  end.

(** [tipo in [Tipo.INTEIRO, Tipo.REAL]]. *)
Definition numerico (tipo : Tipo) : bool := Tipo.em tipo [Tipo.INTEIRO; Tipo.REAL].

(** [str(t)] for an optional type. *)
Definition str_opcional (t : option Tipo) : string :=
  match t with Some t => Tipo.str t | None => "None" end.

(** [self.tipos_compativeis(t, tipo2)] when the first argument is the
    [tipo_retorno] attribute, [None] for a symbol that is no function:
    [None] equals no member of [Tipo]. *)
Definition tipos_compativeis_retorno (t : option Tipo) (tipo2 : Tipo) : bool :=
  match t with
  | Some tipo1 => tipos_compativeis tipo1 tipo2
  | None => Tipo.eqb tipo2 Tipo.DESCONHECIDO || Tipo.eqb tipo2 Tipo.ERRO
  end.

Definition e_vazio (t : option Tipo) : bool :=
  match t with Some t => Tipo.eqb t Tipo.VAZIO | None => false end.

Section VisitantesDeDeclaracoes.

(** [no.aceitar(self)] for the children of the node being visited. *)
Variable aceitar : Declaracao -> Analise (option Tipo).

(** [for declaracao in declaracoes: declaracao.aceitar(self)]. *)
Fixpoint aceitar_todas (declaracoes : list Declaracao) : Analise unit :=
  match declaracoes with
  | [] => ret tt
  | declaracao :: resto => aceitar declaracao >> aceitar_todas resto
  end.

Definition visitar_bloco (declaracoes : list Declaracao) : Analise (option Tipo) :=
  na_tabela TabelaSimbolos.entrar_escopo >>
  aceitar_todas declaracoes >>
  na_tabela TabelaSimbolos.sair_escopo >>
  ret None.

(** The loop of [visitar_funcao] that declares the parameters. *)
Fixpoint declarar_parametros (parametros : list (string * Tipo))
    (token_nome : Token) : Analise unit :=
  match parametros with
  | [] => ret tt
  | (nome_param, tipo_param) :: resto =>
    let* ea := ler (fun a => TabelaSimbolos.escopo_atual (tabela a)) in
    declarar_novo
      (Simbolo.mk nome_param tipo_param "parametro" ea
         (Token.linha token_nome) (Token.coluna token_nome)
         false [] None true) >>
    declarar_parametros resto token_nome
  end.

Definition visitar_funcao (nome : string) (token_nome : Token)
    (parametros : list (string * string)) (tipo_retorno : option string)
    (corpo : list Declaracao) : Analise (option Tipo) :=
  let* existente := na_tabela (TabelaSimbolos.buscar_local nome) in
  match existente with
  | Some r =>
    let* existente := objeto r in
    erro ("Função '" +:+ nome +:+ "' já foi declarada na linha "
          +:+ Py.str_int (Simbolo.linha existente))
      (Token.linha token_nome) (Token.coluna token_nome) >>
    ret None
  | None =>
    let tipo_retorno := tipo_declarado tipo_retorno Tipo.VAZIO in
    let parametros :=
      map (fun p => (fst p, MAPA_TIPOS_get (snd p) Tipo.DESCONHECIDO)) parametros in
    let* ea := ler (fun a => TabelaSimbolos.escopo_atual (tabela a)) in
    let* simbolo :=
      declarar_novo
        (Simbolo.mk nome Tipo.FUNCAO "funcao" ea
           (Token.linha token_nome) (Token.coluna token_nome)
           false parametros (Some tipo_retorno) false) in
    na_tabela TabelaSimbolos.entrar_escopo >>
    let* funcao_anterior := ler funcao_atual in
    mudar (com_funcao_atual (Some simbolo)) >>
    mudar (com_tem_retorno false) >>
    declarar_parametros parametros token_nome >>
    visitar_bloco corpo >>
    let* tr := ler tem_retorno in
    (if negb (Tipo.eqb tipo_retorno Tipo.VAZIO) && negb tr then
       aviso ("Função '" +:+ nome +:+ "' deveria retornar '"
              +:+ Tipo.str tipo_retorno
              +:+ "' mas nem todos os caminhos têm retorno")
         (Token.linha token_nome) (Token.coluna token_nome)
     else ret tt) >>
    na_tabela TabelaSimbolos.sair_escopo >>
    mudar (com_funcao_atual funcao_anterior) >>
    ret None
  end.

Definition visitar_declaracao_variavel (nome : string) (token_nome : Token)
    (tipo_dado : option string) (inicializador : option Expressao)
    (constante : bool) : Analise (option Tipo) :=
  let* existente := na_tabela (TabelaSimbolos.buscar_local nome) in
  match existente with
  | Some r =>
    let* existente := objeto r in
    erro ("Variável '" +:+ nome +:+ "' já foi declarada neste escopo (linha "
          +:+ Py.str_int (Simbolo.linha existente) +:+ ")")
      (Token.linha token_nome) (Token.coluna token_nome) >>
    ret None
  | None =>
    let tipo := tipo_declarado tipo_dado Tipo.DESCONHECIDO in
    let* tipo :=
      match inicializador with
      | Some ini =>
        let* tipo_inicializador := aceitar_expressao ini in
        if Tipo.eqb tipo Tipo.DESCONHECIDO then ret tipo_inicializador
        else if negb (tipos_compativeis tipo tipo_inicializador) then
          erro ("Tipo incompatível: não é possível atribuir '"
                +:+ Tipo.str tipo_inicializador +:+ "' a '"
                +:+ Tipo.str tipo +:+ "'")
            (Token.linha token_nome) (Token.coluna token_nome) >>
          ret tipo
        else ret tipo
      | None => ret tipo
      end in
    (if constante && negb (bool_decide (is_Some inicializador)) then
       erro ("Constante '" +:+ nome +:+ "' deve ser inicializada na declaração")
         (Token.linha token_nome) (Token.coluna token_nome)
     else ret tt) >>
    let* ea := ler (fun a => TabelaSimbolos.escopo_atual (tabela a)) in
    declarar_novo
      (Simbolo.mk nome tipo (if constante then "constante" else "variavel") ea
         (Token.linha token_nome) (Token.coluna token_nome)
         constante [] None (bool_decide (is_Some inicializador))) >>
    ret (Some tipo)
  end.

Definition visitar_se (condicao : Expressao) (bloco_verdadeiro : Declaracao)
    (bloco_falso : option Declaracao) : Analise (option Tipo) :=
  let* tipo_cond := aceitar_expressao condicao in
  (if negb (Tipo.eqb tipo_cond Tipo.LOGICO) && negb (Tipo.eqb tipo_cond Tipo.ERRO)
   then
     erro ("Condição do 'se' deve ser do tipo 'logico', mas é '"
           +:+ Tipo.str tipo_cond +:+ "'")
       (match token_de condicao with Some t => Token.linha t | None => 0 end)
       (match token_de condicao with Some t => Token.coluna t | None => 0 end)
   else ret tt) >>
  let* tem_retorno_antes := ler tem_retorno in
  aceitar bloco_verdadeiro >>
  let* tem_retorno_verdadeiro := ler tem_retorno in
  let* tem_retorno_falso :=
    match bloco_falso with
    | Some bloco =>
      mudar (com_tem_retorno tem_retorno_antes) >>
      aceitar bloco >>
      ler tem_retorno
    | None => ret false
    end in
  mudar (com_tem_retorno (tem_retorno_verdadeiro && tem_retorno_falso)) >>
  ret None.

Definition visitar_enquanto (condicao : Expressao) (corpo : Declaracao)
  : Analise (option Tipo) :=
  let* tipo_cond := aceitar_expressao condicao in
  (if negb (Tipo.eqb tipo_cond Tipo.LOGICO) && negb (Tipo.eqb tipo_cond Tipo.ERRO)
   then
     erro ("Condição do 'enquanto' deve ser do tipo 'logico', mas é '"
           +:+ Tipo.str tipo_cond +:+ "'") 0 0
   else ret tt) >>
  aceitar corpo >>
  ret None.

Definition visitar_para (variavel : string) (token_variavel : Token)
    (inicio fim : Expressao) (passo : option Expressao) (corpo : Declaracao)
  : Analise (option Tipo) :=
  na_tabela TabelaSimbolos.entrar_escopo >>
  let* ea := ler (fun a => TabelaSimbolos.escopo_atual (tabela a)) in
  declarar_novo
    (Simbolo.mk variavel Tipo.INTEIRO "variavel" ea
       (Token.linha token_variavel) (Token.coluna token_variavel)
       false [] None true) >>
  let* tipo_inicio := aceitar_expressao inicio in
  let* tipo_fim := aceitar_expressao fim in
  (if negb (numerico tipo_inicio) then
     erro ("Valor inicial do 'para' deve ser numérico, mas é '"
           +:+ Tipo.str tipo_inicio +:+ "'")
       (Token.linha token_variavel) (Token.coluna token_variavel)
   else ret tt) >>
  (if negb (numerico tipo_fim) then
     erro ("Valor final do 'para' deve ser numérico, mas é '"
           +:+ Tipo.str tipo_fim +:+ "'")
       (Token.linha token_variavel) (Token.coluna token_variavel)
   else ret tt) >>
  match passo with
  | Some p =>
    let* tipo_passo := aceitar_expressao p in
    if negb (numerico tipo_passo) then
      erro ("Passo do 'para' deve ser numérico, mas é '"
            +:+ Tipo.str tipo_passo +:+ "'")
        (Token.linha token_variavel) (Token.coluna token_variavel)
    else ret tt
  | None => ret tt
  end >>
  aceitar corpo >>
  na_tabela TabelaSimbolos.sair_escopo >>
  ret None.

Definition visitar_retorna (token : Token) (valor : option Expressao)
  : Analise (option Tipo) :=
  mudar (com_tem_retorno true) >>
  let* fa := ler funcao_atual in
  match fa with
  | None =>
    erro "'retorna' fora de uma função" (Token.linha token) (Token.coluna token) >>
    ret None
  | Some f =>
    let* funcao := objeto f in
    let tipo_esperado := Simbolo.tipo_retorno funcao in
    match valor with
    | Some v =>
      let* tipo_valor := aceitar_expressao v in
      let* funcao := objeto f in
      if e_vazio tipo_esperado then
        erro ("Função '" +:+ Simbolo.nome funcao +:+ "' não deveria retornar valor")
          (Token.linha token) (Token.coluna token) >>
        ret None
      else if negb (tipos_compativeis_retorno tipo_esperado tipo_valor) then
        erro ("Tipo de retorno incompatível: esperado '"
              +:+ str_opcional tipo_esperado +:+ "', recebido '"
              +:+ Tipo.str tipo_valor +:+ "'")
          (Token.linha token) (Token.coluna token) >>
        ret None
      else ret None
    | None =>
      if negb (e_vazio tipo_esperado) then
        erro ("Função '" +:+ Simbolo.nome funcao +:+ "' deveria retornar '"
              +:+ str_opcional tipo_esperado +:+ "'")
          (Token.linha token) (Token.coluna token) >>
        ret None
      else ret None
    end
  end.

(** The loop of [visitar_escreva]. *)
Fixpoint aceitar_expressoes (expressoes : list Expressao) : Analise unit :=
  match expressoes with
  | [] => ret tt
  | expr :: resto => aceitar_expressao expr >> aceitar_expressoes resto
  end.

Definition visitar_escreva (expressoes : list Expressao) : Analise (option Tipo) :=
  aceitar_expressoes expressoes >>
  ret None.

Definition visitar_leia (variavel : string) (token_variavel : Token)
    (mensagem : option Expressao) : Analise (option Tipo) :=
  let* achado := buscar variavel in
  match achado with
  | None =>
    erro ("Variável '" +:+ variavel +:+ "' não foi declarada")
      (Token.linha token_variavel) (Token.coluna token_variavel)
  | Some r =>
    let* simbolo := objeto r in
    if Simbolo.constante simbolo then
      erro ("Não é possível ler para constante '" +:+ variavel +:+ "'")
        (Token.linha token_variavel) (Token.coluna token_variavel)
    else na_tabela (TabelaSimbolos.atribuir r (Simbolo.com_inicializado true))
  end >>
  match mensagem with
  | Some m =>
    let* tipo_msg := aceitar_expressao m in
    if negb (Tipo.eqb tipo_msg Tipo.TEXTO) then
      erro ("Mensagem do 'leia' deve ser texto, mas é '"
            +:+ Tipo.str tipo_msg +:+ "'")
        (Token.linha token_variavel) (Token.coluna token_variavel)
    else ret tt
  | None => ret tt
  end >>
  ret None.

Definition visitar_declaracao_expressao (expressao : Expressao)
  : Analise (option Tipo) :=
  let* tipo := aceitar_expressao expressao in
  ret (Some tipo).

End VisitantesDeDeclaracoes.

(** [no.aceitar(self)] for a declaration or statement node. *)
Fixpoint aceitar_declaracao (no : Declaracao) : Analise (option Tipo) :=
  match no with
  | DeclaracaoExpressao expressao => visitar_declaracao_expressao expressao
  | DeclaracaoVariavel nome token_nome tipo_dado inicializador constante =>
    visitar_declaracao_variavel nome token_nome tipo_dado inicializador constante
  | DeclaracaoBloco declaracoes => visitar_bloco aceitar_declaracao declaracoes
  | DeclaracaoSe condicao bloco_verdadeiro bloco_falso =>
    visitar_se aceitar_declaracao condicao bloco_verdadeiro bloco_falso
  | DeclaracaoEnquanto condicao corpo =>
    visitar_enquanto aceitar_declaracao condicao corpo
  | DeclaracaoPara variavel token_variavel inicio fim passo corpo =>
    visitar_para aceitar_declaracao variavel token_variavel inicio fim passo corpo
  | DeclaracaoFuncao nome token_nome parametros tipo_retorno corpo =>
    visitar_funcao aceitar_declaracao nome token_nome parametros tipo_retorno corpo
  | DeclaracaoRetorna token valor => visitar_retorna token valor
  | DeclaracaoEscreva expressoes => visitar_escreva expressoes
  | DeclaracaoLeia variavel token_variavel mensagem =>
    visitar_leia variavel token_variavel mensagem
  end.

Definition visitar_programa (no : Programa) : Analise unit :=
  match no with
  | Programa_ declaracoes =>
    aceitar_todas aceitar_declaracao declaracoes >>
    let* principal := buscar "principal" in
    match principal with
    | None => aviso "Programa não possui função 'principal'" 1 1
    | Some _ => ret tt
    end
  end.

(** [analisar(programa)]: [True] iff no error was recorded. *)
Definition analisar (programa : Programa) : Analise bool :=
  visitar_programa programa >>
  let* es := ler erros in
  ret (match es with [] => true | _ => false end).

End AnalisadorSemantico.
Abbreviation AnalisadorSemantico := AnalisadorSemantico.AnalisadorSemantico.

(** ** lusitano.py: the Python emitter *)

Module GeradorPython.

Record GeradorPython : Set := mk {
  indent_level : Z;
  codigo : list string;
  em_expressao : bool
}.

(** [__init__]. *)
Definition novo : GeradorPython := mk 0 [] false.

Definition com_indent_level (v : Z) (g : GeradorPython) : GeradorPython :=
  mk v (codigo g) (em_expressao g).
Definition com_codigo (v : list string) (g : GeradorPython) : GeradorPython :=
  mk (indent_level g) v (em_expressao g).
Definition com_em_expressao (v : bool) (g : GeradorPython) : GeradorPython :=
  mk (indent_level g) (codigo g) v.

Abbreviation Geracao := (M GeradorPython).

Definition _indent (g : GeradorPython) : string :=
  Py.repetir "    " (Z.to_nat (indent_level g)).

Definition _adicionar (linha : string) : Geracao unit :=
  mudar (fun g => com_codigo (codigo g ++ [_indent g +:+ linha]) g).

Definition indentar : Geracao unit :=
  mudar (fun g => com_indent_level (indent_level g + 1) g).
Definition desindentar : Geracao unit :=
  mudar (fun g => com_indent_level (indent_level g - 1) g).

(** The text of a literal's value.  Python's floating point is not
    modelled: what [str] and [bool] answer for the float read from a
    lexeme are parameters of the emitter. *)
Section Literais.

Variable str_float : string -> string.
Variable bool_float : string -> bool.

Definition hex_digito (n : nat) : ascii :=
  if (n <? 10)%nat then ascii_of_nat (48 + n) else ascii_of_nat (87 + n).

(** One character inside [repr] of a string delimited by [aspas]. *)
Definition repr_char (aspas : ascii) (c : ascii) : string :=
  if Ascii.eqb c Py.barra_invertida then "\\"
  else if Ascii.eqb c aspas then String Py.barra_invertida (Py.str1 c)
  else if Ascii.eqb c Py.nova_linha then "\n"
  else if Ascii.eqb c Py.tab then "\t"
  else if Ascii.eqb c Py.retorno_carro then "\r"
  else if negb (Py.isprintable c) then
    String Py.barra_invertida
      (String "x" (String (hex_digito (nat_of_ascii c / 16))
                     (Py.str1 (hex_digito (nat_of_ascii c mod 16)))))
  else Py.str1 c.

(** [repr(s)] of a string. *)
Definition repr_str (s : string) : string :=
  let cs := list_ascii_of_string s in
  let aspas :=
    if existsb (Ascii.eqb Py.apostrofo) cs && negb (existsb (Ascii.eqb Py.aspas) cs)
    then Py.aspas else Py.apostrofo in
  Py.str1 aspas
  +:+ fold_right (fun c acc => repr_char aspas c +:+ acc) EmptyString cs
  +:+ Py.str1 aspas.

(** [str(v)]. *)
Definition str_valor (v : Valor) : string :=
  match v with
  | VNone => "None"
  | VStr s => s
  | VInt n => Py.str_int n
  | VFloat l => str_float l
  | VBool true => "True"
  | VBool false => "False"
  end.

(** [repr(v)]. *)
Definition repr_valor (v : Valor) : string :=
  match v with
  | VStr s => repr_str s
  | _ => str_valor v
  end.

(** [bool(v)]. *)
Definition bool_valor (v : Valor) : bool :=
  match v with
  | VNone => false
  | VStr s => negb (String.eqb s EmptyString)
  | VInt n => negb (n =? 0)
  | VFloat l => bool_float l
  | VBool b => b
  end.

Definition visitar_literal (valor : Valor) (tipo : string) (token : Token)
  : Geracao string :=
  if String.eqb tipo "texto" then ret (repr_valor valor)
  else if String.eqb tipo "logico" then
    ret (if bool_valor valor then "True" else "False")
  else ret (str_valor valor).

Definition visitar_variavel (nome : string) (token : Token) : Geracao string :=
  ret nome.

(** [mapa_ops] of [visitar_binaria]. *)
Definition mapa_ops : list (string * string) :=
  [ ("==", "=="); ("!=", "!="); ("<", "<"); ("<=", "<="); (">", ">");
    (">=", ">="); ("+", "+"); ("-", "-"); ("*", "*"); ("/", "/");
    ("%", "%"); ("**", "**") ].

(** [d.get(chave, padrao)] for a dictionary given by its items. *)
Fixpoint dict_get (d : list (string * string)) (chave padrao : string) : string :=
  match d with
  | [] => padrao
  | (k, v) :: resto => if String.eqb k chave then v else dict_get resto chave padrao
  end.

Section VisitantesDeExpressoes.

Variable aceitar : Expressao -> Geracao string.

Definition visitar_binaria (esquerda : Expressao) (operador : Token)
    (direita : Expressao) : Geracao string :=
  let* esq := aceitar esquerda in
  let* dir := aceitar direita in
  let op := Token.lexema operador in
  let op_python := dict_get mapa_ops op op in
  ret ("(" +:+ esq +:+ " " +:+ op_python +:+ " " +:+ dir +:+ ")").

Definition visitar_unaria (operador : Token) (operando : Expressao)
  : Geracao string :=
  let* operando := aceitar operando in
  let op := Token.lexema operador in
  if String.eqb op "nao" then ret ("(not " +:+ operando +:+ ")")
  else ret ("(" +:+ op +:+ operando +:+ ")").

Definition visitar_agrupamento (expressao : Expressao) : Geracao string :=
  let* e := aceitar expressao in
  ret ("(" +:+ e +:+ ")").

Definition visitar_atribuicao (nome : string) (token_nome : Token)
    (valor : Expressao) : Geracao string :=
  let* valor := aceitar valor in
  let* em := ler em_expressao in
  if em then ret ("(" +:+ nome +:+ " := " +:+ valor +:+ ")")
  else ret (nome +:+ " = " +:+ valor).

Definition visitar_logica (esquerda : Expressao) (operador : Token)
    (direita : Expressao) : Geracao string :=
  let* esq := aceitar esquerda in
  let* dir := aceitar direita in
  let op := if String.eqb (Token.lexema operador) "e" then "and" else "or" in
  ret ("(" +:+ esq +:+ " " +:+ op +:+ " " +:+ dir +:+ ")").

(** [[e.aceitar(self) for e in expressoes]]. *)
Fixpoint aceitar_cada (expressoes : list Expressao) : Geracao (list string) :=
  match expressoes with
  | [] => ret []
  | e :: resto =>
    let* f := aceitar e in
    let* fs := aceitar_cada resto in
    ret (f :: fs)
  end.

Definition visitar_chamada_funcao (nome : string) (token_nome : Token)
    (argumentos : list Expressao) : Geracao string :=
  let* fragmentos := aceitar_cada argumentos in
  let args := Py.join ", " fragmentos in
  ret (nome +:+ "(" +:+ args +:+ ")").

Definition visitar_acesso_array (objeto indice : Expressao)
    (token_colchete : Token) : Geracao string :=
  let* obj := aceitar objeto in
  let* idx := aceitar indice in
  ret (obj +:+ "[" +:+ idx +:+ "]").

End VisitantesDeExpressoes.

Fixpoint aceitar_expressao (no : Expressao) : Geracao string :=
  match no with
  | ExpressaoLiteral valor tipo token => visitar_literal valor tipo token
  | ExpressaoVariavel nome token => visitar_variavel nome token
  | ExpressaoBinaria esquerda operador direita =>
    visitar_binaria aceitar_expressao esquerda operador direita
  | ExpressaoUnaria operador operando =>
    visitar_unaria aceitar_expressao operador operando
  | ExpressaoAgrupamento expressao =>
    visitar_agrupamento aceitar_expressao expressao
  | ExpressaoAtribuicao nome token_nome valor =>
    visitar_atribuicao aceitar_expressao nome token_nome valor
  | ExpressaoLogica esquerda operador direita =>
    visitar_logica aceitar_expressao esquerda operador direita
  | ExpressaoChamadaFuncao nome token_nome argumentos =>
    visitar_chamada_funcao aceitar_expressao nome token_nome argumentos
  | ExpressaoAcessoArray objeto indice token_colchete =>
    visitar_acesso_array aceitar_expressao objeto indice token_colchete
  end.

Definition visitar_declaracao_expressao (expressao : Expressao) : Geracao string :=
  mudar (com_em_expressao false) >>
  let* expr := aceitar_expressao expressao in
  _adicionar expr >>
  ret "".

(** [valores_padrao.get(tipo_dado, 'None')]. *)
Definition valores_padrao_get (tipo_dado : option string) : string :=
  match tipo_dado with
  | Some t =>
    dict_get [ ("inteiro", "0"); ("real", "0.0");
               ("texto", String Py.aspas (Py.str1 Py.aspas));
               ("logico", "False") ] t "None"
  | None => "None"
  end.

Definition visitar_declaracao_variavel (nome : string) (token_nome : Token)
    (tipo_dado : option string) (inicializador : option Expressao)
    (constante : bool) : Geracao string :=
  match inicializador with
  | Some ini =>
    let* valor := aceitar_expressao ini in
    _adicionar (nome +:+ " = " +:+ valor)
  | None =>
    let valor := valores_padrao_get tipo_dado in
    _adicionar (nome +:+ " = " +:+ valor)
  end >>
  ret "".

Definition visitar_retorna (token : Token) (valor : option Expressao)
  : Geracao string :=
  match valor with
  | Some v =>
    let* valor := aceitar_expressao v in
    _adicionar ("return " +:+ valor)
  | None => _adicionar "return"
  end >>
  ret "".

Definition visitar_escreva (expressoes : list Expressao) : Geracao string :=
  let* fragmentos := aceitar_cada aceitar_expressao expressoes in
  let args := Py.join ", " fragmentos in
  _adicionar ("print(" +:+ args +:+ ", sep='')") >>
  ret "".

Definition visitar_leia (variavel : string) (token_variavel : Token)
    (mensagem : option Expressao) : Geracao string :=
  match mensagem with
  | Some m =>
    let* msg := aceitar_expressao m in
    _adicionar (variavel +:+ " = input(" +:+ msg +:+ ")")
  | None => _adicionar (variavel +:+ " = input()")
  end >>
  ret "".

Section VisitantesDeDeclaracoes.

Variable aceitar : Declaracao -> Geracao string.

(** [for decl in declaracoes: decl.aceitar(self)]. *)
Fixpoint aceitar_todas (declaracoes : list Declaracao) : Geracao unit :=
  match declaracoes with
  | [] => ret tt
  | decl :: resto => aceitar decl >> aceitar_todas resto
  end.

Definition visitar_bloco (declaracoes : list Declaracao) : Geracao string :=
  aceitar_todas declaracoes >>
  ret "".

(** [not no.declaracoes if hasattr(no, 'declaracoes') else True]. *)
Definition sem_declaracoes (no : Declaracao) : bool :=
  match no with
  | DeclaracaoBloco [] => true
  | DeclaracaoBloco _ => false
  | _ => true
  end.

Definition visitar_se (condicao : Expressao) (bloco_verdadeiro : Declaracao)
    (bloco_falso : option Declaracao) : Geracao string :=
  let* cond := aceitar_expressao condicao in
  _adicionar ("if " +:+ cond +:+ ":") >>
  indentar >>
  aceitar bloco_verdadeiro >>
  (if sem_declaracoes bloco_verdadeiro then _adicionar "pass" else ret tt) >>
  desindentar >>
  match bloco_falso with
  | Some (DeclaracaoSe condicao2 bloco_verdadeiro2 bloco_falso2) =>
    let* cond_elif := aceitar_expressao condicao2 in
    _adicionar ("elif " +:+ cond_elif +:+ ":") >>
    indentar >>
    aceitar bloco_verdadeiro2 >>
    desindentar >>
    match bloco_falso2 with
    | Some bloco =>
      _adicionar "else:" >>
      indentar >>
      aceitar bloco >>
      desindentar
    | None => ret tt
    end
  | Some bloco =>
    _adicionar "else:" >>
    indentar >>
    aceitar bloco >>
    desindentar
  | None => ret tt
  end >>
  ret "".

Definition visitar_enquanto (condicao : Expressao) (corpo : Declaracao)
  : Geracao string :=
  let* cond := aceitar_expressao condicao in
  _adicionar ("while " +:+ cond +:+ ":") >>
  indentar >>
  aceitar corpo >>
  desindentar >>
  ret "".

Definition visitar_para (variavel : string) (token_variavel : Token)
    (inicio fim : Expressao) (passo : option Expressao) (corpo : Declaracao)
  : Geracao string :=
  let* inicio := aceitar_expressao inicio in
  let* fim := aceitar_expressao fim in
  match passo with
  | Some p =>
    let* passo := aceitar_expressao p in
    _adicionar ("for " +:+ variavel +:+ " in range(" +:+ inicio +:+ ", "
                +:+ fim +:+ " + 1, " +:+ passo +:+ "):")
  | None =>
    _adicionar ("for " +:+ variavel +:+ " in range(" +:+ inicio +:+ ", "
                +:+ fim +:+ " + 1):")
  end >>
  indentar >>
  aceitar corpo >>
  desindentar >>
  ret "".

Definition visitar_funcao (nome : string) (token_nome : Token)
    (parametros : list (string * string)) (tipo_retorno : option string)
    (corpo : list Declaracao) : Geracao string :=
  let params := Py.join ", " (map fst parametros) in
  _adicionar ("def " +:+ nome +:+ "(" +:+ params +:+ "):") >>
  indentar >>
  visitar_bloco corpo >>
  (match corpo with [] => _adicionar "pass" | _ => ret tt end) >>
  desindentar >>
  _adicionar "" >>
  ret "".

End VisitantesDeDeclaracoes.

Fixpoint aceitar_declaracao (no : Declaracao) : Geracao string :=
  match no with
  | DeclaracaoExpressao expressao => visitar_declaracao_expressao expressao
  | DeclaracaoVariavel nome token_nome tipo_dado inicializador constante =>
    visitar_declaracao_variavel nome token_nome tipo_dado inicializador constante
  | DeclaracaoBloco declaracoes => visitar_bloco aceitar_declaracao declaracoes
  | DeclaracaoSe condicao bloco_verdadeiro bloco_falso =>
    visitar_se aceitar_declaracao condicao bloco_verdadeiro bloco_falso
  | DeclaracaoEnquanto condicao corpo =>
    visitar_enquanto aceitar_declaracao condicao corpo
  | DeclaracaoPara variavel token_variavel inicio fim passo corpo =>
    visitar_para aceitar_declaracao variavel token_variavel inicio fim passo corpo
  | DeclaracaoFuncao nome token_nome parametros tipo_retorno corpo =>
    visitar_funcao aceitar_declaracao nome token_nome parametros tipo_retorno corpo
  | DeclaracaoRetorna token valor => visitar_retorna token valor
  | DeclaracaoEscreva expressoes => visitar_escreva expressoes
  | DeclaracaoLeia variavel token_variavel mensagem =>
    visitar_leia variavel token_variavel mensagem
  end.

Definition visitar_programa (no : Programa) : Geracao string :=
  match no with
  | Programa_ declaracoes =>
    aceitar_todas aceitar_declaracao declaracoes >>
    ret ""
  end.

(** The fixed lines [gerar] puts before and after the program. *)
Definition tres_aspas : string :=
  String Py.aspas (String Py.aspas (Py.str1 Py.aspas)).

Definition cabecalho : list string :=
  [ "# -*- coding: utf-8 -*-";
    tres_aspas;
    "Código gerado automaticamente pelo Compilador Lusitano";
    "Linguagem fonte: Lusitano (Português)";
    tres_aspas;
    "";
    "# Funções auxiliares";
    "def leia(mensagem=''):";
    "    return input(mensagem)";
    "";
    "def paraInteiro(valor):";
    "    return int(valor)";
    "";
    "def paraReal(valor):";
    "    return float(valor)";
    "";
    "def paraTexto(valor):";
    "    return str(valor)";
    "";
    "def raiz(x):";
    "    return x ** 0.5";
    "";
    "def absoluto(x):";
    "    return abs(x)";
    "";
    "def arredonda(x):";
    "    return round(x)";
    "";
    "def tamanho(texto):";
    "    return len(texto)";
    "";
    "# ═══════════════════════════════════════";
    "# Código do programa Lusitano";
    "# ═══════════════════════════════════════";
    "" ].

Definition rodape : list string :=
  [ "";
    "# Ponto de entrada";
    "if __name__ == '__main__':";
    "    try:";
    "        principal()";
    "    except NameError:";
    "        pass  # Função principal não definida" ].

Definition gerar (programa : Programa) : Geracao string :=
  mudar (com_codigo cabecalho) >>
  visitar_programa programa >>
  mudar (fun g => com_codigo (codigo g ++ rodape) g) >>
  let* linhas := ler codigo in
  ret (Py.join (Py.str1 Py.nova_linha) linhas).

End Literais.

End GeradorPython.
Abbreviation GeradorPython := GeradorPython.GeradorPython.

(** ** lusitano.py: the compiler *)

Module CompiladorLusitano.

Record CompiladorLusitano : Type := mk {
  verbose : bool;
  scanner : option Scanner.Scanner;
  parser : option Parser.Parser;
  analisador : option AnalisadorSemantico.AnalisadorSemantico;
  gerador : option GeradorPython.GeradorPython;
  ast : option Programa;
  codigo_python : option string
}.

(** [__init__]. *)
Definition novo (verbose : bool) : CompiladorLusitano :=
  mk verbose None None None None None None.

Definition com_scanner (v : option Scanner.Scanner) (c : CompiladorLusitano) : CompiladorLusitano :=
  mk (verbose c) v (parser c) (analisador c) (gerador c) (ast c) (codigo_python c).
Definition com_parser (v : option Parser.Parser) (c : CompiladorLusitano) : CompiladorLusitano :=
  mk (verbose c) (scanner c) v (analisador c) (gerador c) (ast c) (codigo_python c).
Definition com_analisador (v : option AnalisadorSemantico.AnalisadorSemantico) (c : CompiladorLusitano)
  : CompiladorLusitano :=
  mk (verbose c) (scanner c) (parser c) v (gerador c) (ast c) (codigo_python c).
Definition com_gerador (v : option GeradorPython.GeradorPython) (c : CompiladorLusitano)
  : CompiladorLusitano :=
  mk (verbose c) (scanner c) (parser c) (analisador c) v (ast c) (codigo_python c).
Definition com_ast (v : option Programa) (c : CompiladorLusitano) : CompiladorLusitano :=
  mk (verbose c) (scanner c) (parser c) (analisador c) (gerador c) v (codigo_python c).
Definition com_codigo_python (v : option string) (c : CompiladorLusitano)
  : CompiladorLusitano :=
  mk (verbose c) (scanner c) (parser c) (analisador c) (gerador c) (ast c) v.

(** A method run on an object that an attribute of the compiler holds:
    the attribute refers to the object, so it shows what the method did
    to it, also when the method raised.  The object is handed on with the
    method's result. *)
Definition no_atributo {O A} (guardar : option O -> CompiladorLusitano -> CompiladorLusitano)
    (objeto : O) (metodo : M O A) : M CompiladorLusitano (A * O) :=
  fun c =>
    match metodo objeto with
    | (Retorno x, objeto') => (Retorno (x, objeto'), guardar (Some objeto') c)
    | (Levanta e, objeto') => (Levanta e, guardar (Some objeto') c)
    end.

Section Compilar.

Variable str_float : string -> string.
Variable bool_float : string -> bool.

(** What [compilar] shows and runs is not part of the embedding: the
    listing of the tokens, the drawing of the tree, the listing of the
    symbol table and the run of the produced code by [exec].  Each is a
    parameter that says whether the step comes back ([true]) or raises an
    exception ([false]), which the [try] of [compilar] answers [False]
    to.  A run that does not come back to [compilar] at all (it does not
    end, or it leaves the interpreter) has no value here. *)
Variable imprimir_tokens : Scanner.Scanner -> bool.
Variable visualizar : Programa -> bool.
Variable imprimir : TabelaSimbolos.TabelaSimbolos -> bool.
Variable exec : string -> bool.

(** [if self.verbose: <listing>], answering whether the [try] goes on. *)
Definition se_verbose (listagem : bool) : M CompiladorLusitano bool :=
  let* v := ler verbose in
  ret (negb v || listagem).

(** The body of the [try] of [compilar]. *)
Definition tentativa (codigo_fonte : string) (executar : bool)
  : M CompiladorLusitano bool :=
  let* escaneado :=
    no_atributo com_scanner (Scanner.novo codigo_fonte) Scanner.escanear in
  let* segue := se_verbose (imprimir_tokens (snd escaneado)) in
  if negb segue then ret false else
  let* analisado :=
    no_atributo com_parser (Parser.novo (fst escaneado)) Parser.analisar in
  mudar (com_ast (Some (fst analisado))) >>
  let* segue := se_verbose (visualizar (fst analisado)) in
  if negb segue then ret false else
  match AnalisadorSemantico.novo with
  | (Levanta e, _) => levanta e
  | (Retorno _, analisador0) =>
    let* verificado :=
      no_atributo com_analisador analisador0
        (AnalisadorSemantico.analisar (fst analisado)) in
    if negb (fst verificado) then ret false else
    let* segue :=
      se_verbose (imprimir (AnalisadorSemantico.tabela (snd verificado))) in
    if negb segue then ret false else
    let* gerado :=
      no_atributo com_gerador GeradorPython.novo
        (GeradorPython.gerar str_float bool_float (fst analisado)) in
    mudar (com_codigo_python (Some (fst gerado))) >>
    if executar then ret (exec (fst gerado)) else ret true
  end.

(** [compilar(codigo_fonte, executar)]: [ErroLexico] and any other
    exception raised inside the [try] are answered with [False]; what the
    compiler's attributes were given before stays.  A budget of the
    embedding that ran out is passed on as such. *)
Definition compilar (codigo_fonte : string) (executar : bool)
  : M CompiladorLusitano bool :=
  fun c =>
    match tentativa codigo_fonte executar c with
    | (Retorno b, c') => (Retorno b, c')
    | (Levanta SemCombustivel, c') => (Levanta SemCombustivel, c')
    | (Levanta _, c') => (Retorno false, c')
    end.

End Compilar.

End CompiladorLusitano.
Abbreviation CompiladorLusitano := CompiladorLusitano.CompiladorLusitano.

(** ** Vocabulary of the properties *)

(** The phases run on a source text, one after the other, each [None]
    when the phase before it or the phase itself raised. *)
Definition tokens_de (codigo_fonte : string) : option (list Token) :=
  match Scanner.escanear (Scanner.novo codigo_fonte) with
  | (Retorno ts, _) => Some ts
  | _ => None
  end.

Definition programa_de (codigo_fonte : string) : option Programa :=
  match tokens_de codigo_fonte with
  | Some ts =>
    match Parser.analisar (Parser.novo ts) with
    | (Retorno programa, _) => Some programa
    | _ => None
    end
  | None => None
  end.

(** The analyser after [analisar] has run on the program of a source text. *)
Definition analise_de (codigo_fonte : string) : option AnalisadorSemantico :=
  match programa_de codigo_fonte, AnalisadorSemantico.novo with
  | Some programa, (Retorno _, a0) =>
    match AnalisadorSemantico.analisar programa a0 with
    | (Retorno _, a) => Some a
    | _ => None
    end
  | _, _ => None
  end.

(** The symbol a name resolves to in an analyser. *)
Definition simbolo_de (nome : string) (a : AnalisadorSemantico) : option Simbolo :=
  match TabelaSimbolos.buscar nome (AnalisadorSemantico.tabela a) with
  | Some r => TabelaSimbolos.objetos (AnalisadorSemantico.tabela a) !! r
  | None => None
  end.

(** The operators [tipo_resultante] treats as arithmetic. *)
Definition ARITMETICOS : list string := ["+"; "-"; "*"; "/"; "%"; "**"].

(** The analyser after [visitar_se] has checked a condition of type
    [tipo_cond], the condition itself having left the analyser [a]. *)
Definition apos_condicao_se (condicao : Expressao) (tipo_cond : Tipo)
    (a : AnalisadorSemantico) : AnalisadorSemantico :=
  if negb (Tipo.eqb tipo_cond Tipo.LOGICO) && negb (Tipo.eqb tipo_cond Tipo.ERRO)
  then
    AnalisadorSemantico.com_erros
      (AnalisadorSemantico.erros a ++
       [ErroSemantico.mk
          ("Condição do 'se' deve ser do tipo 'logico', mas é '"
           +:+ Tipo.str tipo_cond +:+ "'")
          (match AnalisadorSemantico.token_de condicao with
           | Some t => Token.linha t | None => 0 end)
          (match AnalisadorSemantico.token_de condicao with
           | Some t => Token.coluna t | None => 0 end)]) a
  else a.

(** The text an expression is emitted as in the generator [g]. *)
Definition fragmento (str_float : string -> string) (bool_float : string -> bool)
    (g : GeradorPython) (no : Expressao) : string :=
  match GeradorPython.aceitar_expressao str_float bool_float no g with
  | (Retorno s, _) => s
  | (Levanta _, _) => ""
  end.

(** The host code [gerar] returns for the program of a source text. *)
Definition codigo_gerado (str_float : string -> string) (bool_float : string -> bool)
    (codigo_fonte : string) : option string :=
  match programa_de codigo_fonte with
  | Some programa =>
    match GeradorPython.gerar str_float bool_float programa GeradorPython.novo with
    | (Retorno codigo_python, _) => Some codigo_python
    | _ => None
    end
  | None => None
  end.

(** The host code whose lines, between the header and the footer of
    [gerar], are [linhas]. *)
Definition codigo_com (linhas : list string) : string :=
  Py.join (Py.str1 Py.nova_linha)
    (GeradorPython.cabecalho ++ linhas ++ GeradorPython.rodape).

(** The lines that emitting a declaration appends to the code of [g]. *)
Definition linhas_de (str_float : string -> string) (bool_float : string -> bool)
    (no : Declaracao) (g : GeradorPython) : list string :=
  drop (length (GeradorPython.codigo g))
    (GeradorPython.codigo
       (snd (GeradorPython.aceitar_declaracao str_float bool_float no g))).

(** The generator [g] after [linha] was added to its code. *)
Definition com_linha (linha : string) (g : GeradorPython) : GeradorPython :=
  GeradorPython.com_codigo
    (GeradorPython.codigo g ++ [GeradorPython._indent g +:+ linha]) g.

(** The generator [g] one indentation level deeper. *)
Definition mais_fundo (g : GeradorPython) : GeradorPython :=
  GeradorPython.com_indent_level (GeradorPython.indent_level g + 1) g.

(** The header of the host loop for [para variavel de inicio ate fim],
    with the optional [passo], from the emitted fragments. *)
Definition cabecalho_para (variavel inicio fim : string) (passo : option string)
  : string :=
  "for " +:+ variavel +:+ " in range(" +:+ inicio +:+ ", " +:+ fim +:+ " + 1"
  +:+ match passo with Some p => ", " +:+ p | None => "" end +:+ "):".

(** A host call of [print] on the given arguments followed by the keyword
    argument [sep=''], the arguments separated by commas. *)
Definition chamada_print (argumentos : list string) : string :=
  "print(" +:+ Py.join ", " (argumentos ++ ["sep=''"]) +:+ ")".

(** Emitting [no] returns, keeps the indentation level and only appends
    lines to the code. *)
Definition so_acrescenta (str_float : string -> string) (bool_float : string -> bool)
    (no : Declaracao) : Prop :=
  forall g, exists linhas em,
    GeradorPython.aceitar_declaracao str_float bool_float no g =
      (Retorno "",
       GeradorPython.mk (GeradorPython.indent_level g)
         (GeradorPython.codigo g ++ linhas) em).

(** The lexeme the scanner gives a compound-assignment operator, and the
    lexeme of the arithmetic operator it stands for. *)
Definition lexema_composto (tipo : TipoToken) : string :=
  match tipo with
  | MAIS_IGUAL => "+="
  | MENOS_IGUAL => "-="
  | MULT_IGUAL => "*="
  | DIV_IGUAL => "/="
  | _ => ""
  end.

Definition lexema_aritmetico (tipo : TipoToken) : string :=
  match tipo with
  | MAIS => "+"
  | MENOS => "-"
  | MULTIPLICA => "*"
  | DIVIDE => "/"
  | _ => ""
  end.

(** The token types that make the parser go on with the expression it is
    reading below the assignment level. *)
Definition continua_expressao (tipo : TipoToken) : bool :=
  Parser.tipo_em tipo
    [ ABRE_PAREN; ABRE_COLCHETE; POTENCIA; MULTIPLICA; DIVIDE; MODULO; MAIS; MENOS;
      MENOR; MENOR_IGUAL; MAIOR; MAIOR_IGUAL; IGUAL; DIFERENTE; E; OU ].

(** The characters the scanner has not read yet. *)
Definition resto (s : Scanner.Scanner) : list ascii :=
  drop (Z.to_nat (Scanner.atual s)) (Scanner.fonte s).

(** The scanner [s] after it read [n] characters, none of them a line
    break. *)
Definition avancado (n : Z) (s : Scanner.Scanner) : Scanner.Scanner :=
  Scanner.com_coluna (Scanner.coluna s + n)
    (Scanner.com_atual (Scanner.atual s + n) s).

(** The scanner [s] after it added the token [t]. *)
Definition com_token (t : Token) (s : Scanner.Scanner) : Scanner.Scanner :=
  Scanner.com_tokens (Scanner.tokens s ++ [t]) s.

(** A run of digits, as [isdigit] has them, and a text that does not go
    on with one. *)
Definition digitos (l : list ascii) : Prop := forallb Py.isdigit l = true.

(** A run of decimal digits, which [int] and [float] read, and one that
    [int] takes. *)
Definition decimais (l : list ascii) : Prop := forallb Py.isdecimal l = true.

Definition convertivel (l : list ascii) : Prop :=
  decimais l /\ (length l <= Py.max_str_digits)%nat.

(** The superscript two (U+00B2), a digit that is not a decimal one. *)
Definition dois_elevado : ascii := ascii_of_nat 178.

(** The letters c with cedilla (U+00E7) and a with tilde (U+00E3), and
    the inverted question mark (U+00BF), which is no letter. *)
Definition c_cedilha : ascii := ascii_of_nat 231.
Definition a_til : ascii := ascii_of_nat 227.
Definition interrogacao_invertida : ascii := ascii_of_nat 191.

Definition primeiro_char (l : list ascii) : ascii := hd Py.nul l.

Definition sem_digito (l : list ascii) : Prop := Py.isdigit (primeiro_char l) = false.

(** The text of a fractional part, given its digits, and of an exponent,
    given its marker, its sign and its digits. *)
Definition texto_fracao (fracao : option (list ascii)) : list ascii :=
  match fracao with
  | Some fd => "."%char :: fd
  | None => []
  end.

Definition texto_expoente (expoente : option (ascii * list ascii * list ascii))
  : list ascii :=
  match expoente with
  | Some (marca, sinal, xd) => marca :: sinal ++ xd
  | None => []
  end.

(** An exponent marker, and an optional sign. *)
Definition marca_expoente (c : ascii) : Prop := Ascii.eqb (Py.lower c) "e" = true.

Definition sinal_opcional (sinal : list ascii) : Prop :=
  sinal = [] \/ sinal = ["+"%char] \/ sinal = ["-"%char].

(** The value [int] reads from a run of digits. *)
Definition valor_decimal (l : list ascii) : Z :=
  fold_left (fun acc c => 10 * acc + (Py.ord c - 48)) l 0.

(** [analisar_numero] after the integer digits, in three parts, each handed
    what is to be done next: the optional fraction, the optional exponent,
    and the token. *)
Definition numero_fracao (K : bool -> M Scanner.Scanner unit) : M Scanner.Scanner unit :=
  let* c := Scanner.espiar in
  let* tem_fracao :=
    (if Ascii.eqb c "."
     then let* p := Scanner.espiar_proximo in ret (Py.isdigit p)
     else ret false) in
  let* is_real :=
    (if tem_fracao
     then Scanner.avancar >> Scanner.consumir_digitos >> ret true
     else ret false) in
  K is_real.

Definition numero_expoente (is_real : bool) (K : bool -> M Scanner.Scanner unit)
  : M Scanner.Scanner unit :=
  let* c := Scanner.espiar in
  let* is_real :=
    (if Ascii.eqb (Py.lower c) "e" then
       Scanner.avancar >>
       let* c := Scanner.espiar in
       (if Ascii.eqb c "+" || Ascii.eqb c "-" then Scanner.avancar >> ret tt else ret tt) >>
       let* c := Scanner.espiar in
       if negb (Py.isdigit c) then
         let* l := ler Scanner.linha in
         let* co := ler Scanner.coluna in
         let* ctx := ler Scanner.linha_atual_contexto in
         levanta (ErroLexico
           "Número em notação científica inválido - esperado dígito após 'e'"
           l co ctx)
       else Scanner.consumir_digitos >> ret true
     else ret is_real) in
  K is_real.

Definition numero_token (is_real : bool) : M Scanner.Scanner unit :=
  let* lexema := ler Scanner.lexema_atual in
  if is_real then
    let* x := ou_levanta ValueError (Py.float (list_ascii_of_string lexema)) in
    Scanner.adicionar_token NUMERO_REAL (VFloat (string_of_list_ascii x))
  else
    let* n := ou_levanta ValueError (Py.int (list_ascii_of_string lexema)) in
    Scanner.adicionar_token NUMERO_INTEIRO (VInt n).

(** A text that begins with a dot and a digit. *)
Definition comeca_fracao (l : list ascii) : bool :=
  Ascii.eqb (primeiro_char l) "." && Py.isdigit (primeiro_char (tl l)).

(** A text that begins with a sign. *)
Definition comeca_sinal (l : list ascii) : bool :=
  Ascii.eqb (primeiro_char l) "+" || Ascii.eqb (primeiro_char l) "-".

(** Whether an optional part is there. *)
Definition presente {A} (o : option A) : bool :=
  match o with Some _ => true | None => false end.

(** A well-formed fractional part has at least one digit, and digits only;
    a well-formed exponent has a marker, an optional sign, and at least one
    digit, and digits only. *)
Definition fracao_bem_formada (fracao : option (list ascii)) : Prop :=
  match fracao with
  | Some fd => fd <> [] /\ digitos fd
  | None => True
  end.

Definition expoente_bem_formado (expoente : option (ascii * list ascii * list ascii))
  : Prop :=
  match expoente with
  | Some (marca, sinal, xd) =>
    marca_expoente marca /\ sinal_opcional sinal /\ xd <> [] /\ digitos xd
  | None => True
  end.

(** The digits of a fraction and of an exponent are decimal ones. *)
Definition fracao_decimal (fracao : option (list ascii)) : Prop :=
  match fracao with
  | Some fd => decimais fd
  | None => True
  end.

Definition expoente_decimal (expoente : option (ascii * list ascii * list ascii))
  : Prop :=
  match expoente with
  | Some (_, _, xd) => decimais xd
  | None => True
  end.

(** The number that [analisar_numero] has read is handed to [int] when it
    has neither fraction nor exponent, and to [float] otherwise. *)
Definition numero_convertivel (inteiros : list ascii) (fracao : option (list ascii))
    (expoente : option (ascii * list ascii * list ascii)) : Prop :=
  if presente fracao || presente expoente
  then decimais inteiros /\ fracao_decimal fracao /\ expoente_decimal expoente
  else convertivel inteiros.

(** The token [analisar_numero] adds for a number made of the integer
    digits [inteiros], a fraction and an exponent. *)
Definition token_de_numero (inteiros : list ascii) (fracao : option (list ascii))
    (expoente : option (ascii * list ascii * list ascii))
    (linha coluna : Z) : Token :=
  let lexema :=
    string_of_list_ascii (inteiros ++ texto_fracao fracao ++ texto_expoente expoente) in
  if presente fracao || presente expoente
  then Token.mk NUMERO_REAL lexema (VFloat lexema) linha coluna
  else Token.mk NUMERO_INTEIRO lexema (VInt (valor_decimal inteiros)) linha coluna.

(** ** Vocabulary of the scanner, one token at a time *)

(** A character that starts a word, and a character that goes on with one. *)
Definition inicia_palavra (c : ascii) : bool := Py.isalpha c || Ascii.eqb c "_".
Definition de_palavra (c : ascii) : bool := Py.isalnum c || Ascii.eqb c "_".

(** The token type of a word: the one [PALAVRAS_CHAVE] has for the word in
    lower case, or [IDENTIFICADOR]. *)
Definition tipo_de_palavra (w : string) : TipoToken :=
  match Scanner.PALAVRAS_CHAVE !! Py.str_lower w with
  | Some t => t
  | None => IDENTIFICADOR
  end.

(** The token [adicionar_token] adds, with no value given, for the text
    [lido] read from the state [s] on. *)
Definition token_de_texto (tipo : TipoToken) (lido : list ascii) (s : Scanner.Scanner)
  : Token :=
  Token.mk tipo (string_of_list_ascii lido) (VStr (string_of_list_ascii lido))
    (Scanner.linha s) (Scanner.coluna_inicio s).

(** A loop that advances for as long as [Q] holds of the unread text reads
    exactly [l] out of [l ++ r], when [l] has no line break. *)
Fixpoint lidos (Q : list ascii -> bool) (l r : list ascii) : bool :=
  match l with
  | [] => negb (Q r)
  | c :: l' => Q (l ++ r) && negb (Ascii.eqb c Py.nova_linha) && lidos Q l' r
  end.

(** The tests of the loops of [analisar_identificador] and of
    [analisar_comentario_linha], on the unread text. *)
Definition segue_palavra (l : list ascii) : bool := de_palavra (primeiro_char l).

Definition segue_comentario (l : list ascii) : bool :=
  match l with
  | [] => false
  | c :: _ => negb (Ascii.eqb c Py.nova_linha)
  end.

(** The operators of two characters and of one character that
    [escanear_token] knows, and the characters that make a longer lexeme
    out of a first one. *)
Definition OPERADORES_DUPLOS : list (ascii * ascii * TipoToken) :=
  [ ("+", "=", MAIS_IGUAL); ("-", "=", MENOS_IGUAL); ("-", ">", SETA);
    ("*", "*", POTENCIA); ("*", "=", MULT_IGUAL); ("/", "=", DIV_IGUAL);
    ("=", "=", IGUAL); ("!", "=", DIFERENTE);
    ("<", "=", MENOR_IGUAL); (">", "=", MAIOR_IGUAL) ]%char.

Definition OPERADORES_SIMPLES : list (ascii * TipoToken) :=
  [ ("(", ABRE_PAREN); (")", FECHA_PAREN); ("{", ABRE_CHAVE); ("}", FECHA_CHAVE);
    ("[", ABRE_COLCHETE); ("]", FECHA_COLCHETE);
    (",", VIRGULA); (";", PONTO_VIRGULA); (":", DOIS_PONTOS); (".", PONTO);
    ("+", MAIS); ("-", MENOS); ("*", MULTIPLICA); ("/", DIVIDE); ("%", MODULO);
    ("=", ATRIBUICAO); ("<", MENOR); (">", MAIOR) ]%char.

Definition continuacoes (c : ascii) : list ascii :=
  (if Ascii.eqb c "+" then ["="]
   else if Ascii.eqb c "-" then ["="; ">"]
   else if Ascii.eqb c "*" then ["*"; "="]
   else if Ascii.eqb c "/" then ["/"; "*"; "="]
   else if Scanner.char_em c ["="; "<"; ">"] then ["="]
   else [])%char.

(** The scanner [s] after it read a line break. *)
Definition nova_linha_lida (s : Scanner.Scanner) : Scanner.Scanner :=
  Scanner.com_coluna 1
    (Scanner.com_linha (Scanner.linha s + 1)
       (Scanner.com_atual (Scanner.atual s + 1) s)).

(** The characters [escanear_token] has a case for. *)
Definition reconhecido (c : ascii) : bool :=
  Scanner.char_em c [" "%char; Py.tab; Py.retorno_carro; Py.nova_linha]
  || Scanner.char_em c [Py.aspas; Py.apostrofo]
  || Py.isdigit c
  || (Py.isalpha c || Ascii.eqb c "_")
  || Scanner.char_em c
       [ "("; ")"; "{"; "}"; "["; "]"; ","; ";"; ":"; "."; "+"; "-"; "*"; "/"; "%";
         "="; "!"; "<"; ">" ]%char.

(** What is between the quotes of a string literal: plain characters and
    escape pairs, a backslash and the character after it. *)
Inductive ItemDeTexto : Set :=
  | Simples (c : ascii)
  | Escape (e : ascii).

Definition texto_do_item (it : ItemDeTexto) : list ascii :=
  match it with
  | Simples c => [c]
  | Escape e => [Py.barra_invertida; e]
  end.

Definition valor_do_item (it : ItemDeTexto) : string :=
  match it with
  | Simples c => Py.str1 c
  | Escape e => Scanner.escapes_get e
  end.

(** A plain character is not the closing quote, a line break or a
    backslash; the character escaped is not a line break. *)
Definition item_valido (aspas : ascii) (it : ItemDeTexto) : bool :=
  match it with
  | Simples c =>
    negb (Ascii.eqb c aspas) && negb (Ascii.eqb c Py.nova_linha)
    && negb (Ascii.eqb c Py.barra_invertida)
  | Escape e => negb (Ascii.eqb e Py.nova_linha)
  end.

(** An item of a literal that need not end on its line: a plain
    character is not the closing quote, a line break or a backslash; any
    character may be escaped, a line break too. *)
Definition item_de_texto (aspas : ascii) (it : ItemDeTexto) : bool :=
  match it with
  | Simples c =>
    negb (Ascii.eqb c aspas) && negb (Ascii.eqb c Py.nova_linha)
    && negb (Ascii.eqb c Py.barra_invertida)
  | Escape _ => true
  end.

Definition texto_dos_itens (its : list ItemDeTexto) : list ascii :=
  concat (map texto_do_item its).

Definition valor_dos_itens (its : list ItemDeTexto) : string :=
  fold_left (fun v it => v +:+ valor_do_item it) its "".

Definition e_aspas (c : ascii) : bool := Scanner.char_em c [Py.aspas; Py.apostrofo].

(** Where the loop of [analisar_string] stops: at the end of the source or
    before the closing quote. *)
Definition para_texto (aspas : ascii) (r : list ascii) : bool :=
  match r with
  | [] => true
  | c :: _ => Ascii.eqb c aspas
  end.

(** ** Vocabulary of the block comments *)

(** The scanner [s] after it read the character [c], and after it read the
    characters [l], line breaks included. *)
Definition lido (c : ascii) (s : Scanner.Scanner) : Scanner.Scanner :=
  if Ascii.eqb c Py.nova_linha then nova_linha_lida s else avancado 1 s.

Definition apos (l : list ascii) (s : Scanner.Scanner) : Scanner.Scanner :=
  fold_left (fun s c => lido c s) l s.

(** The line breaks of a text. *)
Definition quebras (l : list ascii) : Z :=
  Py.len (filter (fun c => Ascii.eqb c Py.nova_linha = true) l).

(** No star of [l] is followed, in [l ++ r], by a slash: the closing mark
    of a block comment does not start inside [l]. *)
Fixpoint sem_fecho (l r : list ascii) : bool :=
  match l with
  | [] => true
  | c :: l' =>
    negb (Ascii.eqb c "*" && Ascii.eqb (primeiro_char (l' ++ r)) "/")
    && sem_fecho l' r
  end.

(** ** Vocabulary of the parser *)

(** A result that is not the parser's own exception. *)
Definition sem_erro_sintatico {A} (r : Resultado A) : Prop :=
  match r with
  | Levanta (ErroSintatico _ _) => False
  | _ => True
  end.

(** A computation of the parser that never raises [ErroSintatico]. *)
Definition nunca_sintatico {A} (m : M Parser.Parser A) : Prop :=
  forall p, sem_erro_sintatico (fst (m p)).

(** ** Vocabulary of the parser's recovery *)

(** The tokens the parser has not passed yet. *)
Definition por_ler (p : Parser.Parser) : list Token :=
  drop (Z.to_nat (Parser.atual p)) (Parser.tokens p).

(** Where the loop of [sincronizar] stops: at the end of the tokens, after
    a semicolon, or before a keyword that starts a declaration or a
    statement. *)
Definition retoma (anterior corrente : Token) : bool :=
  TipoToken_eqb (Token.tipo corrente) FIM_ARQUIVO
  || TipoToken_eqb (Token.tipo anterior) PONTO_VIRGULA
  || Parser.tipo_em (Token.tipo corrente)
       [FUNCAO; VAR; CONST; SE; ENQUANTO; PARA; RETORNA; ESCREVA].

(** The loop does not stop at any of the tokens [l], read after
    [anterior]. *)
Fixpoint nao_retoma (anterior : Token) (l : list Token) : bool :=
  match l with
  | [] => true
  | corrente :: l' => negb (retoma anterior corrente) && nao_retoma corrente l'
  end.

(** ** Vocabulary of the symbol table *)

(** The table has one frame per scope that was entered and not left, the
    global scope being frame 0. *)
Definition bem_formada (t : TabelaSimbolos.TabelaSimbolos) : Prop :=
  0 <= TabelaSimbolos.escopo_atual t
  /\ Py.len (TabelaSimbolos.escopos t) = TabelaSimbolos.escopo_atual t + 1.

(** The table after [declarar] bound the name [nome] to the object [r] in
    the current frame. *)
Definition declarado (nome : string) (r : Ref) (t : TabelaSimbolos.TabelaSimbolos)
  : TabelaSimbolos.TabelaSimbolos :=
  let ea := TabelaSimbolos.escopo_atual t in
  TabelaSimbolos.mk
    (alter (Simbolo.com_escopo ea) r (TabelaSimbolos.objetos t))
    (alter (insert nome r) (Z.to_nat ea) (TabelaSimbolos.escopos t))
    ea
    (TabelaSimbolos.todos_simbolos t ++ [r]).

(** ** Vocabulary of the analyser's state *)

(** Every reference held by a frame of the table points to an object. *)
Definition refs_validas (t : TabelaSimbolos.TabelaSimbolos) : Prop :=
  forall f nome r,
    In f (TabelaSimbolos.escopos t) -> f !! nome = Some r ->
    (r < length (TabelaSimbolos.objetos t))%nat.

(** The analyser's table is well formed, and the references it holds, in
    the frames and as the enclosing function, point to objects. *)
Definition consistente (a : AnalisadorSemantico.AnalisadorSemantico) : Prop :=
  bem_formada (AnalisadorSemantico.tabela a)
  /\ refs_validas (AnalisadorSemantico.tabela a)
  /\ match AnalisadorSemantico.funcao_atual a with
     | Some f => (f < length (TabelaSimbolos.objetos (AnalisadorSemantico.tabela a)))%nat
     | None => True
     end.

(** From [a] to [a']: diagnostics were only appended, and no object was
    dropped. *)
Definition cresce (a a' : AnalisadorSemantico.AnalisadorSemantico) : Prop :=
  (exists es, AnalisadorSemantico.erros a' = AnalisadorSemantico.erros a ++ es)
  /\ (exists ws, AnalisadorSemantico.avisos a' = AnalisadorSemantico.avisos a ++ ws)
  /\ (length (TabelaSimbolos.objetos (AnalisadorSemantico.tabela a))
      <= length (TabelaSimbolos.objetos (AnalisadorSemantico.tabela a')))%nat.

(** The analyser [a], reached from a consistent [a0]: it is consistent, it
    grew out of [a0], it is [d] scopes deeper and its enclosing function is
    [f]. *)
Definition alcancado (d : Z) (f : option Ref)
    (a0 a : AnalisadorSemantico.AnalisadorSemantico) : Prop :=
  consistente a0 /\ consistente a /\ cresce a0 a
  /\ TabelaSimbolos.escopo_atual (AnalisadorSemantico.tabela a)
     = TabelaSimbolos.escopo_atual (AnalisadorSemantico.tabela a0) + d
  /\ AnalisadorSemantico.funcao_atual a = f.

(** From [a] to [a']: the return flag, the frames and the number of
    objects are the same. *)
Definition inalterado (a a' : AnalisadorSemantico.AnalisadorSemantico) : Prop :=
  AnalisadorSemantico.tem_retorno a' = AnalisadorSemantico.tem_retorno a
  /\ TabelaSimbolos.escopos (AnalisadorSemantico.tabela a')
     = TabelaSimbolos.escopos (AnalisadorSemantico.tabela a)
  /\ length (TabelaSimbolos.objetos (AnalisadorSemantico.tabela a'))
     = length (TabelaSimbolos.objetos (AnalisadorSemantico.tabela a)).

(** The analyser after the declaration [no], visited from a reached state:
    the visit returns, the state is reached as before, at the same depth
    and in the same function, and no object was dropped. *)
Definition declaracao_segura (no : Declaracao) : Prop :=
  forall d f a0 a, alcancado d f a0 a ->
    exists r a',
      AnalisadorSemantico.aceitar_declaracao no a = (Retorno r, a')
      /\ alcancado d f a0 a'
      /\ (length (TabelaSimbolos.objetos (AnalisadorSemantico.tabela a))
          <= length (TabelaSimbolos.objetos (AnalisadorSemantico.tabela a')))%nat.

(** ** Vocabulary of the comparisons and of the logical operators *)

Definition COMPARACOES : list string := ["=="; "!="; "<"; "<="; ">"; ">="].

(** The analyser [a] with one more error when [c] holds. *)
Definition com_erro_se (c : bool) (mensagem : string) (linha coluna : Z)
    (a : AnalisadorSemantico.AnalisadorSemantico) : AnalisadorSemantico.AnalisadorSemantico :=
  if c
  then AnalisadorSemantico.com_erros
         (AnalisadorSemantico.erros a ++ [ErroSemantico.mk mensagem linha coluna]) a
  else a.

(** ** Vocabulary of the emitter's state *)

(** The text [linha] begins with the text [prefixo]. *)
Definition comeca_com (prefixo linha : string) : Prop :=
  exists resto, linha = prefixo +:+ resto.

(** Emitting [no] from a generator whose level is not negative returns
    the empty text, restores the level, appends lines that begin with the
    indentation of that level, and leaves [em_expressao] as it was or
    cleared. *)
Definition emite (str_float : string -> string) (bool_float : string -> bool)
    (no : Declaracao) : Prop :=
  forall g, 0 <= GeradorPython.indent_level g ->
    exists linhas em,
      GeradorPython.aceitar_declaracao str_float bool_float no g =
        (Retorno "",
         GeradorPython.mk (GeradorPython.indent_level g)
           (GeradorPython.codigo g ++ linhas) em)
      /\ Forall (comeca_com (GeradorPython._indent g)) linhas
      /\ (em = false \/ em = GeradorPython.em_expressao g).

(** * Properties *)

(** ** Equality tests of the enumerations *)

Lemma Tipo_eqb_eq (a b : Tipo) : Tipo.eqb a b = true <-> a = b.
Proof.
  unfold Tipo.eqb. rewrite Z.eqb_eq. split; [| intros ->; reflexivity].
  destruct a, b; simpl; intros H; try reflexivity; discriminate H.
Qed.

Lemma Tipo_eqb_refl (a : Tipo) : Tipo.eqb a a = true.
Proof. apply Tipo_eqb_eq. reflexivity. Qed.

Lemma TipoToken_eqb_eq (a b : TipoToken) : TipoToken_eqb a b = true <-> a = b.
Proof.
  unfold TipoToken_eqb. rewrite Z.eqb_eq. split; [| intros ->; reflexivity].
  destruct a; destruct b; simpl; intros H; try reflexivity; discriminate H.
Qed.

(** ** The type rules of the analyser *)

Import AnalisadorSemantico.

(** C4. [tipos_compativeis a b] holds exactly when the two types are
    equal, or are [INTEIRO] and [REAL] in either order, or one of them is
    [DESCONHECIDO], or one of them is [ERRO]; it is false for every other
    pair. *)
Theorem tipos_compativeis_caracterizacao (a b : Tipo) :
  tipos_compativeis a b = true <->
  a = b
  \/ (a = Tipo.INTEIRO /\ b = Tipo.REAL) \/ (a = Tipo.REAL /\ b = Tipo.INTEIRO)
  \/ (a = Tipo.DESCONHECIDO \/ b = Tipo.DESCONHECIDO)
  \/ (a = Tipo.ERRO \/ b = Tipo.ERRO).
Proof.
  split.
  - destruct a, b; vm_compute; intros H; try discriminate H;
      first [ left; reflexivity
            | right; left; split; reflexivity
            | right; right; left; split; reflexivity
            | right; right; right; left; left; reflexivity
            | right; right; right; left; right; reflexivity
            | right; right; right; right; left; reflexivity
            | right; right; right; right; right; reflexivity ].
  - intros [-> | [[-> ->] | [[-> ->] | [[-> | ->] | [-> | ->]]]]];
      try reflexivity; try (destruct a; reflexivity); destruct b; reflexivity.
Qed.

(** Two of the pairs the predicate rejects. *)
Example tipos_compativeis_rejeita :
  tipos_compativeis Tipo.INTEIRO Tipo.TEXTO = false
  /\ tipos_compativeis Tipo.LOGICO Tipo.REAL = false.
Proof. split; reflexivity. Qed.

Lemma tipo_resultante_numerico (t1 t2 : Tipo) (operador : string) :
  op_em operador ARITMETICOS = true ->
  numerico t1 = true -> numerico t2 = true ->
  tipo_resultante t1 t2 operador =
    if Tipo.eqb t1 Tipo.REAL || Tipo.eqb t2 Tipo.REAL || String.eqb operador "/"
    then Tipo.REAL else Tipo.INTEIRO.
Proof.
  intros Hop H1 H2. unfold tipo_resultante. unfold ARITMETICOS in Hop. rewrite Hop.
  destruct t1; try discriminate H1; destruct t2; try discriminate H2;
    simpl; destruct (String.eqb operador "/"); reflexivity.
Qed.

Lemma tipo_resultante_texto : tipo_resultante Tipo.TEXTO Tipo.TEXTO "+" = Tipo.TEXTO.
Proof. reflexivity. Qed.

Lemma numerico_nao_erro (t1 t2 : Tipo) (operador : string) :
  Tipo.eqb
    (if Tipo.eqb t1 Tipo.REAL || Tipo.eqb t2 Tipo.REAL || String.eqb operador "/"
     then Tipo.REAL else Tipo.INTEIRO) Tipo.ERRO = false.
Proof.
  destruct (Tipo.eqb t1 Tipo.REAL || Tipo.eqb t2 Tipo.REAL || String.eqb operador "/");
    reflexivity.
Qed.

(** What [visitar_binaria] does once its operands have been visited. *)
Lemma visitar_binaria_passos (esquerda direita : Expressao) (operador : Token)
    (a a1 a2 : AnalisadorSemantico) (t1 t2 : Tipo) :
  aceitar_expressao esquerda a = (Retorno t1, a1) ->
  aceitar_expressao direita a1 = (Retorno t2, a2) ->
  aceitar_expressao (ExpressaoBinaria esquerda operador direita) a =
    let t := tipo_resultante t1 t2 (Token.lexema operador) in
    if Tipo.eqb t Tipo.ERRO then
      (Retorno t,
       com_erros
         (erros a2 ++
          [ErroSemantico.mk
             ("Operador '" +:+ Token.lexema operador
              +:+ "' não pode ser aplicado a '" +:+ Tipo.str t1 +:+ "' e '"
              +:+ Tipo.str t2 +:+ "'")
             (Token.linha operador) (Token.coluna operador)]) a2)
    else (Retorno t, a2).
Proof.
  intros H1 H2.
  change (aceitar_expressao (ExpressaoBinaria esquerda operador direita) a)
    with (visitar_binaria aceitar_expressao esquerda operador direita a).
  unfold visitar_binaria, bind. rewrite H1, H2. cbv zeta.
  destruct (Tipo.eqb (tipo_resultante t1 t2 (Token.lexema operador)) Tipo.ERRO);
    reflexivity.
Qed.

(** C5. A binary node whose operator is one of [+ - * / % **]: when both
    operands are numeric its type is [REAL] if an operand is [REAL] or the
    operator is [/], and [INTEIRO] otherwise; when both operands are
    [TEXTO] and the operator is [+], its type is [TEXTO].  In both cases
    the node records no diagnostic of its own. *)
Theorem tipo_de_binaria_aritmetica (esquerda direita : Expressao) (operador : Token)
    (a a1 a2 : AnalisadorSemantico) (t1 t2 : Tipo) :
  op_em (Token.lexema operador) ARITMETICOS = true ->
  aceitar_expressao esquerda a = (Retorno t1, a1) ->
  aceitar_expressao direita a1 = (Retorno t2, a2) ->
  (numerico t1 = true -> numerico t2 = true ->
   aceitar_expressao (ExpressaoBinaria esquerda operador direita) a =
     (Retorno
        (if Tipo.eqb t1 Tipo.REAL || Tipo.eqb t2 Tipo.REAL
            || String.eqb (Token.lexema operador) "/"
         then Tipo.REAL else Tipo.INTEIRO), a2))
  /\ (t1 = Tipo.TEXTO -> t2 = Tipo.TEXTO -> Token.lexema operador = "+" ->
      aceitar_expressao (ExpressaoBinaria esquerda operador direita) a =
        (Retorno Tipo.TEXTO, a2)).
Proof.
  intros Hop H1 H2. split.
  - intros N1 N2. rewrite (visitar_binaria_passos _ _ _ _ _ _ _ _ H1 H2). cbv zeta.
    rewrite (tipo_resultante_numerico _ _ _ Hop N1 N2), numerico_nao_erro.
    reflexivity.
  - intros -> -> Hl. rewrite (visitar_binaria_passos _ _ _ _ _ _ _ _ H1 H2).
    rewrite Hl. reflexivity.
Qed.

(** The result types of [1 / 2] and of ['a' + 'b'], in the analyser that
    holds the built-in functions only. *)
Lemma tipo_de_binaria_aritmetica_witness :
  aceitar_expressao
    (ExpressaoBinaria
       (ExpressaoLiteral (VInt 1) "inteiro" (Token.mk NUMERO_INTEIRO "1" (VInt 1) 1 1))
       (Token.mk DIVIDE "/" (VStr "/") 1 3)
       (ExpressaoLiteral (VInt 2) "inteiro" (Token.mk NUMERO_INTEIRO "2" (VInt 2) 1 5)))
    (snd AnalisadorSemantico.novo)
  = (Retorno Tipo.REAL, snd AnalisadorSemantico.novo)
  /\ aceitar_expressao
    (ExpressaoBinaria
       (ExpressaoLiteral (VStr "a") "texto" (Token.mk TEXTO "'a'" (VStr "a") 1 1))
       (Token.mk MAIS "+" (VStr "+") 1 5)
       (ExpressaoLiteral (VStr "b") "texto" (Token.mk TEXTO "'b'" (VStr "b") 1 7)))
    (snd AnalisadorSemantico.novo)
  = (Retorno Tipo.TEXTO, snd AnalisadorSemantico.novo).
Proof.
  split.
  - refine (proj1 (tipo_de_binaria_aritmetica _ _ _ _ _ _ Tipo.INTEIRO Tipo.INTEIRO
                     _ _ _) _ _);
      vm_compute; reflexivity.
  - refine (proj2 (tipo_de_binaria_aritmetica _ _ _ _ _ _ Tipo.TEXTO Tipo.TEXTO
                     _ _ _) _ _ _);
      vm_compute; reflexivity.
Defined.

(** ** Redeclaration *)

(** C10. Declaring a variable or a function whose name the current scope
    already holds records the duplicate-declaration error and nothing
    else: the analyser that is left is the one before the declaration
    with that one error appended, so the symbol table and its symbols are
    untouched, and the initializer or the body, which the result does not
    depend on, was not analysed. *)
Theorem declaracao_duplicada (a : AnalisadorSemantico) (escopo : gmap string Ref)
    (nome : string) (token_nome : Token) (r : Ref) (existente : Simbolo) :
  Py.index (TabelaSimbolos.escopos (tabela a)) (TabelaSimbolos.escopo_atual (tabela a))
    = Some escopo ->
  escopo !! nome = Some r ->
  TabelaSimbolos.objetos (tabela a) !! r = Some existente ->
  (forall tipo_dado inicializador constante,
     aceitar_declaracao
       (DeclaracaoVariavel nome token_nome tipo_dado inicializador constante) a =
     (Retorno None,
      com_erros
        (erros a ++
         [ErroSemantico.mk
            ("Variável '" +:+ nome +:+ "' já foi declarada neste escopo (linha "
             +:+ Py.str_int (Simbolo.linha existente) +:+ ")")
            (Token.linha token_nome) (Token.coluna token_nome)]) a))
  /\ (forall parametros tipo_retorno corpo,
        aceitar_declaracao
          (DeclaracaoFuncao nome token_nome parametros tipo_retorno corpo) a =
        (Retorno None,
         com_erros
           (erros a ++
            [ErroSemantico.mk
               ("Função '" +:+ nome +:+ "' já foi declarada na linha "
                +:+ Py.str_int (Simbolo.linha existente))
               (Token.linha token_nome) (Token.coluna token_nome)]) a)).
Proof.
  destruct a as [t es av fa tr]. simpl. intros He Hn Ho. split.
  - intros tipo_dado inicializador constante.
    unfold visitar_declaracao_variavel, bind, na_tabela,
      TabelaSimbolos.buscar_local, TabelaSimbolos.escopo_corrente, bind. simpl.
    rewrite He. simpl. rewrite Hn.
    unfold objeto, na_tabela, TabelaSimbolos.objeto. simpl. rewrite Ho. reflexivity.
  - intros parametros tipo_retorno corpo.
    change (aceitar_declaracao
              (DeclaracaoFuncao nome token_nome parametros tipo_retorno corpo))
      with (visitar_funcao aceitar_declaracao nome token_nome parametros
              tipo_retorno corpo).
    unfold visitar_funcao, bind, na_tabela,
      TabelaSimbolos.buscar_local, TabelaSimbolos.escopo_corrente, bind. simpl.
    rewrite He. simpl. rewrite Hn.
    unfold objeto, na_tabela, TabelaSimbolos.objeto. simpl. rewrite Ho. reflexivity.
Qed.

(** Declaring a variable, and a function, under the name of the built-in
    function [raiz], in the global scope. *)
Lemma declaracao_duplicada_witness :
  aceitar_declaracao
    (DeclaracaoVariavel "raiz" (Token.mk IDENTIFICADOR "raiz" (VStr "raiz") 1 5)
       (Some "inteiro") None false)
    (snd AnalisadorSemantico.novo)
  = (Retorno None,
     com_erros
       [ErroSemantico.mk "Variável 'raiz' já foi declarada neste escopo (linha 0)" 1 5]
       (snd AnalisadorSemantico.novo))
  /\ aceitar_declaracao
    (DeclaracaoFuncao "raiz" (Token.mk IDENTIFICADOR "raiz" (VStr "raiz") 1 8)
       [] None [])
    (snd AnalisadorSemantico.novo)
  = (Retorno None,
     com_erros
       [ErroSemantico.mk "Função 'raiz' já foi declarada na linha 0" 1 8]
       (snd AnalisadorSemantico.novo)).
Proof.
  set (a := snd AnalisadorSemantico.novo).
  set (quadro := Py.index (TabelaSimbolos.escopos (tabela a))
                   (TabelaSimbolos.escopo_atual (tabela a))).
  assert (He : quadro = Some (default ∅ quadro)).
  { assert (Hq : presente quadro = true) by (vm_compute; reflexivity).
    destruct quadro; [reflexivity | discriminate]. }
  assert (Hn : default ∅ quadro !! "raiz" = Some 3%nat) by (vm_compute; reflexivity).
  assert (Ho : TabelaSimbolos.objetos (tabela a) !! 3%nat =
               Some (Simbolo.mk "raiz" Tipo.FUNCAO "funcao" 0 0 0 false
                       [("x", Tipo.REAL)] (Some Tipo.REAL) false))
    by (vm_compute; reflexivity).
  assert (Hv : erros a = []) by (vm_compute; reflexivity).
  split.
  - rewrite (proj1 (declaracao_duplicada a _ "raiz" _ _ _ He Hn Ho)), Hv.
    reflexivity.
  - rewrite (proj2 (declaracao_duplicada a _ "raiz" _ _ _ He Hn Ho)), Hv.
    reflexivity.
Defined.

(** ** Diagnostics after a first failure *)

Lemma tipo_resultante_erro_esquerda (t2 : Tipo) (operador : string) :
  op_em operador ARITMETICOS = true ->
  tipo_resultante Tipo.ERRO t2 operador = Tipo.ERRO.
Proof.
  intros Hop. unfold op_em in Hop.
  apply existsb_exists in Hop as (x & Hin & Heq).
  apply String.eqb_eq in Heq. subst x.
  destruct Hin as [H | [H | [H | [H | [H | [H | []]]]]]]; subst operador; reflexivity.
Qed.

(** An arithmetic node whose left operand has type [ERRO] has type [ERRO]
    and records a diagnostic of its own, after those of its operands. *)
Lemma binaria_aritmetica_sobre_erro (esquerda direita : Expressao) (operador : Token)
    (a a1 a2 : AnalisadorSemantico) (t2 : Tipo) :
  op_em (Token.lexema operador) ARITMETICOS = true ->
  aceitar_expressao esquerda a = (Retorno Tipo.ERRO, a1) ->
  aceitar_expressao direita a1 = (Retorno t2, a2) ->
  aceitar_expressao (ExpressaoBinaria esquerda operador direita) a =
    (Retorno Tipo.ERRO,
     com_erros
       (erros a2 ++
        [ErroSemantico.mk
           ("Operador '" +:+ Token.lexema operador
            +:+ "' não pode ser aplicado a 'erro' e '" +:+ Tipo.str t2 +:+ "'")
           (Token.linha operador) (Token.coluna operador)]) a2).
Proof.
  intros Hop H1 H2. rewrite (visitar_binaria_passos _ _ _ _ _ _ _ _ H1 H2). cbv zeta.
  rewrite (tipo_resultante_erro_esquerda _ _ Hop). reflexivity.
Qed.

(** C1, at the program [y + 1] with [y] undeclared.  The variable node
    has type [ERRO] and records the first diagnostic; the binary node over
    it records a second one, about an operand of type 'erro'. *)
Theorem erro_em_cascata_em_binaria :
  erros <$> analise_de "y" =
    Some [ErroSemantico.mk "Variável 'y' não foi declarada" 1 1]
  /\ erros <$> analise_de "y + 1" =
    Some [ErroSemantico.mk "Variável 'y' não foi declarada" 1 1;
          ErroSemantico.mk "Operador '+' não pode ser aplicado a 'erro' e 'inteiro'" 1 3].
Proof. split; vm_compute; reflexivity. Qed.

(** ** The return flag across [se] *)

(** What [visitar_se] leaves in [tem_retorno]: with both branches, the
    conjunction of what each branch leaves when started from the value
    before the statement; with the then-branch alone, [false]. *)
Lemma visitar_se_tem_retorno (condicao : Expressao) (bloco_verdadeiro : Declaracao)
    (a a1 a2 : AnalisadorSemantico) (tipo_cond : Tipo) (r2 : option Tipo) :
  aceitar_expressao condicao a = (Retorno tipo_cond, a1) ->
  aceitar_declaracao bloco_verdadeiro (apos_condicao_se condicao tipo_cond a1)
    = (Retorno r2, a2) ->
  aceitar_declaracao (DeclaracaoSe condicao bloco_verdadeiro None) a =
    (Retorno None, com_tem_retorno false a2)
  /\ forall bloco_falso r3 a3,
       aceitar_declaracao bloco_falso
         (com_tem_retorno
            (tem_retorno (apos_condicao_se condicao tipo_cond a1)) a2)
         = (Retorno r3, a3) ->
       aceitar_declaracao (DeclaracaoSe condicao bloco_verdadeiro (Some bloco_falso)) a =
         (Retorno None, com_tem_retorno (tem_retorno a2 && tem_retorno a3) a3).
Proof.
  intros Hc Hv.
  assert (Hs : forall bf,
    aceitar_declaracao (DeclaracaoSe condicao bloco_verdadeiro bf) a =
    visitar_se aceitar_declaracao condicao bloco_verdadeiro bf a) by reflexivity.
  split.
  - rewrite Hs. unfold visitar_se, bind. rewrite Hc.
    unfold apos_condicao_se in *.
    destruct (negb (Tipo.eqb tipo_cond Tipo.LOGICO) && negb (Tipo.eqb tipo_cond Tipo.ERRO));
      simpl; simpl in Hv; rewrite Hv; simpl; rewrite andb_false_r; reflexivity.
  - intros bloco_falso r3 a3 Hf. rewrite Hs. unfold visitar_se, bind. rewrite Hc.
    unfold apos_condicao_se in *.
    destruct (negb (Tipo.eqb tipo_cond Tipo.LOGICO) && negb (Tipo.eqb tipo_cond Tipo.ERRO));
      simpl; simpl in Hv; rewrite Hv; simpl; simpl in Hf; rewrite Hf; reflexivity.
Qed.

(** C2, at a then-only [se] that follows a [retorna].  Started with the
    flag set, the statement leaves it cleared; in the function below, whose
    first statement returns, the analyser therefore warns that not every
    path returns. *)
Theorem se_sem_senao_apaga_tem_retorno :
  (exists se a0,
     programa_de "se (verdadeiro) { }" = Some (Programa_ [se])
     /\ AnalisadorSemantico.novo = (Retorno tt, a0)
     /\ tem_retorno (snd (aceitar_declaracao se (com_tem_retorno true a0))) = false)
  /\ avisos <$> analise_de "funcao principal(): inteiro { retorna 1; se (verdadeiro) { } }" =
     Some [AvisoSemantico.mk
             "Função 'principal' deveria retornar 'inteiro' mas nem todos os caminhos têm retorno"
             1 8]
  /\ avisos <$> analise_de "funcao principal(): inteiro { retorna 1 }" = Some [].
Proof.
  split; [| split; vm_compute; reflexivity].
  eexists. eexists. split; [vm_compute; reflexivity |].
  split; [vm_compute; reflexivity |]. vm_compute. reflexivity.
Qed.

(** ** Assignment *)

Lemma list_alter_inicializado (objetos : list Simbolo) (r : Ref) (s : Simbolo) :
  objetos !! r = Some s ->
  alter (Simbolo.com_inicializado true) r objetos !! r =
    Some (Simbolo.com_inicializado true s).
Proof. intros H. rewrite list_lookup_alter_eq, H. reflexivity. Qed.

(** An assignment whose target resolves marks the target initialized,
    whatever it recorded about the target or about the value. *)
Lemma visitar_atribuicao_inicializa (nome : string) (token_nome : Token)
    (valor : Expressao) (a a1 : AnalisadorSemantico) (r : Ref)
    (simbolo simbolo1 : Simbolo) (tipo_valor : Tipo) :
  TabelaSimbolos.buscar nome (tabela a) = Some r ->
  TabelaSimbolos.objetos (tabela a) !! r = Some simbolo ->
  aceitar_expressao valor
    (if Simbolo.constante simbolo
     then com_erros
            (erros a ++
             [ErroSemantico.mk
                ("Não é possível atribuir a constante '" +:+ nome +:+ "'")
                (Token.linha token_nome) (Token.coluna token_nome)]) a
     else a) = (Retorno tipo_valor, a1) ->
  TabelaSimbolos.objetos (tabela a1) !! r = Some simbolo1 ->
  exists a2,
    aceitar_expressao (ExpressaoAtribuicao nome token_nome valor) a =
      (Retorno (Simbolo.tipo simbolo1), a2)
    /\ Simbolo.inicializado <$> simbolo_de nome a = Some (Simbolo.inicializado simbolo)
    /\ TabelaSimbolos.objetos (tabela a2) !! r =
         Some (Simbolo.com_inicializado true simbolo1).
Proof.
  intros Hb Ho Hv Ho1.
  change (aceitar_expressao (ExpressaoAtribuicao nome token_nome valor) a)
    with (visitar_atribuicao aceitar_expressao nome token_nome valor a).
  unfold visitar_atribuicao, bind, buscar, ler. rewrite Hb.
  unfold objeto, na_tabela, TabelaSimbolos.objeto. rewrite Ho. simpl.
  destruct a as [t es av fa tr].
  unfold erro, mudar, ret, com_erros, com_tabela, TabelaSimbolos.atribuir in *.
  simpl in *.
  destruct (Simbolo.constante simbolo); simpl in *; rewrite Hv; rewrite Ho1; simpl;
    destruct (tipos_compativeis (Simbolo.tipo simbolo1) tipo_valor); simpl.
  all: rewrite (list_alter_inicializado _ _ _ Ho1); simpl; eexists.
  all: split; [reflexivity | split].
  all: first [ unfold simbolo_de; simpl; rewrite Hb, Ho; reflexivity
             | simpl; apply list_alter_inicializado; exact Ho1 ].
Qed.

(** C3, at an assignment of a text to an [inteiro] variable, and at an
    assignment to a constant.  Each records its error, and each leaves the
    target, which was not initialized, marked initialized. *)
Theorem atribuicao_com_erro_inicializa :
  (Simbolo.inicializado <$> (analise_de "var x: inteiro" ≫= simbolo_de "x") = Some false
   /\ erros <$> analise_de "var x: inteiro; x = 'a'" =
        Some [ErroSemantico.mk
                "Tipo incompatível: não é possível atribuir 'texto' a 'inteiro'" 1 17]
   /\ Simbolo.inicializado <$> (analise_de "var x: inteiro; x = 'a'" ≫= simbolo_de "x")
        = Some true)
  /\ (Simbolo.inicializado <$> (analise_de "const c: inteiro" ≫= simbolo_de "c")
        = Some false
      /\ erros <$> analise_de "const c: inteiro; c = 1" =
           Some [ErroSemantico.mk
                   "Constante 'c' deve ser inicializada na declaração" 1 7;
                 ErroSemantico.mk "Não é possível atribuir a constante 'c'" 1 19]
      /\ Simbolo.inicializado <$> (analise_de "const c: inteiro; c = 1" ≫= simbolo_de "c")
           = Some true).
Proof. repeat split; vm_compute; reflexivity. Qed.

(** ** The emitter *)

Lemma append_assoc (s1 s2 s3 : string) : (s1 +:+ s2) +:+ s3 = s1 +:+ (s2 +:+ s3).
Proof.
  induction s1 as [| c s1 IH]; [reflexivity |].
  change (String c ((s1 +:+ s2) +:+ s3) = String c (s1 +:+ (s2 +:+ s3))).
  rewrite IH. reflexivity.
Qed.

(** Induction on expressions, with the hypothesis on every argument of a
    call. *)
Section InducaoExpressao.

Variable P : Expressao -> Prop.
Hypothesis P_literal : forall v t tok, P (ExpressaoLiteral v t tok).
Hypothesis P_variavel : forall n tok, P (ExpressaoVariavel n tok).
Hypothesis P_binaria :
  forall e o d, P e -> P d -> P (ExpressaoBinaria e o d).
Hypothesis P_unaria : forall o e, P e -> P (ExpressaoUnaria o e).
Hypothesis P_agrupamento : forall e, P e -> P (ExpressaoAgrupamento e).
Hypothesis P_atribuicao : forall n tok e, P e -> P (ExpressaoAtribuicao n tok e).
Hypothesis P_logica : forall e o d, P e -> P d -> P (ExpressaoLogica e o d).
Hypothesis P_chamada :
  forall n tok args, Forall P args -> P (ExpressaoChamadaFuncao n tok args).
Hypothesis P_acesso :
  forall o i tok, P o -> P i -> P (ExpressaoAcessoArray o i tok).

Fixpoint Expressao_inducao (no : Expressao) : P no :=
  match no with
  | ExpressaoLiteral v t tok => P_literal v t tok
  | ExpressaoVariavel n tok => P_variavel n tok
  | ExpressaoBinaria e o d =>
    P_binaria e o d (Expressao_inducao e) (Expressao_inducao d)
  | ExpressaoUnaria o e => P_unaria o e (Expressao_inducao e)
  | ExpressaoAgrupamento e => P_agrupamento e (Expressao_inducao e)
  | ExpressaoAtribuicao n tok e => P_atribuicao n tok e (Expressao_inducao e)
  | ExpressaoLogica e o d =>
    P_logica e o d (Expressao_inducao e) (Expressao_inducao d)
  | ExpressaoChamadaFuncao n tok args =>
    P_chamada n tok args
      ((fix todos (l : list Expressao) : Forall P l :=
          match l with
          | [] => @List.Forall_nil _ P
          | x :: r => @List.Forall_cons _ P x r (Expressao_inducao x) (todos r)
          end) args)
  | ExpressaoAcessoArray o i tok =>
    P_acesso o i tok (Expressao_inducao o) (Expressao_inducao i)
  end.

End InducaoExpressao.

Section Emissor.

Variable str_float : string -> string.
Variable bool_float : string -> bool.

Abbreviation emitir_expressao :=
  (GeradorPython.aceitar_expressao str_float bool_float).
Abbreviation emitir := (GeradorPython.aceitar_declaracao str_float bool_float).
Abbreviation frag := (fragmento str_float bool_float).

(** Emitting an expression returns a text and leaves the generator as
    it was. *)
Lemma emitir_expressao_pura (no : Expressao) :
  forall g, exists s, emitir_expressao no g = (Retorno s, g).
Proof.
  induction no using Expressao_inducao; intros g.
  - simpl. unfold GeradorPython.visitar_literal.
    destruct (String.eqb t "texto"); [eexists; reflexivity |].
    destruct (String.eqb t "logico"); eexists; reflexivity.
  - eexists; reflexivity.
  - destruct (IHno1 g) as [s1 E1], (IHno2 g) as [s2 E2].
    simpl. unfold GeradorPython.visitar_binaria, bind. rewrite E1, E2.
    eexists; reflexivity.
  - destruct (IHno g) as [s1 E1].
    simpl. unfold GeradorPython.visitar_unaria, bind. rewrite E1.
    destruct (String.eqb (Token.lexema o) "nao"); eexists; reflexivity.
  - destruct (IHno g) as [s1 E1].
    simpl. unfold GeradorPython.visitar_agrupamento, bind. rewrite E1.
    eexists; reflexivity.
  - destruct (IHno g) as [s1 E1].
    simpl. unfold GeradorPython.visitar_atribuicao, bind. rewrite E1.
    unfold ler. destruct (GeradorPython.em_expressao g); eexists; reflexivity.
  - destruct (IHno1 g) as [s1 E1], (IHno2 g) as [s2 E2].
    simpl. unfold GeradorPython.visitar_logica, bind. rewrite E1, E2.
    eexists; reflexivity.
  - assert (Hargs : exists fs,
      GeradorPython.aceitar_cada emitir_expressao args g = (Retorno fs, g)).
    { induction H as [| x r Hx _ IHr]; [eexists; reflexivity |].
      destruct (Hx g) as [s1 E1], IHr as [fs Efs].
      simpl. unfold bind. rewrite E1, Efs. eexists; reflexivity. }
    destruct Hargs as [fs Efs].
    change (emitir_expressao (ExpressaoChamadaFuncao n tok args) g)
      with (GeradorPython.visitar_chamada_funcao emitir_expressao n tok args g).
    unfold GeradorPython.visitar_chamada_funcao, bind. rewrite Efs.
    eexists; reflexivity.
  - destruct (IHno1 g) as [s1 E1], (IHno2 g) as [s2 E2].
    simpl. unfold GeradorPython.visitar_acesso_array, bind. rewrite E1, E2.
    eexists; reflexivity.
Qed.

Lemma emitir_expressao_fragmento (no : Expressao) (g : GeradorPython) :
  emitir_expressao no g = (Retorno (frag g no), g).
Proof.
  destruct (emitir_expressao_pura no g) as [s E].
  unfold fragmento. rewrite E. reflexivity.
Qed.

Lemma aceitar_cada_fragmentos (expressoes : list Expressao) (g : GeradorPython) :
  GeradorPython.aceitar_cada emitir_expressao expressoes g =
    (Retorno (map (frag g) expressoes), g).
Proof.
  induction expressoes as [| e r IH]; [reflexivity |].
  simpl. unfold bind. rewrite emitir_expressao_fragmento, IH. reflexivity.
Qed.

(** What [visitar_escreva] adds: one line, built from the fragments
    joined by commas and the text [, sep='')]. *)
Lemma visitar_escreva_linha (expressoes : list Expressao) (g : GeradorPython) :
  emitir (DeclaracaoEscreva expressoes) g =
    (Retorno "",
     com_linha
       ("print(" +:+ Py.join ", " (map (frag g) expressoes) +:+ ", sep='')") g).
Proof.
  simpl. unfold GeradorPython.visitar_escreva, bind.
  rewrite aceitar_cada_fragmentos. reflexivity.
Qed.

Lemma join_mais_um (sep ultimo : string) (partes : list string) :
  partes <> [] ->
  Py.join sep (partes ++ [ultimo]) = Py.join sep partes +:+ sep +:+ ultimo.
Proof.
  induction partes as [| p r IH]; [congruence |]. intros _.
  destruct r as [| q r']; [reflexivity |].
  change (p +:+ sep +:+ Py.join sep ((q :: r') ++ [ultimo])
          = (p +:+ sep +:+ Py.join sep (q :: r')) +:+ sep +:+ ultimo).
  rewrite IH by congruence. rewrite !append_assoc. reflexivity.
Qed.

(** With at least one expression, the line [visitar_escreva] adds is the
    host call of [print] on the fragments with [sep='']. *)
Lemma visitar_escreva_chamada (expressoes : list Expressao) (g : GeradorPython) :
  expressoes <> [] ->
  emitir (DeclaracaoEscreva expressoes) g =
    (Retorno "", com_linha (chamada_print (map (frag g) expressoes)) g).
Proof.
  intros Hne. rewrite visitar_escreva_linha. unfold chamada_print.
  rewrite join_mais_um by (destruct expressoes; [congruence | discriminate]).
  rewrite !append_assoc. reflexivity.
Qed.

(** Induction on declarations, with the hypothesis on every declaration
    of a block or of a function body and on the else-branch when there
    is one. *)
Section InducaoDeclaracao.

Variable P : Declaracao -> Prop.
Hypothesis P_expressao : forall e, P (DeclaracaoExpressao e).
Hypothesis P_variavel : forall n tok td ini c, P (DeclaracaoVariavel n tok td ini c).
Hypothesis P_bloco : forall ds, Forall P ds -> P (DeclaracaoBloco ds).
Hypothesis P_se :
  forall c bv bf,
    P bv -> match bf with Some b => P b | None => True end ->
    P (DeclaracaoSe c bv bf).
Hypothesis P_enquanto : forall c corpo, P corpo -> P (DeclaracaoEnquanto c corpo).
Hypothesis P_para :
  forall v tok i f p corpo, P corpo -> P (DeclaracaoPara v tok i f p corpo).
Hypothesis P_funcao :
  forall n tok ps tr corpo, Forall P corpo -> P (DeclaracaoFuncao n tok ps tr corpo).
Hypothesis P_retorna : forall tok v, P (DeclaracaoRetorna tok v).
Hypothesis P_escreva : forall es, P (DeclaracaoEscreva es).
Hypothesis P_leia : forall v tok m, P (DeclaracaoLeia v tok m).

Fixpoint Declaracao_inducao (no : Declaracao) : P no :=
  match no with
  | DeclaracaoExpressao e => P_expressao e
  | DeclaracaoVariavel n tok td ini c => P_variavel n tok td ini c
  | DeclaracaoBloco ds =>
    P_bloco ds
      ((fix todas (l : list Declaracao) : Forall P l :=
          match l with
          | [] => @List.Forall_nil _ P
          | x :: r => @List.Forall_cons _ P x r (Declaracao_inducao x) (todas r)
          end) ds)
  | DeclaracaoSe c bv bf =>
    P_se c bv bf (Declaracao_inducao bv)
      (match bf as o return match o with Some b => P b | None => True end with
       | Some b => Declaracao_inducao b
       | None => I
       end)
  | DeclaracaoEnquanto c corpo => P_enquanto c corpo (Declaracao_inducao corpo)
  | DeclaracaoPara v tok i f p corpo =>
    P_para v tok i f p corpo (Declaracao_inducao corpo)
  | DeclaracaoFuncao n tok ps tr corpo =>
    P_funcao n tok ps tr corpo
      ((fix todas (l : list Declaracao) : Forall P l :=
          match l with
          | [] => @List.Forall_nil _ P
          | x :: r => @List.Forall_cons _ P x r (Declaracao_inducao x) (todas r)
          end) corpo)
  | DeclaracaoRetorna tok v => P_retorna tok v
  | DeclaracaoEscreva es => P_escreva es
  | DeclaracaoLeia v tok m => P_leia v tok m
  end.

End InducaoDeclaracao.

Ltac desdobra :=
  unfold GeradorPython.visitar_declaracao_expressao,
    GeradorPython.visitar_declaracao_variavel, GeradorPython.visitar_retorna,
    GeradorPython.visitar_escreva, GeradorPython.visitar_leia,
    GeradorPython.visitar_bloco, GeradorPython.visitar_se,
    GeradorPython.visitar_enquanto, GeradorPython.visitar_para,
    GeradorPython.visitar_funcao, GeradorPython._adicionar,
    GeradorPython.indentar, GeradorPython.desindentar, bind, mudar, ret, ler.

Ltac fecha :=
  simpl; rewrite <- ?app_assoc; rewrite ?Z.add_simpl_r;
  do 2 eexists; reflexivity.

Ltac usa IH :=
  match goal with
  | |- context [emitir ?d ?g] => destruct (IH g) as (? & ? & ->)
  end.

Lemma aceitar_todas_acrescenta (declaracoes : list Declaracao) :
  Forall (so_acrescenta str_float bool_float) declaracoes ->
  forall g, exists linhas em,
    GeradorPython.aceitar_todas emitir declaracoes g =
      (Retorno tt,
       GeradorPython.mk (GeradorPython.indent_level g)
         (GeradorPython.codigo g ++ linhas) em).
Proof.
  induction 1 as [| d r Hd _ IH]; intros g.
  - exists [], (GeradorPython.em_expressao g). simpl. unfold ret.
    rewrite app_nil_r. destruct g; reflexivity.
  - simpl. unfold bind. destruct (Hd g) as (l1 & em1 & ->).
    match goal with
    | |- context [GeradorPython.aceitar_todas _ r ?g'] =>
      destruct (IH g') as (l2 & em2 & ->)
    end.
    fecha.
Qed.

(** The emitter returns on every declaration, and what it does to the
    generator is to append lines. *)
Lemma emitir_so_acrescenta (no : Declaracao) :
  so_acrescenta str_float bool_float no
  /\ match no with
     | DeclaracaoSe _ bv bf =>
       so_acrescenta str_float bool_float bv
       /\ match bf with
          | Some b => so_acrescenta str_float bool_float b
          | None => True
          end
     | _ => True
     end.
Proof.
  induction no using Declaracao_inducao.
  - split; [| exact I]. intros g. simpl. desdobra.
    rewrite emitir_expressao_fragmento. fecha.
  - split; [| exact I]. intros g. simpl. desdobra.
    destruct ini; [rewrite emitir_expressao_fragmento |]; fecha.
  - split; [| exact I]. intros g.
    change (emitir (DeclaracaoBloco ds) g)
      with (GeradorPython.visitar_bloco emitir ds g).
    desdobra.
    destruct (aceitar_todas_acrescenta ds (Forall_impl _ _ _ H (fun _ HQ => proj1 HQ)) g)
      as (l & em & ->).
    fecha.
  - destruct IHno as [Hbv _].
    assert (Hbf : match bf with
                  | Some b => so_acrescenta str_float bool_float b
                  | None => True
                  end) by (destruct bf; [apply H | exact I]).
    split; [| split; assumption].
    intros g.
    change (emitir (DeclaracaoSe c no bf) g)
      with (GeradorPython.visitar_se str_float bool_float emitir c no bf g).
    desdobra. rewrite emitir_expressao_fragmento.
    usa Hbv.
    destruct bf as [b |].
    + destruct H as [Hb Hfilhos].
      destruct b; try (destruct (GeradorPython.sem_declaracoes no); usa Hb; fecha).
      destruct Hfilhos as [Hbv2 Hbf2].
      destruct (GeradorPython.sem_declaracoes no); simpl;
        rewrite emitir_expressao_fragmento; usa Hbv2;
        (destruct bloco_falso as [b2 |]; [usa Hbf2 |]); fecha.
    + destruct (GeradorPython.sem_declaracoes no); fecha.
  - destruct IHno as [Hc _]. split; [| exact I]. intros g.
    change (emitir (DeclaracaoEnquanto c no) g)
      with (GeradorPython.visitar_enquanto str_float bool_float emitir c no g).
    desdobra. rewrite emitir_expressao_fragmento. usa Hc. fecha.
  - destruct IHno as [Hc _]. split; [| exact I]. intros g.
    change (emitir (DeclaracaoPara v tok i f p no) g)
      with (GeradorPython.visitar_para str_float bool_float emitir v tok i f p no g).
    desdobra. rewrite !emitir_expressao_fragmento.
    destruct p; [rewrite emitir_expressao_fragmento |]; usa Hc; fecha.
  - split; [| exact I]. intros g.
    change (emitir (DeclaracaoFuncao n tok ps tr corpo) g)
      with (GeradorPython.visitar_funcao emitir n tok ps tr corpo g).
    do 2 desdobra.
    match goal with
    | |- context [GeradorPython.aceitar_todas _ corpo ?g'] =>
      destruct (aceitar_todas_acrescenta corpo
                  (Forall_impl _ _ _ H (fun _ HQ => proj1 HQ)) g') as (l & em & ->)
    end.
    destruct corpo; fecha.
  - split; [| exact I]. intros g. simpl. desdobra.
    destruct v; [rewrite emitir_expressao_fragmento |]; fecha.
  - split; [| exact I]. intros g. rewrite visitar_escreva_linha.
    unfold com_linha. fecha.
  - split; [| exact I]. intros g. simpl. desdobra.
    destruct m; [rewrite emitir_expressao_fragmento |]; fecha.
Qed.

(** What [visitar_para] does to the generator: it adds the header, and
    emits the body one level deeper. *)
Lemma visitar_para_passos (variavel : string) (token_variavel : Token)
    (inicio fim : Expressao) (passo : option Expressao) (corpo : Declaracao)
    (g : GeradorPython) :
  let cab := cabecalho_para variavel (frag g inicio) (frag g fim) (frag g <$> passo) in
  exists linhas em,
    emitir corpo (mais_fundo (com_linha cab g)) =
      (Retorno "",
       GeradorPython.mk (GeradorPython.indent_level g + 1)
         (GeradorPython.codigo g ++ (GeradorPython._indent g +:+ cab) :: linhas) em)
    /\ emitir (DeclaracaoPara variavel token_variavel inicio fim passo corpo) g =
      (Retorno "",
       GeradorPython.mk (GeradorPython.indent_level g)
         (GeradorPython.codigo g ++ (GeradorPython._indent g +:+ cab) :: linhas) em).
Proof.
  intros cab.
  destruct (proj1 (emitir_so_acrescenta corpo) (mais_fundo (com_linha cab g)))
    as (linhas & em & E).
  exists linhas, em. split.
  - rewrite E. simpl. rewrite <- app_assoc. reflexivity.
  - change (emitir (DeclaracaoPara variavel token_variavel inicio fim passo corpo) g)
      with (GeradorPython.visitar_para str_float bool_float emitir variavel
              token_variavel inicio fim passo corpo g).
    desdobra. rewrite !emitir_expressao_fragmento.
    destruct passo as [p |]; [rewrite emitir_expressao_fragmento |];
      (match goal with
       | |- context [emitir corpo ?g'] =>
         change g' with (mais_fundo (com_linha cab g))
       end);
      rewrite E; simpl; rewrite <- app_assoc, Z.add_simpl_r; reflexivity.
Qed.

Lemma range_itens_caracterizacao (n : nat) :
  forall item stop,
    stop - item <= Z.of_nat n ->
    length (Py.range_itens n item stop) = Z.to_nat (stop - item)
    /\ forall i, In i (Py.range_itens n item stop) <-> item <= i < stop.
Proof.
  induction n as [| k IH]; intros item stop Hn.
  - simpl. split; [lia |]. intros i. split; [intros [] | lia].
  - simpl. destruct (Z.ltb_spec item stop) as [Hlt | Hge].
    + destruct (IH (item + 1) stop ltac:(lia)) as [Hlen Hin]. split.
      * simpl. rewrite Hlen. lia.
      * intros i. simpl. rewrite Hin. lia.
    + split; [simpl; lia |]. intros i. split; [intros [] | lia].
Qed.

(** A [para] statement appends the header of a host [for] loop over
    [range(A, B + 1)], or [range(A, B + 1, S)] when there is a step,
    where [A], [B], [S] are the emitted fragments, followed by the lines
    of its body one level deeper. *)
Lemma para_cabecalho_e_corpo (variavel : string) (token_variavel : Token)
    (inicio fim : Expressao) (passo : option Expressao) (corpo : Declaracao)
    (g : GeradorPython) :
  let cab := cabecalho_para variavel (frag g inicio) (frag g fim) (frag g <$> passo) in
  linhas_de str_float bool_float
    (DeclaracaoPara variavel token_variavel inicio fim passo corpo) g =
    (GeradorPython._indent g +:+ cab)
    :: linhas_de str_float bool_float corpo (mais_fundo (com_linha cab g)).
Proof.
  intros cab.
  destruct (visitar_para_passos variavel token_variavel inicio fim passo corpo g)
    as (linhas & em & Ecorpo & Epara).
  fold cab in Ecorpo, Epara.
  unfold linhas_de. rewrite Ecorpo, Epara. simpl.
  rewrite drop_app_length.
  rewrite (cons_middle (GeradorPython._indent g +:+ cab)
             (GeradorPython.codigo g) linhas), app_assoc, drop_app_length.
  reflexivity.
Qed.

(** The host's [range(a, b + 1)] has [max(0, b - a + 1)] items, which
    are the integers from [a] to [b], both included. *)
Lemma range_inclusivo (a b : Z) :
  length (Py.range a (b + 1)) = Z.to_nat (Z.max 0 (b - a + 1))
  /\ forall i, In i (Py.range a (b + 1)) <-> a <= i <= b.
Proof.
  unfold Py.range.
  destruct (range_itens_caracterizacao (Z.to_nat (b + 1 - a)) a (b + 1) ltac:(lia))
    as [Hlen Hin].
  split; [rewrite Hlen; lia |]. intros i. rewrite Hin. lia.
Qed.

(** C8, at [para i de 1 ate 3 { }] and at [para i de 1.5 ate 3.5 {
    escreva(i) }], which the analyser accepts without an error.  The
    header emitted is the one of a host loop over [range(A, B + 1)], with
    the step after it when there is one, and the body follows one level
    deeper.  But for the empty body nothing follows the header, where a
    function with an empty body is given a [pass] line: what is emitted
    is a header without its block, not a host loop.  And the bounds of
    type [real], which the analyser takes, are emitted inside [range] as
    they are, where the host's [range] takes integers only.  In neither
    case does a body run three times. *)
Theorem para_sem_corpo_ou_com_limites_reais :
  AnalisadorSemantico.erros <$> analise_de "para i de 1 ate 3 { }" = Some []
  /\ codigo_gerado str_float bool_float "para i de 1 ate 3 { }" =
       Some (codigo_com ["for i in range(1, 3 + 1):"])
  /\ codigo_gerado str_float bool_float "funcao f() { }" =
       Some (codigo_com ["def f():"; "    pass"; ""])
  /\ AnalisadorSemantico.erros <$> analise_de "para i de 1.5 ate 3.5 { escreva(i) }"
     = Some []
  /\ codigo_gerado str_float bool_float "para i de 1.5 ate 3.5 { escreva(i) }" =
       Some (codigo_com
               [ "for i in range(" +:+ str_float "1.5" +:+ ", " +:+ str_float "3.5"
                 +:+ " + 1):";
                 "    print(i, sep='')" ])
  /\ codigo_gerado str_float bool_float
       "funcao f() { para i de 1 ate 10 passo 2 { escreva(i) } }" =
       Some (codigo_com
               [ "def f():";
                 "    for i in range(1, 10 + 1, 2):";
                 "        print(i, sep='')";
                 "" ]).
Proof.
  split; [vm_compute; reflexivity |].
  split; [vm_compute; reflexivity |].
  split; [vm_compute; reflexivity |].
  split; [vm_compute; reflexivity |].
  split; [vm_compute; reflexivity |].
  vm_compute; reflexivity.
Qed.

(** C9, at [escreva()], which the parser accepts.  The line emitted for
    it opens the argument list of [print] with a comma: it is not the
    host call of [print] with [sep=''] and no other argument. *)
Theorem escreva_sem_expressoes :
  programa_de "escreva()" = Some (Programa_ [DeclaracaoEscreva []])
  /\ (forall g,
        linhas_de str_float bool_float (DeclaracaoEscreva []) g =
          [GeradorPython._indent g +:+ "print(, sep='')"])
  /\ chamada_print [] = "print(sep='')"
  /\ "print(, sep='')" <> chamada_print [].
Proof.
  split; [vm_compute; reflexivity |]. split; [| split].
  - intros g. unfold linhas_de. rewrite visitar_escreva_linha.
    unfold com_linha. simpl. rewrite drop_app_length. reflexivity.
  - reflexivity.
  - discriminate.
Qed.

End Emissor.

(** ** The parser at an identifier *)

Section ParserEmToken.

Variable p : Parser.Parser.
Variable t : Token.
Hypothesis posicao : 0 <= Parser.atual p.
Hypothesis corrente : Parser.tokens p !! Z.to_nat (Parser.atual p) = Some t.

Lemma token_atual_em : Parser.token_atual p = (Retorno t, p).
Proof.
  unfold Parser.token_atual, Py.index.
  destruct (Z.leb_spec 0 (Parser.atual p)) as [_ | H]; [| lia].
  rewrite corrente. reflexivity.
Qed.

Lemma fim_tokens_em :
  Parser.fim_tokens p = (Retorno (TipoToken_eqb (Token.tipo t) FIM_ARQUIVO), p).
Proof. unfold Parser.fim_tokens, bind. rewrite token_atual_em. reflexivity. Qed.

Lemma verificar_em (tipo : TipoToken) :
  Parser.verificar tipo p =
    (Retorno (negb (TipoToken_eqb (Token.tipo t) FIM_ARQUIVO)
              && TipoToken_eqb (Token.tipo t) tipo), p).
Proof.
  unfold Parser.verificar, bind. rewrite fim_tokens_em.
  destruct (TipoToken_eqb (Token.tipo t) FIM_ARQUIVO); [reflexivity |].
  rewrite token_atual_em. reflexivity.
Qed.

Lemma avancar_em :
  TipoToken_eqb (Token.tipo t) FIM_ARQUIVO = false ->
  Parser.avancar p = (Retorno t, Parser.com_atual (Parser.atual p + 1) p).
Proof.
  intros Hfim. unfold Parser.avancar, bind. rewrite fim_tokens_em, Hfim. simpl.
  unfold Parser.token_anterior, Py.index. simpl.
  rewrite Z.add_simpl_r.
  destruct (Z.leb_spec 0 (Parser.atual p)) as [_ | H]; [| lia].
  rewrite corrente. reflexivity.
Qed.

Lemma combinar_em (tipos : list TipoToken) :
  Parser.combinar tipos p =
    if negb (TipoToken_eqb (Token.tipo t) FIM_ARQUIVO)
       && Parser.tipo_em (Token.tipo t) tipos
    then (Retorno true, Parser.com_atual (Parser.atual p + 1) p)
    else (Retorno false, p).
Proof.
  induction tipos as [| tipo resto IH]; simpl.
  - rewrite andb_false_r. reflexivity.
  - unfold bind. rewrite verificar_em.
    destruct (TipoToken_eqb (Token.tipo t) FIM_ARQUIVO) eqn:Hfim; simpl.
    + rewrite IH, ?Hfim. reflexivity.
    + destruct (TipoToken_eqb (Token.tipo t) tipo); simpl.
      * rewrite (avancar_em Hfim). reflexivity.
      * rewrite IH, ?Hfim. reflexivity.
Qed.

Lemma combinar_nao (tipos : list TipoToken) :
  Parser.tipo_em (Token.tipo t) tipos = false ->
  Parser.combinar tipos p = (Retorno false, p).
Proof. intros H. rewrite combinar_em, H, andb_false_r. reflexivity. Qed.

Lemma combinar_sim (tipos : list TipoToken) :
  TipoToken_eqb (Token.tipo t) FIM_ARQUIVO = false ->
  Parser.tipo_em (Token.tipo t) tipos = true ->
  Parser.combinar tipos p = (Retorno true, Parser.com_atual (Parser.atual p + 1) p).
Proof. intros Hfim H. rewrite combinar_em, H, Hfim. reflexivity. Qed.

Lemma token_anterior_apos :
  Parser.token_anterior (Parser.com_atual (Parser.atual p + 1) p) =
    (Retorno t, Parser.com_atual (Parser.atual p + 1) p).
Proof.
  unfold Parser.token_anterior, Py.index. simpl. rewrite Z.add_simpl_r.
  destruct (Z.leb_spec 0 (Parser.atual p)) as [_ | H]; [| lia].
  rewrite corrente. reflexivity.
Qed.

End ParserEmToken.

#[local] Arguments Parser.combinar : simpl never.
#[local] Arguments Parser.token_anterior : simpl never.

(** The loops and the self-recursive methods, one round unfolded. *)
Section UmaVolta.

Variable expr_rec : M Parser.Parser Expressao.
Variable orcamento : nat.

Lemma chamada_laco_para (n : nat) (expr : Expressao) (q : Parser.Parser) :
  Parser.combinar [ABRE_PAREN] q = (Retorno false, q) ->
  Parser.combinar [ABRE_COLCHETE] q = (Retorno false, q) ->
  Parser.chamada_laco expr_rec orcamento n expr q = (Retorno expr, q).
Proof.
  intros H1 H2. destruct n; simpl; unfold bind; rewrite H1; cbv beta iota;
    rewrite H2; reflexivity.
Qed.

Lemma unario_sem_prefixo (n : nat) (q : Parser.Parser) :
  Parser.combinar [NAO; MENOS] q = (Retorno false, q) ->
  Parser.unario_ expr_rec orcamento n q = Parser.chamada expr_rec orcamento q.
Proof. intros H. destruct n; simpl; unfold bind; rewrite H; reflexivity. Qed.

Lemma potencia_sem_potencia (n : nat) (expr : Expressao) (q q1 : Parser.Parser) :
  Parser.unario expr_rec orcamento q = (Retorno expr, q1) ->
  Parser.combinar [POTENCIA] q1 = (Retorno false, q1) ->
  Parser.potencia_ expr_rec orcamento n q = (Retorno expr, q1).
Proof.
  intros H1 H2. destruct n; simpl; unfold bind; rewrite H1; cbv beta iota;
    rewrite H2; reflexivity.
Qed.

Lemma binaria_laco_para (tipos : list TipoToken) (operando : M Parser.Parser Expressao)
    (no : Expressao -> Token -> Expressao -> Expressao) (n : nat)
    (expr : Expressao) (q : Parser.Parser) :
  Parser.combinar tipos q = (Retorno false, q) ->
  Parser.binaria_laco tipos operando no n expr q = (Retorno expr, q).
Proof. intros H. destruct n; simpl; unfold bind; rewrite H; reflexivity. Qed.

Lemma atribuicao_uma_volta (n : nat) (q : Parser.Parser) :
  Parser.atribuicao_ expr_rec orcamento (S n) q =
    (let* expr := Parser.logico_ou expr_rec orcamento in
     let* c := Parser.combinar
                 [ATRIBUICAO; MAIS_IGUAL; MENOS_IGUAL; MULT_IGUAL; DIV_IGUAL] in
     if c then
       let* operador := Parser.token_anterior in
       let* valor := Parser.atribuicao_ expr_rec orcamento n in
       match expr with
       | ExpressaoVariavel nome token =>
         let* valor :=
           (if negb (TipoToken_eqb (Token.tipo operador) ATRIBUICAO) then
              let* tipo := ou_levanta KeyError (Parser.op_map (Token.tipo operador)) in
              let* lex := ou_levanta IndexError
                            (Parser.primeiro (Token.lexema operador)) in
              let op_token :=
                Token.mk tipo lex VNone (Token.linha operador)
                  (Token.coluna operador) in
              ret (ExpressaoBinaria expr op_token valor)
            else ret valor) in
         ret (ExpressaoAtribuicao nome token valor)
       | _ => levanta (ErroSintatico "Alvo de atribuição inválido" operador)
       end
     else ret expr) q.
Proof. reflexivity. Qed.

End UmaVolta.

(** An identifier followed by a token that does not continue the
    expression is read, below the assignment level, as the variable alone. *)
Section IdentificadorSozinho.

Variable expr_rec : M Parser.Parser Expressao.
Variable orcamento : nat.
Variable p : Parser.Parser.
Variables tx top : Token.
Hypothesis posicao : 0 <= Parser.atual p.
Hypothesis Hx : Parser.tokens p !! Z.to_nat (Parser.atual p) = Some tx.
Hypothesis Hxt : Token.tipo tx = IDENTIFICADOR.
Hypothesis Hop : Parser.tokens p !! Z.to_nat (Parser.atual p + 1) = Some top.
Hypothesis Hcont : continua_expressao (Token.tipo top) = false.

Let p1 := Parser.com_atual (Parser.atual p + 1) p.

Lemma posicao1 : 0 <= Parser.atual p1.
Proof. simpl. lia. Qed.

Lemma corrente1 : Parser.tokens p1 !! Z.to_nat (Parser.atual p1) = Some top.
Proof. exact Hop. Qed.

Lemma nao_continua (tipos : list TipoToken) :
  (forall tipo, Parser.tipo_em tipo tipos = true -> continua_expressao tipo = true) ->
  Parser.combinar tipos p1 = (Retorno false, p1).
Proof.
  intros Hsub. apply (combinar_nao p1 top posicao1 corrente1).
  destruct (Parser.tipo_em (Token.tipo top) tipos) eqn:Hem; [| reflexivity].
  rewrite (Hsub _ Hem) in Hcont. discriminate Hcont.
Qed.

Ltac subconjunto :=
  let tipo := fresh "tipo" in
  intros tipo; destruct tipo; vm_compute; congruence.

Lemma primario_identificador :
  Parser.primario expr_rec p = (Retorno (ExpressaoVariavel (Token.lexema tx) tx), p1).
Proof.
  unfold Parser.primario, bind.
  do 5 (rewrite (combinar_nao p tx posicao Hx) by (rewrite Hxt; reflexivity);
        cbv beta iota).
  rewrite (combinar_sim p tx posicao Hx) by (rewrite Hxt; reflexivity).
  cbv beta iota.
  rewrite (token_anterior_apos p tx posicao Hx). cbv beta iota.
  rewrite (token_anterior_apos p tx posicao Hx). reflexivity.
Qed.

Lemma logico_ou_identificador :
  Parser.logico_ou expr_rec orcamento p =
    (Retorno (ExpressaoVariavel (Token.lexema tx) tx), p1).
Proof.
  assert (Hchamada : Parser.chamada expr_rec orcamento p =
            (Retorno (ExpressaoVariavel (Token.lexema tx) tx), p1)).
  { unfold Parser.chamada, bind. rewrite primario_identificador.
    apply chamada_laco_para; apply nao_continua; subconjunto. }
  assert (Hunario : Parser.unario expr_rec orcamento p =
            (Retorno (ExpressaoVariavel (Token.lexema tx) tx), p1)).
  { unfold Parser.unario. rewrite unario_sem_prefixo; [exact Hchamada |].
    apply (combinar_nao p tx posicao Hx). rewrite Hxt. reflexivity. }
  assert (Hpotencia : Parser.potencia expr_rec orcamento p =
            (Retorno (ExpressaoVariavel (Token.lexema tx) tx), p1)).
  { unfold Parser.potencia. apply potencia_sem_potencia with (q1 := p1);
      [exact Hunario | apply nao_continua; subconjunto]. }
  unfold Parser.logico_ou, Parser.logico_e, Parser.igualdade, Parser.comparacao,
    Parser.termo, Parser.fator, bind.
  rewrite Hpotencia.
  repeat (rewrite binaria_laco_para by (apply nao_continua; subconjunto)).
  reflexivity.
Qed.

End IdentificadorSozinho.

(** ** Compound assignment *)

(** C7. At an identifier [x] followed by one of [+= -= *= /=], the parser
    returns, for the right-hand side [e] that [atribuicao] reads after the
    operator, the node of [x = x op e]: an assignment to [x] whose value
    is one binary node over the variable [x] and [e], under a token of the
    arithmetic operator that has no value and the line and column of the
    compound operator.  The emitter gives that node the text it gives any
    node of [x = x op e], whatever the positions in its tokens. *)
Theorem atribuicao_composta (n : nat) (p p' : Parser.Parser) (tx top : Token)
    (op_tipo : TipoToken) (e : Expressao) :
  0 <= Parser.atual p ->
  Parser.tokens p !! Z.to_nat (Parser.atual p) = Some tx ->
  Token.tipo tx = IDENTIFICADOR ->
  Parser.tokens p !! Z.to_nat (Parser.atual p + 1) = Some top ->
  Parser.op_map (Token.tipo top) = Some op_tipo ->
  Token.lexema top = lexema_composto (Token.tipo top) ->
  Parser.atribuicao_ (fun q => Parser.expressao n q) (S n) n
    (Parser.com_atual (Parser.atual p + 2) p) = (Retorno e, p') ->
  let x := Token.lexema tx in
  let op_token :=
    Token.mk op_tipo (lexema_aritmetico op_tipo) VNone
      (Token.linha top) (Token.coluna top) in
  let no :=
    ExpressaoAtribuicao x tx (ExpressaoBinaria (ExpressaoVariavel x tx) op_token e) in
  Parser.expressao (S n) p = (Retorno no, p')
  /\ forall str_float bool_float g t1 t2 o,
       Token.lexema o = lexema_aritmetico op_tipo ->
       GeradorPython.aceitar_expressao str_float bool_float no g =
       GeradorPython.aceitar_expressao str_float bool_float
         (ExpressaoAtribuicao x t1 (ExpressaoBinaria (ExpressaoVariavel x t2) o e)) g.
Proof.
  intros Hpos Hx Hxt Hop Hmap Hlex He x op_token no. split.
  - assert (Hcont : continua_expressao (Token.tipo top) = false).
    { destruct (Token.tipo top); try discriminate Hmap; reflexivity. }
    assert (Hfim : TipoToken_eqb (Token.tipo top) FIM_ARQUIVO = false).
    { destruct (Token.tipo top); try discriminate Hmap; reflexivity. }
    assert (Hem : Parser.tipo_em (Token.tipo top)
                    [ATRIBUICAO; MAIS_IGUAL; MENOS_IGUAL; MULT_IGUAL; DIV_IGUAL] = true).
    { destruct (Token.tipo top); try discriminate Hmap; reflexivity. }
    assert (Hnatr : TipoToken_eqb (Token.tipo top) ATRIBUICAO = false).
    { destruct (Token.tipo top); try discriminate Hmap; reflexivity. }
    assert (Hprim : Parser.primeiro (Token.lexema top) = Some (lexema_aritmetico op_tipo)).
    { rewrite Hlex. destruct (Token.tipo top); try discriminate Hmap;
        injection Hmap as <-; reflexivity. }
    set (p1 := Parser.com_atual (Parser.atual p + 1) p).
    assert (Hpos1 : 0 <= Parser.atual p1) by (simpl; lia).
    assert (Hp2 : Parser.com_atual (Parser.atual p1 + 1) p1
                  = Parser.com_atual (Parser.atual p + 2) p).
    { unfold Parser.com_atual. simpl. f_equal. lia. }
    change (Parser.expressao (S n) p)
      with (Parser.atribuicao_ (fun q => Parser.expressao n q) (S n) (S n) p).
    rewrite atribuicao_uma_volta. unfold bind.
    rewrite (logico_ou_identificador _ _ p tx top Hpos Hx Hxt Hop Hcont).
    fold p1. cbv beta iota.
    rewrite (combinar_sim p1 top Hpos1 Hop _ Hfim Hem). cbv beta iota.
    rewrite (token_anterior_apos p1 top Hpos1 Hop). cbv beta iota.
    rewrite Hp2, He. cbv beta iota.
    rewrite Hnatr, Hmap, Hprim. reflexivity.
  - intros str_float bool_float g t1 t2 o Ho. subst no op_token. simpl.
    unfold GeradorPython.visitar_atribuicao, bind. simpl.
    unfold GeradorPython.visitar_binaria, bind. simpl.
    rewrite Ho. reflexivity.
Qed.

(** The tree the parser builds for [x += 2]. *)
Lemma atribuicao_composta_witness :
  Parser.expressao 5 (Parser.novo (default [] (tokens_de "x += 2")))
  = (Retorno
       (ExpressaoAtribuicao "x" (Token.mk IDENTIFICADOR "x" (VStr "x") 1 1)
          (ExpressaoBinaria
             (ExpressaoVariavel "x" (Token.mk IDENTIFICADOR "x" (VStr "x") 1 1))
             (Token.mk MAIS "+" VNone 1 3)
             (ExpressaoLiteral (VInt 2) "inteiro"
                (Token.mk NUMERO_INTEIRO "2" (VInt 2) 1 6)))),
     Parser.com_atual 3 (Parser.novo (default [] (tokens_de "x += 2")))).
Proof.
  refine (proj1 (atribuicao_composta 4
                   (Parser.novo (default [] (tokens_de "x += 2")))
                   (Parser.com_atual 3 (Parser.novo (default [] (tokens_de "x += 2"))))
                   (Token.mk IDENTIFICADOR "x" (VStr "x") 1 1)
                   (Token.mk MAIS_IGUAL "+=" (VStr "+=") 1 3)
                   MAIS
                   (ExpressaoLiteral (VInt 2) "inteiro"
                      (Token.mk NUMERO_INTEIRO "2" (VInt 2) 1 6))
                   _ _ _ _ _ _ _));
    vm_compute; first [reflexivity | discriminate].
Defined.

(** ** The scanner over the text that is left *)

Section ScannerSobreResto.

Import Scanner.

Lemma avancado_avancado (n m : Z) (s : Scanner) :
  avancado m (avancado n s) = avancado (n + m) s.
Proof.
  unfold avancado, com_coluna, com_atual. simpl. f_equal; lia.
Qed.

Lemma avancado_zero (s : Scanner) : avancado 0 s = s.
Proof.
  destruct s. unfold avancado, com_coluna, com_atual. simpl.
  rewrite !Z.add_0_r. reflexivity.
Qed.

Lemma resto_vazio (s : Scanner) :
  0 <= atual s -> resto s = [] -> fim_codigo s = true.
Proof.
  intros Hpos Hr. unfold fim_codigo, Py.len. apply Z.leb_le.
  unfold resto in Hr. apply drop_nil_inv in Hr. lia.
Qed.

Lemma resto_cons (s : Scanner) (c : ascii) (r : list ascii) :
  0 <= atual s -> resto s = c :: r ->
  fim_codigo s = false /\ Py.index (fonte s) (atual s) = Some c.
Proof.
  intros Hpos Hr. unfold resto in Hr.
  assert (Hl : fonte s !! Z.to_nat (atual s) = Some c).
  { rewrite <- (Nat.add_0_r (Z.to_nat (atual s))), <- lookup_drop, Hr. reflexivity. }
  split.
  - unfold fim_codigo, Py.len. apply Z.leb_gt.
    apply lookup_lt_Some in Hl. lia.
  - unfold Py.index. destruct (Z.leb_spec 0 (atual s)); [exact Hl | lia].
Qed.

Lemma espiar_resto (s : Scanner) :
  0 <= atual s -> espiar s = (Retorno (primeiro_char (resto s)), s).
Proof.
  intros Hpos. unfold espiar, bind, ler.
  destruct (resto s) as [| c r] eqn:Hr.
  - rewrite (resto_vazio s Hpos Hr). reflexivity.
  - destruct (resto_cons s c r Hpos Hr) as [Hfim Hidx].
    rewrite Hfim. unfold fonte_em. rewrite Hidx. reflexivity.
Qed.

Lemma tl_drop {A} (l : list A) : forall n, tl (drop n l) = drop (S n) l.
Proof.
  induction l as [| x l IH]; intros [| n]; simpl; try reflexivity.
  apply IH.
Qed.

Lemma espiar_proximo_resto (s : Scanner) :
  0 <= atual s ->
  espiar_proximo s = (Retorno (primeiro_char (tl (resto s))), s).
Proof.
  intros Hpos. unfold espiar_proximo, bind, ler.
  assert (Htl : tl (resto s) = drop (Z.to_nat (atual s + 1)) (fonte s)).
  { unfold resto. replace (Z.to_nat (atual s + 1)) with (S (Z.to_nat (atual s))) by lia.
    apply tl_drop. }
  destruct (tl (resto s)) as [| c r] eqn:Hr.
  - symmetry in Htl. apply drop_nil_inv in Htl.
    destruct (Z.leb_spec (Py.len (fonte s)) (atual s + 1)) as [_ | H];
      [reflexivity | unfold Py.len in H; lia].
  - assert (Hl : fonte s !! Z.to_nat (atual s + 1) = Some c).
    { rewrite <- (Nat.add_0_r (Z.to_nat (atual s + 1))), <- lookup_drop, <- Htl.
      reflexivity. }
    destruct (Z.leb_spec (Py.len (fonte s)) (atual s + 1)) as [H | _].
    + apply lookup_lt_Some in Hl. unfold Py.len in H. lia.
    + unfold fonte_em, Py.index.
      destruct (Z.leb_spec 0 (atual s + 1)); [| lia]. rewrite Hl. reflexivity.
Qed.

Lemma avancar_resto (s : Scanner) (c : ascii) (r : list ascii) :
  0 <= atual s -> resto s = c :: r -> Ascii.eqb c Py.nova_linha = false ->
  avancar s = (Retorno c, avancado 1 s).
Proof.
  intros Hpos Hr Hnl. unfold avancar, bind, ler.
  destruct (resto_cons s c r Hpos Hr) as [_ Hidx].
  unfold fonte_em. rewrite Hidx. simpl. rewrite Hnl. reflexivity.
Qed.

Lemma resto_avancado (n : Z) (s : Scanner) :
  0 <= atual s -> 0 <= n ->
  resto (avancado n s) = drop (Z.to_nat n) (resto s).
Proof.
  intros Hpos Hn. unfold resto, avancado. simpl.
  rewrite drop_drop. f_equal. lia.
Qed.

Lemma resto_avancado_app (s : Scanner) (l r : list ascii) :
  0 <= atual s -> resto s = l ++ r -> resto (avancado (Py.len l) s) = r.
Proof.
  intros Hpos Hr. rewrite resto_avancado by (unfold Py.len; lia).
  rewrite Hr. unfold Py.len. rewrite Nat2Z.id. apply drop_app_length.
Qed.

Lemma atual_avancado (n : Z) (s : Scanner) : atual (avancado n s) = atual s + n.
Proof. reflexivity. Qed.

Lemma digito_nao_quebra (c : ascii) :
  Py.isdigit c = true -> Ascii.eqb c Py.nova_linha = false.
Proof.
  destruct c as [[] [] [] [] [] [] [] []]; intros H; try discriminate H; reflexivity.
Qed.

Lemma enquantoM_para {St} (n : nat) (cond : M St bool) (corpo : M St unit)
    (s s1 : St) :
  cond s = (Retorno false, s1) ->
  enquantoM n cond corpo s = (Retorno tt, s1).
Proof. intros H. destruct n; simpl; unfold bind; rewrite H; reflexivity. Qed.

Lemma enquantoM_volta {St} (n : nat) (cond : M St bool) (corpo : M St unit)
    (s s1 s2 : St) :
  cond s = (Retorno true, s1) ->
  corpo s1 = (Retorno tt, s2) ->
  enquantoM (S n) cond corpo s = enquantoM n cond corpo s2.
Proof. intros H1 H2. simpl. unfold bind. rewrite H1, H2. reflexivity. Qed.

Lemma espia_digito_resto (s : Scanner) :
  0 <= atual s ->
  espia_digito s = (Retorno (Py.isdigit (primeiro_char (resto s))), s).
Proof.
  intros Hpos. unfold espia_digito, bind. rewrite (espiar_resto s Hpos). reflexivity.
Qed.

Lemma avancar_e_seguir (s : Scanner) (c : ascii) (r : list ascii) :
  0 <= atual s -> resto s = c :: r -> Ascii.eqb c Py.nova_linha = false ->
  (avancar >> ret tt) s = (Retorno tt, avancado 1 s).
Proof.
  intros Hpos Hr Hnl. unfold bind. rewrite (avancar_resto s c r Hpos Hr Hnl).
  reflexivity.
Qed.

(** The digit loop reads the run of digits that is ahead, and stops. *)
Lemma enquanto_digitos (ds : list ascii) :
  forall (n : nat) (s : Scanner) (r : list ascii),
    (length ds <= n)%nat ->
    0 <= atual s -> resto s = ds ++ r -> digitos ds -> sem_digito r ->
    enquantoM n espia_digito (avancar >> ret tt) s =
      (Retorno tt, avancado (Py.len ds) s).
Proof.
  induction ds as [| d ds IH]; intros n s r Hn Hpos Hr Hd Hs.
  - simpl in Hr. rewrite avancado_zero. apply enquantoM_para.
    rewrite (espia_digito_resto s Hpos), Hr. unfold sem_digito in Hs.
    rewrite Hs. reflexivity.
  - destruct n as [| n]; [simpl in Hn; lia |].
    unfold digitos in Hd. simpl in Hd. apply andb_prop in Hd as [Hd1 Hd2].
    rewrite (enquantoM_volta n _ _ s s (avancado 1 s)).
    + rewrite (IH n (avancado 1 s) r).
      * rewrite avancado_avancado. f_equal. f_equal.
        unfold Py.len. simpl length. lia.
      * simpl in Hn. lia.
      * simpl. lia.
      * rewrite resto_avancado by lia. rewrite Hr. reflexivity.
      * exact Hd2.
      * exact Hs.
    + rewrite (espia_digito_resto s Hpos), Hr. simpl.
      unfold primeiro_char. simpl. rewrite Hd1. reflexivity.
    + apply (avancar_e_seguir s d (ds ++ r) Hpos Hr (digito_nao_quebra d Hd1)).
Qed.

Lemma restante_resto (s : Scanner) :
  0 <= atual s -> restante s = length (resto s).
Proof.
  intros Hpos. unfold restante, resto, Py.len. rewrite length_drop. lia.
Qed.

Lemma consumir_digitos_resto (s : Scanner) (ds r : list ascii) :
  0 <= atual s -> resto s = ds ++ r -> digitos ds -> sem_digito r ->
  consumir_digitos s = (Retorno tt, avancado (Py.len ds) s).
Proof.
  intros Hpos Hr Hd Hs. unfold consumir_digitos, bind, ler.
  apply (enquanto_digitos ds _ s r); try assumption.
  rewrite (restante_resto s Hpos), Hr, length_app. lia.
Qed.

End ScannerSobreResto.

(** ** Numbers *)

Section Numeros.

Import Scanner.

Lemma bind_passo {St A B} (m : M St A) (k : A -> M St B) (s s' : St) (a : A) :
  m s = (Retorno a, s') -> bind m k s = k a s'.
Proof. intros H. unfold bind. rewrite H. reflexivity. Qed.

Lemma bind_levanta {St A B} (m : M St A) (k : A -> M St B) (s s' : St) (e : Excecao) :
  m s = (Levanta e, s') -> bind m k s = (Levanta e, s').
Proof. intros H. unfold bind. rewrite H. reflexivity. Qed.

Lemma analisar_numero_partes :
  analisar_numero =
    (consumir_digitos >> numero_fracao (fun r => numero_expoente r numero_token)).
Proof. reflexivity. Qed.

Lemma ponto_nao_quebra : Ascii.eqb "." Py.nova_linha = false.
Proof. reflexivity. Qed.

Lemma marca_nao_quebra (c : ascii) :
  marca_expoente c -> Ascii.eqb c Py.nova_linha = false /\ Py.isdigit c = false
                      /\ Ascii.eqb c "." = false.
Proof.
  unfold marca_expoente.
  destruct c as [[] [] [] [] [] [] [] []]; intros H; try discriminate H;
    repeat split; reflexivity.
Qed.

Lemma digito_nao_sinal (c : ascii) :
  Py.isdigit c = true -> Ascii.eqb c "+" || Ascii.eqb c "-" = false.
Proof.
  destruct c as [[] [] [] [] [] [] [] []]; intros H; try discriminate H; reflexivity.
Qed.

Lemma digito_nao_marca (c : ascii) :
  Py.isdigit c = true -> Ascii.eqb (Py.lower c) "e" = false.
Proof.
  destruct c as [[] [] [] [] [] [] [] []]; intros H; try discriminate H; reflexivity.
Qed.

Lemma posicao_avancado (n : Z) (s : Scanner) :
  0 <= atual s -> 0 <= n -> 0 <= atual (avancado n s).
Proof. simpl. lia. Qed.

Lemma len_nao_negativo {A} (l : list A) : 0 <= Py.len l.
Proof. unfold Py.len. lia. Qed.

(** The fraction: read when a dot and a digit are ahead. *)
Lemma numero_fracao_lida (K : bool -> M Scanner unit) (s : Scanner)
    (fd r : list ascii) :
  0 <= atual s -> resto s = "."%char :: fd ++ r ->
  fd <> [] -> digitos fd -> sem_digito r ->
  numero_fracao K s = K true (avancado (1 + Py.len fd) s).
Proof.
  intros Hpos Hr Hne Hd Hs. unfold numero_fracao.
  rewrite (bind_passo _ _ _ _ _ (espiar_resto s Hpos)), Hr.
  change (primeiro_char ("."%char :: fd ++ r)) with "."%char.
  change (Ascii.eqb "." ".") with true. cbv iota.
  destruct fd as [| f0 fd']; [congruence |].
  assert (Hf0 : Py.isdigit f0 = true).
  { unfold digitos in Hd. simpl in Hd. apply andb_prop in Hd. tauto. }
  rewrite (bind_passo _ _ s s true).
  2:{ rewrite (bind_passo _ _ _ _ _ (espiar_proximo_resto s Hpos)), Hr.
      unfold primeiro_char. simpl. rewrite Hf0. reflexivity. }
  rewrite (bind_passo _ _ s (avancado (1 + Py.len (f0 :: fd')) s) true);
    [reflexivity |].
  rewrite (bind_passo _ _ _ _ _
             (avancar_resto s _ _ Hpos Hr ponto_nao_quebra)).
  rewrite (bind_passo _ _ _ (avancado (Py.len (f0 :: fd')) (avancado 1 s)) tt).
  - rewrite avancado_avancado. reflexivity.
  - apply (consumir_digitos_resto (avancado 1 s) (f0 :: fd') r).
    + apply posicao_avancado; lia.
    + rewrite resto_avancado by lia. rewrite Hr. reflexivity.
    + exact Hd.
    + exact Hs.
Qed.

(** The fraction: skipped when no dot followed by a digit is ahead. *)
Lemma numero_fracao_ausente (K : bool -> M Scanner unit) (s : Scanner) :
  0 <= atual s -> comeca_fracao (resto s) = false ->
  numero_fracao K s = K false s.
Proof.
  intros Hpos Hc. unfold numero_fracao.
  rewrite (bind_passo _ _ _ _ _ (espiar_resto s Hpos)).
  unfold comeca_fracao in Hc.
  destruct (Ascii.eqb (primeiro_char (resto s)) ".") eqn:Hp.
  - simpl in Hc.
    rewrite (bind_passo _ _ s s false).
    + reflexivity.
    + rewrite (bind_passo _ _ _ _ _ (espiar_proximo_resto s Hpos)), Hc. reflexivity.
  - reflexivity.
Qed.

(** The exponent: skipped when no marker is ahead. *)
Lemma numero_expoente_ausente (is_real : bool) (K : bool -> M Scanner unit)
    (s : Scanner) :
  0 <= atual s -> Ascii.eqb (Py.lower (primeiro_char (resto s))) "e" = false ->
  numero_expoente is_real K s = K is_real s.
Proof.
  intros Hpos Hc. unfold numero_expoente.
  rewrite (bind_passo _ _ _ _ _ (espiar_resto s Hpos)), Hc. reflexivity.
Qed.

(** After the marker: the optional sign is read. *)
Lemma sinal_lido {B} (K : M Scanner B) (s : Scanner) (sinal r : list ascii) :
  0 <= atual s -> resto s = sinal ++ r -> sinal_opcional sinal ->
  (sinal = [] -> comeca_sinal r = false) ->
  (let* c := espiar in
   (if Ascii.eqb c "+" || Ascii.eqb c "-" then avancar >> ret tt else ret tt) >>
   K) s
  = K (avancado (Py.len sinal) s).
Proof.
  intros Hpos Hr [-> | [-> | ->]] Hsem;
    rewrite (bind_passo _ _ _ _ _ (espiar_resto s Hpos)), Hr.
  - simpl app. unfold comeca_sinal in Hsem. rewrite (Hsem eq_refl).
    rewrite avancado_zero. reflexivity.
  - change (primeiro_char (["+"%char] ++ r)) with "+"%char.
    change (Ascii.eqb "+" "+" || Ascii.eqb "+" "-") with true. cbv iota.
    rewrite (bind_passo _ _ s (avancado 1 s) tt); [reflexivity |].
    rewrite (bind_passo _ _ _ _ _ (avancar_resto s _ _ Hpos Hr eq_refl)).
    reflexivity.
  - change (primeiro_char (["-"%char] ++ r)) with "-"%char.
    change (Ascii.eqb "-" "+" || Ascii.eqb "-" "-") with true. cbv iota.
    rewrite (bind_passo _ _ s (avancado 1 s) tt); [reflexivity |].
    rewrite (bind_passo _ _ _ _ _ (avancar_resto s _ _ Hpos Hr eq_refl)).
    reflexivity.
Qed.

(** The exponent: read when a marker, an optional sign and a digit are
    ahead. *)
Lemma numero_expoente_lido (is_real : bool) (K : bool -> M Scanner unit)
    (s : Scanner) (marca : ascii) (sinal xd r : list ascii) :
  0 <= atual s -> resto s = marca :: sinal ++ xd ++ r ->
  marca_expoente marca -> sinal_opcional sinal ->
  xd <> [] -> digitos xd -> sem_digito r ->
  numero_expoente is_real K s =
    K true (avancado (1 + Py.len sinal + Py.len xd) s).
Proof.
  intros Hpos Hr Hm Hsinal Hne Hd Hs. unfold numero_expoente.
  destruct (marca_nao_quebra marca Hm) as (Hnl & _ & _).
  rewrite (bind_passo _ _ _ _ _ (espiar_resto s Hpos)), Hr.
  change (primeiro_char (marca :: sinal ++ xd ++ r)) with marca.
  unfold marca_expoente in Hm. rewrite Hm.
  destruct xd as [| x0 xd']; [congruence |].
  assert (Hx0 : Py.isdigit x0 = true).
  { unfold digitos in Hd. simpl in Hd. apply andb_prop in Hd. tauto. }
  set (s1 := avancado 1 s).
  assert (Hpos1 : 0 <= atual s1) by (apply posicao_avancado; lia).
  assert (Hr1 : resto s1 = sinal ++ (x0 :: xd') ++ r).
  { unfold s1. rewrite resto_avancado by lia. rewrite Hr. reflexivity. }
  set (s2 := avancado (Py.len sinal) s1).
  assert (Hpos2 : 0 <= atual s2)
    by (apply posicao_avancado; [exact Hpos1 | apply len_nao_negativo]).
  assert (Hr2 : resto s2 = (x0 :: xd') ++ r)
    by (apply (resto_avancado_app s1 sinal _ Hpos1 Hr1)).
  rewrite (bind_passo _ _ s (avancado (1 + Py.len sinal + Py.len (x0 :: xd')) s) true);
    [reflexivity |].
  rewrite (bind_passo _ _ _ _ _ (avancar_resto s _ _ Hpos Hr Hnl)). fold s1.
  rewrite (sinal_lido _ s1 sinal ((x0 :: xd') ++ r) Hpos1 Hr1 Hsinal).
  2:{ intros _. unfold comeca_sinal. simpl. apply digito_nao_sinal, Hx0. }
  fold s2.
  rewrite (bind_passo _ _ _ _ _ (espiar_resto s2 Hpos2)), Hr2.
  change (primeiro_char ((x0 :: xd') ++ r)) with x0. rewrite Hx0. cbv iota.
  change (negb true) with false. cbv iota.
  rewrite (bind_passo _ _ _ _ _
             (consumir_digitos_resto s2 (x0 :: xd') r Hpos2 Hr2 Hd Hs)).
  unfold s2, s1. rewrite !avancado_avancado. unfold ret.
  f_equal. f_equal. lia.
Qed.

(** The exponent: a lexical error when the marker and the optional sign
    are not followed by a digit. *)
Lemma numero_expoente_sem_digitos (is_real : bool) (K : bool -> M Scanner unit)
    (s : Scanner) (marca : ascii) (sinal r : list ascii) :
  0 <= atual s -> resto s = marca :: sinal ++ r ->
  marca_expoente marca -> sinal_opcional sinal ->
  (sinal = [] -> comeca_sinal r = false) -> sem_digito r ->
  let s' := avancado (1 + Py.len sinal) s in
  numero_expoente is_real K s =
    (Levanta (ErroLexico
       "Número em notação científica inválido - esperado dígito após 'e'"
       (linha s') (coluna s') (linha_atual_contexto s')), s').
Proof.
  intros Hpos Hr Hm Hsinal Hsem Hs s'. unfold numero_expoente.
  destruct (marca_nao_quebra marca Hm) as (Hnl & _ & _).
  rewrite (bind_passo _ _ _ _ _ (espiar_resto s Hpos)), Hr.
  change (primeiro_char (marca :: sinal ++ r)) with marca.
  unfold marca_expoente in Hm. rewrite Hm.
  set (s1 := avancado 1 s).
  assert (Hpos1 : 0 <= atual s1) by (apply posicao_avancado; lia).
  assert (Hr1 : resto s1 = sinal ++ r).
  { unfold s1. rewrite resto_avancado by lia. rewrite Hr. reflexivity. }
  assert (Hs' : s' = avancado (Py.len sinal) s1).
  { unfold s', s1. rewrite avancado_avancado. reflexivity. }
  assert (Hpos2 : 0 <= atual s').
  { rewrite Hs'. apply posicao_avancado; [exact Hpos1 | apply len_nao_negativo]. }
  assert (Hr2 : resto s' = r).
  { rewrite Hs'. apply (resto_avancado_app s1 sinal _ Hpos1 Hr1). }
  apply bind_levanta.
  rewrite (bind_passo _ _ _ _ _ (avancar_resto s _ _ Hpos Hr Hnl)). fold s1.
  rewrite (sinal_lido _ s1 sinal r Hpos1 Hr1 Hsinal Hsem), <- Hs'.
  rewrite (bind_passo _ _ _ _ _ (espiar_resto s' Hpos2)), Hr2.
  unfold sem_digito in Hs. rewrite Hs. reflexivity.
Qed.

Lemma lexema_atual_lido (s : Scanner) (lido cauda : list ascii) :
  0 <= atual s -> inicio s = atual s -> resto s = lido ++ cauda ->
  lexema_atual (avancado (Py.len lido) s) = string_of_list_ascii lido.
Proof.
  intros Hpos Hini Hr. unfold lexema_atual. f_equal.
  unfold Py.slice, Py.limite. simpl. rewrite Hini.
  assert (Hlen : (length lido + length cauda = length (fonte s) - Z.to_nat (atual s))%nat).
  { rewrite <- length_app, <- Hr. unfold resto. apply length_drop. }
  unfold Py.len in *.
  destruct (Z.ltb_spec (atual s) 0) as [H | _]; [lia |].
  destruct (Z.ltb_spec (atual s + Z.of_nat (length lido)) 0) as [H | _]; [lia |].
  destruct (Z.le_gt_cases (atual s) (Z.of_nat (length (fonte s)))) as [Hle | Hgt].
  - rewrite (Z.min_l (atual s)) by lia.
    rewrite (Z.min_l (atual s + Z.of_nat (length lido))) by lia.
    replace (Z.to_nat (atual s + Z.of_nat (length lido) - atual s))
      with (length lido) by lia.
    fold (resto s). rewrite Hr. apply take_app_length.
  - assert (length lido = 0)%nat by lia.
    destruct lido; [| discriminate]. simpl.
    rewrite Z.add_0_r. rewrite Z.sub_diag. reflexivity.
Qed.

Lemma decimal_e_digito (c : ascii) : Py.isdecimal c = true -> Py.isdigit c = true.
Proof. unfold Py.isdigit, Py.isdecimal. intros ->. reflexivity. Qed.

Lemma decimais_sao_digitos (l : list ascii) : decimais l -> digitos l.
Proof.
  unfold decimais, digitos. induction l as [| c l IH]; [reflexivity |].
  simpl. intros H. apply andb_prop in H as [Hc Hl].
  rewrite (decimal_e_digito c Hc), (IH Hl). reflexivity.
Qed.

Lemma int_de_digitos (l : list ascii) :
  l <> [] -> convertivel l ->
  Py.int (list_ascii_of_string (string_of_list_ascii l)) = Some (valor_decimal l).
Proof.
  intros Hne [Hd Hl]. rewrite list_ascii_of_string_of_list_ascii.
  unfold Py.int. destruct l as [| c l]; [congruence |].
  unfold decimais in Hd. rewrite Hd.
  apply Nat.leb_le in Hl. rewrite Hl. reflexivity.
Qed.

(** [int] refuses the digits that are not decimal and the runs beyond the
    host's limit. *)
Lemma int_recusa (l : list ascii) :
  ~ convertivel l -> Py.int l = None.
Proof.
  intros H. unfold Py.int. destruct l as [| c l]; [reflexivity |].
  destruct (forallb Py.isdecimal (c :: l)) eqn:Hd; [| reflexivity].
  destruct (Nat.leb_spec (length (c :: l)) Py.max_str_digits) as [Hl | Hl];
    [| reflexivity].
  exfalso. apply H. split; assumption.
Qed.

Lemma apos_decimais_app (l r : list ascii) :
  decimais l -> Py.isdecimal (primeiro_char r) = false ->
  Py.apos_decimais (l ++ r) = r.
Proof.
  unfold decimais. intros Hl Hr. induction l as [| c l IH].
  - destruct r as [| c r]; [reflexivity |]. simpl in *.
    unfold primeiro_char in Hr. simpl in Hr. rewrite Hr. reflexivity.
  - simpl in Hl. apply andb_prop in Hl as [Hc Hl]. simpl. rewrite Hc. exact (IH Hl).
Qed.

Lemma marca_e_ou_E (c : ascii) :
  marca_expoente c -> Ascii.eqb c "e" || Ascii.eqb c "E" = true.
Proof.
  unfold marca_expoente.
  destruct c as [[] [] [] [] [] [] [] []]; intros H; try discriminate H; reflexivity.
Qed.

Lemma decimal_nao_sinal (c : ascii) :
  Py.isdecimal c = true -> Ascii.eqb c "+" || Ascii.eqb c "-" = false.
Proof.
  destruct c as [[] [] [] [] [] [] [] []]; intros H; try discriminate H; reflexivity.
Qed.

Lemma expoente_lido_por_float (expoente : option (ascii * list ascii * list ascii)) :
  expoente_bem_formado expoente -> expoente_decimal expoente ->
  match texto_expoente expoente with
  | [] => True
  | r => Py.expoente_decimal r = true
  end.
Proof.
  destruct expoente as [[[marca sinal] xd] |]; [| intros _ _; exact I].
  intros (Hm & Hsinal & Hne & _) Hd. simpl in Hd. simpl texto_expoente.
  unfold Py.expoente_decimal. rewrite (marca_e_ou_E marca Hm). simpl andb.
  destruct xd as [| x0 xd]; [congruence |].
  assert (Hx0 : Py.isdecimal x0 = true).
  { unfold decimais in Hd. simpl in Hd. apply andb_prop in Hd. tauto. }
  assert (Hfim : Py.apos_decimais (x0 :: xd) = []).
  { rewrite <- (app_nil_r (x0 :: xd)). apply apos_decimais_app; [exact Hd | reflexivity]. }
  destruct Hsinal as [-> | [-> | ->]]; simpl app; cbv iota.
  - rewrite (decimal_nao_sinal x0 Hx0), Hx0, Hfim. reflexivity.
  - change (Ascii.eqb "+" "+" || Ascii.eqb "+" "-") with true. cbv iota.
    rewrite Hx0, Hfim. reflexivity.
  - change (Ascii.eqb "-" "+" || Ascii.eqb "-" "-") with true. cbv iota.
    rewrite Hx0, Hfim. reflexivity.
Qed.

Lemma marca_nao_decimal (c : ascii) :
  marca_expoente c -> Py.isdecimal c = false /\ Ascii.eqb c "." = false.
Proof.
  unfold marca_expoente.
  destruct c as [[] [] [] [] [] [] [] []]; intros H; try discriminate H;
    split; reflexivity.
Qed.

Lemma expoente_nao_decimal (expoente : option (ascii * list ascii * list ascii)) :
  expoente_bem_formado expoente ->
  Py.isdecimal (primeiro_char (texto_expoente expoente)) = false
  /\ Ascii.eqb (primeiro_char (texto_expoente expoente)) "." = false.
Proof.
  destruct expoente as [[[marca sinal] xd] |]; [| intros _; split; reflexivity].
  intros (Hm & _). exact (marca_nao_decimal marca Hm).
Qed.

(** [float] reads a number whose digits are decimal ones. *)
Lemma float_de_numero (inteiros : list ascii) (fracao : option (list ascii))
    (expoente : option (ascii * list ascii * list ascii)) :
  inteiros <> [] -> decimais inteiros -> fracao_decimal fracao ->
  expoente_bem_formado expoente -> expoente_decimal expoente ->
  Py.float (inteiros ++ texto_fracao fracao ++ texto_expoente expoente) =
    Some (inteiros ++ texto_fracao fracao ++ texto_expoente expoente).
Proof.
  intros Hne Hd Hf Hx Hxd.
  destruct (expoente_nao_decimal expoente Hx) as [Hx1 Hx2].
  pose proof (expoente_lido_por_float expoente Hx Hxd) as Hxf.
  set (tx := texto_expoente expoente) in *.
  set (todo := inteiros ++ texto_fracao fracao ++ tx).
  assert (Htx : match Py.apos_decimais todo with
                | [] => Py.apos_decimais todo
                | p :: f =>
                  if Ascii.eqb p "." then Py.apos_decimais f
                  else Py.apos_decimais todo
                end = tx).
  { unfold todo. destruct fracao as [fd |]; simpl texto_fracao.
    - rewrite (apos_decimais_app inteiros _ Hd) by reflexivity.
      change (Ascii.eqb "." ".") with true. cbv iota.
      apply apos_decimais_app; [exact Hf | exact Hx1].
    - simpl app. rewrite (apos_decimais_app inteiros tx Hd Hx1).
      destruct tx as [| p f]; [reflexivity |].
      unfold primeiro_char in Hx2. simpl in Hx2. rewrite Hx2. reflexivity. }
  assert (Hd0 : exists d ds, todo = d :: ds /\ Py.isdecimal d = true).
  { unfold todo. destruct inteiros as [| d ds]; [congruence |].
    exists d, (ds ++ texto_fracao fracao ++ tx). split; [reflexivity |].
    unfold decimais in Hd. simpl in Hd. apply andb_prop in Hd. tauto. }
  clearbody todo. destruct Hd0 as (d & ds & Etodo & Hd0).
  unfold Py.float. rewrite Etodo at 1. rewrite Hd0. cbv zeta. rewrite !Htx.
  destruct tx as [| p f]; [reflexivity |]. rewrite Hxf. reflexivity.
Qed.

Lemma numero_token_real (s : Scanner) :
  Py.float (list_ascii_of_string (lexema_atual s)) =
    Some (list_ascii_of_string (lexema_atual s)) ->
  numero_token true s =
    (Retorno tt,
     com_token
       (Token.mk NUMERO_REAL (lexema_atual s) (VFloat (lexema_atual s))
          (linha s) (coluna_inicio s)) s).
Proof.
  intros H. unfold numero_token.
  rewrite (bind_passo _ _ s s (lexema_atual s)) by reflexivity.
  rewrite (bind_passo _ _ s s (list_ascii_of_string (lexema_atual s)))
    by (rewrite H; reflexivity).
  rewrite string_of_list_ascii_of_string. reflexivity.
Qed.

(** What [int] or [float] refuses leaves the scanner with [ValueError]
    and no token. *)
Lemma numero_token_recusado (is_real : bool) (s : Scanner) :
  (if is_real then Py.float (list_ascii_of_string (lexema_atual s))
   else option_map (fun _ => []) (Py.int (list_ascii_of_string (lexema_atual s))))
  = None ->
  numero_token is_real s = (Levanta ValueError, s).
Proof.
  intros H. unfold numero_token.
  rewrite (bind_passo _ _ s s (lexema_atual s)) by reflexivity.
  destruct is_real.
  - apply bind_levanta. rewrite H. reflexivity.
  - apply bind_levanta.
    destruct (Py.int (list_ascii_of_string (lexema_atual s))); [discriminate H |].
    reflexivity.
Qed.

Lemma numero_token_inteiro (s : Scanner) (n : Z) :
  Py.int (list_ascii_of_string (lexema_atual s)) = Some n ->
  numero_token false s =
    (Retorno tt,
     com_token
       (Token.mk NUMERO_INTEIRO (lexema_atual s) (VInt n) (linha s) (coluna_inicio s))
       s).
Proof.
  intros H. unfold numero_token.
  rewrite (bind_passo _ _ s s (lexema_atual s)) by reflexivity.
  rewrite (bind_passo _ _ s s n) by (rewrite H; reflexivity).
  reflexivity.
Qed.

(** [escanear_token] at a digit hands over to [analisar_numero]. *)
Lemma escanear_token_em_digito (s : Scanner) (d : ascii) (r : list ascii) :
  0 <= atual s -> resto s = d :: r -> Py.isdigit d = true ->
  escanear_token s = analisar_numero (avancado 1 s).
Proof.
  intros Hpos Hr Hd. unfold escanear_token.
  rewrite (bind_passo _ _ _ _ _
             (avancar_resto s d r Hpos Hr (digito_nao_quebra d Hd))).
  assert (H1 : char_em d [" "%char; Py.tab; Py.retorno_carro; Py.nova_linha] = false).
  { revert Hd. destruct d as [[] [] [] [] [] [] [] []]; intros Hd;
      try discriminate Hd; reflexivity. }
  assert (H2 : char_em d [Py.aspas; Py.apostrofo] = false).
  { revert Hd. destruct d as [[] [] [] [] [] [] [] []]; intros Hd;
      try discriminate Hd; reflexivity. }
  rewrite H1, H2, Hd. reflexivity.
Qed.

Lemma len_app {A} (l k : list A) : Py.len (l ++ k) = Py.len l + Py.len k.
Proof. unfold Py.len. rewrite length_app. lia. Qed.

Lemma len_cons {A} (x : A) (l : list A) : Py.len (x :: l) = 1 + Py.len l.
Proof. unfold Py.len. simpl length. lia. Qed.

Lemma sem_digito_expoente (expoente : option (ascii * list ascii * list ascii))
    (cauda : list ascii) :
  expoente_bem_formado expoente -> sem_digito cauda ->
  sem_digito (texto_expoente expoente ++ cauda).
Proof.
  destruct expoente as [[[marca sinal] xd] |]; simpl; [| tauto].
  intros (Hm & _) _. unfold sem_digito, primeiro_char. simpl.
  apply (marca_nao_quebra marca Hm).
Qed.

(** The fraction, present or not. *)
Lemma numero_fracao_geral (K : bool -> M Scanner unit) (s : Scanner)
    (fracao : option (list ascii)) (r : list ascii) :
  0 <= atual s -> resto s = texto_fracao fracao ++ r ->
  fracao_bem_formada fracao -> sem_digito r ->
  (fracao = None -> comeca_fracao r = false) ->
  numero_fracao K s =
    K (presente fracao) (avancado (Py.len (texto_fracao fracao)) s).
Proof.
  intros Hpos Hr Hf Hs Hc. destruct fracao as [fd |]; simpl in *.
  - destruct Hf as [Hne Hd].
    rewrite (numero_fracao_lida K s fd r Hpos Hr Hne Hd Hs), len_cons. reflexivity.
  - rewrite avancado_zero. apply numero_fracao_ausente; [exact Hpos |].
    rewrite Hr. apply Hc. reflexivity.
Qed.

(** The exponent, present or not. *)
Lemma numero_expoente_geral (is_real : bool) (K : bool -> M Scanner unit)
    (s : Scanner) (expoente : option (ascii * list ascii * list ascii))
    (r : list ascii) :
  0 <= atual s -> resto s = texto_expoente expoente ++ r ->
  expoente_bem_formado expoente -> sem_digito r ->
  (expoente = None -> Ascii.eqb (Py.lower (primeiro_char r)) "e" = false) ->
  numero_expoente is_real K s =
    K (is_real || presente expoente)
      (avancado (Py.len (texto_expoente expoente)) s).
Proof.
  intros Hpos Hr Hx Hs Hc. destruct expoente as [[[marca sinal] xd] |]; simpl in *.
  - destruct Hx as (Hm & Hsinal & Hne & Hd).
    rewrite <- app_assoc in Hr.
    rewrite (numero_expoente_lido is_real K s marca sinal xd r
               Hpos Hr Hm Hsinal Hne Hd Hs).
    rewrite len_cons, len_app, orb_true_r. f_equal. f_equal. lia.
  - rewrite avancado_zero, orb_false_r. apply numero_expoente_ausente; [exact Hpos |].
    rewrite Hr. apply Hc. reflexivity.
Qed.

(** A number is read whole: the integer digits, the fraction when a dot
    and a digit follow, the exponent when a marker, an optional sign and
    a digit follow; what was read is then handed over for conversion, as
    a real when either part is there. *)
Lemma numero_percorrido (s : Scanner) (inteiros : list ascii)
    (fracao : option (list ascii))
    (expoente : option (ascii * list ascii * list ascii)) (cauda : list ascii) :
  0 <= atual s -> inicio s = atual s ->
  resto s = inteiros ++ texto_fracao fracao ++ texto_expoente expoente ++ cauda ->
  inteiros <> [] -> digitos inteiros ->
  fracao_bem_formada fracao -> expoente_bem_formado expoente ->
  sem_digito cauda ->
  (fracao = None -> expoente = None -> comeca_fracao cauda = false) ->
  (expoente = None -> Ascii.eqb (Py.lower (primeiro_char cauda)) "e" = false) ->
  let lido := inteiros ++ texto_fracao fracao ++ texto_expoente expoente in
  escanear_token s =
    numero_token (presente fracao || presente expoente) (avancado (Py.len lido) s)
  /\ lexema_atual (avancado (Py.len lido) s) = string_of_list_ascii lido.
Proof.
  intros Hpos Hini Hr Hne Hd Hf Hx Hs Hcf Hce.
  destruct inteiros as [| d ds]; [congruence |].
  assert (Hd1 : Py.isdigit d = true /\ digitos ds).
  { unfold digitos in *. simpl in Hd. apply andb_prop in Hd. exact Hd. }
  destruct Hd1 as [Hd1 Hds].
  rewrite (escanear_token_em_digito s d _ Hpos Hr Hd1), analisar_numero_partes.
  set (s1 := avancado 1 s).
  assert (Hpos1 : 0 <= atual s1) by (apply posicao_avancado; lia).
  assert (Hr1 : resto s1 =
            ds ++ texto_fracao fracao ++ texto_expoente expoente ++ cauda).
  { unfold s1. rewrite resto_avancado by lia. rewrite Hr. reflexivity. }
  assert (Hsx : sem_digito (texto_expoente expoente ++ cauda))
    by (apply sem_digito_expoente; assumption).
  assert (Hsf : sem_digito (texto_fracao fracao ++ texto_expoente expoente ++ cauda)).
  { destruct fracao; [reflexivity | exact Hsx]. }
  rewrite (bind_passo _ _ _ _ _ (consumir_digitos_resto s1 ds _ Hpos1 Hr1 Hds Hsf)).
  set (s2 := avancado (Py.len ds) s1).
  assert (Hpos2 : 0 <= atual s2)
    by (apply posicao_avancado; [exact Hpos1 | apply len_nao_negativo]).
  assert (Hr2 : resto s2 = texto_fracao fracao ++ texto_expoente expoente ++ cauda)
    by (apply (resto_avancado_app s1 ds _ Hpos1 Hr1)).
  rewrite (numero_fracao_geral _ s2 fracao _ Hpos2 Hr2 Hf Hsx).
  2:{ intros ->. destruct expoente as [[[marca sinal] xd] |].
      - simpl in Hx. destruct Hx as (Hm & _).
        unfold comeca_fracao, primeiro_char. simpl.
        destruct (marca_nao_quebra marca Hm) as (_ & _ & ->). reflexivity.
      - apply Hcf; reflexivity. }
  set (s3 := avancado (Py.len (texto_fracao fracao)) s2).
  assert (Hpos3 : 0 <= atual s3)
    by (apply posicao_avancado; [exact Hpos2 | apply len_nao_negativo]).
  assert (Hr3 : resto s3 = texto_expoente expoente ++ cauda)
    by (apply (resto_avancado_app s2 _ _ Hpos2 Hr2)).
  rewrite (numero_expoente_geral _ _ s3 expoente cauda Hpos3 Hr3 Hx Hs Hce).
  intros lido.
  assert (Hfinal : avancado (Py.len (texto_expoente expoente)) s3
                   = avancado (Py.len lido) s).
  { unfold s3, s2, s1, lido. rewrite !avancado_avancado.
    rewrite !len_app, len_cons. f_equal. lia. }
  rewrite Hfinal. split; [reflexivity |].
  apply (lexema_atual_lido s lido cauda Hpos Hini).
  unfold lido. rewrite <- !app_assoc. exact Hr.
Qed.

(** The number becomes a token when its digits are ones that [int] and
    [float] read. *)
Lemma numero_lido (s : Scanner) (inteiros : list ascii)
    (fracao : option (list ascii))
    (expoente : option (ascii * list ascii * list ascii)) (cauda : list ascii) :
  0 <= atual s -> inicio s = atual s ->
  resto s = inteiros ++ texto_fracao fracao ++ texto_expoente expoente ++ cauda ->
  inteiros <> [] -> digitos inteiros ->
  fracao_bem_formada fracao -> expoente_bem_formado expoente ->
  numero_convertivel inteiros fracao expoente ->
  sem_digito cauda ->
  (fracao = None -> expoente = None -> comeca_fracao cauda = false) ->
  (expoente = None -> Ascii.eqb (Py.lower (primeiro_char cauda)) "e" = false) ->
  escanear_token s =
    (Retorno tt,
     com_token
       (token_de_numero inteiros fracao expoente (linha s) (coluna_inicio s))
       (avancado
          (Py.len (inteiros ++ texto_fracao fracao ++ texto_expoente expoente)) s)).
Proof.
  intros Hpos Hini Hr Hne Hd Hf Hx Hconv Hs Hcf Hce.
  destruct (numero_percorrido s inteiros fracao expoente cauda
              Hpos Hini Hr Hne Hd Hf Hx Hs Hcf Hce) as [-> Hlex].
  set (lido := inteiros ++ texto_fracao fracao ++ texto_expoente expoente) in *.
  unfold token_de_numero. fold lido. unfold numero_convertivel in Hconv.
  destruct (presente fracao || presente expoente) eqn:Hreal.
  - destruct Hconv as (Hdi & Hdf & Hdx).
    rewrite numero_token_real.
    + rewrite Hlex. reflexivity.
    + rewrite Hlex, list_ascii_of_string_of_list_ascii.
      apply float_de_numero; assumption.
  - apply orb_false_elim in Hreal as [Hf0 Hx0].
    destruct fracao; [discriminate |]. destruct expoente; [discriminate |].
    assert (Hlido : lido = inteiros) by (unfold lido; simpl; rewrite app_nil_r; reflexivity).
    rewrite (numero_token_inteiro _ (valor_decimal inteiros)).
    + rewrite Hlex. reflexivity.
    + rewrite Hlex, Hlido. apply int_de_digitos; [exact Hne | exact Hconv].
Qed.

(** The number leaves the scanner with [ValueError], and without a token,
    when [int] or [float] refuses what was read. *)
Lemma numero_recusado (s : Scanner) (inteiros : list ascii)
    (fracao : option (list ascii))
    (expoente : option (ascii * list ascii * list ascii)) (cauda : list ascii) :
  0 <= atual s -> inicio s = atual s ->
  resto s = inteiros ++ texto_fracao fracao ++ texto_expoente expoente ++ cauda ->
  inteiros <> [] -> digitos inteiros ->
  fracao_bem_formada fracao -> expoente_bem_formado expoente ->
  sem_digito cauda ->
  (fracao = None -> expoente = None -> comeca_fracao cauda = false) ->
  (expoente = None -> Ascii.eqb (Py.lower (primeiro_char cauda)) "e" = false) ->
  let lido := inteiros ++ texto_fracao fracao ++ texto_expoente expoente in
  (if presente fracao || presente expoente
   then Py.float lido = None
   else ~ convertivel lido) ->
  escanear_token s = (Levanta ValueError, avancado (Py.len lido) s).
Proof.
  intros Hpos Hini Hr Hne Hd Hf Hx Hs Hcf Hce lido Hrec.
  destruct (numero_percorrido s inteiros fracao expoente cauda
              Hpos Hini Hr Hne Hd Hf Hx Hs Hcf Hce) as [-> Hlex].
  fold lido in Hlex |- *.
  apply numero_token_recusado.
  rewrite Hlex, list_ascii_of_string_of_list_ascii.
  destruct (presente fracao || presente expoente); [exact Hrec |].
  rewrite (int_recusa lido Hrec). reflexivity.
Qed.

(** A marker and an optional sign that no digit follows: the scanner
    raises its lexical error, at the point it has reached. *)
Lemma numero_incompleto (s : Scanner) (inteiros : list ascii)
    (fracao : option (list ascii)) (marca : ascii) (sinal cauda : list ascii) :
  0 <= atual s ->
  resto s = inteiros ++ texto_fracao fracao ++ marca :: sinal ++ cauda ->
  inteiros <> [] -> digitos inteiros -> fracao_bem_formada fracao ->
  marca_expoente marca -> sinal_opcional sinal ->
  (sinal = [] -> comeca_sinal cauda = false) -> sem_digito cauda ->
  let s' := avancado (Py.len (inteiros ++ texto_fracao fracao ++ marca :: sinal)) s in
  escanear_token s =
    (Levanta (ErroLexico
       "Número em notação científica inválido - esperado dígito após 'e'"
       (linha s') (coluna s') (linha_atual_contexto s')), s').
Proof.
  intros Hpos Hr Hne Hd Hf Hm Hsinal Hsem Hs s'.
  destruct inteiros as [| d ds]; [congruence |].
  assert (Hd1 : Py.isdigit d = true /\ digitos ds).
  { unfold digitos in *. simpl in Hd. apply andb_prop in Hd. exact Hd. }
  destruct Hd1 as [Hd1 Hds].
  rewrite (escanear_token_em_digito s d _ Hpos Hr Hd1), analisar_numero_partes.
  set (s1 := avancado 1 s).
  assert (Hpos1 : 0 <= atual s1) by (apply posicao_avancado; lia).
  assert (Hr1 : resto s1 = ds ++ texto_fracao fracao ++ marca :: sinal ++ cauda).
  { unfold s1. rewrite resto_avancado by lia. rewrite Hr. reflexivity. }
  destruct (marca_nao_quebra marca Hm) as (_ & Hmd & Hmp).
  assert (Hsx : sem_digito (marca :: sinal ++ cauda)) by exact Hmd.
  assert (Hsf : sem_digito (texto_fracao fracao ++ marca :: sinal ++ cauda)).
  { destruct fracao; [reflexivity | exact Hsx]. }
  rewrite (bind_passo _ _ _ _ _ (consumir_digitos_resto s1 ds _ Hpos1 Hr1 Hds Hsf)).
  set (s2 := avancado (Py.len ds) s1).
  assert (Hpos2 : 0 <= atual s2)
    by (apply posicao_avancado; [exact Hpos1 | apply len_nao_negativo]).
  assert (Hr2 : resto s2 = texto_fracao fracao ++ marca :: sinal ++ cauda)
    by (apply (resto_avancado_app s1 ds _ Hpos1 Hr1)).
  rewrite (numero_fracao_geral _ s2 fracao _ Hpos2 Hr2 Hf Hsx).
  2:{ intros _. unfold comeca_fracao, primeiro_char. simpl. rewrite Hmp. reflexivity. }
  set (s3 := avancado (Py.len (texto_fracao fracao)) s2).
  assert (Hpos3 : 0 <= atual s3)
    by (apply posicao_avancado; [exact Hpos2 | apply len_nao_negativo]).
  assert (Hr3 : resto s3 = marca :: sinal ++ cauda)
    by (apply (resto_avancado_app s2 _ _ Hpos2 Hr2)).
  rewrite (numero_expoente_sem_digitos _ _ s3 marca sinal cauda
             Hpos3 Hr3 Hm Hsinal Hsem Hs).
  assert (Hfinal : avancado (1 + Py.len sinal) s3 = s').
  { unfold s3, s2, s1, s'. rewrite !avancado_avancado.
    rewrite !len_app, !len_cons. f_equal. lia. }
  cbv zeta. rewrite Hfinal. reflexivity.
Qed.

Lemma resto_com_token (t : Token) (s : Scanner) : resto (com_token t s) = resto s.
Proof. reflexivity. Qed.

(** When the scanner starts on a digit, it reads the integer digits and
    then: a dot is read as a fraction exactly when a digit follows it, so
    that digits, a dot and a character that is no digit give an integer
    token and leave the dot to be read next; the token is NUMERO_REAL when
    a fraction or an exponent was read and NUMERO_INTEIRO when neither
    was, provided the digits read are decimal ones (and, for an integer,
    no more than the host converts); and an exponent marker, with its
    optional sign, that no digit follows makes the scanner raise its
    lexical error. *)
Lemma numero_decimal_escaneado (s : Scanner) (inteiros : list ascii) :
  0 <= atual s -> inicio s = atual s ->
  inteiros <> [] -> digitos inteiros ->
  (forall fracao expoente cauda,
      resto s = inteiros ++ texto_fracao fracao ++ texto_expoente expoente ++ cauda ->
      fracao_bem_formada fracao -> expoente_bem_formado expoente ->
      numero_convertivel inteiros fracao expoente ->
      sem_digito cauda ->
      (fracao = None -> expoente = None -> comeca_fracao cauda = false) ->
      (expoente = None ->
       Ascii.eqb (Py.lower (primeiro_char cauda)) "e" = false) ->
      let lido := inteiros ++ texto_fracao fracao ++ texto_expoente expoente in
      let t := token_de_numero inteiros fracao expoente (linha s) (coluna_inicio s) in
      let s' := com_token t (avancado (Py.len lido) s) in
      escanear_token s = (Retorno tt, s')
      /\ resto s' = cauda
      /\ Token.lexema t = string_of_list_ascii lido
      /\ (Token.tipo t = NUMERO_REAL <-> fracao <> None \/ expoente <> None)
      /\ (Token.tipo t = NUMERO_INTEIRO <-> fracao = None /\ expoente = None))
  /\ (forall cauda,
      resto s = inteiros ++ "."%char :: cauda -> sem_digito cauda ->
      convertivel inteiros ->
      let t := Token.mk NUMERO_INTEIRO (string_of_list_ascii inteiros)
                 (VInt (valor_decimal inteiros)) (linha s) (coluna_inicio s) in
      let s' := com_token t (avancado (Py.len inteiros) s) in
      escanear_token s = (Retorno tt, s')
      /\ resto s' = "."%char :: cauda)
  /\ (forall fracao marca sinal cauda,
      resto s = inteiros ++ texto_fracao fracao ++ marca :: sinal ++ cauda ->
      fracao_bem_formada fracao ->
      marca_expoente marca -> sinal_opcional sinal ->
      (sinal = [] -> comeca_sinal cauda = false) -> sem_digito cauda ->
      let s' :=
        avancado (Py.len (inteiros ++ texto_fracao fracao ++ marca :: sinal)) s in
      escanear_token s =
        (Levanta (ErroLexico
           "Número em notação científica inválido - esperado dígito após 'e'"
           (linha s') (coluna s') (linha_atual_contexto s')), s')).
Proof.
  intros Hpos Hini Hne Hd. split; [| split].
  - intros fracao expoente cauda Hr Hf Hx Hconv Hs Hcf Hce lido t s'.
    split; [| split; [| split; [| split]]].
    + exact (numero_lido s inteiros fracao expoente cauda
               Hpos Hini Hr Hne Hd Hf Hx Hconv Hs Hcf Hce).
    + unfold s'. rewrite resto_com_token.
      apply (resto_avancado_app s lido cauda Hpos).
      unfold lido. rewrite <- !app_assoc. exact Hr.
    + unfold t, token_de_numero.
      destruct (presente fracao || presente expoente); reflexivity.
    + unfold t, token_de_numero.
      destruct fracao, expoente; simpl; split; intros H;
        try reflexivity; try discriminate;
        try (left; discriminate); try (right; discriminate).
      destruct H as [H | H]; congruence.
    + unfold t, token_de_numero.
      destruct fracao, expoente; simpl; split; intros H;
        try discriminate; try (destruct H; discriminate);
        try (split; reflexivity); reflexivity.
  - intros cauda Hr Hs Hconv t s'.
    split.
    + unfold s', t.
      rewrite (numero_lido s inteiros None None ("."%char :: cauda)
                 Hpos Hini Hr Hne Hd I I).
      * unfold token_de_numero.
        cbn [presente orb texto_fracao texto_expoente app].
        rewrite !app_nil_r. reflexivity.
      * exact Hconv.
      * reflexivity.
      * intros _ _. unfold comeca_fracao, primeiro_char. simpl. exact Hs.
      * intros _. reflexivity.
    + unfold s'. rewrite resto_com_token.
      apply (resto_avancado_app s inteiros _ Hpos Hr).
  - intros fracao marca sinal cauda Hr Hf Hm Hsinal Hsem Hs.
    exact (numero_incompleto s inteiros fracao marca sinal cauda
             Hpos Hr Hne Hd Hf Hm Hsinal Hsem Hs).
Qed.

(** The scanner on [3.5e-2;], on [42], on [3.x] and on [1.5E+;]. *)
Example numero_decimal_escaneado_exemplo :
  escanear_token (novo "3.5e-2;") =
    (Retorno tt,
     com_token (Token.mk NUMERO_REAL "3.5e-2" (VFloat "3.5e-2") 1 1)
       (avancado 6 (novo "3.5e-2;")))
  /\ escanear_token (novo "42") =
    (Retorno tt,
     com_token (Token.mk NUMERO_INTEIRO "42" (VInt 42) 1 1) (avancado 2 (novo "42")))
  /\ escanear_token (novo "3.x") =
    (Retorno tt,
     com_token (Token.mk NUMERO_INTEIRO "3" (VInt 3) 1 1) (avancado 1 (novo "3.x")))
  /\ resto (avancado 1 (novo "3.x")) = ["."; "x"]%char
  /\ escanear_token (novo "1.5E+;") =
    (Levanta (ErroLexico
       "Número em notação científica inválido - esperado dígito após 'e'"
       1 6 "1.5E+;"), avancado 5 (novo "1.5E+;")).
Proof.
  assert (H0 : forall codigo, 0 <= atual (novo codigo)) by (intros; simpl; lia).
  assert (H1 : forall codigo, inicio (novo codigo) = atual (novo codigo))
    by reflexivity.
  destruct (numero_decimal_escaneado (novo "3.5e-2;") ["3"%char] (H0 _) (H1 _))
    as (Hreal & _ & _); [discriminate | reflexivity |].
  destruct (Hreal (Some ["5"%char]) (Some ("e"%char, ["-"%char], ["2"%char]))
              [";"%char]) as (Ha & _).
  { vm_compute; reflexivity. }
  { split; [discriminate | reflexivity]. }
  { split; [reflexivity |].
    split; [right; right; reflexivity |].
    split; [discriminate | reflexivity]. }
  { split; [reflexivity | split; reflexivity]. }
  { vm_compute; reflexivity. }
  { discriminate. }
  { discriminate. }
  destruct (numero_decimal_escaneado (novo "42") ["4"; "2"]%char (H0 _) (H1 _))
    as (Hint & _ & _); [discriminate | reflexivity |].
  destruct (Hint None None []) as (Hb & _).
  { vm_compute; reflexivity. }
  { exact I. }
  { exact I. }
  { split; [reflexivity | simpl; unfold Py.max_str_digits; lia]. }
  { vm_compute; reflexivity. }
  { intros _ _; vm_compute; reflexivity. }
  { intros _; vm_compute; reflexivity. }
  destruct (numero_decimal_escaneado (novo "3.x") ["3"%char] (H0 _) (H1 _))
    as (_ & Hponto & _); [discriminate | reflexivity |].
  destruct (Hponto ["x"%char]) as (Hc & Hd).
  { vm_compute; reflexivity. }
  { vm_compute; reflexivity. }
  { split; [reflexivity | simpl; unfold Py.max_str_digits; lia]. }
  destruct (numero_decimal_escaneado (novo "1.5E+;") ["1"%char] (H0 _) (H1 _))
    as (_ & _ & Herro); [discriminate | reflexivity |].
  pose proof (Herro (Some ["5"%char]) "E"%char ["+"%char] [";"%char]) as He.
  refine (conj Ha (conj Hb (conj Hc (conj Hd _)))).
  - apply He.
    + vm_compute; reflexivity.
    + split; [discriminate | reflexivity].
    + vm_compute; reflexivity.
    + right; left; reflexivity.
    + discriminate.
    + vm_compute; reflexivity.
Qed.

(** C6, at [3.] followed by a superscript two.  The scanner asks [isdigit]
    what a digit is, and [isdigit] accepts the superscript digits, which
    [int] and [float] do not read.  So the dot and the superscript are
    read as a fraction and [float] then raises [ValueError]: no token is
    made, real or integer, the dot is not left to be read, and the error
    is not the scanner's lexical error.  The same happens to an exponent
    of superscript digits, to a number that is a superscript digit
    followed by a dot and a letter, and to a run of 4301 decimal digits,
    which [int] refuses. *)
Theorem numero_com_digito_nao_decimal :
  let fracao := String "3" (String "." (String dois_elevado EmptyString)) in
  let expoente := String "1" (String "e" (String dois_elevado EmptyString)) in
  let inteiro := String dois_elevado ".x" in
  let longo := Py.repetir "9" 4301 in
  Py.isdigit dois_elevado = true
  /\ escanear_token (novo fracao) = (Levanta ValueError, avancado 3 (novo fracao))
  /\ fst (escanear (novo fracao)) = Levanta ValueError
  /\ escanear_token (novo expoente) = (Levanta ValueError, avancado 3 (novo expoente))
  /\ escanear_token (novo inteiro) = (Levanta ValueError, avancado 1 (novo inteiro))
  /\ escanear_token (novo longo) = (Levanta ValueError, avancado 4301 (novo longo)).
Proof.
  cbv zeta. split; [reflexivity |].
  split; [vm_compute; reflexivity |].
  split; [vm_compute; reflexivity |].
  split; [vm_compute; reflexivity |].
  split; [vm_compute; reflexivity |].
  vm_compute; reflexivity.
Qed.

End Numeros.

(** ** Laws of the computations *)

Lemma bind_ler {St A B} (g : St -> A) (k : A -> M St B) (s : St) :
  bind (ler g) k s = k (g s) s.
Proof. reflexivity. Qed.

Lemma bind_mudar {St B} (g : St -> St) (k : unit -> M St B) (s : St) :
  bind (mudar g) k s = k tt (g s).
Proof. reflexivity. Qed.

Lemma bind_assoc {St A B C} (m : M St A) (k : A -> M St B)
    (k' : B -> M St C) (s : St) :
  bind (bind m k) k' s = bind m (fun x => bind (k x) k') s.
Proof.
  unfold bind. destruct (m s) as [[x | e] s']; reflexivity.
Qed.

Lemma bind_ret {St A B} (x : A) (k : A -> M St B) (s : St) :
  bind (ret x) k s = k x s.
Proof. reflexivity. Qed.

(** ** The scanner, token by token *)

Section LacoDeCaracteres.
Import Scanner.

Variable cond : M Scanner bool.
Variable Q : list ascii -> bool.
Hypothesis cond_resto :
  forall s, 0 <= atual s -> cond s = (Retorno (Q (resto s)), s).

Lemma enquanto_lidos (l : list ascii) :
  forall (n : nat) (s : Scanner) (r : list ascii),
    (length l <= n)%nat -> 0 <= atual s -> resto s = l ++ r ->
    lidos Q l r = true ->
    enquantoM n cond (avancar >> ret tt) s = (Retorno tt, avancado (Py.len l) s).
Proof.
  induction l as [| c l IH]; intros n s r Hn Hpos Hr Hl.
  - simpl in Hr, Hl. rewrite avancado_zero. apply enquantoM_para.
    rewrite (cond_resto s Hpos), Hr.
    apply negb_true_iff in Hl. rewrite Hl. reflexivity.
  - destruct n as [| n]; [simpl in Hn; lia |].
    simpl in Hl. apply andb_prop in Hl as [Hl Hl3].
    apply andb_prop in Hl as [Hl1 Hl2]. apply negb_true_iff in Hl2.
    rewrite (enquantoM_volta n _ _ s s (avancado 1 s)).
    + rewrite (IH n (avancado 1 s) r).
      * rewrite avancado_avancado, len_cons. reflexivity.
      * simpl in Hn. lia.
      * simpl. lia.
      * rewrite resto_avancado by lia. rewrite Hr. reflexivity.
      * exact Hl3.
    + rewrite (cond_resto s Hpos), Hr. simpl. simpl in Hl1. rewrite Hl1. reflexivity.
    + apply (avancar_e_seguir s c (l ++ r) Hpos Hr Hl2).
Qed.

End LacoDeCaracteres.

Section Palavras.
Import Scanner.

Lemma espia_identificador_resto (s : Scanner) :
  0 <= atual s ->
  espia_identificador s = (Retorno (segue_palavra (resto s)), s).
Proof.
  intros Hpos. unfold espia_identificador, segue_palavra, de_palavra.
  rewrite (bind_passo _ _ _ _ _ (espiar_resto s Hpos)).
  destruct (Py.isalnum (primeiro_char (resto s))); [reflexivity |].
  rewrite (bind_passo _ _ _ _ _ (espiar_resto s Hpos)). reflexivity.
Qed.

Lemma de_palavra_nao_quebra (c : ascii) :
  de_palavra c = true -> Ascii.eqb c Py.nova_linha = false.
Proof.
  destruct c as [[] [] [] [] [] [] [] []]; intros H; try discriminate H; reflexivity.
Qed.

Lemma inicia_palavra_despacho (c : ascii) :
  inicia_palavra c = true ->
  de_palavra c = true
  /\ char_em c [" "%char; Py.tab; Py.retorno_carro; Py.nova_linha] = false
  /\ char_em c [Py.aspas; Py.apostrofo] = false
  /\ Py.isdigit c = false.
Proof.
  destruct c as [[] [] [] [] [] [] [] []]; intros H; try discriminate H;
    repeat split; reflexivity.
Qed.

Lemma lidos_palavra (cs r : list ascii) :
  forallb de_palavra cs = true -> de_palavra (primeiro_char r) = false ->
  lidos segue_palavra cs r = true.
Proof.
  intros Hcs Hr. induction cs as [| c cs IH]; simpl.
  - unfold segue_palavra. rewrite Hr. reflexivity.
  - simpl in Hcs. apply andb_prop in Hcs as [Hc Hcs].
    unfold segue_palavra at 1. simpl. unfold primeiro_char. simpl.
    rewrite Hc, (de_palavra_nao_quebra c Hc), (IH Hcs). reflexivity.
Qed.

Lemma adicionar_token_padrao (tipo : TipoToken) (s : Scanner) :
  adicionar_token tipo VNone s =
    (Retorno tt,
     com_token (Token.mk tipo (lexema_atual s) (VStr (lexema_atual s))
                  (linha s) (coluna_inicio s)) s).
Proof. reflexivity. Qed.

(** X1. [escanear_token] started on a letter or an underscore reads the
    longest run of letters, digits and underscores, and adds one token
    whose lexeme and value are the word as written, at the line and column
    where the word starts; its type is the one [PALAVRAS_CHAVE] has for the
    word in lower case (keywords are recognised in any letter case), and
    [IDENTIFICADOR] for any other word. *)
Theorem palavra_escaneada (s : Scanner) (c : ascii) (cs r : list ascii) :
  0 <= atual s -> inicio s = atual s ->
  resto s = c :: cs ++ r ->
  inicia_palavra c = true -> forallb de_palavra cs = true ->
  de_palavra (primeiro_char r) = false ->
  escanear_token s =
    (Retorno tt,
     com_token
       (token_de_texto (tipo_de_palavra (string_of_list_ascii (c :: cs))) (c :: cs) s)
       (avancado (Py.len (c :: cs)) s)).
Proof.
  intros Hpos Hini Hr Hc Hcs Hfim.
  destruct (inicia_palavra_despacho c Hc) as (Hp & H1 & H2 & H3).
  unfold escanear_token.
  rewrite (bind_passo _ _ _ _ _
             (avancar_resto s c _ Hpos Hr (de_palavra_nao_quebra c Hp))).
  rewrite H1, H2, H3. unfold inicia_palavra in Hc. rewrite Hc.
  set (s1 := avancado 1 s).
  assert (Hpos1 : 0 <= atual s1) by (apply posicao_avancado; lia).
  assert (Hr1 : resto s1 = cs ++ r).
  { unfold s1. rewrite resto_avancado by lia. rewrite Hr. reflexivity. }
  unfold analisar_identificador.
  rewrite (bind_passo _ _ s1 s1 (restante s1)) by reflexivity.
  rewrite (bind_passo _ _ s1 (avancado (Py.len cs) s1) tt).
  2:{ apply (enquanto_lidos espia_identificador segue_palavra
               espia_identificador_resto cs _ s1 r).
      - rewrite (restante_resto s1 Hpos1), Hr1, length_app. lia.
      - exact Hpos1.
      - exact Hr1.
      - apply lidos_palavra; assumption. }
  assert (Hs2 : avancado (Py.len cs) s1 = avancado (Py.len (c :: cs)) s).
  { unfold s1. rewrite avancado_avancado, len_cons. reflexivity. }
  rewrite Hs2.
  assert (Hlex : lexema_atual (avancado (Py.len (c :: cs)) s)
                 = string_of_list_ascii (c :: cs)).
  { apply (lexema_atual_lido s (c :: cs) r Hpos Hini). exact Hr. }
  rewrite (bind_passo _ _ _ _ _ (eq_refl : ler lexema_atual _ = (_, _))).
  rewrite adicionar_token_padrao, Hlex. reflexivity.
Qed.

End Palavras.

(** The theorem [palavra_escaneada] on concrete inputs: a keyword in
    mixed case, a word with a digit and an underscore, and a word with
    accented letters. *)
Lemma palavra_escaneada_witness :
  let acao := string_of_list_ascii ["a"; c_cedilha; a_til; "o"]%char in
  Scanner.escanear_token (Scanner.novo "Se x") =
    (Retorno tt,
     com_token (Token.mk SE "Se" (VStr "Se") 1 1) (avancado 2 (Scanner.novo "Se x")))
  /\ Scanner.escanear_token (Scanner.novo "x1_ = 2") =
    (Retorno tt,
     com_token (Token.mk IDENTIFICADOR "x1_" (VStr "x1_") 1 1)
       (avancado 3 (Scanner.novo "x1_ = 2")))
  /\ Scanner.escanear_token (Scanner.novo (acao +:+ " = 1")) =
    (Retorno tt,
     com_token (Token.mk IDENTIFICADOR acao (VStr acao) 1 1)
       (avancado 4 (Scanner.novo (acao +:+ " = 1")))).
Proof.
  intros acao. split; [| split].
  3:{ apply (palavra_escaneada (Scanner.novo (acao +:+ " = 1")) "a"%char
               [c_cedilha; a_til; "o"%char] [" "; "="; " "; "1"]%char).
      - simpl; lia.
      - reflexivity.
      - vm_compute; reflexivity.
      - vm_compute; reflexivity.
      - vm_compute; reflexivity.
      - vm_compute; reflexivity. }
  - apply (palavra_escaneada (Scanner.novo "Se x") "S"%char ["e"]%char [" "; "x"]%char).
    + simpl; lia.
    + reflexivity.
    + vm_compute; reflexivity.
    + vm_compute; reflexivity.
    + vm_compute; reflexivity.
    + vm_compute; reflexivity.
  - apply (palavra_escaneada (Scanner.novo "x1_ = 2") "x"%char ["1"; "_"]%char
             [" "; "="; " "; "2"]%char).
    + simpl; lia.
    + reflexivity.
    + vm_compute; reflexivity.
    + vm_compute; reflexivity.
    + vm_compute; reflexivity.
    + vm_compute; reflexivity.
Defined.

#[local] Arguments Scanner.se_combinar : simpl never.
#[local] Arguments Scanner.adicionar_token : simpl never.
#[local] Arguments Scanner.analisar_comentario_linha : simpl never.
#[local] Arguments Scanner.analisar_comentario_bloco : simpl never.
#[local] Arguments Scanner.analisar_string : simpl never.
#[local] Arguments Scanner.linha_atual_contexto : simpl never.
#[local] Arguments avancado : simpl never.
#[local] Arguments com_token : simpl never.
#[local] Arguments resto : simpl never.

(** Stepping over the first character of a token, and choosing the case of
    [escanear_token] for it. *)
Ltac abre_token s Hpos Hr :=
  unfold Scanner.escanear_token;
  rewrite (bind_passo _ _ _ _ _ (avancar_resto s _ _ Hpos Hr eq_refl));
  cbv beta;
  repeat match goal with
         | |- context [if ?b then _ else _] =>
           let v := eval vm_compute in b in change b with v; cbv iota
         end.

Section Operadores.
Import Scanner.

Lemma combinar_resto (e : ascii) (s : Scanner) :
  0 <= atual s ->
  combinar e s =
    match resto s with
    | c :: _ => if Ascii.eqb c e then (Retorno true, avancado 1 s) else (Retorno false, s)
    | [] => (Retorno false, s)
    end.
Proof.
  intros Hpos. unfold combinar, bind, ler.
  destruct (resto s) as [| c r] eqn:Hr.
  - rewrite (resto_vazio s Hpos Hr). reflexivity.
  - destruct (resto_cons s c r Hpos Hr) as [Hfim Hidx].
    rewrite Hfim. unfold fonte_em. rewrite Hidx. simpl.
    destruct (Ascii.eqb c e); reflexivity.
Qed.

Lemma se_combinar_resto {A} (e : ascii) (sim nao : M Scanner A) (s : Scanner) :
  0 <= atual s ->
  se_combinar e sim nao s =
    match resto s with
    | c :: _ => if Ascii.eqb c e then sim (avancado 1 s) else nao s
    | [] => nao s
    end.
Proof.
  intros Hpos. unfold se_combinar, bind. rewrite (combinar_resto e s Hpos).
  destruct (resto s) as [| c r]; [reflexivity |].
  destruct (Ascii.eqb c e); reflexivity.
Qed.

(** The scanner after the first character of a token, when that character
    is no line break. *)
Lemma escanear_token_passo (s : Scanner) (c : ascii) (r : list ascii) :
  0 <= atual s -> resto s = c :: r -> Ascii.eqb c Py.nova_linha = false ->
  exists k, escanear_token = bind avancar k
            /\ escanear_token s = k c (avancado 1 s).
Proof.
  intros Hpos Hr Hnl. eexists. split; [reflexivity |].
  unfold escanear_token. rewrite (bind_passo _ _ _ _ _ (avancar_resto s c r Hpos Hr Hnl)).
  reflexivity.
Qed.

Lemma adicionar_token_lido (tipo : TipoToken) (s : Scanner) (lido cauda : list ascii) :
  0 <= atual s -> inicio s = atual s -> resto s = lido ++ cauda ->
  adicionar_token tipo VNone (avancado (Py.len lido) s) =
    (Retorno tt, com_token (token_de_texto tipo lido s) (avancado (Py.len lido) s)).
Proof.
  intros Hpos Hini Hr. rewrite adicionar_token_padrao.
  rewrite (lexema_atual_lido s lido cauda Hpos Hini Hr). reflexivity.
Qed.



Lemma operador_duplo (s : Scanner) (c d : ascii) (t : TipoToken) (r : list ascii) :
  0 <= atual s -> inicio s = atual s ->
  In (c, d, t) OPERADORES_DUPLOS -> resto s = c :: d :: r ->
  escanear_token s =
    (Retorno tt, com_token (token_de_texto t [c; d] s) (avancado 2 s)).
Proof.
  intros Hpos Hini Hin Hr.
  assert (Hpos1 : 0 <= atual (avancado 1 s)) by (apply posicao_avancado; lia).
  assert (Hr1 : resto (avancado 1 s) = d :: r).
  { rewrite resto_avancado by lia. rewrite Hr. reflexivity. }
  assert (Hr2 : resto s = [c; d] ++ r) by exact Hr.
  pose proof (fun tipo => adicionar_token_lido tipo s [c; d] r Hpos Hini Hr2) as Hadd.
  change (Py.len [c; d]) with 2 in Hadd.
  unfold OPERADORES_DUPLOS in Hin. simpl in Hin.
  destruct Hin as [Hin | Hin].
  { injection Hin as <- <- <-. abre_token s Hpos Hr.
    rewrite ?(se_combinar_resto _ _ _ _ Hpos1), ?Hr1; cbn -[Z.add].
    rewrite ?avancado_avancado. apply Hadd. }
  repeat (destruct Hin as [Hin | Hin];
          [ injection Hin as <- <- <-; abre_token s Hpos Hr;
            rewrite ?(se_combinar_resto _ _ _ _ Hpos1), ?Hr1; cbn -[Z.add];
            rewrite ?avancado_avancado; apply Hadd | ]).
  destruct Hin.
Qed.

Lemma operador_simples (s : Scanner) (c : ascii) (t : TipoToken) (r : list ascii) :
  0 <= atual s -> inicio s = atual s ->
  In (c, t) OPERADORES_SIMPLES -> resto s = c :: r ->
  Forall (fun d => Ascii.eqb (primeiro_char r) d = false) (continuacoes c) ->
  escanear_token s =
    (Retorno tt, com_token (token_de_texto t [c] s) (avancado 1 s)).
Proof.
  intros Hpos Hini Hin Hr Hcont.
  assert (Hpos1 : 0 <= atual (avancado 1 s)) by (apply posicao_avancado; lia).
  assert (Hr1 : resto (avancado 1 s) = r).
  { rewrite resto_avancado by lia. rewrite Hr. reflexivity. }
  assert (Hr2 : resto s = [c] ++ r) by exact Hr.
  pose proof (fun tipo => adicionar_token_lido tipo s [c] r Hpos Hini Hr2) as Hadd.
  change (Py.len [c]) with 1 in Hadd.
  unfold OPERADORES_SIMPLES in Hin. simpl in Hin.
  repeat (destruct Hin as [Hin | Hin];
          [ injection Hin as <- <-; abre_token s Hpos Hr;
            vm_compute continuacoes in Hcont;
            rewrite ?Forall_cons in Hcont;
            rewrite ?(se_combinar_resto _ _ _ _ Hpos1), ?Hr1;
            destruct r as [| d r']; unfold primeiro_char in Hcont; simpl in Hcont;
            repeat match goal with
                   | H : _ /\ _ |- _ => destruct H
                   | H : Ascii.eqb _ _ = false |- _ => rewrite H; clear H
                   end;
            apply Hadd | ]).
  destruct Hin.
Qed.

(** X2. Operators are scanned by longest match. When the first character
    and the one after it form one of the ten two-character operators, both
    are read and that operator's token is added; a one-character operator
    or delimiter gives its own token when the next character does not go
    on with it (for [/], also not into a comment); and [!] not followed by
    [=] raises [ErroLexico] at the start of the token. *)
Theorem operadores_escaneados (s : Scanner) (c : ascii) (r : list ascii) :
  0 <= atual s -> inicio s = atual s -> resto s = c :: r ->
  (forall d t r',
      In (c, d, t) OPERADORES_DUPLOS -> r = d :: r' ->
      escanear_token s =
        (Retorno tt, com_token (token_de_texto t [c; d] s) (avancado 2 s)))
  /\ (forall t,
        In (c, t) OPERADORES_SIMPLES ->
        Forall (fun d => Ascii.eqb (primeiro_char r) d = false) (continuacoes c) ->
        escanear_token s =
          (Retorno tt, com_token (token_de_texto t [c] s) (avancado 1 s)))
  /\ (c = "!"%char -> Ascii.eqb (primeiro_char r) "=" = false ->
      escanear_token s =
        (Levanta (ErroLexico
           "Caractere inesperado: '!'. Você quis dizer 'nao' ou '!='?"
           (linha s) (coluna_inicio s) (linha_atual_contexto (avancado 1 s))),
         avancado 1 s)).
Proof.
  intros Hpos Hini Hr. split; [| split].
  - intros d t r' Hin ->. apply (operador_duplo s c d t r' Hpos Hini Hin Hr).
  - intros t Hin Hcont. apply (operador_simples s c t r Hpos Hini Hin Hr Hcont).
  - intros -> Hn.
    assert (Hpos1 : 0 <= atual (avancado 1 s)) by (apply posicao_avancado; lia).
    assert (Hr1 : resto (avancado 1 s) = r).
    { rewrite resto_avancado by lia. rewrite Hr. reflexivity. }
    abre_token s Hpos Hr.
    rewrite (se_combinar_resto _ _ _ _ Hpos1), Hr1.
    destruct r as [| d r']; unfold primeiro_char in Hn; simpl in Hn;
      rewrite ?Hn; reflexivity.
Qed.

End Operadores.

(** The theorem [operadores_escaneados] on a concrete input. *)
Lemma operadores_escaneados_witness :
  Scanner.escanear_token (Scanner.novo "<=1") =
    (Retorno tt,
     com_token (Token.mk MENOR_IGUAL "<=" (VStr "<=") 1 1)
       (avancado 2 (Scanner.novo "<=1")))
  /\ Scanner.escanear_token (Scanner.novo "<1") =
    (Retorno tt,
     com_token (Token.mk MENOR "<" (VStr "<") 1 1) (avancado 1 (Scanner.novo "<1")))
  /\ Scanner.escanear_token (Scanner.novo "!x") =
    (Levanta (ErroLexico
       "Caractere inesperado: '!'. Você quis dizer 'nao' ou '!='?" 1 1 "!x"),
     avancado 1 (Scanner.novo "!x")).
Proof.
  assert (H0 : forall codigo, 0 <= Scanner.atual (Scanner.novo codigo))
    by (intros; simpl; lia).
  assert (H1 : forall codigo,
             Scanner.inicio (Scanner.novo codigo) = Scanner.atual (Scanner.novo codigo))
    by reflexivity.
  split; [| split].
  - refine (proj1 (operadores_escaneados (Scanner.novo "<=1") "<"%char ["="; "1"]%char
                     (H0 _) (H1 _) _) "="%char MENOR_IGUAL ["1"%char] _ _).
    + vm_compute; reflexivity.
    + vm_compute; tauto.
    + reflexivity.
  - refine (proj1 (proj2 (operadores_escaneados (Scanner.novo "<1") "<"%char ["1"]%char
                            (H0 _) (H1 _) _)) MENOR _ _).
    + vm_compute; reflexivity.
    + vm_compute; tauto.
    + repeat constructor.
  - refine (proj2 (proj2 (operadores_escaneados (Scanner.novo "!x") "!"%char ["x"]%char
                            (H0 _) (H1 _) _)) _ _).
    + vm_compute; reflexivity.
    + reflexivity.
    + reflexivity.
Defined.

Section BrancosEComentarios.
Import Scanner.

Lemma avancar_quebra (s : Scanner) (r : list ascii) :
  0 <= atual s -> resto s = Py.nova_linha :: r ->
  avancar s = (Retorno Py.nova_linha, nova_linha_lida s).
Proof.
  intros Hpos Hr. unfold avancar, bind, ler.
  destruct (resto_cons s _ r Hpos Hr) as [_ Hidx].
  unfold fonte_em. rewrite Hidx. reflexivity.
Qed.

Lemma segue_comentario_resto (s : Scanner) :
  0 <= atual s ->
  (let* fim := ler fim_codigo in
   if fim then ret false
   else let* c := espiar in ret (negb (Ascii.eqb c Py.nova_linha))) s
  = (Retorno (segue_comentario (resto s)), s).
Proof.
  intros Hpos. destruct (resto s) as [| c r] eqn:Hr.
  - unfold bind, ler. rewrite (resto_vazio s Hpos Hr). reflexivity.
  - destruct (resto_cons s c r Hpos Hr) as [Hfim _].
    unfold bind at 1. unfold ler. rewrite Hfim.
    rewrite (bind_passo _ _ _ _ _ (espiar_resto s Hpos)), Hr. reflexivity.
Qed.

Lemma lidos_comentario (l r : list ascii) :
  forallb (fun c => negb (Ascii.eqb c Py.nova_linha)) l = true ->
  segue_comentario r = false ->
  lidos segue_comentario l r = true.
Proof.
  intros Hl Hr. induction l as [| c l IH]; simpl.
  - rewrite Hr. reflexivity.
  - simpl in Hl. apply andb_prop in Hl as [Hc Hl].
    rewrite Hc, (IH Hl). reflexivity.
Qed.

(** X3. Blanks and line comments add no token. A space, a tab or a
    carriage return is passed with the column advanced; a line break moves
    to column 1 of the next line; and [//] reads up to, not including, the
    next line break or the end of the source, leaving the token list as it
    was. *)
Theorem brancos_e_comentarios (s : Scanner) :
  0 <= atual s ->
  (forall c r,
      resto s = c :: r -> char_em c [" "%char; Py.tab; Py.retorno_carro] = true ->
      escanear_token s = (Retorno tt, avancado 1 s))
  /\ (forall r,
      resto s = Py.nova_linha :: r ->
      escanear_token s = (Retorno tt, nova_linha_lida s))
  /\ (forall l r,
      resto s = "/"%char :: "/"%char :: l ++ r ->
      forallb (fun c => negb (Ascii.eqb c Py.nova_linha)) l = true ->
      segue_comentario r = false ->
      escanear_token s = (Retorno tt, avancado (2 + Py.len l) s)
      /\ tokens (avancado (2 + Py.len l) s) = tokens s
      /\ resto (avancado (2 + Py.len l) s) = r).
Proof.
  intros Hpos. split; [| split].
  - intros c r Hr Hc. unfold escanear_token.
    assert (Hnl : Ascii.eqb c Py.nova_linha = false).
    { revert Hc. destruct c as [[] [] [] [] [] [] [] []]; intros Hc;
        try discriminate Hc; reflexivity. }
    rewrite (bind_passo _ _ _ _ _ (avancar_resto s c r Hpos Hr Hnl)).
    assert (H : char_em c [" "%char; Py.tab; Py.retorno_carro; Py.nova_linha] = true).
    { revert Hc. destruct c as [[] [] [] [] [] [] [] []]; intros Hc;
        try discriminate Hc; reflexivity. }
    rewrite H. reflexivity.
  - intros r Hr. unfold escanear_token.
    rewrite (bind_passo _ _ _ _ _ (avancar_quebra s r Hpos Hr)). reflexivity.
  - intros l r Hr Hl Hfim.
    assert (Hpos1 : 0 <= atual (avancado 1 s)) by (apply posicao_avancado; lia).
    assert (Hr1 : resto (avancado 1 s) = "/"%char :: l ++ r).
    { rewrite resto_avancado by lia. rewrite Hr. reflexivity. }
    set (s2 := avancado 2 s).
    assert (Hpos2 : 0 <= atual s2) by (apply posicao_avancado; lia).
    assert (Hr2 : resto s2 = l ++ r).
    { unfold s2. rewrite resto_avancado by lia. rewrite Hr. reflexivity. }
    split; [| split].
    + abre_token s Hpos Hr.
      rewrite (se_combinar_resto _ _ _ _ Hpos1), Hr1. cbn -[Z.add].
      rewrite avancado_avancado. change (1 + 1) with 2. fold s2.
      unfold analisar_comentario_linha.
      rewrite (bind_passo _ _ s2 s2 (restante s2)) by reflexivity.
      rewrite (enquanto_lidos _ segue_comentario segue_comentario_resto l _ s2 r).
      * unfold s2. rewrite avancado_avancado. reflexivity.
      * rewrite (restante_resto s2 Hpos2), Hr2, length_app. lia.
      * exact Hpos2.
      * exact Hr2.
      * apply lidos_comentario; assumption.
    + reflexivity.
    + replace (2 + Py.len l) with (Py.len ("/"%char :: "/"%char :: l))
        by (rewrite !len_cons; lia).
      apply (resto_avancado_app s _ r Hpos). exact Hr.
Qed.

End BrancosEComentarios.

(** The theorem [brancos_e_comentarios] on a concrete input. *)
Lemma brancos_e_comentarios_witness :
  Scanner.escanear_token (Scanner.novo "// a") =
    (Retorno tt, avancado 4 (Scanner.novo "// a"))
  /\ Scanner.tokens (avancado 4 (Scanner.novo "// a")) = []
  /\ resto (avancado 4 (Scanner.novo "// a")) = [].
Proof.
  refine (proj2 (proj2 (brancos_e_comentarios (Scanner.novo "// a") _))
            [" "; "a"]%char [] _ _ _).
  - simpl; lia.
  - vm_compute; reflexivity.
  - reflexivity.
  - reflexivity.
Defined.

Section CaracteresSemCaso.
Import Scanner.

(** X4. A character [escanear_token] has no case for raises [ErroLexico]
    with the message naming the character and its code, at the line and
    column where it stands; the character has been read by then. *)
Theorem caractere_nao_reconhecido (s : Scanner) (c : ascii) (r : list ascii) :
  0 <= atual s -> resto s = c :: r -> reconhecido c = false ->
  escanear_token s =
    (Levanta (ErroLexico
       ("Caractere não reconhecido: '" +:+ Py.str1 c +:+ "' (código: "
        +:+ Py.str_int (Py.ord c) +:+ ")")
       (linha s) (coluna_inicio s) (linha_atual_contexto (avancado 1 s))),
     avancado 1 s).
Proof.
  intros Hpos Hr Hc. unfold reconhecido in Hc.
  apply orb_false_elim in Hc as [Hc Hops].
  apply orb_false_elim in Hc as [Hc Hal].
  apply orb_false_elim in Hc as [Hc Hdig].
  apply orb_false_elim in Hc as [Hws Hq].
  assert (Hnl : Ascii.eqb c Py.nova_linha = false).
  { pose proof Hws as H. unfold char_em in H. cbn [existsb] in H.
    repeat (apply orb_false_elim in H as [? H]). assumption. }
  unfold escanear_token.
  rewrite (bind_passo _ _ _ _ _ (avancar_resto s c r Hpos Hr Hnl)).
  rewrite Hws, Hq, Hdig, Hal. clear Hws Hq Hdig Hal Hnl.
  unfold char_em in Hops. cbn [existsb] in Hops.
  repeat (apply orb_false_elim in Hops as [? Hops]).
  repeat match goal with H : Ascii.eqb c _ = false |- _ => rewrite H; clear H end.
  reflexivity.
Qed.

End CaracteresSemCaso.

(** The theorem [caractere_nao_reconhecido] on concrete inputs: an at
    sign, and an inverted question mark. *)
Lemma caractere_nao_reconhecido_witness :
  let fonte := Py.str1 interrogacao_invertida in
  Scanner.escanear_token (Scanner.novo "@") =
    (Levanta (ErroLexico "Caractere não reconhecido: '@' (código: 64)" 1 1 "@"),
     avancado 1 (Scanner.novo "@"))
  /\ Scanner.escanear_token (Scanner.novo fonte) =
    (Levanta (ErroLexico
       ("Caractere não reconhecido: '" +:+ fonte +:+ "' (código: 191)") 1 1 fonte),
     avancado 1 (Scanner.novo fonte)).
Proof.
  intros fonte. split.
  - apply (caractere_nao_reconhecido (Scanner.novo "@") "@"%char []).
    + simpl; lia.
    + vm_compute; reflexivity.
    + vm_compute; reflexivity.
  - apply (caractere_nao_reconhecido (Scanner.novo fonte) interrogacao_invertida []).
    + simpl; lia.
    + vm_compute; reflexivity.
    + vm_compute; reflexivity.
Defined.

Section ComentariosDeBloco.
Import Scanner.

Lemma avancar_lido (s : Scanner) (c : ascii) (r : list ascii) :
  0 <= atual s -> resto s = c :: r ->
  avancar s = (Retorno c, lido c s).
Proof.
  intros Hpos Hr. unfold lido.
  destruct (Ascii.eqb c Py.nova_linha) eqn:E.
  - apply Ascii.eqb_eq in E. subst c. apply (avancar_quebra s r Hpos Hr).
  - apply (avancar_resto s c r Hpos Hr E).
Qed.

Lemma lido_posicao (c : ascii) (s : Scanner) :
  atual (lido c s) = atual s + 1 /\ fonte (lido c s) = fonte s
  /\ tokens (lido c s) = tokens s.
Proof. unfold lido. destruct (Ascii.eqb c Py.nova_linha); repeat split. Qed.

Lemma resto_lido (s : Scanner) (c : ascii) (r : list ascii) :
  0 <= atual s -> resto s = c :: r -> resto (lido c s) = r.
Proof.
  intros Hpos Hr. destruct (lido_posicao c s) as (Ha & Hf & _).
  unfold resto in *. rewrite Ha, Hf.
  replace (Z.to_nat (atual s + 1)) with (S (Z.to_nat (atual s))) by lia.
  assert (Hl : fonte s !! Z.to_nat (atual s) = Some c).
  { rewrite <- (Nat.add_0_r (Z.to_nat (atual s))), <- lookup_drop, Hr. reflexivity. }
  rewrite (drop_S _ _ _ Hl) in Hr. congruence.
Qed.

Lemma apos_posicao (l : list ascii) :
  forall (s : Scanner) (r : list ascii),
    0 <= atual s -> resto s = l ++ r ->
    0 <= atual (apos l s) /\ resto (apos l s) = r
    /\ tokens (apos l s) = tokens s.
Proof.
  induction l as [| c l IH]; intros s r Hpos Hr.
  - repeat split; assumption.
  - simpl in Hr. destruct (lido_posicao c s) as (Ha & _ & Ht).
    change (apos (c :: l) s) with (apos l (lido c s)).
    destruct (IH (lido c s) r) as (H1 & H2 & H3).
    + rewrite Ha. lia.
    + apply (resto_lido s c _ Hpos Hr).
    + repeat split; [exact H1 | exact H2 | rewrite H3; exact Ht].
Qed.

(** The loop of the block comment over a text that does not close it. *)
Lemma bloco_laco_apos (l : list ascii) :
  forall (n : nat) (s : Scanner) (r : list ascii) (K : bool -> M Scanner unit),
    0 <= atual s -> resto s = l ++ r -> sem_fecho l r = true ->
    (length l <= n)%nat ->
    (let* saiu := analisar_comentario_bloco_laco n in K saiu) s =
    (let* saiu := analisar_comentario_bloco_laco (n - length l) in K saiu) (apos l s).
Proof.
  induction l as [| c l IH]; intros n s r K Hpos Hr Hsem Hn.
  - simpl. rewrite Nat.sub_0_r. reflexivity.
  - simpl in Hr, Hsem. apply andb_prop in Hsem as [Hc Hsem].
    apply negb_true_iff in Hc.
    destruct n as [| k]; [simpl in Hn; lia |].
    destruct (resto_cons s c _ Hpos Hr) as [Hfim _].
    cbn [analisar_comentario_bloco_laco].
    rewrite !bind_assoc.
    rewrite (bind_passo _ _ s s false) by (unfold ler; rewrite Hfim; reflexivity).
    cbv iota. rewrite !bind_assoc.
    rewrite (bind_passo _ _ _ _ _ (espiar_resto s Hpos)), Hr.
    change (primeiro_char (c :: l ++ r)) with c.
    assert (Ef : (if Ascii.eqb c "*"
                  then let* p := espiar_proximo in ret (Ascii.eqb p "/")
                  else ret false) s = (Retorno false, s)).
    { destruct (Ascii.eqb c "*"); [| reflexivity].
      rewrite (bind_passo _ _ _ _ _ (espiar_proximo_resto s Hpos)), Hr.
      simpl in Hc. change (tl (c :: l ++ r)) with (l ++ r).
      unfold ret. rewrite Hc. reflexivity. }
    rewrite !bind_assoc, (bind_passo _ _ _ _ _ Ef). cbv iota.
    rewrite !bind_assoc, (bind_passo _ _ _ _ _ (avancar_lido s c _ Hpos Hr)).
    destruct (lido_posicao c s) as (Ha & _ & _).
    rewrite (IH k (lido c s) r K).
    + reflexivity.
    + rewrite Ha. lia.
    + apply (resto_lido s c _ Hpos Hr).
    + exact Hsem.
    + simpl in Hn. lia.
Qed.

(** X5. A block comment adds no token. From [/*] the scanner reads up to
    and including the first [*/], over line breaks too, which advance the
    line and reset the column; the text after the closing mark is left to
    be read. When no [*/] follows, [ErroLexico] is raised at the end of the
    source, its message naming the line where the comment started. *)
Theorem comentario_de_bloco (s : Scanner) (l : list ascii) :
  0 <= atual s ->
  (forall r,
      resto s = "/"%char :: "*"%char :: l ++ "*"%char :: "/"%char :: r ->
      sem_fecho l ("*"%char :: "/"%char :: r) = true ->
      let s' := avancado 2 (apos l (avancado 2 s)) in
      escanear_token s = (Retorno tt, s')
      /\ tokens s' = tokens s /\ resto s' = r)
  /\ (resto s = "/"%char :: "*"%char :: l ->
      sem_fecho l [] = true ->
      let s' := apos l (avancado 2 s) in
      escanear_token s =
        (Levanta (ErroLexico
           ("Comentário de bloco não fechado (iniciado na linha "
            +:+ Py.str_int (linha s) +:+ ")")
           (linha s') (coluna s') ""), s')).
Proof.
  intros Hpos.
  assert (Hpos1 : 0 <= atual (avancado 1 s)) by (apply posicao_avancado; lia).
  set (s2 := avancado 2 s).
  assert (Hpos2 : 0 <= atual s2) by (apply posicao_avancado; lia).
  assert (Habre : forall r0,
             resto s = "/"%char :: "*"%char :: r0 ->
             escanear_token s = analisar_comentario_bloco s2 /\ resto s2 = r0).
  { intros r0 Hr.
    assert (Hr1 : resto (avancado 1 s) = "*"%char :: r0).
    { rewrite resto_avancado by lia. rewrite Hr. reflexivity. }
    split.
    - abre_token s Hpos Hr.
      rewrite (se_combinar_resto _ _ _ _ Hpos1), Hr1. cbn -[Z.add].
      rewrite (se_combinar_resto _ _ _ _ Hpos1), Hr1. cbn -[Z.add].
      rewrite avancado_avancado. reflexivity.
    - unfold s2. rewrite resto_avancado by lia. rewrite Hr. reflexivity. }
  split.
  - intros r Hr Hsem s'.
    destruct (Habre _ Hr) as [E Hr2]. rewrite E.
    destruct (apos_posicao l s2 _ Hpos2 Hr2) as (Hp3 & Hr3 & Ht3).
    set (s3 := apos l s2) in *.
    assert (Hfim3 : fim_codigo s3 = false) by apply (resto_cons s3 _ _ Hp3 Hr3).
    assert (Hr3' : resto (avancado 1 s3) = "/"%char :: r).
    { rewrite resto_avancado by lia. rewrite Hr3. reflexivity. }
    assert (Hp3' : 0 <= atual (avancado 1 s3)) by (apply posicao_avancado; lia).
    split; [| split].
    + unfold analisar_comentario_bloco.
      rewrite (bind_passo _ _ s2 s2 (linha s2)) by reflexivity.
      rewrite (bind_passo _ _ s2 s2 (restante s2)) by reflexivity.
      rewrite (bloco_laco_apos l (restante s2) s2 _ _ Hpos2 Hr2 Hsem)
        by (rewrite (restante_resto s2 Hpos2), Hr2, length_app; lia).
      fold s3.
      assert (Hn : exists k, (restante s2 - length l = S k)%nat).
      { exists (S (length r)). rewrite (restante_resto s2 Hpos2), Hr2, length_app.
        simpl. lia. }
      destruct Hn as [k ->].
      cbn [analisar_comentario_bloco_laco]. rewrite !bind_assoc.
      rewrite (bind_passo _ _ s3 s3 false) by (unfold ler; rewrite Hfim3; reflexivity).
      cbv iota. rewrite !bind_assoc.
      rewrite (bind_passo _ _ _ _ _ (espiar_resto s3 Hp3)), Hr3.
      change (primeiro_char ("*"%char :: "/"%char :: r)) with "*"%char.
      change (Ascii.eqb "*" "*") with true. cbv iota.
      rewrite !bind_assoc.
      rewrite (bind_passo _ _ _ _ _ (espiar_proximo_resto s3 Hp3)), Hr3.
      change (primeiro_char (tl ("*"%char :: "/"%char :: r))) with "/"%char.
      rewrite bind_ret. change (Ascii.eqb "/" "/") with true. cbv iota.
      rewrite !bind_assoc.
      rewrite (bind_passo _ _ _ _ _ (avancar_resto s3 _ _ Hp3 Hr3 eq_refl)).
      rewrite !bind_assoc.
      rewrite (bind_passo _ _ _ _ _ (avancar_resto _ _ _ Hp3' Hr3' eq_refl)).
      rewrite bind_ret. cbv iota. rewrite avancado_avancado. reflexivity.
    + unfold s'. exact Ht3.
    + unfold s'. rewrite resto_avancado by lia. rewrite Hr3. reflexivity.
  - intros Hr Hsem s'.
    destruct (Habre _ Hr) as [E Hr2]. rewrite E.
    rewrite <- (app_nil_r l) in Hr2.
    destruct (apos_posicao l s2 _ Hpos2 Hr2) as (Hp3 & Hr3 & Ht3).
    fold s' in Hp3, Hr3, Ht3.
    assert (Hfim3 : fim_codigo s' = true) by apply (resto_vazio s' Hp3 Hr3).
    unfold analisar_comentario_bloco.
    rewrite (bind_passo _ _ s2 s2 (linha s2)) by reflexivity.
    rewrite (bind_passo _ _ s2 s2 (restante s2)) by reflexivity.
    rewrite (bloco_laco_apos l (restante s2) s2 _ _ Hpos2 Hr2 Hsem)
      by (rewrite (restante_resto s2 Hpos2), Hr2, length_app; lia).
    fold s'.
    assert (Hlaco : forall n, analisar_comentario_bloco_laco n s' = (Retorno false, s')).
    { intros n. destruct n; cbn [analisar_comentario_bloco_laco];
        unfold bind, ler; rewrite Hfim3; reflexivity. }
    rewrite (bind_passo _ _ _ _ _ (Hlaco _)). reflexivity.
Qed.

End ComentariosDeBloco.

(** The theorem [comentario_de_bloco] on a concrete input. *)
Lemma comentario_de_bloco_witness :
  Scanner.escanear_token (Scanner.novo "/* a */x") =
    (Retorno tt, avancado 7 (Scanner.novo "/* a */x"))
  /\ resto (avancado 7 (Scanner.novo "/* a */x")) = ["x"%char]
  /\ Scanner.escanear_token (Scanner.novo "/*/") =
     (Levanta (ErroLexico "Comentário de bloco não fechado (iniciado na linha 1)" 1 4 ""),
      avancado 3 (Scanner.novo "/*/")).
Proof.
  assert (H0 : forall codigo, 0 <= Scanner.atual (Scanner.novo codigo))
    by (intros; simpl; lia).
  destruct (proj1 (comentario_de_bloco (Scanner.novo "/* a */x") [" "; "a"; " "]%char
                     (H0 _)) ["x"%char]) as (H1 & _ & H2).
  { vm_compute; reflexivity. }
  { reflexivity. }
  pose proof (proj2 (comentario_de_bloco (Scanner.novo "/*/") ["/"%char] (H0 _))) as H3.
  split; [exact H1 |]. split; [exact H2 |]. apply H3.
  - vm_compute; reflexivity.
  - reflexivity.
Defined.

#[local] Arguments Scanner.analisar_string_laco : simpl never.

Section Textos.
Import Scanner.

Variable aspas : ascii.
Hypothesis aspas_e_aspas : e_aspas aspas = true.

Lemma aspas_nao_quebra :
  Ascii.eqb aspas Py.nova_linha = false
  /\ Ascii.eqb Py.barra_invertida aspas = false
  /\ Ascii.eqb Py.nova_linha aspas = false.
Proof.
  revert aspas_e_aspas.
  destruct aspas as [[] [] [] [] [] [] [] []]; intros H; try discriminate H;
    repeat split; reflexivity.
Qed.

Lemma laco_para (n : nat) (v : string) (s : Scanner) :
  0 <= atual s -> para_texto aspas (resto s) = true ->
  analisar_string_laco n aspas v s = (Retorno v, s).
Proof.
  intros Hpos Hp. destruct (resto s) as [| c r] eqn:Hr.
  - destruct n; unfold analisar_string_laco, bind, ler;
      rewrite (resto_vazio s Hpos Hr); reflexivity.
  - destruct (resto_cons s c r Hpos Hr) as [Hfim _]. simpl in Hp.
    destruct n; unfold analisar_string_laco; fold analisar_string_laco;
      rewrite (bind_passo _ _ s s false) by (unfold ler; rewrite Hfim; reflexivity);
      rewrite (bind_passo _ _ s s false)
        by (rewrite (bind_passo _ _ _ _ _ (espiar_resto s Hpos)), Hr;
            unfold primeiro_char; simpl; rewrite Hp; reflexivity);
      reflexivity.
Qed.

(** One turn of the loop, before a character that is not the quote. *)
Lemma laco_volta (n : nat) (v : string) (s : Scanner) (c : ascii) (r : list ascii) :
  0 <= atual s -> resto s = c :: r -> Ascii.eqb c aspas = false ->
  analisar_string_laco (S n) aspas v s =
    (if Ascii.eqb c Py.nova_linha then
       levanta (ErroLexico "String não terminada - encontrado fim de linha"
                  (linha s) (coluna_inicio s) (linha_atual_contexto s))
     else if Ascii.eqb c Py.barra_invertida then
       avancar >>
       let* fim := ler fim_codigo in
       if fim then
         let* l := ler linha in
         let* ci := ler coluna_inicio in
         levanta (ErroLexico "String não terminada após caractere de escape" l ci "")
       else
         let* escape := avancar in
         analisar_string_laco n aspas (v +:+ escapes_get escape)
     else
       let* c := avancar in
       analisar_string_laco n aspas (v +:+ Py.str1 c)) s.
Proof.
  intros Hpos Hr Hc. destruct (resto_cons s c r Hpos Hr) as [Hfim _].
  unfold analisar_string_laco at 1; fold analisar_string_laco.
  rewrite (bind_passo _ _ s s false) by (unfold ler; rewrite Hfim; reflexivity).
  rewrite (bind_passo _ _ s s true)
    by (rewrite (bind_passo _ _ _ _ _ (espiar_resto s Hpos)), Hr;
        unfold primeiro_char; simpl; rewrite Hc; reflexivity).
  rewrite (bind_passo _ _ _ _ _ (espiar_resto s Hpos)), Hr.
  unfold primeiro_char. change (hd Py.nul (c :: r)) with c.
  destruct (Ascii.eqb c Py.nova_linha); reflexivity.
Qed.

Lemma laco_itens (its : list ItemDeTexto) :
  forall (n : nat) (v : string) (s : Scanner) (r : list ascii),
    (length its <= n)%nat -> 0 <= atual s ->
    resto s = texto_dos_itens its ++ r ->
    forallb (item_valido aspas) its = true ->
    analisar_string_laco n aspas v s =
      analisar_string_laco (n - length its) aspas
        (fold_left (fun v it => v +:+ valor_do_item it) its v)
        (avancado (Py.len (texto_dos_itens its)) s).
Proof.
  induction its as [| it its IH]; intros n v s r Hn Hpos Hr Hits.
  - simpl. rewrite avancado_zero, Nat.sub_0_r. reflexivity.
  - destruct n as [| n]; [simpl in Hn; lia |].
    simpl in Hits. apply andb_prop in Hits as [Hit Hits].
    destruct aspas_nao_quebra as (_ & Hb & _).
    destruct it as [c | e]; simpl in Hit.
    + apply andb_prop in Hit as [Hit H3]. apply andb_prop in Hit as [H1 H2].
      apply negb_true_iff in H1, H2, H3.
      unfold texto_dos_itens in Hr. simpl in Hr.
      rewrite (laco_volta n v s c _ Hpos Hr H1), H2, H3.
      rewrite (bind_passo _ _ _ _ _ (avancar_resto s c _ Hpos Hr H2)).
      rewrite (IH n _ (avancado 1 s) r).
      * simpl length. simpl fold_left. rewrite avancado_avancado.
        unfold texto_dos_itens. simpl concat. rewrite len_cons. reflexivity.
      * simpl in Hn. lia.
      * apply posicao_avancado; lia.
      * rewrite resto_avancado by lia. rewrite Hr. reflexivity.
      * exact Hits.
    + apply negb_true_iff in Hit.
      unfold texto_dos_itens in Hr. simpl in Hr.
      rewrite (laco_volta n v s Py.barra_invertida _ Hpos Hr Hb).
      change (Ascii.eqb Py.barra_invertida Py.nova_linha) with false.
      change (Ascii.eqb Py.barra_invertida Py.barra_invertida) with true.
      cbv iota.
      rewrite (bind_passo _ _ _ _ _
                 (avancar_resto s Py.barra_invertida _ Hpos Hr eq_refl)).
      set (s1 := avancado 1 s).
      assert (Hpos1 : 0 <= atual s1) by (apply posicao_avancado; lia).
      assert (Hr1 : resto s1 = e :: texto_dos_itens its ++ r).
      { unfold s1. rewrite resto_avancado by lia. rewrite Hr. reflexivity. }
      destruct (resto_cons s1 e _ Hpos1 Hr1) as [Hfim _].
      rewrite (bind_passo _ _ s1 s1 false) by (unfold ler; rewrite Hfim; reflexivity).
      rewrite (bind_passo _ _ _ _ _ (avancar_resto s1 e _ Hpos1 Hr1 Hit)).
      rewrite (IH n _ (avancado 1 s1) r).
      * simpl length. simpl fold_left. unfold s1. rewrite !avancado_avancado.
        unfold texto_dos_itens. simpl concat. rewrite !len_cons.
        first [reflexivity | f_equal; f_equal; lia].
      * simpl in Hn. lia.
      * apply posicao_avancado; lia.
      * rewrite resto_avancado by lia. rewrite Hr1. reflexivity.
      * exact Hits.
Qed.

Lemma length_texto (its : list ItemDeTexto) :
  (length its <= length (texto_dos_itens its))%nat.
Proof.
  induction its as [| [c | e] its IH]; unfold texto_dos_itens in *; simpl; lia.
Qed.

(** [analisar_string] up to the end of its loop, after the opening quote
    and the items [its]. *)
Lemma analisar_string_itens (s : Scanner) (its : list ItemDeTexto) (r : list ascii)
    (k : string -> M Scanner unit) :
  0 <= atual s -> resto s = aspas :: texto_dos_itens its ++ r ->
  forallb (item_valido aspas) its = true ->
  let s1 := avancado 1 s in
  let s2 := avancado (1 + Py.len (texto_dos_itens its)) s in
  (let* i := ler atual in
   let* aspas := fonte_em (i - 1) in
   let* n := ler restante in
   let* valor := analisar_string_laco n aspas "" in
   k valor) s1
  = (let* valor :=
       analisar_string_laco (length (resto s1) - length its) aspas
         (valor_dos_itens its) in
     k valor) s2
  /\ 0 <= atual s2 /\ resto s2 = r.
Proof.
  intros Hpos Hr Hits s1 s2.
  assert (Hpos1 : 0 <= atual s1) by (apply posicao_avancado; lia).
  assert (Hr1 : resto s1 = texto_dos_itens its ++ r).
  { unfold s1. rewrite resto_avancado by lia. rewrite Hr. reflexivity. }
  assert (Hs2 : s2 = avancado (Py.len (texto_dos_itens its)) s1).
  { unfold s1, s2. rewrite avancado_avancado. reflexivity. }
  split; [| split].
  - rewrite (bind_passo _ _ s1 s1 (atual s1)) by reflexivity.
    rewrite (bind_passo _ _ s1 s1 aspas).
    2:{ unfold fonte_em. change (atual s1) with (atual s + 1).
        rewrite Z.add_simpl_r. change (fonte s1) with (fonte s).
        destruct (resto_cons s aspas _ Hpos Hr) as [_ ->]. reflexivity. }
    rewrite (bind_passo _ _ s1 s1 (restante s1)) by reflexivity.
    unfold bind at 1.
    rewrite (laco_itens its (restante s1) "" s1 r).
    + rewrite (restante_resto s1 Hpos1), <- Hs2. reflexivity.
    + rewrite (restante_resto s1 Hpos1), Hr1, length_app.
      pose proof (length_texto its). lia.
    + exact Hpos1.
    + exact Hr1.
    + exact Hits.
  - apply posicao_avancado; [exact Hpos |]. pose proof (len_nao_negativo (texto_dos_itens its)). lia.
  - rewrite Hs2. apply (resto_avancado_app s1 _ r Hpos1 Hr1).
Qed.

End Textos.

Section TextosEscaneados.
Import Scanner.

Lemma aspas_despacho (q : ascii) :
  e_aspas q = true ->
  Ascii.eqb q Py.nova_linha = false
  /\ char_em q [" "%char; Py.tab; Py.retorno_carro; Py.nova_linha] = false
  /\ char_em q [Py.aspas; Py.apostrofo] = true.
Proof.
  destruct q as [[] [] [] [] [] [] [] []]; intros H; try discriminate H;
    repeat split; reflexivity.
Qed.

Lemma escanear_token_em_aspas (s : Scanner) (q : ascii) (r : list ascii) :
  0 <= atual s -> resto s = q :: r -> e_aspas q = true ->
  escanear_token s = analisar_string (avancado 1 s).
Proof.
  intros Hpos Hr Hq. destruct (aspas_despacho q Hq) as (Hnl & H1 & H2).
  unfold escanear_token.
  rewrite (bind_passo _ _ _ _ _ (avancar_resto s q r Hpos Hr Hnl)).
  rewrite H1, H2. reflexivity.
Qed.

(** X6. A string literal closed on its line gives one [TEXTO] token.
    Between the opening quote (single or double) and the next unescaped
    quote of the same kind, plain characters stand for themselves and a
    backslash with the character after it stands for what [escapes] has
    for it (the two characters as written when it has none). The lexeme is the
    literal with its quotes, the value the decoded text. *)
Theorem texto_escaneado (s : Scanner) (q : ascii) (its : list ItemDeTexto)
    (r : list ascii) :
  0 <= atual s -> inicio s = atual s -> e_aspas q = true ->
  resto s = q :: texto_dos_itens its ++ q :: r ->
  forallb (item_valido q) its = true ->
  let lido := q :: texto_dos_itens its ++ [q] in
  escanear_token s =
    (Retorno tt,
     com_token
       (Token.mk TEXTO (string_of_list_ascii lido) (VStr (valor_dos_itens its))
          (linha s) (coluna_inicio s))
       (avancado (Py.len lido) s)).
Proof.
  intros Hpos Hini Hq Hr Hits lido.
  destruct (aspas_despacho q Hq) as (Hnl & _ & _).
  rewrite (escanear_token_em_aspas s q _ Hpos Hr Hq).
  unfold analisar_string.
  destruct (analisar_string_itens q Hq s its (q :: r)
              (fun valor =>
                 let* fim := ler fim_codigo in
                 if fim then
                   let* l := ler linha in
                   let* ci := ler coluna_inicio in
                   let* ctx := ler linha_atual_contexto in
                   levanta (ErroLexico
                     "String não terminada - fim de arquivo inesperado" l ci ctx)
                 else avancar >> adicionar_token TEXTO (VStr valor))
              Hpos Hr Hits) as (Hpasso & Hpos2 & Hr2).
  cbv zeta in Hpasso, Hpos2, Hr2. rewrite Hpasso. clear Hpasso.
  set (s2 := avancado (1 + Py.len (texto_dos_itens its)) s) in *.
  rewrite (bind_passo _ _ s2 s2 (valor_dos_itens its)).
  2:{ apply (laco_para q); [exact Hpos2 |]. rewrite Hr2. simpl.
      apply Ascii.eqb_refl. }
  destruct (resto_cons s2 q r Hpos2 Hr2) as [Hfim _].
  rewrite (bind_passo _ _ s2 s2 false) by (unfold ler; rewrite Hfim; reflexivity).
  rewrite (bind_passo _ _ _ _ _ (avancar_resto s2 q r Hpos2 Hr2 Hnl)).
  assert (Hs3 : avancado 1 s2 = avancado (Py.len lido) s).
  { unfold s2, lido. rewrite avancado_avancado, len_cons, len_app, len_cons.
    f_equal. change (Py.len []) with 0. lia. }
  rewrite Hs3.
  assert (Hlex : lexema_atual (avancado (Py.len lido) s) = string_of_list_ascii lido).
  { apply (lexema_atual_lido s lido r Hpos Hini).
    unfold lido. simpl. rewrite <- app_assoc. exact Hr. }
  unfold adicionar_token.
  rewrite (bind_passo _ _ _ _ _ (eq_refl : ler lexema_atual _ = (_, _))).
  rewrite Hlex. reflexivity.
Qed.

Lemma apos_app (l k : list ascii) (s : Scanner) :
  apos (l ++ k) s = apos k (apos l s).
Proof. unfold apos. apply fold_left_app. Qed.

Lemma quebras_cons (c : ascii) (l : list ascii) :
  quebras (c :: l) = (if Ascii.eqb c Py.nova_linha then 1 else 0) + quebras l.
Proof.
  unfold quebras. rewrite filter_cons.
  destruct (Ascii.eqb c Py.nova_linha) eqn:E.
  - rewrite decide_True by reflexivity. rewrite len_cons. reflexivity.
  - rewrite decide_False by discriminate. lia.
Qed.

Lemma linha_apos (l : list ascii) :
  forall s : Scanner,
    linha (apos l s) = linha s + quebras l
    /\ coluna_inicio (apos l s) = coluna_inicio s
    /\ tokens (apos l s) = tokens s.
Proof.
  induction l as [| c l IH]; intros s.
  - split; [unfold quebras, Py.len; rewrite filter_nil; simpl; lia |].
    split; reflexivity.
  - change (apos (c :: l) s) with (apos l (lido c s)).
    destruct (IH (lido c s)) as (-> & -> & ->). rewrite quebras_cons.
    unfold lido, nova_linha_lida, avancado.
    destruct (Ascii.eqb c Py.nova_linha); simpl;
      (split; [lia | split; reflexivity]).
Qed.

Lemma laco_itens_apos (aspas : ascii) (its : list ItemDeTexto) :
  e_aspas aspas = true ->
  forall (n : nat) (v : string) (s : Scanner) (r : list ascii),
    (length its <= n)%nat -> 0 <= atual s ->
    resto s = texto_dos_itens its ++ r ->
    forallb (item_de_texto aspas) its = true ->
    analisar_string_laco n aspas v s =
      analisar_string_laco (n - length its) aspas
        (fold_left (fun v it => v +:+ valor_do_item it) its v)
        (apos (texto_dos_itens its) s).
Proof.
  intros Haspas.
  destruct (aspas_nao_quebra aspas Haspas) as (_ & Hb & _).
  induction its as [| it its IH]; intros n v s r Hn Hpos Hr Hits.
  - simpl. rewrite Nat.sub_0_r. reflexivity.
  - destruct n as [| n]; [simpl in Hn; lia |].
    simpl in Hits. apply andb_prop in Hits as [Hit Hits].
    destruct it as [c | e]; simpl in Hit.
    + apply andb_prop in Hit as [Hit H3]. apply andb_prop in Hit as [H1 H2].
      apply negb_true_iff in H1, H2, H3.
      unfold texto_dos_itens in Hr. simpl in Hr.
      rewrite (laco_volta aspas n v s c _ Hpos Hr H1), H2, H3.
      rewrite (bind_passo _ _ _ _ _ (avancar_lido s c _ Hpos Hr)).
      destruct (lido_posicao c s) as (Ha & _ & _).
      rewrite (IH n _ (lido c s) r).
      * reflexivity.
      * simpl in Hn. lia.
      * rewrite Ha. lia.
      * apply (resto_lido s c _ Hpos Hr).
      * exact Hits.
    + unfold texto_dos_itens in Hr. simpl in Hr.
      rewrite (laco_volta aspas n v s Py.barra_invertida _ Hpos Hr Hb).
      change (Ascii.eqb Py.barra_invertida Py.nova_linha) with false.
      change (Ascii.eqb Py.barra_invertida Py.barra_invertida) with true.
      cbv iota.
      rewrite (bind_passo _ _ _ _ _ (avancar_lido s Py.barra_invertida _ Hpos Hr)).
      set (s1 := lido Py.barra_invertida s).
      destruct (lido_posicao Py.barra_invertida s) as (Ha1 & _ & _). fold s1 in Ha1.
      assert (Hpos1 : 0 <= atual s1) by (rewrite Ha1; lia).
      assert (Hr1 : resto s1 = e :: texto_dos_itens its ++ r)
        by apply (resto_lido s _ _ Hpos Hr).
      destruct (resto_cons s1 e _ Hpos1 Hr1) as [Hfim _].
      rewrite (bind_passo _ _ s1 s1 false) by (unfold ler; rewrite Hfim; reflexivity).
      rewrite (bind_passo _ _ _ _ _ (avancar_lido s1 e _ Hpos1 Hr1)).
      destruct (lido_posicao e s1) as (Ha2 & _ & _).
      rewrite (IH n _ (lido e s1) r).
      * reflexivity.
      * simpl in Hn. lia.
      * rewrite Ha2. lia.
      * apply (resto_lido s1 e _ Hpos1 Hr1).
      * exact Hits.
Qed.

(** X7. A string literal that is not closed raises [ErroLexico] and adds
    no token.  Between the opening quote and the place where the literal
    breaks off, plain characters and escape pairs are read, and an escape
    pair may hold a line break, which advances the line.  The error has
    the end-of-file message when the source ends there, the end-of-line
    message when an unescaped line break stands there, and the escape
    message when the source ends right after a backslash; it carries the
    column where the literal starts and the line the scanner has reached,
    which is the line where the literal starts when no line break was
    escaped. *)
Theorem texto_nao_terminado (s : Scanner) (q : ascii) (its : list ItemDeTexto) :
  0 <= atual s -> e_aspas q = true ->
  forallb (item_de_texto q) its = true ->
  let s2 := apos (texto_dos_itens its) (avancado 1 s) in
  (resto s = q :: texto_dos_itens its ->
   escanear_token s =
     (Levanta (ErroLexico "String não terminada - fim de arquivo inesperado"
                 (linha s2) (coluna_inicio s) (linha_atual_contexto s2)), s2))
  /\ (forall r,
       resto s = q :: texto_dos_itens its ++ Py.nova_linha :: r ->
       escanear_token s =
         (Levanta (ErroLexico "String não terminada - encontrado fim de linha"
                     (linha s2) (coluna_inicio s) (linha_atual_contexto s2)), s2))
  /\ (resto s = q :: texto_dos_itens its ++ [Py.barra_invertida] ->
      escanear_token s =
        (Levanta (ErroLexico "String não terminada após caractere de escape"
                    (linha s2) (coluna_inicio s) ""), avancado 1 s2))
  /\ linha s2 = linha s + quebras (texto_dos_itens its)
  /\ tokens s2 = tokens s.
Proof.
  intros Hpos Hq Hits s2.
  destruct (aspas_nao_quebra q Hq) as (_ & Hbq & Hnq).
  set (s1 := avancado 1 s).
  assert (Hpos1 : 0 <= atual s1) by (apply posicao_avancado; lia).
  assert (Hl : linha s2 = linha s + quebras (texto_dos_itens its))
    by apply (linha_apos (texto_dos_itens its) s1).
  assert (Hci : coluna_inicio s2 = coluna_inicio s)
    by apply (linha_apos (texto_dos_itens its) s1).
  assert (Htk : tokens s2 = tokens s)
    by apply (linha_apos (texto_dos_itens its) s1).
  assert (Hgeral : forall r,
    resto s = q :: texto_dos_itens its ++ r ->
    escanear_token s =
      (let* valor :=
         analisar_string_laco (length (texto_dos_itens its ++ r) - length its) q
           (valor_dos_itens its) in
       let* fim := ler fim_codigo in
       if fim then
         let* l := ler linha in
         let* ci := ler coluna_inicio in
         let* ctx := ler linha_atual_contexto in
         levanta (ErroLexico
           "String não terminada - fim de arquivo inesperado" l ci ctx)
       else avancar >> adicionar_token TEXTO (VStr valor)) s2
    /\ 0 <= atual s2 /\ resto s2 = r /\ tokens s2 = tokens s).
  { intros r Hr. rewrite (escanear_token_em_aspas s q _ Hpos Hr Hq).
    assert (Hr1 : resto s1 = texto_dos_itens its ++ r).
    { unfold s1. rewrite resto_avancado by lia. rewrite Hr. reflexivity. }
    destruct (apos_posicao (texto_dos_itens its) s1 r Hpos1 Hr1) as (Hp2 & Hr2 & Ht2).
    fold s2 in Hp2, Hr2, Ht2.
    split; [| split; [exact Hp2 | split; [exact Hr2 | exact Ht2]]].
    unfold analisar_string. fold s1.
    rewrite (bind_passo _ _ s1 s1 (atual s1)) by reflexivity.
    rewrite (bind_passo _ _ s1 s1 q).
    2:{ unfold fonte_em. change (atual s1) with (atual s + 1).
        rewrite Z.add_simpl_r. change (fonte s1) with (fonte s).
        destruct (resto_cons s q _ Hpos Hr) as [_ ->]. reflexivity. }
    rewrite (bind_passo _ _ s1 s1 (restante s1)) by reflexivity.
    unfold bind at 1.
    rewrite (laco_itens_apos q its Hq (restante s1) "" s1 r).
    - rewrite (restante_resto s1 Hpos1), Hr1. reflexivity.
    - rewrite (restante_resto s1 Hpos1), Hr1, length_app.
      pose proof (length_texto its). lia.
    - exact Hpos1.
    - exact Hr1.
    - exact Hits. }
  split; [| split; [| split; [| split]]].
  - intros Hr. rewrite <- (app_nil_r (texto_dos_itens its)) in Hr.
    destruct (Hgeral [] Hr) as (-> & Hpos2 & Hr2 & _).
    rewrite (bind_passo _ _ s2 s2 (valor_dos_itens its)).
    2:{ apply (laco_para q); [exact Hpos2 |]. rewrite Hr2. reflexivity. }
    rewrite (bind_passo _ _ s2 s2 true)
      by (unfold ler; rewrite (resto_vazio s2 Hpos2 Hr2); reflexivity).
    unfold bind, ler, levanta. rewrite Hci. reflexivity.
  - intros r Hr. destruct (Hgeral _ Hr) as (-> & Hpos2 & Hr2 & _).
    destruct (length (texto_dos_itens its ++ Py.nova_linha :: r) - length its)%nat
      as [| m] eqn:Hm.
    { rewrite length_app in Hm. simpl in Hm. pose proof (length_texto its). lia. }
    rewrite (bind_levanta _ _ s2 s2
               (ErroLexico "String não terminada - encontrado fim de linha"
                  (linha s2) (coluna_inicio s) (linha_atual_contexto s2))).
    + reflexivity.
    + rewrite (laco_volta q m _ s2 Py.nova_linha r Hpos2 Hr2 Hnq).
      change (Ascii.eqb Py.nova_linha Py.nova_linha) with true. cbv iota.
      rewrite Hci. reflexivity.
  - intros Hr. destruct (Hgeral _ Hr) as (-> & Hpos2 & Hr2 & _).
    destruct (length (texto_dos_itens its ++ [Py.barra_invertida]) - length its)%nat
      as [| m] eqn:Hm.
    { rewrite length_app in Hm. simpl in Hm. pose proof (length_texto its). lia. }
    rewrite (bind_levanta _ _ s2 (avancado 1 s2)
               (ErroLexico "String não terminada após caractere de escape"
                  (linha s2) (coluna_inicio s) "")).
    + reflexivity.
    + rewrite (laco_volta q m _ s2 Py.barra_invertida [] Hpos2 Hr2 Hbq).
      change (Ascii.eqb Py.barra_invertida Py.nova_linha) with false.
      change (Ascii.eqb Py.barra_invertida Py.barra_invertida) with true.
      cbv iota.
      rewrite (bind_passo _ _ _ _ _
                 (avancar_resto s2 Py.barra_invertida [] Hpos2 Hr2 eq_refl)).
      assert (Hfim : fim_codigo (avancado 1 s2) = true).
      { apply resto_vazio; [apply posicao_avancado; lia |].
        rewrite resto_avancado by lia. rewrite Hr2. reflexivity. }
      rewrite (bind_passo _ _ _ _ true) by (unfold ler; rewrite Hfim; reflexivity).
      unfold bind, ler, levanta. 
      change (coluna_inicio (avancado 1 s2)) with (coluna_inicio s2).
      change (linha (avancado 1 s2)) with (linha s2).
      rewrite Hci. reflexivity.
  - exact Hl.
  - exact Htk.
Qed.

End TextosEscaneados.

(** The theorem [texto_escaneado] on a concrete input. *)
Lemma texto_escaneado_witness :
  Scanner.escanear_token (Scanner.novo "'a\n' x") =
    (Retorno tt,
     com_token
       (Token.mk TEXTO "'a\n'" (VStr ("a" +:+ Py.str1 Py.nova_linha)) 1 1)
       (avancado 5 (Scanner.novo "'a\n' x"))).
Proof.
  apply (texto_escaneado (Scanner.novo "'a\n' x") "'"%char [Simples "a"%char; Escape "n"%char]
           [" "; "x"]%char).
  - simpl; lia.
  - reflexivity.
  - reflexivity.
  - vm_compute; reflexivity.
  - vm_compute; reflexivity.
Defined.

(** The theorem [texto_nao_terminado] on a concrete input: a literal that
    escapes a line break and is cut by the end of the source. *)
Lemma texto_nao_terminado_witness :
  let fonte :=
    string_of_list_ascii ["'"; "a"; Py.barra_invertida; Py.nova_linha; "b"]%char in
  Scanner.escanear_token (Scanner.novo fonte) =
    (Levanta (ErroLexico "String não terminada - fim de arquivo inesperado" 2 1 fonte),
     avancado 1 (nova_linha_lida (avancado 3 (Scanner.novo fonte))))
  /\ Scanner.tokens (avancado 1 (nova_linha_lida (avancado 3 (Scanner.novo fonte)))) = [].
Proof.
  intros fonte.
  destruct (texto_nao_terminado (Scanner.novo fonte) "'"%char
              [Simples "a"%char; Escape Py.nova_linha; Simples "b"%char])
    as (H & _ & _ & _ & Ht).
  - simpl; lia.
  - reflexivity.
  - vm_compute; reflexivity.
  - split; [| exact Ht].
    refine (eq_trans (H _) _); vm_compute; reflexivity.
Defined.

(** ** The parser's primitives and its recovery *)

Section ParserPrimitivas.

Variable p : Parser.Parser.
Variable t : Token.
Hypothesis posicao : 0 <= Parser.atual p.
Hypothesis corrente : Parser.tokens p !! Z.to_nat (Parser.atual p) = Some t.

Lemma consumir_em (tipo : TipoToken) (mensagem : string) :
  Parser.consumir tipo mensagem p =
    if negb (TipoToken_eqb (Token.tipo t) FIM_ARQUIVO)
       && TipoToken_eqb (Token.tipo t) tipo
    then (Retorno t, Parser.com_atual (Parser.atual p + 1) p)
    else (Levanta (ErroSintatico mensagem t), p).
Proof.
  unfold Parser.consumir.
  rewrite (bind_passo _ _ _ _ _ (verificar_em p t posicao corrente tipo)).
  destruct (TipoToken_eqb (Token.tipo t) FIM_ARQUIVO) eqn:Hfim; simpl.
  - rewrite (bind_passo _ _ _ _ _ (token_atual_em p t posicao corrente)). reflexivity.
  - destruct (TipoToken_eqb (Token.tipo t) tipo).
    + apply (avancar_em p t posicao corrente Hfim).
    + rewrite (bind_passo _ _ _ _ _ (token_atual_em p t posicao corrente)). reflexivity.
Qed.

(** X8. [consumir] at a token of the expected type, other than
    [FIM_ARQUIVO], returns that token and moves one position on; at a
    token of another type it raises [ErroSintatico] with the given message
    and the current token, and does not move. *)
Theorem consumir_token (tipo : TipoToken) (mensagem : string) :
  (Token.tipo t = tipo -> tipo <> FIM_ARQUIVO ->
   Parser.consumir tipo mensagem p
   = (Retorno t, Parser.com_atual (Parser.atual p + 1) p))
  /\ (Token.tipo t <> tipo ->
      Parser.consumir tipo mensagem p = (Levanta (ErroSintatico mensagem t), p)).
Proof.
  rewrite consumir_em. split.
  - intros <- Hfim.
    destruct (TipoToken_eqb (Token.tipo t) FIM_ARQUIVO) eqn:E.
    + apply TipoToken_eqb_eq in E. contradiction.
    + rewrite (proj2 (TipoToken_eqb_eq _ _) eq_refl). reflexivity.
  - intros Hne.
    destruct (TipoToken_eqb (Token.tipo t) tipo) eqn:E.
    + apply TipoToken_eqb_eq in E. contradiction.
    + rewrite andb_false_r. reflexivity.
Qed.

(** X9. The parser never moves past the [FIM_ARQUIVO] token: there,
    [avancar] leaves the position and answers the token before it,
    [verificar] and [combinar] answer [False] for every type, also for
    [FIM_ARQUIVO] itself, and [consumir] raises [ErroSintatico] for every
    expected type. *)
Theorem fim_de_arquivo_nao_passa :
  Token.tipo t = FIM_ARQUIVO ->
  Parser.avancar p = Parser.token_anterior p
  /\ snd (Parser.avancar p) = p
  /\ (forall tipo, Parser.verificar tipo p = (Retorno false, p))
  /\ (forall tipos, Parser.combinar tipos p = (Retorno false, p))
  /\ (forall tipo mensagem,
        Parser.consumir tipo mensagem p = (Levanta (ErroSintatico mensagem t), p)).
Proof.
  intros Hfim.
  assert (Hf : TipoToken_eqb (Token.tipo t) FIM_ARQUIVO = true) by (rewrite Hfim; reflexivity).
  assert (Hav : Parser.avancar p = Parser.token_anterior p).
  { unfold Parser.avancar.
    rewrite (bind_passo _ _ _ _ _ (fim_tokens_em p t posicao corrente)), Hf.
    reflexivity. }
  split; [exact Hav |]. split; [| split; [| split]].
  - rewrite Hav. unfold Parser.token_anterior.
    destruct (Py.index (Parser.tokens p) (Parser.atual p - 1)); reflexivity.
  - intros tipo. rewrite (verificar_em p t posicao corrente), Hf. reflexivity.
  - intros tipos. rewrite (combinar_em p t posicao corrente), Hf. reflexivity.
  - intros tipo mensagem. rewrite consumir_em, Hf. reflexivity.
Qed.

End ParserPrimitivas.

(** The theorem [consumir_token] on a concrete input. *)
Lemma consumir_token_witness :
  let ponto := Token.mk PONTO_VIRGULA ";" (VStr ";") 1 1 in
  let fim := Token.mk FIM_ARQUIVO "" VNone 1 2 in
  let p := Parser.novo [ponto; fim] in
  Parser.consumir PONTO_VIRGULA "Esperado ';'" p = (Retorno ponto, Parser.com_atual 1 p)
  /\ Parser.consumir VIRGULA "Esperado ','" p
     = (Levanta (ErroSintatico "Esperado ','" ponto), p).
Proof.
  intros ponto fim p.
  assert (H0 : 0 <= Parser.atual p) by (simpl; lia).
  assert (H1 : Parser.tokens p !! Z.to_nat (Parser.atual p) = Some ponto) by reflexivity.
  split.
  - apply (proj1 (consumir_token p ponto H0 H1 PONTO_VIRGULA "Esperado ';'"));
      [reflexivity | discriminate].
  - apply (proj2 (consumir_token p ponto H0 H1 VIRGULA "Esperado ','")). discriminate.
Defined.

(** The theorem [fim_de_arquivo_nao_passa] on a concrete input. *)
Lemma fim_de_arquivo_nao_passa_witness :
  let fim := Token.mk FIM_ARQUIVO "" VNone 1 1 in
  let p := Parser.novo [fim] in
  snd (Parser.avancar p) = p
  /\ Parser.consumir PONTO_VIRGULA "Esperado ';'" p
     = (Levanta (ErroSintatico "Esperado ';'" fim), p).
Proof.
  intros fim p.
  assert (H0 : 0 <= Parser.atual p) by (simpl; lia).
  assert (H1 : Parser.tokens p !! Z.to_nat (Parser.atual p) = Some fim) by reflexivity.
  destruct (fim_de_arquivo_nao_passa p fim H0 H1 eq_refl) as (_ & Ha & _ & _ & Hc).
  split; [exact Ha | apply Hc].
Defined.

Section SemErroSintatico.

Lemma nunca_ret {A} (a : A) : nunca_sintatico (ret a).
Proof. intros p. exact I. Qed.

Lemma nunca_bind {A B} (m : M Parser.Parser A) (k : A -> M Parser.Parser B) :
  nunca_sintatico m -> (forall a, nunca_sintatico (k a)) -> nunca_sintatico (bind m k).
Proof.
  intros Hm Hk p. unfold bind. specialize (Hm p).
  destruct (m p) as [[a | e] p']; [apply Hk | exact Hm].
Qed.

Lemma nunca_token_atual : nunca_sintatico Parser.token_atual.
Proof.
  intros p. unfold Parser.token_atual.
  destruct (Py.index (Parser.tokens p) (Parser.atual p)); exact I.
Qed.

Lemma nunca_token_anterior : nunca_sintatico Parser.token_anterior.
Proof.
  intros p. unfold Parser.token_anterior.
  destruct (Py.index (Parser.tokens p) (Parser.atual p - 1)); exact I.
Qed.

Lemma nunca_fim_tokens : nunca_sintatico Parser.fim_tokens.
Proof.
  apply nunca_bind; [apply nunca_token_atual | intros; apply nunca_ret].
Qed.

Lemma nunca_avancar : nunca_sintatico Parser.avancar.
Proof.
  apply nunca_bind; [apply nunca_fim_tokens | intros fim].
  apply nunca_bind; [| intros; apply nunca_token_anterior].
  destruct (negb fim); intros p; exact I.
Qed.

Lemma nunca_sincronizar_laco (n : nat) : nunca_sintatico (Parser.sincronizar_laco n).
Proof.
  induction n as [| n IH]; simpl.
  - apply nunca_bind; [apply nunca_fim_tokens | intros []; intros p; exact I].
  - apply nunca_bind; [apply nunca_fim_tokens | intros []; [intros p; exact I |]].
    apply nunca_bind; [apply nunca_token_anterior | intros ant].
    destruct (TipoToken_eqb (Token.tipo ant) PONTO_VIRGULA); [intros p; exact I |].
    apply nunca_bind; [apply nunca_token_atual | intros cur].
    match goal with |- context [if ?b then _ else _] => destruct b end;
      [intros p; exact I |].
    apply nunca_bind; [apply nunca_avancar | intros; exact IH].
Qed.

Lemma nunca_sincronizar : nunca_sintatico Parser.sincronizar.
Proof.
  apply nunca_bind; [apply nunca_avancar | intros _].
  apply nunca_bind; [intros p; exact I | intros n; apply nunca_sincronizar_laco].
Qed.

Lemma nunca_tentar {A} (m : M Parser.Parser A)
    (tratador : string -> Token -> M Parser.Parser A) :
  (forall mensagem token, nunca_sintatico (tratador mensagem token)) ->
  nunca_sintatico (tentar m tratador).
Proof.
  intros Ht p. unfold tentar.
  destruct (m p) as [[a | e] p'] eqn:E; [exact I |].
  destruct e; try exact I. apply Ht.
Qed.

Lemma nunca_declaracao (n : nat) : nunca_sintatico (Parser.declaracao n).
Proof.
  destruct n as [| n]; [intros p; exact I |].
  simpl. unfold Parser.declaracao_. apply nunca_tentar.
  intros _ _. apply nunca_bind; [apply nunca_sincronizar | intros; apply nunca_ret].
Qed.

Lemma nunca_analisar_laco (orcamento n : nat) :
  forall declaracoes, nunca_sintatico (Parser.analisar_laco orcamento n declaracoes).
Proof.
  induction n as [| n IH]; intros declaracoes; simpl.
  - apply nunca_bind; [apply nunca_fim_tokens | intros []; intros p; exact I].
  - apply nunca_bind; [apply nunca_fim_tokens | intros []; [intros p; exact I |]].
    simpl. apply nunca_bind; [| intros ds; apply IH].
    apply nunca_tentar. intros _ _.
    apply nunca_bind; [apply nunca_sincronizar | intros; apply nunca_ret].
Qed.

(** X10. No [ErroSintatico] leaves [declaracao] or [analisar]: every
    syntax error raised while a declaration is read is caught by
    [declaracao], which resynchronises and answers [None]; so the handler
    of [analisar], which would print the error, is never reached. *)
Theorem analisar_sem_erro_sintatico (n : nat) (p : Parser.Parser) :
  sem_erro_sintatico (fst (Parser.declaracao n p))
  /\ sem_erro_sintatico (fst (Parser.analisar p)).
Proof.
  split; [apply nunca_declaracao |].
  revert p. change (nunca_sintatico Parser.analisar).
  apply nunca_bind; [intros p; exact I | intros k].
  apply nunca_bind; [apply nunca_analisar_laco | intros; apply nunca_ret].
Qed.

End SemErroSintatico.

Section Recuperacao.

Lemma por_ler_corrente (p : Parser.Parser) (t : Token) (l : list Token) :
  por_ler p = t :: l ->
  Parser.tokens p !! Z.to_nat (Parser.atual p) = Some t.
Proof.
  intros H. unfold por_ler in H.
  rewrite <- (Nat.add_0_r (Z.to_nat (Parser.atual p))), <- lookup_drop, H.
  reflexivity.
Qed.

Lemma por_ler_seguinte (p : Parser.Parser) (t : Token) (l : list Token) :
  0 <= Parser.atual p -> por_ler p = t :: l ->
  por_ler (Parser.com_atual (Parser.atual p + 1) p) = l.
Proof.
  intros Hpos H. pose proof (por_ler_corrente p t l H) as Hc.
  unfold por_ler in *. simpl.
  replace (Z.to_nat (Parser.atual p + 1)) with (S (Z.to_nat (Parser.atual p))) by lia.
  rewrite (drop_S _ _ _ Hc) in H. congruence.
Qed.

Lemma last_cons_outro {A} (l : list A) :
  forall x d : A, List.last (x :: l) d = List.last l x.
Proof.
  induction l as [| y l IH]; intros x d; [reflexivity |].
  change (List.last (x :: y :: l) d) with (List.last (y :: l) d).
  change (List.last (y :: l) x) with (List.last (y :: l) x).
  rewrite (IH y d), (IH y x). reflexivity.
Qed.

Lemma sincronizar_laco_retoma (alvo : Token) (r : list Token) (passados : list Token) :
  forall (n : nat) (p : Parser.Parser) (anterior : Token),
    1 <= Parser.atual p ->
    Parser.tokens p !! Z.to_nat (Parser.atual p - 1) = Some anterior ->
    por_ler p = passados ++ alvo :: r ->
    nao_retoma anterior passados = true ->
    retoma (List.last passados anterior) alvo = true ->
    (length passados < n)%nat ->
    Parser.sincronizar_laco n p =
      (Retorno tt, Parser.com_atual (Parser.atual p + Py.len passados) p).
Proof.
  induction passados as [| cur l IH]; intros n p anterior Hpos Hant Hler Hnao Hret Hn.
  - simpl in Hler, Hret.
    assert (Hp0 : 0 <= Parser.atual p) by lia.
    pose proof (por_ler_corrente p alvo r Hler) as Hcur.
    assert (Hfinal : Parser.com_atual (Parser.atual p + Py.len (@nil Token)) p = p).
    { unfold Py.len. simpl. rewrite Z.add_0_r. destruct p; reflexivity. }
    rewrite Hfinal.
    destruct n as [| k]; [lia |].
    cbn [Parser.sincronizar_laco].
    rewrite (bind_passo _ _ _ _ _ (fim_tokens_em p alvo Hp0 Hcur)).
    destruct (TipoToken_eqb (Token.tipo alvo) FIM_ARQUIVO) eqn:Hfim; [reflexivity |].
    assert (Ea : Parser.token_anterior p = (Retorno anterior, p)).
    { unfold Parser.token_anterior, Py.index.
      destruct (Z.leb_spec 0 (Parser.atual p - 1)) as [_ | H]; [| lia].
      rewrite Hant. reflexivity. }
    rewrite (bind_passo _ _ _ _ _ Ea).
    destruct (TipoToken_eqb (Token.tipo anterior) PONTO_VIRGULA) eqn:Hpv; [reflexivity |].
    rewrite (bind_passo _ _ _ _ _ (token_atual_em p alvo Hp0 Hcur)).
    unfold retoma in Hret. rewrite Hfim, Hpv in Hret. cbn [orb] in Hret.
    rewrite Hret. reflexivity.
  - simpl in Hler. cbn [nao_retoma] in Hnao.
    apply andb_prop in Hnao as [Hnr Hnao]. apply negb_true_iff in Hnr.
    unfold retoma in Hnr.
    apply orb_false_elim in Hnr as [Hnr Hkw].
    apply orb_false_elim in Hnr as [Hfim Hpv].
    assert (Hp0 : 0 <= Parser.atual p) by lia.
    pose proof (por_ler_corrente p cur _ Hler) as Hcur.
    destruct n as [| k]; [simpl in Hn; lia |].
    cbn [Parser.sincronizar_laco].
    rewrite (bind_passo _ _ _ _ _ (fim_tokens_em p cur Hp0 Hcur)), Hfim.
    assert (Ea : Parser.token_anterior p = (Retorno anterior, p)).
    { unfold Parser.token_anterior, Py.index.
      destruct (Z.leb_spec 0 (Parser.atual p - 1)) as [_ | H]; [| lia].
      rewrite Hant. reflexivity. }
    rewrite (bind_passo _ _ _ _ _ Ea), Hpv.
    rewrite (bind_passo _ _ _ _ _ (token_atual_em p cur Hp0 Hcur)), Hkw.
    rewrite (bind_passo _ _ _ _ _ (avancar_em p cur Hp0 Hcur Hfim)).
    set (p1 := Parser.com_atual (Parser.atual p + 1) p).
    rewrite (IH k p1 cur).
    + unfold p1, Parser.com_atual. cbn [Parser.tokens Parser.atual].
      rewrite len_cons. replace (Parser.atual p + 1 + Py.len l) with (Parser.atual p + (1 + Py.len l)) by lia. reflexivity.
    + unfold p1. simpl. lia.
    + unfold p1. simpl. rewrite Z.add_simpl_r. exact Hcur.
    + apply (por_ler_seguinte p cur _ Hp0 Hler).
    + exact Hnao.
    + rewrite last_cons_outro in Hret. exact Hret.
    + simpl in Hn. lia.
Qed.

(** X11. Where the parser resumes after a syntax error. [sincronizar]
    always passes the token it is at (unless that is [FIM_ARQUIVO]), then
    passes tokens until it stands at [FIM_ARQUIVO], right after a
    semicolon, or right before one of the keywords [funcao], [var],
    [const], [se], [enquanto], [para], [retorna], [escreva]; it stops at
    the first such place and raises nothing. *)
Theorem sincronizar_retoma (p : Parser.Parser) (t alvo : Token)
    (passados r : list Token) :
  0 <= Parser.atual p ->
  por_ler p = t :: passados ++ alvo :: r ->
  Token.tipo t <> FIM_ARQUIVO ->
  nao_retoma t passados = true ->
  retoma (List.last passados t) alvo = true ->
  Parser.sincronizar p =
    (Retorno tt, Parser.com_atual (Parser.atual p + 1 + Py.len passados) p)
  /\ por_ler (Parser.com_atual (Parser.atual p + 1 + Py.len passados) p) = alvo :: r.
Proof.
  intros Hpos Hler Hfim Hnao Hret.
  pose proof (por_ler_corrente p t _ Hler) as Hcur.
  assert (Hf : TipoToken_eqb (Token.tipo t) FIM_ARQUIVO = false).
  { destruct (TipoToken_eqb (Token.tipo t) FIM_ARQUIVO) eqn:E; [| reflexivity].
    apply TipoToken_eqb_eq in E. contradiction. }
  set (p1 := Parser.com_atual (Parser.atual p + 1) p).
  assert (Hler1 : por_ler p1 = passados ++ alvo :: r)
    by apply (por_ler_seguinte p t _ Hpos Hler).
  assert (Hlen : (length passados + 2 <= length (Parser.tokens p))%nat).
  { assert (H : length (por_ler p) = S (length passados + S (length r))).
    { rewrite Hler. simpl. rewrite length_app. reflexivity. }
    unfold por_ler in H. rewrite length_drop in H. lia. }
  split.
  - unfold Parser.sincronizar.
    rewrite (bind_passo _ _ _ _ _ (avancar_em p t Hpos Hcur Hf)).
    rewrite (bind_passo _ _ p1 p1 (length (Parser.tokens p1))) by reflexivity.
    rewrite (sincronizar_laco_retoma alvo r passados _ p1 t).
    + unfold p1. simpl. f_equal.
    + unfold p1. simpl. lia.
    + unfold p1. simpl. rewrite Z.add_simpl_r. exact Hcur.
    + exact Hler1.
    + exact Hnao.
    + exact Hret.
    + unfold p1. simpl. lia.
  - clear Hret Hnao. unfold por_ler in *. simpl in *.
    replace (Z.to_nat (Parser.atual p + 1 + Py.len passados))
      with (Z.to_nat (Parser.atual p + 1) + length passados)%nat
      by (unfold Py.len; lia).
    rewrite <- drop_drop, Hler1, drop_app_length. reflexivity.
Qed.

End Recuperacao.

(** The theorem [sincronizar_retoma] on a concrete input. *)
Lemma sincronizar_retoma_witness :
  let x := Token.mk IDENTIFICADOR "x" (VStr "x") 1 1 in
  let y := Token.mk IDENTIFICADOR "y" (VStr "y") 1 3 in
  let pv := Token.mk PONTO_VIRGULA ";" (VStr ";") 1 4 in
  let z := Token.mk IDENTIFICADOR "z" (VStr "z") 2 1 in
  let fim := Token.mk FIM_ARQUIVO "" VNone 2 2 in
  let p := Parser.novo [x; y; pv; z; fim] in
  Parser.sincronizar p = (Retorno tt, Parser.com_atual 3 p)
  /\ por_ler (Parser.com_atual 3 p) = [z; fim].
Proof.
  intros x y pv z fim p.
  apply (sincronizar_retoma p x z [y; pv] [fim]).
  - simpl; lia.
  - reflexivity.
  - discriminate.
  - reflexivity.
  - reflexivity.
Defined.

(** ** The symbol table *)

Section Tabela.
Import TabelaSimbolos.

Lemma quadros (t : TabelaSimbolos) :
  bem_formada t ->
  exists fs f, escopos t = fs ++ [f] /\ length fs = Z.to_nat (escopo_atual t).
Proof.
  intros [Hpos Hlen]. unfold Py.len in Hlen.
  destruct (escopos t) as [| f0 fs0] eqn:E using rev_ind; [simpl in Hlen; lia |].
  exists fs0, f0. split; [reflexivity |].
  rewrite length_app in Hlen. simpl in Hlen. lia.
Qed.

Lemma escopo_corrente_ultimo (t : TabelaSimbolos) (fs : list (gmap string Ref))
    (f : gmap string Ref) :
  0 <= escopo_atual t -> escopos t = fs ++ [f] ->
  length fs = Z.to_nat (escopo_atual t) ->
  escopo_corrente t = (Retorno f, t).
Proof.
  intros Hpos He Hl. unfold escopo_corrente, Py.index.
  destruct (Z.leb_spec 0 (escopo_atual t)) as [_ | H]; [| lia].
  rewrite He, <- Hl, list_lookup_middle by reflexivity. reflexivity.
Qed.

Lemma buscar_ultimo (nome : string) (t : TabelaSimbolos)
    (fs : list (gmap string Ref)) (f : gmap string Ref) :
  escopos t = fs ++ [f] ->
  buscar nome t =
    match f !! nome with
    | Some r => Some r
    | None => buscar_em nome (rev fs)
    end.
Proof. intros He. unfold buscar. rewrite He, rev_unit. reflexivity. Qed.

Lemma alter_ultimo {A} (g : A -> A) (fs : list A) (f : A) :
  alter g (length fs) (fs ++ [f]) = fs ++ [g f].
Proof. induction fs as [| x fs IH]; simpl; [reflexivity | f_equal; exact IH]. Qed.

(** X12. The symbol table keeps one frame per open scope: a new table
    has the global frame only and depth 0, and [entrar_escopo],
    [sair_escopo] and [declarar] of an existing symbol all return, without
    an exception, a table with [len(escopos) == escopo_atual + 1] and a
    depth that is not negative. *)
Theorem tabela_bem_formada :
  bem_formada nova
  /\ forall t, bem_formada t ->
       (exists t', entrar_escopo t = (Retorno tt, t') /\ bem_formada t')
       /\ (exists t', sair_escopo t = (Retorno tt, t') /\ bem_formada t')
       /\ forall r, is_Some (objetos t !! r) ->
            exists b t', declarar r t = (Retorno b, t') /\ bem_formada t'.
Proof.
  split; [split; [simpl; lia | reflexivity] |].
  intros t Ht. pose proof Ht as [Hpos Hlen].
  destruct (quadros t Ht) as (fs & f & He & Hl).
  split; [| split].
  - eexists. split; [reflexivity |]. split; simpl; [lia |].
    rewrite len_app. change (Py.len [∅]) with 1. lia.
  - unfold sair_escopo, bind, ler.
    destruct (Z.ltb_spec 0 (escopo_atual t)) as [H | H].
    + unfold escopos_pop. rewrite He.
      destruct (fs ++ [f]) eqn:E; [destruct fs; discriminate |]. rewrite <- E.
      eexists. split; [reflexivity |]. split; simpl; [lia |].
      rewrite removelast_last. unfold Py.len. lia.
    + exists t. split; [reflexivity | exact Ht].
  - intros r [sim Hr]. unfold declarar.
    rewrite (bind_passo _ _ t t sim) by (unfold objeto; rewrite Hr; reflexivity).
    rewrite (bind_passo _ _ _ _ _ (escopo_corrente_ultimo t fs f Hpos He Hl)).
    destruct (f !! Simbolo.nome sim).
    + exists false, t. split; [reflexivity | exact Ht].
    + exists true. eexists. split.
      * unfold bind, ler, atribuir, mudar, escopo_corrente_inserir. simpl.
        destruct (Z.leb_spec 0 (escopo_atual t)) as [_ | H]; [| lia].
        destruct (Z.ltb_spec (escopo_atual t) (Py.len (escopos t))) as [_ | H]; [| lia].
        simpl. reflexivity.
      * split; simpl; [lia |]. unfold Py.len. rewrite length_alter.
        exact Hlen.
Qed.

(** X13. Entering a scope and leaving it gives the table back as it was,
    and [sair_escopo] at the global scope does nothing: the global frame is
    never popped. *)
Theorem escopo_entra_e_sai (t : TabelaSimbolos) :
  bem_formada t ->
  (entrar_escopo >> sair_escopo) t = (Retorno tt, t)
  /\ (escopo_atual t = 0 -> sair_escopo t = (Retorno tt, t)).
Proof.
  intros [Hpos Hlen]. split.
  - unfold entrar_escopo, sair_escopo, bind, ler, mudar. simpl.
    destruct (Z.ltb_spec 0 (escopo_atual t + 1)) as [_ | H]; [| lia].
    unfold escopos_pop. simpl.
    destruct (escopos t ++ [∅]) eqn:E; [destruct (escopos t); discriminate |].
    rewrite <- E. simpl. rewrite removelast_last, Z.add_simpl_r.
    destruct t; reflexivity.
  - intros H0. unfold sair_escopo, bind, ler. rewrite H0. reflexivity.
Qed.

(** [declarar] on a name the current frame does not hold. *)
Lemma declarar_nome_livre (t : TabelaSimbolos) (r : Ref) (simbolo : Simbolo)
    (fs : list (gmap string Ref)) (f : gmap string Ref) :
  0 <= escopo_atual t -> escopos t = fs ++ [f] ->
  length fs = Z.to_nat (escopo_atual t) ->
  objetos t !! r = Some simbolo ->
  f !! Simbolo.nome simbolo = None ->
  declarar r t = (Retorno true, declarado (Simbolo.nome simbolo) r t)
  /\ escopos (declarado (Simbolo.nome simbolo) r t)
     = fs ++ [<[Simbolo.nome simbolo := r]> f].
Proof.
  intros Hpos He Hl Hr Hn.
  pose proof (escopo_corrente_ultimo t fs f Hpos He Hl) as Hc.
  split.
  - unfold declarar.
    rewrite (bind_passo _ _ t t simbolo) by (unfold objeto; rewrite Hr; reflexivity).
    rewrite (bind_passo _ _ _ _ _ Hc), Hn.
    unfold bind, ler, atribuir, mudar, escopo_corrente_inserir. simpl.
    destruct (Z.leb_spec 0 (escopo_atual t)) as [_ | H]; [| lia].
    assert (Hlen : escopo_atual t < Py.len (escopos t)).
    { unfold Py.len. rewrite He, length_app. simpl. lia. }
    destruct (Z.ltb_spec (escopo_atual t) (Py.len (escopos t))) as [_ | H]; [| lia].
    reflexivity.
  - unfold declarado. simpl. rewrite He, <- Hl. apply alter_ultimo.
Qed.

(** X14. Declaring a symbol whose name the current frame does not hold
    answers [True], records the current depth in the symbol and binds the
    name in the current frame: [buscar_local] and [buscar] then find that
    symbol under its name, and every other name resolves as before. *)
Theorem declarar_e_buscar (t : TabelaSimbolos) (r : Ref) (simbolo : Simbolo)
    (f : gmap string Ref) :
  bem_formada t ->
  objetos t !! r = Some simbolo ->
  Py.index (escopos t) (escopo_atual t) = Some f ->
  f !! Simbolo.nome simbolo = None ->
  let nome := Simbolo.nome simbolo in
  let t' := declarado nome r t in
  declarar r t = (Retorno true, t')
  /\ buscar_local nome t' = (Retorno (Some r), t')
  /\ buscar nome t' = Some r
  /\ objetos t' !! r = Some (Simbolo.com_escopo (escopo_atual t) simbolo)
  /\ (forall outro, outro <> nome -> buscar outro t' = buscar outro t).
Proof.
  intros Ht Hr Hf Hn nome t'. pose proof Ht as [Hpos Hlen].
  destruct (quadros t Ht) as (fs & f' & He & Hl).
  pose proof (escopo_corrente_ultimo t fs f' Hpos He Hl) as Hc.
  assert (f' = f).
  { unfold escopo_corrente in Hc. rewrite Hf in Hc. cbv [ou_levanta ret] in Hc.
    congruence. }
  subst f'.
  destruct (declarar_nome_livre t r simbolo fs f Hpos He Hl Hr Hn) as [Hd He'].
  fold nome in Hd, He'. fold t' in Hd, He'.
  split; [exact Hd | split; [| split; [| split]]].
  - unfold buscar_local.
    rewrite (bind_passo _ _ t' t' (<[nome := r]> f)).
    + unfold ret. rewrite lookup_insert_eq. reflexivity.
    + apply (escopo_corrente_ultimo t' fs); [exact Hpos | exact He' | exact Hl].
  - rewrite (buscar_ultimo nome t' fs _ He'), lookup_insert_eq. reflexivity.
  - unfold t', declarado. simpl. rewrite list_lookup_alter_eq, Hr. reflexivity.
  - intros outro Hne.
    rewrite (buscar_ultimo outro t' fs _ He'), (buscar_ultimo outro t fs f He).
    rewrite lookup_insert_ne by congruence. reflexivity.
Qed.

(** X15. A symbol declared right after a scope was entered is always
    accepted, whatever the outer scopes hold under its name, and hides
    them while the scope is open. Once the scope is left every name
    resolves as it did before the scope was entered, while the symbol
    stays in [todos_simbolos], with the depth of the inner scope. *)
Theorem escopo_interno_sombreia (t : TabelaSimbolos) (r : Ref) (simbolo : Simbolo) :
  bem_formada t ->
  objetos t !! r = Some simbolo ->
  let nome := Simbolo.nome simbolo in
  exists t1 t2,
    (entrar_escopo >> declarar r) t = (Retorno true, t1)
    /\ buscar nome t1 = Some r
    /\ (forall outro, outro <> nome -> buscar outro t1 = buscar outro t)
    /\ sair_escopo t1 = (Retorno tt, t2)
    /\ (forall qualquer, buscar qualquer t2 = buscar qualquer t)
    /\ escopos t2 = escopos t
    /\ escopo_atual t2 = escopo_atual t
    /\ todos_simbolos t2 = todos_simbolos t ++ [r]
    /\ objetos t2 !! r = Some (Simbolo.com_escopo (escopo_atual t + 1) simbolo).
Proof.
  intros Ht Hr nome. pose proof Ht as [Hpos Hlen].
  set (te := mk (objetos t) (escopos t ++ [∅]) (escopo_atual t + 1) (todos_simbolos t)).
  assert (Ee : entrar_escopo t = (Retorno tt, te)) by reflexivity.
  assert (Hpe : 0 <= escopo_atual te) by (simpl; lia).
  assert (Hle : length (escopos t) = Z.to_nat (escopo_atual te)).
  { simpl. unfold Py.len in Hlen. lia. }
  destruct (declarar_nome_livre te r simbolo (escopos t) ∅ Hpe eq_refl Hle Hr
              (lookup_empty _)) as [Ed He1].
  fold nome in Ed, He1.
  set (t1 := declarado nome r te) in *.
  exists t1, (mk (objetos t1) (escopos t) (escopo_atual t) (todos_simbolos t1)).
  split; [rewrite (bind_passo _ _ _ _ _ Ee); exact Ed |].
  split; [rewrite (buscar_ultimo nome t1 _ _ He1), lookup_insert_eq; reflexivity |].
  split.
  { intros outro Hne. rewrite (buscar_ultimo outro t1 _ _ He1).
    rewrite lookup_insert_ne by congruence. rewrite lookup_empty. reflexivity. }
  split.
  { unfold sair_escopo, bind, ler.
    change (escopo_atual t1) with (escopo_atual t + 1).
    destruct (Z.ltb_spec 0 (escopo_atual t + 1)) as [_ | H]; [| lia].
    unfold escopos_pop. rewrite He1.
    destruct (escopos t ++ [<[nome := r]> ∅]) eqn:E;
      [destruct (escopos t); discriminate |].
    rewrite <- E. unfold mudar, com_escopo_atual, com_escopos.
    cbn [escopos escopo_atual todos_simbolos objetos].
    rewrite ?He1, removelast_last.
    change (escopo_atual t1) with (escopo_atual t + 1).
    rewrite Z.add_simpl_r. reflexivity. }
  split; [intros qualquer; reflexivity |].
  split; [reflexivity |].
  split; [reflexivity |].
  split; [reflexivity |].
  unfold t1, declarado. simpl. rewrite list_lookup_alter_eq, Hr. reflexivity.
Qed.

End Tabela.

(** The theorem [escopo_entra_e_sai] on a concrete input. *)
Lemma escopo_entra_e_sai_witness :
  (TabelaSimbolos.entrar_escopo >> TabelaSimbolos.sair_escopo) TabelaSimbolos.nova
  = (Retorno tt, TabelaSimbolos.nova)
  /\ TabelaSimbolos.sair_escopo TabelaSimbolos.nova = (Retorno tt, TabelaSimbolos.nova).
Proof.
  assert (H : bem_formada TabelaSimbolos.nova)
    by (split; [simpl; lia | reflexivity]).
  split.
  - exact (proj1 (escopo_entra_e_sai TabelaSimbolos.nova H)).
  - exact (proj2 (escopo_entra_e_sai TabelaSimbolos.nova H) eq_refl).
Defined.

(** The theorem [declarar_e_buscar] on a concrete input. *)
Lemma declarar_e_buscar_witness :
  let x := Simbolo.mk "x" Tipo.INTEIRO "variavel" 0 1 5 false [] None false in
  let t := TabelaSimbolos.mk [x] [∅] 0 [] in
  TabelaSimbolos.declarar 0%nat t = (Retorno true, declarado "x" 0%nat t)
  /\ TabelaSimbolos.buscar "x" (declarado "x" 0%nat t) = Some 0%nat
  /\ TabelaSimbolos.buscar "x" t = None.
Proof.
  intros x t.
  assert (Hb : bem_formada t) by (split; [simpl; lia | reflexivity]).
  destruct (declarar_e_buscar t 0%nat x ∅ Hb) as (Hd & _ & Hl & _).
  - reflexivity.
  - reflexivity.
  - apply lookup_empty.
  - split; [exact Hd |]. split; [exact Hl | reflexivity].
Defined.

(** The theorem [escopo_interno_sombreia] on a concrete input. *)
Lemma escopo_interno_sombreia_witness :
  let x := Simbolo.mk "x" Tipo.INTEIRO "variavel" 0 1 5 false [] None false in
  let t := TabelaSimbolos.mk [x] [∅] 0 [] in
  exists t1 t2,
    (TabelaSimbolos.entrar_escopo >> TabelaSimbolos.declarar 0%nat) t = (Retorno true, t1)
    /\ TabelaSimbolos.buscar "x" t1 = Some 0%nat
    /\ TabelaSimbolos.sair_escopo t1 = (Retorno tt, t2)
    /\ TabelaSimbolos.buscar "x" t2 = None
    /\ TabelaSimbolos.todos_simbolos t2 = [0%nat].
Proof.
  intros x t.
  assert (Hb : bem_formada t) by (split; [simpl; lia | reflexivity]).
  destruct (escopo_interno_sombreia t 0%nat x Hb eq_refl)
    as (t1 & t2 & H1 & H2 & _ & H4 & H5 & _ & _ & H8 & _).
  exists t1, t2. split; [exact H1 |]. split; [exact H2 |]. split; [exact H4 |].
  split; [rewrite H5; reflexivity | exact H8].
Defined.

(** ** The analyser's visits *)

(** The visits are recursive functions of the tree: the host's recursion
    limit is not part of the embedding, so a visit of a tree of any depth
    returns. *)

Section VisitantesSimples.
Import AnalisadorSemantico.

Lemma com_tabela_mesma (a : AnalisadorSemantico) : com_tabela (tabela a) a = a.
Proof. destruct a; reflexivity. Qed.

Lemma objeto_em (a : AnalisadorSemantico) (r : Ref) (simbolo : Simbolo) :
  TabelaSimbolos.objetos (tabela a) !! r = Some simbolo ->
  objeto r a = (Retorno simbolo, a).
Proof.
  intros H. unfold objeto, na_tabela, TabelaSimbolos.objeto. rewrite H. simpl.
  rewrite com_tabela_mesma. reflexivity.
Qed.

(** X16. [leia] marks its variable as initialised, and does so before it
    looks at its prompt: for a variable that is declared and not constant,
    the visit sets [inicializado] and records nothing for the variable;
    with no prompt that is all, and with a prompt the prompt is then
    analysed from the marked state and the one error [Mensagem do 'leia'
    deve ser texto] is recorded, at the variable's token, when the
    prompt's type is not [texto].  A use of the variable in the marked
    state returns the variable's type with no diagnostic at all, where a
    use before it, of a symbol of category [variavel] not yet initialised,
    records the may-not-be-initialised warning. *)
Theorem leia_inicializa (a : AnalisadorSemantico) (variavel : string)
    (token_variavel token : Token) (r : Ref) (simbolo : Simbolo) :
  TabelaSimbolos.buscar variavel (tabela a) = Some r ->
  TabelaSimbolos.objetos (tabela a) !! r = Some simbolo ->
  Simbolo.constante simbolo = false ->
  let a1 :=
    com_tabela
      (TabelaSimbolos.com_objetos
         (alter (Simbolo.com_inicializado true) r (TabelaSimbolos.objetos (tabela a)))
         (tabela a)) a in
  aceitar_declaracao (DeclaracaoLeia variavel token_variavel None) a = (Retorno None, a1)
  /\ (forall m,
        aceitar_declaracao (DeclaracaoLeia variavel token_variavel (Some m)) a =
          match aceitar_expressao m a1 with
          | (Retorno tipo_msg, a2) =>
            (Retorno None,
             com_erro_se (negb (Tipo.eqb tipo_msg Tipo.TEXTO))
               ("Mensagem do 'leia' deve ser texto, mas é '"
                +:+ Tipo.str tipo_msg +:+ "'")
               (Token.linha token_variavel) (Token.coluna token_variavel) a2)
          | (Levanta e, a2) => (Levanta e, a2)
          end)
  /\ aceitar_expressao (ExpressaoVariavel variavel token) a1
     = (Retorno (Simbolo.tipo simbolo), a1)
  /\ (Simbolo.inicializado simbolo = false ->
      Simbolo.categoria simbolo = "variavel" ->
      aceitar_expressao (ExpressaoVariavel variavel token) a =
        (Retorno (Simbolo.tipo simbolo),
         com_avisos
           (avisos a ++
            [AvisoSemantico.mk
               ("Variável '" +:+ variavel +:+ "' pode não estar inicializada")
               (Token.linha token) (Token.coluna token)]) a)).
Proof.
  intros Hb Ho Hc a1.
  split; [| split; [| split]].
  - simpl. unfold visitar_leia.
    unfold bind at 1. unfold bind at 1.
    unfold buscar at 1. unfold ler at 1. rewrite Hb.
    rewrite (bind_passo _ _ _ _ _ (objeto_em a r simbolo Ho)), Hc. reflexivity.
  - intros m.
    change (aceitar_declaracao (DeclaracaoLeia variavel token_variavel (Some m)))
      with (visitar_leia variavel token_variavel (Some m)).
    unfold visitar_leia.
    rewrite (bind_passo _ _ a a (Some r))
      by (unfold buscar, ler; rewrite Hb; reflexivity).
    rewrite bind_assoc.
    rewrite (bind_passo _ _ _ _ _ (objeto_em a r simbolo Ho)), Hc.
    rewrite (bind_passo _ _ a a1 tt) by reflexivity.
    rewrite !bind_assoc.
    destruct (aceitar_expressao m a1) as [[tipo_msg | e] a2] eqn:E.
    + rewrite (bind_passo _ _ _ _ _ E).
      destruct (negb (Tipo.eqb tipo_msg Tipo.TEXTO)); reflexivity.
    + rewrite (bind_levanta _ _ _ _ _ E). reflexivity.
  - simpl. unfold visitar_variavel.
    assert (Hb1 : buscar variavel a1 = (Retorno (Some r), a1)).
    { unfold buscar, ler. f_equal. f_equal. exact Hb. }
    rewrite (bind_passo _ _ _ _ _ Hb1).
    rewrite (bind_passo _ _ a1 a1 (Simbolo.com_inicializado true simbolo)).
    + reflexivity.
    + apply objeto_em. simpl. rewrite list_lookup_alter_eq, Ho. reflexivity.
  - intros Hi Hcat. simpl. unfold visitar_variavel.
    rewrite (bind_passo _ _ a a (Some r)) by (unfold buscar, ler; rewrite Hb; reflexivity).
    rewrite (bind_passo _ _ _ _ _ (objeto_em a r simbolo Ho)), Hi, Hcat. reflexivity.
Qed.

(** X17. A [retorna] outside every function records the one error
    ['retorna' fora de uma função] at the token and returns at once: the
    returned expression, if any, is not analysed (no diagnostic about it is
    recorded), and [tem_retorno] is set all the same. *)
Theorem retorna_fora_de_funcao (a : AnalisadorSemantico) (token : Token)
    (valor : option Expressao) :
  funcao_atual a = None ->
  aceitar_declaracao (DeclaracaoRetorna token valor) a =
    (Retorno None,
     com_erros
       (erros a ++
        [ErroSemantico.mk "'retorna' fora de uma função"
           (Token.linha token) (Token.coluna token)])
       (com_tem_retorno true a)).
Proof.
  intros H. simpl. unfold visitar_retorna, bind, mudar, ler. simpl. rewrite H.
  reflexivity.
Qed.

Lemma argumentos_alem_dos_parametros (aceitar : Expressao -> Analise Tipo)
    (nome : string) (token_nome : Token) (argumentos : list Expressao)
    (parametros : list (string * Tipo)) :
  length argumentos = length parametros ->
  forall i,
    (forall mais,
       verificar_argumentos aceitar nome token_nome (argumentos ++ mais) parametros i =
       verificar_argumentos aceitar nome token_nome argumentos parametros i)
    /\ (forall mais,
          verificar_argumentos aceitar nome token_nome argumentos (parametros ++ mais) i =
          verificar_argumentos aceitar nome token_nome argumentos parametros i).
Proof.
  revert parametros.
  induction argumentos as [| arg args IH]; intros [| p ps] Hlen i;
    try discriminate Hlen.
  - split; intros [| m mais]; reflexivity.
  - injection Hlen as Hlen. destruct (IH ps Hlen (i + 1)) as [H1 H2].
    split; intros mais; simpl; rewrite ?H1, ?H2; reflexivity.
Qed.

(** X18. In a call with more arguments than the function has
    parameters, the arguments beyond the parameters are never analysed:
    the call records the argument-count error and then behaves as the call
    with the surplus arguments dropped, so an error inside a surplus
    argument is not reported. *)
Theorem argumentos_a_mais (a : AnalisadorSemantico) (nome : string)
    (token_nome : Token) (argumentos mais : list Expressao) (r : Ref)
    (simbolo : Simbolo) :
  TabelaSimbolos.buscar nome (tabela a) = Some r ->
  TabelaSimbolos.objetos (tabela a) !! r = Some simbolo ->
  Simbolo.tipo simbolo = Tipo.FUNCAO ->
  length argumentos = length (Simbolo.parametros simbolo) ->
  mais <> [] ->
  aceitar_expressao (ExpressaoChamadaFuncao nome token_nome (argumentos ++ mais)) a =
  aceitar_expressao (ExpressaoChamadaFuncao nome token_nome argumentos)
    (com_erros
       (erros a ++
        [ErroSemantico.mk
           ("Função '" +:+ nome +:+ "' espera "
            +:+ Py.str_int (Py.len (Simbolo.parametros simbolo))
            +:+ " argumento(s), mas recebeu "
            +:+ Py.str_int (Py.len (argumentos ++ mais)))
           (Token.linha token_nome) (Token.coluna token_nome)]) a).
Proof.
  intros Hb Ho Ht Hlen Hmais.
  set (a' := com_erros _ a).
  change (visitar_chamada_funcao aceitar_expressao nome token_nome
            (argumentos ++ mais) a =
          visitar_chamada_funcao aceitar_expressao nome token_nome argumentos a').
  unfold visitar_chamada_funcao.
  rewrite (bind_passo _ _ a a (Some r)) by (unfold buscar, ler; rewrite Hb; reflexivity).
  rewrite (bind_passo _ _ a' a' (Some r)) by (unfold buscar, ler; simpl; rewrite Hb; reflexivity).
  rewrite (bind_passo _ _ _ _ _ (objeto_em a r simbolo Ho)).
  rewrite (bind_passo _ _ _ _ _ (objeto_em a' r simbolo Ho)).
  rewrite Ht. simpl negb. cbv iota.
  assert (H1 : (Py.len (argumentos ++ mais) =? Py.len (Simbolo.parametros simbolo)) = false).
  { apply Z.eqb_neq. rewrite len_app. unfold Py.len. rewrite Hlen.
    destruct mais; [congruence |]. simpl length. lia. }
  assert (H2 : (Py.len argumentos =? Py.len (Simbolo.parametros simbolo)) = true).
  { apply Z.eqb_eq. unfold Py.len. rewrite Hlen. reflexivity. }
  rewrite H1, H2. simpl negb. cbv iota.
  rewrite (proj1 (argumentos_alem_dos_parametros aceitar_expressao nome token_nome
                    argumentos (Simbolo.parametros simbolo) Hlen 0) mais).
  reflexivity.
Qed.

End VisitantesSimples.

(** The theorem [leia_inicializa] on a concrete input. *)
Lemma leia_inicializa_witness :
  let x := Simbolo.mk "x" Tipo.INTEIRO "variavel" 0 1 5 false [] None false in
  let tok := Token.mk IDENTIFICADOR "x" (VStr "x") 2 6 in
  let a :=
    AnalisadorSemantico.mk (TabelaSimbolos.mk [x] [{["x" := 0%nat]}] 0 [0%nat])
      [] [] None false in
  let a1 :=
    AnalisadorSemantico.mk
      (TabelaSimbolos.mk [Simbolo.com_inicializado true x] [{["x" := 0%nat]}] 0 [0%nat])
      [] [] None false in
  AnalisadorSemantico.aceitar_declaracao (DeclaracaoLeia "x" tok None) a
  = (Retorno None, a1)
  /\ AnalisadorSemantico.aceitar_declaracao
       (DeclaracaoLeia "x" tok (Some (ExpressaoVariavel "x" tok))) a
     = (Retorno None,
        AnalisadorSemantico.com_erros
          [ErroSemantico.mk "Mensagem do 'leia' deve ser texto, mas é 'inteiro'" 2 6]
          a1)
  /\ AnalisadorSemantico.aceitar_expressao (ExpressaoVariavel "x" tok) a1
     = (Retorno Tipo.INTEIRO, a1)
  /\ AnalisadorSemantico.avisos
       (snd (AnalisadorSemantico.aceitar_expressao (ExpressaoVariavel "x" tok) a))
     = [AvisoSemantico.mk "Variável 'x' pode não estar inicializada" 2 6].
Proof.
  intros x tok a a1.
  assert (Hb : TabelaSimbolos.buscar "x" (AnalisadorSemantico.tabela a) = Some 0%nat)
    by (vm_compute; reflexivity).
  destruct (leia_inicializa a "x" tok tok 0%nat x Hb eq_refl eq_refl)
    as (H1 & H2 & H3 & H4).
  split; [exact H1 |].
  split; [rewrite (H2 (ExpressaoVariavel "x" tok)); vm_compute; reflexivity |].
  split; [exact H3 |].
  rewrite (H4 eq_refl eq_refl). reflexivity.
Defined.

(** The theorem [retorna_fora_de_funcao] on a concrete input. *)
Lemma retorna_fora_de_funcao_witness :
  let tok := Token.mk RETORNA "retorna" (VStr "retorna") 1 1 in
  let a := AnalisadorSemantico.mk TabelaSimbolos.nova [] [] None false in
  AnalisadorSemantico.aceitar_declaracao
    (DeclaracaoRetorna tok (Some (ExpressaoVariavel "y" tok))) a
  = (Retorno None,
     AnalisadorSemantico.mk TabelaSimbolos.nova
       [ErroSemantico.mk "'retorna' fora de uma função" 1 1] [] None true).
Proof.
  intros tok a.
  apply (retorna_fora_de_funcao a tok (Some (ExpressaoVariavel "y" tok))).
  reflexivity.
Defined.

(** The theorem [argumentos_a_mais] on a concrete input. *)
Lemma argumentos_a_mais_witness :
  let raiz := AnalisadorSemantico.builtin "raiz" [("x", Tipo.REAL)] Tipo.REAL in
  let tok := Token.mk IDENTIFICADOR "raiz" (VStr "raiz") 1 1 in
  let um := ExpressaoLiteral (VInt 1) "inteiro" tok in
  let a :=
    AnalisadorSemantico.mk (TabelaSimbolos.mk [raiz] [{["raiz" := 0%nat]}] 0 [0%nat])
      [] [] None false in
  AnalisadorSemantico.aceitar_expressao
    (ExpressaoChamadaFuncao "raiz" tok [um; ExpressaoVariavel "y" tok]) a
  = (Retorno Tipo.REAL,
     AnalisadorSemantico.com_erros
       [ErroSemantico.mk "Função 'raiz' espera 1 argumento(s), mas recebeu 2" 1 1] a).
Proof.
  intros raiz tok um a.
  assert (Hb : TabelaSimbolos.buscar "raiz" (AnalisadorSemantico.tabela a) = Some 0%nat)
    by (vm_compute; reflexivity).
  refine (eq_trans
            (argumentos_a_mais a "raiz" tok [um] [ExpressaoVariavel "y" tok] 0%nat raiz
               Hb eq_refl eq_refl eq_refl _) _).
  - discriminate.
  - vm_compute. reflexivity.
Defined.

Section ComparacoesELogicas.

Lemma tipo_resultante_comparacao (t1 t2 : Tipo) (operador : string) :
  op_em operador COMPARACOES = true ->
  tipo_resultante t1 t2 operador = Tipo.LOGICO.
Proof.
  intros H. unfold op_em, COMPARACOES in H. cbn [existsb] in H.
  repeat (apply orb_prop in H as [H | H];
          [apply String.eqb_eq in H; subst operador; destruct t1, t2; reflexivity |]).
  discriminate H.
Qed.

(** X19. Comparisons are not type-checked, logical operators are. A binary
    node with one of [== != < <= > >=] has type [LOGICO] and records no
    diagnostic of its own, whatever the types of its operands; a logical
    node ([e], [ou]) has type [LOGICO] too, and records one error for each
    operand whose type is not [LOGICO], the left one first. *)
Theorem comparacao_e_logica (esquerda direita : Expressao) (operador : Token)
    (a a1 a2 : AnalisadorSemantico) (t1 t2 : Tipo) :
  aceitar_expressao esquerda a = (Retorno t1, a1) ->
  aceitar_expressao direita a1 = (Retorno t2, a2) ->
  (op_em (Token.lexema operador) COMPARACOES = true ->
   aceitar_expressao (ExpressaoBinaria esquerda operador direita) a
   = (Retorno Tipo.LOGICO, a2))
  /\ aceitar_expressao (ExpressaoLogica esquerda operador direita) a
     = (Retorno Tipo.LOGICO,
        com_erro_se (negb (Tipo.eqb t2 Tipo.LOGICO))
          ("Operador '" +:+ Token.lexema operador
           +:+ "' requer operando direito 'logico', não '" +:+ Tipo.str t2 +:+ "'")
          (Token.linha operador) (Token.coluna operador)
          (com_erro_se (negb (Tipo.eqb t1 Tipo.LOGICO))
             ("Operador '" +:+ Token.lexema operador
              +:+ "' requer operando esquerdo 'logico', não '" +:+ Tipo.str t1 +:+ "'")
             (Token.linha operador) (Token.coluna operador) a2)).
Proof.
  intros H1 H2. split.
  - intros Hop. rewrite (visitar_binaria_passos _ _ _ _ _ _ _ _ H1 H2).
    rewrite (tipo_resultante_comparacao t1 t2 _ Hop). reflexivity.
  - change (aceitar_expressao (ExpressaoLogica esquerda operador direita) a)
      with (visitar_logica aceitar_expressao esquerda operador direita a).
    unfold visitar_logica.
    rewrite (bind_passo _ _ _ _ _ H1), (bind_passo _ _ _ _ _ H2).
    destruct (negb (Tipo.eqb t1 Tipo.LOGICO)), (negb (Tipo.eqb t2 Tipo.LOGICO));
      reflexivity.
Qed.

End ComparacoesELogicas.

(** The theorem [comparacao_e_logica] on a concrete input. *)
Lemma comparacao_e_logica_witness :
  let a := AnalisadorSemantico.mk TabelaSimbolos.nova [] [] None false in
  let texto := ExpressaoLiteral (VStr "a") "texto" (Token.mk TEXTO "'a'" (VStr "a") 1 1) in
  let um := ExpressaoLiteral (VInt 1) "inteiro" (Token.mk NUMERO_INTEIRO "1" (VInt 1) 1 7) in
  AnalisadorSemantico.aceitar_expressao
    (ExpressaoBinaria texto (Token.mk MENOR "<" (VStr "<") 1 5) um) a
  = (Retorno Tipo.LOGICO, a)
  /\ AnalisadorSemantico.aceitar_expressao
       (ExpressaoLogica texto (Token.mk E "e" (VStr "e") 1 5) um) a
     = (Retorno Tipo.LOGICO,
        AnalisadorSemantico.mk TabelaSimbolos.nova
          [ErroSemantico.mk "Operador 'e' requer operando esquerdo 'logico', não 'texto'" 1 5;
           ErroSemantico.mk "Operador 'e' requer operando direito 'logico', não 'inteiro'" 1 5]
          [] None false).
Proof.
  intros a texto um. split.
  - apply (proj1 (comparacao_e_logica texto um (Token.mk MENOR "<" (VStr "<") 1 5)
                    a a a Tipo.TEXTO Tipo.INTEIRO eq_refl eq_refl)).
    reflexivity.
  - apply (proj2 (comparacao_e_logica texto um (Token.mk E "e" (VStr "e") 1 5)
                    a a a Tipo.TEXTO Tipo.INTEIRO eq_refl eq_refl)).
Defined.

Section AnaliseSegura.
Import AnalisadorSemantico.

Lemma cresce_refl (a : AnalisadorSemantico) : cresce a a.
Proof.
  split; [exists []; rewrite app_nil_r; reflexivity |].
  split; [exists []; rewrite app_nil_r; reflexivity | lia].
Qed.

Lemma cresce_trans (a b c : AnalisadorSemantico) : cresce a b -> cresce b c -> cresce a c.
Proof.
  intros ((e1 & E1) & (w1 & W1) & L1) ((e2 & E2) & (w2 & W2) & L2).
  split; [exists (e1 ++ e2); rewrite E2, E1, app_assoc; reflexivity |].
  split; [exists (w1 ++ w2); rewrite W2, W1, app_assoc; reflexivity | lia].
Qed.

Lemma alcancado_inicio (a : AnalisadorSemantico) :
  consistente a -> alcancado 0 (funcao_atual a) a a.
Proof.
  intros H. split; [exact H |]. split; [exact H |].
  split; [apply cresce_refl |]. split; [lia | reflexivity].
Qed.

Section Passos.

Variables (d : Z) (f : option Ref) (a0 a : AnalisadorSemantico).
Hypothesis alc : alcancado d f a0 a.

Lemma alcancado_erro (e : ErroSemantico) :
  alcancado d f a0 (com_erros (erros a ++ [e]) a).
Proof.
  destruct alc as (H0 & Hc & Hg & Hd & Hf).
  split; [exact H0 |]. split; [exact Hc |]. split; [| split; assumption].
  apply (cresce_trans _ a); [exact Hg |].
  split; [exists [e]; reflexivity |].
  split; [exists []; simpl; rewrite app_nil_r; reflexivity | simpl; lia].
Qed.

Lemma alcancado_aviso (w : AvisoSemantico) :
  alcancado d f a0 (com_avisos (avisos a ++ [w]) a).
Proof.
  destruct alc as (H0 & Hc & Hg & Hd & Hf).
  split; [exact H0 |]. split; [exact Hc |]. split; [| split; assumption].
  apply (cresce_trans _ a); [exact Hg |].
  split; [exists []; simpl; rewrite app_nil_r; reflexivity |].
  split; [exists [w]; reflexivity | simpl; lia].
Qed.

Lemma alcancado_tem_retorno (b : bool) : alcancado d f a0 (com_tem_retorno b a).
Proof.
  destruct alc as (H0 & Hc & Hg & Hd & Hf).
  split; [exact H0 |]. split; [exact Hc |]. split; [| split; assumption].
  exact Hg.
Qed.

Lemma alcancado_funcao (g : option Ref) :
  match g with
  | Some r => (r < length (TabelaSimbolos.objetos (tabela a)))%nat
  | None => True
  end ->
  alcancado d g a0 (com_funcao_atual g a).
Proof.
  intros Hg'. destruct alc as (H0 & (Hb & Hr & _) & Hg & Hd & Hf).
  split; [exact H0 |]. split; [split; [exact Hb | split; [exact Hr | exact Hg']] |].
  split; [exact Hg | split; [exact Hd | reflexivity]].
Qed.

Lemma alcancado_objeto (r : Ref) :
  (r < length (TabelaSimbolos.objetos (tabela a)))%nat ->
  exists simbolo,
    TabelaSimbolos.objetos (tabela a) !! r = Some simbolo
    /\ objeto r a = (Retorno simbolo, a).
Proof.
  intros Hr. destruct (lookup_lt_is_Some_2 _ _ Hr) as [simbolo Hs].
  exists simbolo. split; [exact Hs | apply objeto_em; exact Hs].
Qed.

Lemma alcancado_buscar (nome : string) (r : Ref) :
  TabelaSimbolos.buscar nome (tabela a) = Some r ->
  (r < length (TabelaSimbolos.objetos (tabela a)))%nat.
Proof.
  destruct alc as (_ & (_ & Hr & _) & _). unfold TabelaSimbolos.buscar.
  assert (H : forall fs, (forall f', In f' fs -> In f' (TabelaSimbolos.escopos (tabela a))) ->
            TabelaSimbolos.buscar_em nome fs = Some r ->
            (r < length (TabelaSimbolos.objetos (tabela a)))%nat).
  { induction fs as [| f' fs IH]; intros Hin; simpl; [discriminate |].
    destruct (f' !! nome) as [r' |] eqn:E.
    - intros [= <-]. apply (Hr f' nome r'); [apply Hin; left; reflexivity | exact E].
    - apply IH. intros f'' H''. apply Hin. right. exact H''. }
  apply H. intros f' Hin. apply in_rev. exact Hin.
Qed.

Lemma alcancado_atribuir (r : Ref) (g : Simbolo -> Simbolo) :
  alcancado d f a0
    (com_tabela
       (TabelaSimbolos.com_objetos (alter g r (TabelaSimbolos.objetos (tabela a)))
          (tabela a)) a).
Proof.
  destruct alc as (H0 & (Hb & Hr & Hfa) & Hg & Hd & Hf).
  split; [exact H0 |]. split; [| split; [| split; assumption]].
  - split; [exact Hb |]. split.
    + intros f' nome r' Hin Hl. simpl. rewrite length_alter. apply (Hr f' nome r' Hin Hl).
    + simpl. rewrite Hf in *. destruct f; [rewrite length_alter; exact Hfa | exact I].
  - apply (cresce_trans _ a); [exact Hg |].
    split; [exists []; simpl; rewrite app_nil_r; reflexivity |].
    split; [exists []; simpl; rewrite app_nil_r; reflexivity |].
    simpl. rewrite length_alter. lia.
Qed.

End Passos.

Lemma talvez_erro (c : bool) (mensagem : string) (linha coluna : Z)
    (d : Z) (f : option Ref) (a0 a : AnalisadorSemantico) :
  alcancado d f a0 a ->
  exists a',
    (if c then erro mensagem linha coluna else ret tt) a = (Retorno tt, a')
    /\ alcancado d f a0 a' /\ inalterado a a'.
Proof.
  intros Halc. destruct c.
  - eexists. split; [reflexivity |]. split; [apply alcancado_erro; exact Halc |].
    repeat split.
  - exists a. split; [reflexivity |]. split; [exact Halc | repeat split].
Qed.

Ltac encadeia :=
  unfold inalterado in *; simpl in *;
  repeat match goal with H : _ /\ _ |- _ => destruct H end;
  repeat split; congruence.

Ltac usa_expr IH Halc :=
  let t := fresh "t" in let a' := fresh "a" in let E := fresh "E" in
  let Halc' := fresh "Halc" in let Hin := fresh "Hin" in
  destruct (IH _ _ _ _ Halc) as (t & a' & E & Halc' & Hin);
  rewrite (bind_passo _ _ _ _ _ E); clear E.

Ltac usa_erro Halc :=
  match goal with
  | |- context [bind (if ?c then erro ?m ?l ?co else ret tt) _ ?a] =>
    let a' := fresh "a" in let E := fresh "E" in
    let Halc' := fresh "Halc" in let Hin := fresh "Hin" in
    destruct (talvez_erro c m l co _ _ _ a Halc) as (a' & E & Halc' & Hin);
    rewrite (bind_passo _ _ _ _ _ E); clear E
  end.

Ltac conclui :=
  do 2 eexists; split; [reflexivity | split; [eassumption | encadeia]].

Lemma expressao_segura (no : Expressao) :
  forall d f a0 a, alcancado d f a0 a ->
    exists t a',
      aceitar_expressao no a = (Retorno t, a')
      /\ alcancado d f a0 a' /\ inalterado a a'.
Proof.
  induction no using Expressao_inducao; intros d f a0 a Halc.
  - exists (MAPA_TIPOS_get t Tipo.DESCONHECIDO), a.
    split; [reflexivity | split; [exact Halc | repeat split]].
  - simpl. unfold visitar_variavel.
    rewrite (bind_passo _ _ a a (TabelaSimbolos.buscar n (tabela a))) by reflexivity.
    destruct (TabelaSimbolos.buscar n (tabela a)) as [r |] eqn:Hb.
    + destruct (alcancado_objeto a r (alcancado_buscar _ _ _ _ Halc n r Hb))
        as (simbolo & _ & Eo).
      rewrite (bind_passo _ _ _ _ _ Eo).
      destruct (negb (Simbolo.inicializado simbolo)
                && String.eqb (Simbolo.categoria simbolo) "variavel").
      * do 2 eexists. split; [reflexivity |].
        split; [apply alcancado_aviso; exact Halc | repeat split].
      * do 2 eexists. split; [reflexivity |]. split; [exact Halc | repeat split].
    + do 2 eexists. split; [reflexivity |].
      split; [apply alcancado_erro; exact Halc | repeat split].
  - simpl. unfold visitar_binaria.
    usa_expr IHno1 Halc. usa_expr IHno2 Halc0. usa_erro Halc1. conclui.
  - simpl. unfold visitar_unaria. usa_expr IHno Halc.
    destruct (String.eqb (Token.lexema o) "-").
    + destruct (negb (Tipo.em t [Tipo.INTEIRO; Tipo.REAL])).
      * do 2 eexists. split; [reflexivity |].
        split; [apply alcancado_erro; exact Halc0 | encadeia].
      * conclui.
    + destruct (String.eqb (Token.lexema o) "nao"); [| conclui].
      destruct (negb (Tipo.eqb t Tipo.LOGICO)); [| conclui].
      do 2 eexists. split; [reflexivity |].
      split; [apply alcancado_erro; exact Halc0 | encadeia].
  - simpl. unfold visitar_agrupamento. apply IHno. exact Halc.
  - simpl. unfold visitar_atribuicao.
    rewrite (bind_passo _ _ a a (TabelaSimbolos.buscar n (tabela a))) by reflexivity.
    destruct (TabelaSimbolos.buscar n (tabela a)) as [r |] eqn:Hb.
    + pose proof (alcancado_buscar _ _ _ _ Halc n r Hb) as Hr.
      destruct (alcancado_objeto a r Hr) as (simbolo & _ & Eo).
      rewrite (bind_passo _ _ _ _ _ Eo).
      match goal with
      | |- context [bind (if ?c then erro ?m ?l ?co else ret tt) _ ?x] =>
        destruct (talvez_erro c m l co _ _ _ x Halc) as (a1 & E1 & Halc1 & Hin1);
        rewrite (bind_passo _ _ _ _ _ E1); clear E1
      end.
      usa_expr IHno Halc1.
      assert (Hr2 : (r < length (TabelaSimbolos.objetos (tabela a2)))%nat)
        by (unfold inalterado in *; intuition congruence).
      destruct (alcancado_objeto a2 r Hr2) as (simbolo2 & _ & Eo2).
      rewrite (bind_passo _ _ _ _ _ Eo2).
      usa_erro Halc0.
      pose proof (alcancado_atribuir _ _ _ _ Halc2 r (Simbolo.com_inicializado true))
        as Halc3.
      match goal with
      | |- context [bind (na_tabela (TabelaSimbolos.atribuir ?r' ?g)) _ ?x] =>
        rewrite (bind_passo _ _ x _ tt
                   (eq_refl : na_tabela (TabelaSimbolos.atribuir r' g) x = (_, _)))
      end.
      match goal with
      | |- context [bind (objeto r) _ ?x] =>
        destruct (alcancado_objeto x r) as (simbolo3 & _ & Eo3);
          [simpl; rewrite length_alter; unfold inalterado in *; intuition congruence |];
        rewrite (bind_passo _ _ _ _ _ Eo3)
      end.
      do 2 eexists. split; [reflexivity |]. split; [exact Halc3 |].
      unfold inalterado in *. simpl. rewrite length_alter. intuition congruence.
    + do 2 eexists. split; [reflexivity |].
      split; [apply alcancado_erro; exact Halc | repeat split].
  - simpl. unfold visitar_logica.
    usa_expr IHno1 Halc. usa_expr IHno2 Halc0. usa_erro Halc1. usa_erro Halc2.
    conclui.
  - change (aceitar_expressao (ExpressaoChamadaFuncao n tok args) a)
      with (visitar_chamada_funcao aceitar_expressao n tok args a).
    unfold visitar_chamada_funcao.
    rewrite (bind_passo _ _ a a (TabelaSimbolos.buscar n (tabela a))) by reflexivity.
    destruct (TabelaSimbolos.buscar n (tabela a)) as [r |] eqn:Hb.
    + pose proof (alcancado_buscar _ _ _ _ Halc n r Hb) as Hr.
      destruct (alcancado_objeto a r Hr) as (simbolo & _ & Eo).
      rewrite (bind_passo _ _ _ _ _ Eo).
      destruct (negb (Tipo.eqb (Simbolo.tipo simbolo) Tipo.FUNCAO)).
      * do 2 eexists. split; [reflexivity |].
        split; [apply alcancado_erro; exact Halc | repeat split].
      * usa_erro Halc.
        assert (Hargs : forall ps i a1, alcancado d f a0 a1 ->
                  exists a2,
                    verificar_argumentos aceitar_expressao n tok args ps i a1
                    = (Retorno tt, a2)
                    /\ alcancado d f a0 a2 /\ inalterado a1 a2).
        { clear - H. induction H as [| x xs Hx _ IHxs]; intros ps i a1 Ha1.
          - exists a1. split; [reflexivity | split; [exact Ha1 | repeat split]].
          - destruct ps as [| p ps].
            + exists a1. split; [reflexivity | split; [exact Ha1 | repeat split]].
            + simpl. usa_expr Hx Ha1. usa_erro Halc.
              destruct (IHxs ps (i + 1) _ Halc0) as (a4 & E4 & Halc4 & Hin4).
              rewrite E4. exists a4. split; [reflexivity | split; [exact Halc4 |]].
              encadeia. }
        destruct (Hargs (Simbolo.parametros simbolo) 0 _ Halc0)
          as (a2 & E2 & Halc2 & Hin2).
        rewrite (bind_passo _ _ _ _ _ E2).
        destruct (alcancado_objeto a2 r) as (simbolo2 & _ & Eo2);
          [unfold inalterado in *; intuition congruence |].
        rewrite (bind_passo _ _ _ _ _ Eo2).
        conclui.
    + do 2 eexists. split; [reflexivity |].
      split; [apply alcancado_erro; exact Halc | repeat split].
  - simpl. unfold visitar_acesso_array.
    usa_expr IHno2 Halc. usa_erro Halc0. conclui.
Qed.

Lemma refs_validas_mais (t : TabelaSimbolos.TabelaSimbolos)
    (objetos' : list Simbolo) :
  refs_validas t ->
  (length (TabelaSimbolos.objetos t) <= length objetos')%nat ->
  refs_validas (TabelaSimbolos.com_objetos objetos' t).
Proof.
  intros Hr Hl f' nome r Hin Hf. simpl in *.
  pose proof (Hr f' nome r Hin Hf). lia.
Qed.

Lemma alcancado_entrar (d : Z) (f : option Ref) (a0 a : AnalisadorSemantico) :
  alcancado d f a0 a ->
  exists a',
    na_tabela TabelaSimbolos.entrar_escopo a = (Retorno tt, a')
    /\ alcancado (d + 1) f a0 a'
    /\ TabelaSimbolos.objetos (tabela a') = TabelaSimbolos.objetos (tabela a)
    /\ tem_retorno a' = tem_retorno a.
Proof.
  intros (H0 & ((Hpos & Hlen) & Hr & Hfa) & Hg & Hd & Hf).
  eexists. split; [reflexivity |]. split; [| split; reflexivity].
  split; [exact H0 |]. split; [| split; [| split]].
  - split; [| split].
    + split; simpl; [lia |]. rewrite len_app. change (Py.len [∅]) with 1. lia.
    + intros f' nome r Hin Hl. simpl in *. apply in_app_or in Hin as [Hin | Hin].
      * apply (Hr f' nome r Hin Hl).
      * destruct Hin as [<- | []]. rewrite lookup_empty in Hl. discriminate.
    + exact Hfa.
  - exact Hg.
  - simpl. lia.
  - exact Hf.
Qed.

Lemma alcancado_sair (d : Z) (f : option Ref) (a0 a : AnalisadorSemantico) :
  alcancado d f a0 a ->
  0 < TabelaSimbolos.escopo_atual (tabela a) ->
  exists a',
    na_tabela TabelaSimbolos.sair_escopo a = (Retorno tt, a')
    /\ alcancado (d - 1) f a0 a'
    /\ TabelaSimbolos.objetos (tabela a') = TabelaSimbolos.objetos (tabela a)
    /\ tem_retorno a' = tem_retorno a.
Proof.
  intros (H0 & (Hb & Hr & Hfa) & Hg & Hd & Hf) Hpos.
  destruct (quadros (tabela a) Hb) as (fs & fu & He & Hl).
  destruct Hb as [_ Hlen].
  unfold na_tabela, TabelaSimbolos.sair_escopo, bind, ler.
  destruct (Z.ltb_spec 0 (TabelaSimbolos.escopo_atual (tabela a))) as [_ | H]; [| lia].
  unfold TabelaSimbolos.escopos_pop. rewrite He.
  destruct (fs ++ [fu]) eqn:E; [destruct fs; discriminate |]. rewrite <- E.
  unfold mudar. cbn [TabelaSimbolos.escopos TabelaSimbolos.com_escopos].
  rewrite removelast_last.
  eexists. split; [reflexivity |]. split; [| split; reflexivity].
  split; [exact H0 |]. split; [| split; [| split]].
  - split; [| split].
    + split; simpl; [lia |]. unfold Py.len. lia.
    + intros f' nome r Hin Hlk. simpl in *. apply (Hr f' nome r); [| exact Hlk].
      rewrite He, <- E. apply in_or_app. left. exact Hin.
    + exact Hfa.
  - exact Hg.
  - simpl. lia.
  - exact Hf.
Qed.

Lemma alcancado_buscar_local (d : Z) (f : option Ref) (a0 a : AnalisadorSemantico)
    (nome : string) :
  alcancado d f a0 a ->
  exists o,
    na_tabela (TabelaSimbolos.buscar_local nome) a = (Retorno o, a)
    /\ match o with
       | Some r => (r < length (TabelaSimbolos.objetos (tabela a)))%nat
       | None => True
       end.
Proof.
  intros (H0 & (Hb & Hr & Hfa) & Hg & Hd & Hf).
  destruct (quadros (tabela a) Hb) as (fs & fu & He & Hl).
  destruct Hb as [Hpos Hlen].
  exists (fu !! nome). split.
  - unfold na_tabela, TabelaSimbolos.buscar_local.
    rewrite (bind_passo _ _ _ _ _
               (escopo_corrente_ultimo (tabela a) fs fu Hpos He Hl)).
    unfold ret. rewrite com_tabela_mesma. reflexivity.
  - destruct (fu !! nome) as [r |] eqn:E; [| exact I].
    apply (Hr fu nome r); [| exact E]. rewrite He. apply in_or_app. right. left.
    reflexivity.
Qed.

Lemma alcancado_declarar_novo (d : Z) (f : option Ref) (a0 a : AnalisadorSemantico)
    (simbolo : Simbolo) :
  alcancado d f a0 a ->
  exists r a',
    declarar_novo simbolo a = (Retorno r, a')
    /\ alcancado d f a0 a'
    /\ (r < length (TabelaSimbolos.objetos (tabela a')))%nat
    /\ (length (TabelaSimbolos.objetos (tabela a))
        <= length (TabelaSimbolos.objetos (tabela a')))%nat
    /\ tem_retorno a' = tem_retorno a.
Proof.
  intros (H0 & (Hb & Hr & Hfa) & Hg & Hd & Hf).
  destruct (quadros (tabela a) Hb) as (fs & fu & He & Hl).
  pose proof Hb as [Hpos Hlen].
  set (t := tabela a) in *.
  set (r := length (TabelaSimbolos.objetos t)).
  set (t1 := TabelaSimbolos.com_objetos (TabelaSimbolos.objetos t ++ [simbolo]) t).
  assert (Ho1 : TabelaSimbolos.objetos t1 !! r = Some simbolo).
  { unfold t1, r. simpl. apply list_lookup_middle. reflexivity. }
  assert (Hb1 : bem_formada t1) by exact Hb.
  assert (Hc1 : TabelaSimbolos.escopo_corrente t1 = (Retorno fu, t1)).
  { apply (escopo_corrente_ultimo t1 fs fu Hpos He Hl). }
  unfold declarar_novo.
  assert (E1 : na_tabela (TabelaSimbolos.construir simbolo) a
               = (Retorno r, com_tabela t1 a)) by reflexivity.
  rewrite (bind_passo _ _ _ _ _ E1).
  destruct (fu !! Simbolo.nome simbolo) as [existente |] eqn:En.
  - assert (E2 : na_tabela (TabelaSimbolos.declarar r) (com_tabela t1 a)
                 = (Retorno false, com_tabela t1 a)).
    { unfold na_tabela. cbn [tabela com_tabela]. unfold TabelaSimbolos.declarar.
      rewrite (bind_passo _ _ t1 t1 simbolo)
        by (unfold TabelaSimbolos.objeto; rewrite Ho1; reflexivity).
      rewrite (bind_passo _ _ _ _ _ Hc1), En. reflexivity. }
    rewrite (bind_passo _ _ _ _ _ E2).
    exists r. eexists. split; [reflexivity |].
    assert (Hlen1 : length (TabelaSimbolos.objetos t1) = S r)
      by (unfold t1, r; simpl; rewrite length_app; simpl; lia).
    split; [| split; [| split]].
    + split; [exact H0 |]. split; [| split; [| split]].
      * split; [exact Hb |]. split.
        -- apply refs_validas_mais; [exact Hr |]. rewrite length_app. lia.
        -- cbn [funcao_atual com_tabela tabela]. destruct (funcao_atual a); [| exact I].
           rewrite Hlen1. fold r. unfold r in *. lia.
      * apply (cresce_trans _ a); [exact Hg |].
        split; [exists []; simpl; rewrite app_nil_r; reflexivity |].
        split; [exists []; simpl; rewrite app_nil_r; reflexivity |].
        cbn [tabela com_tabela]. rewrite Hlen1. fold t. fold r. lia.
      * exact Hd.
      * exact Hf.
    + cbn [tabela com_tabela]. rewrite Hlen1. lia.
    + cbn [tabela com_tabela]. rewrite Hlen1. fold t. fold r. lia.
    + reflexivity.
  - destruct (declarar_nome_livre t1 r simbolo fs fu Hpos He Hl Ho1 En) as (E2 & _).
    assert (E3 : na_tabela (TabelaSimbolos.declarar r) (com_tabela t1 a)
                 = (Retorno true,
                    com_tabela (declarado (Simbolo.nome simbolo) r t1) (com_tabela t1 a))).
    { unfold na_tabela. cbn [tabela com_tabela]. rewrite E2. reflexivity. }
    rewrite (bind_passo _ _ _ _ _ E3).
    exists r. eexists. split; [reflexivity |].
    assert (Hlen1 : length (TabelaSimbolos.objetos
                              (declarado (Simbolo.nome simbolo) r t1)) = S r).
    { unfold declarado, t1, r. simpl. rewrite length_alter, length_app. simpl. lia. }
    split; [| split; [| split]].
    + split; [exact H0 |]. split; [| split; [| split]].
      * split; [| split].
        -- split; [exact Hpos |]. cbn [tabela com_tabela]. unfold declarado. simpl.
           unfold Py.len. rewrite length_alter. exact Hlen.
        -- intros f' nome r' Hin Hlk. cbn [tabela com_tabela] in *.
           rewrite Hlen1. unfold declarado in Hin. simpl in Hin.
           fold t in Hin. rewrite He, <- Hl, alter_ultimo in Hin.
           apply in_app_or in Hin as [Hin | Hin].
           ++ assert (r' < r)%nat; [| lia].
              apply (Hr f' nome r'); [| exact Hlk]. fold t. rewrite He.
              apply in_or_app. left. exact Hin.
           ++ destruct Hin as [<- | []].
              destruct (decide (nome = Simbolo.nome simbolo)) as [-> | Hne].
              ** rewrite lookup_insert_eq in Hlk. injection Hlk as <-. lia.
              ** rewrite lookup_insert_ne in Hlk by congruence.
                 assert (r' < r)%nat; [| lia].
                 apply (Hr fu nome r'); [| exact Hlk]. fold t. rewrite He.
                 apply in_or_app. right. left. reflexivity.
        -- cbn [funcao_atual com_tabela tabela]. destruct (funcao_atual a); [| exact I].
           rewrite Hlen1. fold t r in Hfa. lia.
      * apply (cresce_trans _ a); [exact Hg |].
        split; [exists []; simpl; rewrite app_nil_r; reflexivity |].
        split; [exists []; simpl; rewrite app_nil_r; reflexivity |].
        cbn [tabela com_tabela]. rewrite Hlen1. fold t. fold r. lia.
      * exact Hd.
      * exact Hf.
    + cbn [tabela com_tabela]. rewrite Hlen1. lia.
    + cbn [tabela com_tabela]. rewrite Hlen1. fold t. fold r. lia.
    + reflexivity.
Qed.

Lemma alcancado_profundidade (d : Z) (f : option Ref) (a0 a : AnalisadorSemantico) :
  alcancado d f a0 a ->
  0 <= TabelaSimbolos.escopo_atual (tabela a)
  /\ TabelaSimbolos.escopo_atual (tabela a)
     = TabelaSimbolos.escopo_atual (tabela a0) + d.
Proof. intros (_ & ((Hpos & _) & _) & _ & Hd & _). split; assumption. Qed.

Lemma alcancado_funcao_valida (d : Z) (f : option Ref) (a0 a : AnalisadorSemantico) :
  alcancado d f a0 a ->
  match f with
  | Some r => (r < length (TabelaSimbolos.objetos (tabela a)))%nat
  | None => True
  end.
Proof. intros (_ & (_ & _ & Hfa) & _ & _ & Hf). rewrite Hf in Hfa. exact Hfa. Qed.

Ltac conclui_decl :=
  do 2 eexists; split; [reflexivity |];
  split; [eassumption |];
  unfold inalterado in *; simpl in *;
  repeat match goal with H : _ /\ _ |- _ => destruct H end;
  repeat match goal with
         | H : TabelaSimbolos.objetos _ = TabelaSimbolos.objetos _ |- _ =>
           apply (f_equal (@length Simbolo)) in H
         end;
  lia.

Ltac usa_expressao Halc :=
  match goal with
  | |- context [bind (aceitar_expressao ?e) _ ?x] =>
    let t := fresh "t" in let a' := fresh "a" in let E := fresh "E" in
    let Halc' := fresh "Halc" in let Hin := fresh "Hin" in
    destruct (expressao_segura e _ _ _ x Halc) as (t & a' & E & Halc' & Hin);
    rewrite (bind_passo _ _ _ _ _ E); clear E
  end.

Ltac usa_decl IH Halc :=
  match goal with
  | |- context [bind (aceitar_declaracao ?e) _ ?x] =>
    let t := fresh "t" in let a' := fresh "a" in let E := fresh "E" in
    let Halc' := fresh "Halc" in let Hmo := fresh "Hmo" in
    destruct (IH _ _ _ x Halc) as (t & a' & E & Halc' & Hmo);
    rewrite (bind_passo _ _ _ _ _ E); clear E
  end.

Ltac usa_entrar Halc :=
  match goal with
  | |- context [bind (na_tabela TabelaSimbolos.entrar_escopo) _ ?x] =>
    let a' := fresh "a" in let E := fresh "E" in
    let Halc' := fresh "Halc" in let Ho := fresh "Ho" in let Htr := fresh "Htr" in
    destruct (alcancado_entrar _ _ _ x Halc) as (a' & E & Halc' & Ho & Htr);
    rewrite (bind_passo _ _ _ _ _ E); clear E
  end.

Ltac usa_sair Halc :=
  match goal with
  | |- context [bind (na_tabela TabelaSimbolos.sair_escopo) _ ?x] =>
    let a' := fresh "a" in let E := fresh "E" in
    let Halc' := fresh "Halc" in let Ho := fresh "Ho" in let Htr := fresh "Htr" in
    destruct (alcancado_sair _ _ _ x Halc) as (a' & E & Halc' & Ho & Htr);
    [ repeat match goal with
             | H : alcancado _ _ _ _ |- _ =>
               apply alcancado_profundidade in H
             end; lia
    | rewrite (bind_passo _ _ _ _ _ E); clear E ]
  end.

Ltac usa_declarar Halc :=
  match goal with
  | |- context [bind (declarar_novo ?s) _ ?x] =>
    let r := fresh "r" in let a' := fresh "a" in let E := fresh "E" in
    let Halc' := fresh "Halc" in let Hr := fresh "Hr" in
    let Hmo := fresh "Hmo" in let Htr := fresh "Htr" in
    destruct (alcancado_declarar_novo _ _ _ x s Halc)
      as (r & a' & E & Halc' & Hr & Hmo & Htr);
    rewrite (bind_passo _ _ _ _ _ E); clear E
  end.

Lemma aceitar_todas_segura (declaracoes : list Declaracao) :
  Forall declaracao_segura declaracoes ->
  forall d f a0 a, alcancado d f a0 a ->
    exists a',
      aceitar_todas aceitar_declaracao declaracoes a = (Retorno tt, a')
      /\ alcancado d f a0 a'
      /\ (length (TabelaSimbolos.objetos (tabela a))
          <= length (TabelaSimbolos.objetos (tabela a')))%nat.
Proof.
  induction 1 as [| x xs Hx _ IH]; intros d f a0 a Halc.
  - exists a. split; [reflexivity | split; [exact Halc | lia]].
  - simpl. destruct (Hx _ _ _ _ Halc) as (r & a1 & E & Halc1 & Hmo1).
    rewrite (bind_passo _ _ _ _ _ E).
    destruct (IH _ _ _ _ Halc1) as (a2 & E2 & Halc2 & Hmo2).
    exists a2. split; [exact E2 | split; [exact Halc2 | lia]].
Qed.

Lemma aceitar_expressoes_segura (expressoes : list Expressao) :
  forall d f a0 a, alcancado d f a0 a ->
    exists a',
      aceitar_expressoes expressoes a = (Retorno tt, a')
      /\ alcancado d f a0 a' /\ inalterado a a'.
Proof.
  induction expressoes as [| x xs IH]; intros d f a0 a Halc.
  - exists a. split; [reflexivity | split; [exact Halc | repeat split]].
  - simpl. usa_expressao Halc.
    destruct (IH _ _ _ _ Halc0) as (a2 & E2 & Halc2 & Hin2).
    exists a2. split; [exact E2 | split; [exact Halc2 | encadeia]].
Qed.

Lemma bloco_seguro (declaracoes : list Declaracao) :
  Forall declaracao_segura declaracoes ->
  forall d f a0 a, alcancado d f a0 a ->
    exists a',
      visitar_bloco aceitar_declaracao declaracoes a = (Retorno None, a')
      /\ alcancado d f a0 a'
      /\ (length (TabelaSimbolos.objetos (tabela a))
          <= length (TabelaSimbolos.objetos (tabela a')))%nat.
Proof.
  intros Hds d f a0 a Halc. unfold visitar_bloco.
  usa_entrar Halc.
  destruct (aceitar_todas_segura declaracoes Hds _ _ _ _ Halc0)
    as (a2 & E2 & Halc2 & Hmo2).
  rewrite (bind_passo _ _ _ _ _ E2).
  usa_sair Halc2.
  replace (d + 1 - 1) with d in * by lia.
  eexists. split; [reflexivity |]. split; [eassumption |].
  apply (f_equal (@length Simbolo)) in Ho, Ho0. lia.
Qed.

Lemma declaracao_e_segura (no : Declaracao) : declaracao_segura no.
Proof.
  induction no using Declaracao_inducao; intros d fn a0 a Halc.
  - (* DeclaracaoExpressao *)
    simpl. unfold visitar_declaracao_expressao. usa_expressao Halc. conclui_decl.
  - (* DeclaracaoVariavel *)
    simpl. unfold visitar_declaracao_variavel.
    destruct (alcancado_buscar_local _ _ _ _ n Halc) as (o & Eb & Hv).
    rewrite (bind_passo _ _ _ _ _ Eb).
    destruct o as [r |].
    + destruct (alcancado_objeto a r Hv) as (existente & _ & Eo).
      rewrite (bind_passo _ _ _ _ _ Eo).
      do 2 eexists. split; [reflexivity |].
      split; [apply alcancado_erro; exact Halc | simpl; lia].
    + assert (Hini : exists tipo a1,
                (match ini with
                 | Some ini =>
                   let* tipo_inicializador := aceitar_expressao ini in
                   if Tipo.eqb (tipo_declarado td Tipo.DESCONHECIDO) Tipo.DESCONHECIDO
                   then ret tipo_inicializador
                   else if negb (tipos_compativeis
                                   (tipo_declarado td Tipo.DESCONHECIDO)
                                   tipo_inicializador) then
                     erro ("Tipo incompatível: não é possível atribuir '"
                           +:+ Tipo.str tipo_inicializador +:+ "' a '"
                           +:+ Tipo.str (tipo_declarado td Tipo.DESCONHECIDO) +:+ "'")
                       (Token.linha tok) (Token.coluna tok) >>
                     ret (tipo_declarado td Tipo.DESCONHECIDO)
                   else ret (tipo_declarado td Tipo.DESCONHECIDO)
                 | None => ret (tipo_declarado td Tipo.DESCONHECIDO)
                 end) a = (Retorno tipo, a1)
                /\ alcancado d fn a0 a1 /\ inalterado a a1).
      { destruct ini as [ini |].
        - usa_expressao Halc.
          destruct (Tipo.eqb (tipo_declarado td Tipo.DESCONHECIDO) Tipo.DESCONHECIDO).
          + do 2 eexists. split; [reflexivity | split; [exact Halc0 | exact Hin]].
          + destruct (negb (tipos_compativeis _ t)).
            * do 2 eexists. split; [reflexivity |].
              split; [apply alcancado_erro; exact Halc0 | encadeia].
            * do 2 eexists. split; [reflexivity | split; [exact Halc0 | exact Hin]].
        - do 2 eexists. split; [reflexivity | split; [exact Halc | repeat split]]. }
      destruct Hini as (tipo & a1 & E1 & Halc1 & Hin1).
      rewrite (bind_passo _ _ _ _ _ E1).
      match goal with
      | |- context [bind (if ?c0 then erro ?m ?l ?co else ret tt) _ ?x] =>
        destruct (talvez_erro c0 m l co _ _ _ x Halc1) as (a2 & E2 & Halc2 & Hin2);
        rewrite (bind_passo _ _ _ _ _ E2); clear E2
      end.
      rewrite bind_ler. usa_declarar Halc2. conclui_decl.
  - (* DeclaracaoBloco *)
    change (aceitar_declaracao (DeclaracaoBloco ds) a)
      with (visitar_bloco aceitar_declaracao ds a).
    destruct (bloco_seguro ds H _ _ _ _ Halc) as (a1 & E & Halc1 & Hmo).
    exists None, a1. split; [exact E | split; [exact Halc1 | exact Hmo]].
  - (* DeclaracaoSe *)
    change (aceitar_declaracao (DeclaracaoSe c no bf) a)
      with (visitar_se aceitar_declaracao c no bf a).
    unfold visitar_se. usa_expressao Halc. usa_erro Halc0.
    rewrite bind_ler. usa_decl IHno Halc1. rewrite bind_ler.
    assert (Hbf : exists trf a5,
              (match bf with
               | Some bloco =>
                 mudar (com_tem_retorno (tem_retorno a2)) >>
                 aceitar_declaracao bloco >>
                 ler tem_retorno
               | None => ret false
               end) a3 = (Retorno trf, a5)
              /\ alcancado d fn a0 a5
              /\ (length (TabelaSimbolos.objetos (tabela a3))
                  <= length (TabelaSimbolos.objetos (tabela a5)))%nat).
    { destruct bf as [b |].
      - rewrite bind_mudar.
        pose proof (alcancado_tem_retorno _ _ _ _ Halc2 (tem_retorno a2)) as Halc3.
        destruct (H _ _ _ _ Halc3) as (t4 & a4 & E4 & Halc4 & Hmo4).
        rewrite (bind_passo _ _ _ _ _ E4).
        do 2 eexists. split; [reflexivity | split; [exact Halc4 | exact Hmo4]].
      - do 2 eexists. split; [reflexivity | split; [exact Halc2 | lia]]. }
    destruct Hbf as (trf & a5 & E5 & Halc5 & Hmo5).
    rewrite (bind_passo _ _ _ _ _ E5). rewrite bind_mudar.
    do 2 eexists. split; [reflexivity |].
    split; [apply alcancado_tem_retorno; exact Halc5 |].
    unfold inalterado in *. simpl in *. intuition lia.
  - (* DeclaracaoEnquanto *)
    change (aceitar_declaracao (DeclaracaoEnquanto c no) a)
      with (visitar_enquanto aceitar_declaracao c no a).
    unfold visitar_enquanto. usa_expressao Halc. usa_erro Halc0.
    usa_decl IHno Halc1. conclui_decl.
  - (* DeclaracaoPara *)
    change (aceitar_declaracao (DeclaracaoPara v tok i f p no) a)
      with (visitar_para aceitar_declaracao v tok i f p no a).
    unfold visitar_para. usa_entrar Halc. rewrite bind_ler. usa_declarar Halc0.
    usa_expressao Halc1. usa_expressao Halc2. usa_erro Halc3. usa_erro Halc4.
    assert (Hp : exists a7,
              (match p with
               | Some p =>
                 let* tipo_passo := aceitar_expressao p in
                 if negb (numerico tipo_passo) then
                   erro ("Passo do 'para' deve ser numérico, mas é '"
                         +:+ Tipo.str tipo_passo +:+ "'")
                     (Token.linha tok) (Token.coluna tok)
                 else ret tt
               | None => ret tt
               end) a6 = (Retorno tt, a7)
              /\ alcancado (d + 1) fn a0 a7 /\ inalterado a6 a7).
    { destruct p as [p |].
      - usa_expressao Halc5.
        destruct (talvez_erro (negb (numerico t1))
                    ("Passo do 'para' deve ser numérico, mas é '"
                     +:+ Tipo.str t1 +:+ "'")
                    (Token.linha tok) (Token.coluna tok) _ _ _ a7 Halc6)
          as (a8 & E8 & Halc8 & Hin8).
        exists a8. split; [exact E8 | split; [exact Halc8 | encadeia]].
      - exists a6. split; [reflexivity | split; [exact Halc5 | repeat split]]. }
    destruct Hp as (a7 & E7 & Halc7 & Hin7).
    rewrite (bind_passo _ _ _ _ _ E7).
    usa_decl IHno Halc7. usa_sair Halc6.
    replace (d + 1 - 1) with d in * by lia.
    conclui_decl.
  - (* DeclaracaoFuncao *)
    change (aceitar_declaracao (DeclaracaoFuncao n tok ps tr corpo) a)
      with (visitar_funcao aceitar_declaracao n tok ps tr corpo a).
    unfold visitar_funcao.
    destruct (alcancado_buscar_local _ _ _ _ n Halc) as (o & Eb & Hv).
    rewrite (bind_passo _ _ _ _ _ Eb).
    destruct o as [r |].
    + destruct (alcancado_objeto a r Hv) as (existente & _ & Eo).
      rewrite (bind_passo _ _ _ _ _ Eo).
      do 2 eexists. split; [reflexivity |].
      split; [apply alcancado_erro; exact Halc | simpl; lia].
    + cbv zeta. rewrite bind_ler. usa_declarar Halc. usa_entrar Halc0.
      rewrite bind_ler, bind_mudar, bind_mudar.
      assert (Halc2 : alcancado (d + 1) (Some r) a0
                        (com_tem_retorno false (com_funcao_atual (Some r) a2))).
      { apply alcancado_tem_retorno. apply (alcancado_funcao _ _ _ _ Halc1 (Some r)).
        rewrite Ho. exact Hr. }
      assert (Hparams : forall qs a3, alcancado (d + 1) (Some r) a0 a3 ->
                exists a4,
                  declarar_parametros qs tok a3 = (Retorno tt, a4)
                  /\ alcancado (d + 1) (Some r) a0 a4
                  /\ (length (TabelaSimbolos.objetos (tabela a3))
                      <= length (TabelaSimbolos.objetos (tabela a4)))%nat).
      { induction qs as [| [qn qt] qs IHqs]; intros a3 Ha3.
        - exists a3. split; [reflexivity | split; [exact Ha3 | lia]].
        - simpl. rewrite bind_ler.
          destruct (alcancado_declarar_novo _ _ _ a3
                      (Simbolo.mk qn qt "parametro"
                         (TabelaSimbolos.escopo_atual (tabela a3))
                         (Token.linha tok) (Token.coluna tok) false [] None true) Ha3)
            as (r4 & a4 & E4 & Halc4 & _ & Hmo4 & _).
          rewrite (bind_passo _ _ _ _ _ E4).
          destruct (IHqs a4 Halc4) as (a5 & E5 & Halc5 & Hmo5).
          exists a5. split; [exact E5 | split; [exact Halc5 | lia]]. }
      match goal with
      | |- context [bind (declarar_parametros ?qs tok) _ ?x] =>
        destruct (Hparams qs x Halc2) as (a4 & E4 & Halc4 & Hmo4)
      end.
      rewrite (bind_passo _ _ _ _ _ E4).
      destruct (bloco_seguro corpo H _ _ _ _ Halc4) as (a5 & E5 & Halc5 & Hmo5).
      rewrite (bind_passo _ _ _ _ _ E5). rewrite bind_ler.
      match goal with
      | |- context [bind (if ?c0 then aviso ?m ?l ?co else ret tt) _ ?x] =>
        assert (Hav : exists a6,
                  (if c0 then aviso m l co else ret tt) x = (Retorno tt, a6)
                  /\ alcancado (d + 1) (Some r) a0 a6
                  /\ TabelaSimbolos.objetos (tabela a6)
                     = TabelaSimbolos.objetos (tabela x))
      end.
      { match goal with |- context [if ?c0 then _ else _] => destruct c0 end.
        - eexists. split; [reflexivity |].
          split; [apply alcancado_aviso; exact Halc5 | reflexivity].
        - eexists. split; [reflexivity | split; [exact Halc5 | reflexivity]]. }
      destruct Hav as (a6 & E6 & Halc6 & Ho6).
      rewrite (bind_passo _ _ _ _ _ E6).
      usa_sair Halc6.
      replace (d + 1 - 1) with d in * by lia.
      rewrite bind_mudar.
      pose proof Halc1 as (_ & _ & _ & _ & Hfa). rewrite Hfa.
      pose proof (alcancado_funcao_valida _ _ _ _ Halc) as Hf.
      apply (f_equal (@length Simbolo)) in Ho, Ho6, Ho0.
      do 2 eexists. split; [reflexivity |]. split.
      * match goal with
        | Hs : alcancado d (Some r) a0 ?x |- alcancado d fn a0 (com_funcao_atual fn ?x) =>
          apply (alcancado_funcao _ _ _ _ Hs fn)
        end.
        destruct fn as [r0 |]; [| exact I]. simpl in *. lia.
      * simpl in *. lia.
  - (* DeclaracaoRetorna *)
    simpl. unfold visitar_retorna. rewrite bind_mudar, bind_ler.
    pose proof (alcancado_tem_retorno _ _ _ _ Halc true) as Halc1.
    cbn [funcao_atual com_tem_retorno].
    pose proof (alcancado_funcao_valida _ _ _ _ Halc1) as Hf.
    pose proof Halc as (_ & _ & _ & _ & Hfa). rewrite Hfa.
    destruct fn as [r |].
    + destruct (alcancado_objeto _ r Hf) as (funcao & _ & Eo).
      rewrite (bind_passo _ _ _ _ _ Eo). cbv zeta.
      destruct v as [v |].
      * usa_expressao Halc1.
        destruct (alcancado_objeto a1 r) as (funcao2 & _ & Eo2);
          [apply (alcancado_funcao_valida _ _ _ _ Halc0) |].
        rewrite (bind_passo _ _ _ _ _ Eo2).
        destruct (e_vazio (Simbolo.tipo_retorno funcao)).
        -- do 2 eexists. split; [reflexivity |].
           split; [apply alcancado_erro; exact Halc0 |].
           unfold inalterado in *. simpl in *. intuition lia.
        -- destruct (negb (tipos_compativeis_retorno _ t)).
           ++ do 2 eexists. split; [reflexivity |].
              split; [apply alcancado_erro; exact Halc0 |].
              unfold inalterado in *. simpl in *. intuition lia.
           ++ do 2 eexists. split; [reflexivity |]. split; [exact Halc0 |].
              unfold inalterado in *. simpl in *. intuition lia.
      * destruct (negb (e_vazio (Simbolo.tipo_retorno funcao))).
        -- do 2 eexists. split; [reflexivity |].
           split; [apply alcancado_erro; exact Halc1 | simpl; lia].
        -- do 2 eexists. split; [reflexivity |]. split; [exact Halc1 | simpl; lia].
    + do 2 eexists. split; [reflexivity |].
      split; [apply alcancado_erro; exact Halc1 | simpl; lia].
  - (* DeclaracaoEscreva *)
    simpl. unfold visitar_escreva.
    destruct (aceitar_expressoes_segura es _ _ _ _ Halc) as (a1 & E1 & Halc1 & Hin1).
    rewrite (bind_passo _ _ _ _ _ E1). conclui_decl.
  - (* DeclaracaoLeia *)
    simpl. unfold visitar_leia.
    rewrite (bind_passo _ _ a a (TabelaSimbolos.buscar v (tabela a))) by reflexivity.
    assert (H1 : exists a1,
              (match TabelaSimbolos.buscar v (tabela a) with
               | Some r =>
                 let* simbolo := objeto r in
                 if Simbolo.constante simbolo
                 then
                   erro ("Não é possível ler para constante '" +:+ v +:+ "'")
                     (Token.linha tok) (Token.coluna tok)
                 else
                   na_tabela
                     (TabelaSimbolos.atribuir r (Simbolo.com_inicializado true))
               | None =>
                 erro ("Variável '" +:+ v +:+ "' não foi declarada")
                   (Token.linha tok) (Token.coluna tok)
               end) a = (Retorno tt, a1)
              /\ alcancado d fn a0 a1 /\ inalterado a a1).
    { destruct (TabelaSimbolos.buscar v (tabela a)) as [r |] eqn:Hb.
      - destruct (alcancado_objeto a r (alcancado_buscar _ _ _ _ Halc v r Hb))
          as (simbolo & _ & Eo).
        rewrite (bind_passo _ _ _ _ _ Eo).
        destruct (Simbolo.constante simbolo).
        + eexists. split; [reflexivity |].
          split; [apply alcancado_erro; exact Halc | repeat split].
        + eexists. split; [reflexivity |].
          split; [apply (alcancado_atribuir _ _ _ _ Halc) |].
          unfold inalterado. simpl. rewrite length_alter. repeat split.
      - eexists. split; [reflexivity |].
        split; [apply alcancado_erro; exact Halc | repeat split]. }
    destruct H1 as (a1 & E1 & Halc1 & Hin1).
    rewrite (bind_passo _ _ _ _ _ E1).
    destruct m as [m |].
    + rewrite bind_assoc. usa_expressao Halc1.
      match goal with
      | |- context [bind (if ?c0 then erro ?m0 ?l ?co else ret tt) _ ?x] =>
        destruct (talvez_erro c0 m0 l co _ _ _ x Halc0) as (a3 & E3 & Halc3 & Hin3);
        rewrite (bind_passo _ _ _ _ _ E3); clear E3
      end.
      conclui_decl.
    + rewrite bind_ret. conclui_decl.
Qed.

(** The analyser [__init__] gives, with the built-in functions declared. *)
Lemma novo_consistente :
  fst novo = Retorno tt
  /\ alcancado 0 None (mk TabelaSimbolos.nova [] [] None false) (snd novo).
Proof.
  set (a0 := mk TabelaSimbolos.nova [] [] None false).
  assert (H0 : consistente a0).
  { split; [split; [simpl; lia | reflexivity] |]. split; [| exact I].
    intros f nome r Hin Hlk. simpl in Hin. destruct Hin as [<- | []].
    rewrite lookup_empty in Hlk. discriminate. }
  pose proof (alcancado_inicio a0 H0) as Halc.
  change (funcao_atual a0) with (@None Ref) in Halc.
  unfold novo, _registrar_builtins. fold a0.
  do 7 (match goal with
        | H : alcancado 0 None a0 ?x
          |- context [bind (declarar_novo ?sim) _ ?x] =>
          let r := fresh "r" in let a' := fresh "a" in let E := fresh "E" in
          let H' := fresh "Halc" in
          destruct (alcancado_declarar_novo 0 None a0 x sim H)
            as (r & a' & E & H' & _);
          rewrite (bind_passo _ _ _ _ _ E); clear E H
        end).
  split; [reflexivity | assumption].
Qed.

(** X20. Visiting any expression from a consistent analyser (a
    well-formed table whose frames and enclosing function refer to
    existing symbols) returns a type and raises nothing; errors and
    warnings are only appended, and the return flag, the scope frames, the
    scope depth, the number of symbols and the enclosing function are left
    as they were. *)
Theorem expressao_deixa_escopos (no : Expressao) (a : AnalisadorSemantico) :
  consistente a ->
  exists t a',
    aceitar_expressao no a = (Retorno t, a')
    /\ consistente a' /\ cresce a a' /\ inalterado a a'
    /\ TabelaSimbolos.escopo_atual (tabela a') = TabelaSimbolos.escopo_atual (tabela a)
    /\ funcao_atual a' = funcao_atual a.
Proof.
  intros Ha.
  destruct (expressao_segura no 0 (funcao_atual a) a a (alcancado_inicio a Ha))
    as (t & a' & E & (_ & Hc & Hg & Hd & Hf) & Hin).
  exists t, a'. rewrite Z.add_0_r in Hd. repeat (split; [assumption |]). assumption.
Qed.

(** X21. Visiting any declaration or statement from a consistent
    analyser returns and raises nothing, and leaves the analyser
    consistent: errors and warnings are only appended, no symbol is
    dropped, and every scope entered by a block, a [para] loop or a
    function is left again, so the scope depth, the number of frames and
    the enclosing function are the ones from before the visit. *)
Theorem declaracao_restaura_contexto (no : Declaracao) (a : AnalisadorSemantico) :
  consistente a ->
  exists r a',
    aceitar_declaracao no a = (Retorno r, a')
    /\ consistente a' /\ cresce a a'
    /\ TabelaSimbolos.escopo_atual (tabela a') = TabelaSimbolos.escopo_atual (tabela a)
    /\ Py.len (TabelaSimbolos.escopos (tabela a'))
       = Py.len (TabelaSimbolos.escopos (tabela a))
    /\ funcao_atual a' = funcao_atual a.
Proof.
  intros Ha.
  destruct (declaracao_e_segura no 0 (funcao_atual a) a a (alcancado_inicio a Ha))
    as (r & a' & E & (_ & Hc & Hg & Hd & Hf) & _).
  exists r, a'. rewrite Z.add_0_r in Hd.
  split; [exact E |]. split; [exact Hc |]. split; [exact Hg |].
  split; [exact Hd |]. split; [| exact Hf].
  destruct Hc as ((_ & Hl') & _). destruct Ha as ((_ & Hl) & _).
  rewrite Hl', Hl, Hd. reflexivity.
Qed.

(** [analisar] from a consistent analyser. *)
Lemma analisar_consistente (programa : Programa) (a : AnalisadorSemantico) :
  consistente a ->
  exists b a',
    analisar programa a = (Retorno b, a')
    /\ (b = true <-> erros a' = [])
    /\ alcancado 0 (funcao_atual a) a a'.
Proof.
  intros Ha. pose proof (alcancado_inicio a Ha) as Hn.
  destruct programa as [declaracoes].
  unfold analisar, visitar_programa.
  destruct (aceitar_todas_segura declaracoes) with (d := 0) (f := funcao_atual a)
    (a0 := a) (a := a) as (a1 & E1 & Halc1 & _).
  { apply Forall_forall. intros no _. apply declaracao_e_segura. }
  { exact Hn. }
  rewrite ?bind_assoc. rewrite (bind_passo _ _ _ _ _ E1).
  rewrite ?bind_assoc.
  rewrite (bind_passo _ _ a1 a1 (TabelaSimbolos.buscar "principal" (tabela a1)))
    by reflexivity.
  assert (H2 : exists a2,
            (match TabelaSimbolos.buscar "principal" (tabela a1) with
             | Some _ => ret tt
             | None => aviso "Programa não possui função 'principal'" 1 1
             end) a1 = (Retorno tt, a2)
            /\ alcancado 0 (funcao_atual a) a a2).
  { destruct (TabelaSimbolos.buscar "principal" (tabela a1)).
    - exists a1. split; [reflexivity | exact Halc1].
    - eexists. split; [reflexivity |]. apply alcancado_aviso; exact Halc1. }
  destruct H2 as (a2 & E2 & Halc2).
  rewrite (bind_passo _ _ _ _ _ E2), bind_ler. unfold ret.
  do 2 eexists. split; [reflexivity |]. split; [| exact Halc2].
  destruct (erros a2); split; intros H; congruence.
Qed.

(** X22. [analisar] of any program by a new analyser, the one with the
    seven built-in functions declared, returns and raises nothing; it
    answers [True] exactly when no error was recorded, and ends at the
    global scope, with the global frame only, outside every function. *)
Theorem analise_de_programa (programa : Programa) :
  exists b a',
    analisar programa (snd novo) = (Retorno b, a')
    /\ (b = true <-> erros a' = [])
    /\ TabelaSimbolos.escopo_atual (tabela a') = 0
    /\ Py.len (TabelaSimbolos.escopos (tabela a')) = 1
    /\ funcao_atual a' = None.
Proof.
  destruct novo_consistente as (_ & (_ & Hc & _ & Hd0 & Hf0)).
  destruct (analisar_consistente programa (snd novo) Hc)
    as (b & a' & E & Hb & (_ & ((_ & Hl) & _) & _ & Hd & Hf)).
  exists b, a'. split; [exact E |]. split; [exact Hb |].
  simpl in Hd0. rewrite Hd0 in Hd. rewrite Hf0 in Hf.
  split; [exact Hd |]. split; [rewrite Hl, Hd; reflexivity | exact Hf].
Qed.

End AnaliseSegura.

(** The theorem [expressao_deixa_escopos] on a concrete input. *)
Lemma expressao_deixa_escopos_witness :
  let tok := Token.mk IDENTIFICADOR "y" (VStr "y") 1 1 in
  let a := snd AnalisadorSemantico.novo in
  exists t a',
    AnalisadorSemantico.aceitar_expressao
      (ExpressaoBinaria (ExpressaoVariavel "y" tok) tok (ExpressaoVariavel "z" tok)) a
    = (Retorno t, a')
    /\ inalterado a a'
    /\ AnalisadorSemantico.funcao_atual a' = AnalisadorSemantico.funcao_atual a.
Proof.
  intros tok a.
  destruct (expressao_deixa_escopos
              (ExpressaoBinaria (ExpressaoVariavel "y" tok) tok (ExpressaoVariavel "z" tok))
              a) as (t & a' & E & _ & _ & Hin & _ & Hf).
  - destruct novo_consistente as (_ & (_ & Hc & _)). exact Hc.
  - exists t, a'. split; [exact E |]. split; [exact Hin | exact Hf].
Defined.

(** The theorem [declaracao_restaura_contexto] on a concrete input. *)
Lemma declaracao_restaura_contexto_witness :
  let tok := Token.mk IDENTIFICADOR "y" (VStr "y") 1 1 in
  let a := snd AnalisadorSemantico.novo in
  exists r a',
    AnalisadorSemantico.aceitar_declaracao
      (DeclaracaoBloco [DeclaracaoVariavel "y" tok (Some "inteiro") None false]) a
    = (Retorno r, a')
    /\ TabelaSimbolos.escopo_atual (AnalisadorSemantico.tabela a')
       = TabelaSimbolos.escopo_atual (AnalisadorSemantico.tabela a)
    /\ AnalisadorSemantico.funcao_atual a' = AnalisadorSemantico.funcao_atual a.
Proof.
  intros tok a.
  destruct (declaracao_restaura_contexto
              (DeclaracaoBloco [DeclaracaoVariavel "y" tok (Some "inteiro") None false])
              a) as (r & a' & E & _ & _ & Hd & _ & Hf).
  - destruct novo_consistente as (_ & (_ & Hc & _)). exact Hc.
  - exists r, a'. split; [exact E |]. split; [exact Hd | exact Hf].
Defined.

Section DeclaracaoDeVariavel.
Import AnalisadorSemantico.

Lemma declarar_novo_livre (a : AnalisadorSemantico) (simbolo : Simbolo)
    (fs : list (gmap string Ref)) (f : gmap string Ref) :
  0 <= TabelaSimbolos.escopo_atual (tabela a) ->
  TabelaSimbolos.escopos (tabela a) = fs ++ [f] ->
  length fs = Z.to_nat (TabelaSimbolos.escopo_atual (tabela a)) ->
  f !! Simbolo.nome simbolo = None ->
  let r := length (TabelaSimbolos.objetos (tabela a)) in
  let t1 :=
    TabelaSimbolos.com_objetos (TabelaSimbolos.objetos (tabela a) ++ [simbolo])
      (tabela a) in
  declarar_novo simbolo a
  = (Retorno r, com_tabela (declarado (Simbolo.nome simbolo) r t1) a)
  /\ TabelaSimbolos.buscar (Simbolo.nome simbolo)
       (declarado (Simbolo.nome simbolo) r t1) = Some r
  /\ TabelaSimbolos.objetos (declarado (Simbolo.nome simbolo) r t1) !! r
     = Some (Simbolo.com_escopo (TabelaSimbolos.escopo_atual (tabela a)) simbolo).
Proof.
  intros Hpos He Hl Hn r t1.
  assert (Ho1 : TabelaSimbolos.objetos t1 !! r = Some simbolo).
  { unfold t1, r. simpl. apply list_lookup_middle. reflexivity. }
  destruct (declarar_nome_livre t1 r simbolo fs f Hpos He Hl Ho1 Hn) as (E2 & He2).
  split; [| split].
  - unfold declarar_novo.
    assert (E1 : na_tabela (TabelaSimbolos.construir simbolo) a
                 = (Retorno r, com_tabela t1 a)) by reflexivity.
    rewrite (bind_passo _ _ _ _ _ E1).
    assert (E3 : na_tabela (TabelaSimbolos.declarar r) (com_tabela t1 a)
                 = (Retorno true,
                    com_tabela (declarado (Simbolo.nome simbolo) r t1) a)).
    { unfold na_tabela. cbn [tabela com_tabela]. rewrite E2. reflexivity. }
    rewrite (bind_passo _ _ _ _ _ E3). reflexivity.
  - rewrite (buscar_ultimo _ _ fs _ He2), lookup_insert_eq. reflexivity.
  - unfold declarado. simpl. rewrite list_lookup_alter_eq.
    fold r. change (TabelaSimbolos.objetos (tabela a) ++ [simbolo])
      with (TabelaSimbolos.objetos t1). rewrite Ho1. reflexivity.
Qed.

(** X23. A variable or constant declaration whose name the current scope
    does not hold always binds the name, also when it records an error
    (an initializer of an incompatible type, a constant with no
    initializer): afterwards [buscar] finds under the name a symbol of the
    current depth, at the position of the name's token, initialised exactly
    when the declaration has an initializer. Its type is the declared one
    when a known type is declared or there is no initializer; the
    initializer's type is used only when no known type is declared. *)
Theorem variavel_declarada (a : AnalisadorSemantico) (nome : string)
    (token_nome : Token) (tipo_dado : option string)
    (inicializador : option Expressao) (constante : bool)
    (f : gmap string Ref) :
  consistente a ->
  Py.index (TabelaSimbolos.escopos (tabela a)) (TabelaSimbolos.escopo_atual (tabela a))
    = Some f ->
  f !! nome = None ->
  exists tipo a1 r,
    aceitar_declaracao
      (DeclaracaoVariavel nome token_nome tipo_dado inicializador constante) a
    = (Retorno (Some tipo), a1)
    /\ TabelaSimbolos.buscar nome (tabela a1) = Some r
    /\ TabelaSimbolos.objetos (tabela a1) !! r
       = Some (Simbolo.mk nome tipo (if constante then "constante" else "variavel")
                 (TabelaSimbolos.escopo_atual (tabela a))
                 (Token.linha token_nome) (Token.coluna token_nome)
                 constante [] None (bool_decide (is_Some inicializador)))
    /\ (tipo_declarado tipo_dado Tipo.DESCONHECIDO <> Tipo.DESCONHECIDO ->
        tipo = tipo_declarado tipo_dado Tipo.DESCONHECIDO)
    /\ (inicializador = None -> tipo = tipo_declarado tipo_dado Tipo.DESCONHECIDO).
Proof.
  intros Hc Hf Hn.
  pose proof (alcancado_inicio a Hc) as Halc.
  pose proof Hc as (Hb & _). pose proof Hb as [Hpos Hlen].
  destruct (quadros (tabela a) Hb) as (fs & fu & He & Hl).
  assert (fu = f).
  { pose proof (escopo_corrente_ultimo (tabela a) fs fu Hpos He Hl) as Hcor.
    unfold TabelaSimbolos.escopo_corrente in Hcor. rewrite Hf in Hcor.
    cbv [ou_levanta ret] in Hcor. congruence. }
  subst fu.
  change (aceitar_declaracao
            (DeclaracaoVariavel nome token_nome tipo_dado inicializador constante))
    with (visitar_declaracao_variavel nome token_nome tipo_dado inicializador constante).
  unfold visitar_declaracao_variavel.
  assert (E0 : na_tabela (TabelaSimbolos.buscar_local nome) a = (Retorno None, a)).
  { unfold na_tabela, TabelaSimbolos.buscar_local.
    rewrite (bind_passo _ _ _ _ _ (escopo_corrente_ultimo (tabela a) fs f Hpos He Hl)).
    unfold ret. rewrite Hn, com_tabela_mesma. reflexivity. }
  rewrite (bind_passo _ _ _ _ _ E0). cbv zeta.
  set (declarado_ := tipo_declarado tipo_dado Tipo.DESCONHECIDO).
  assert (H1 : exists tipo a2,
            (match inicializador with
             | Some ini =>
               let* tipo_inicializador := aceitar_expressao ini in
               if Tipo.eqb declarado_ Tipo.DESCONHECIDO then ret tipo_inicializador
               else if negb (tipos_compativeis declarado_ tipo_inicializador) then
                 erro ("Tipo incompatível: não é possível atribuir '"
                       +:+ Tipo.str tipo_inicializador +:+ "' a '"
                       +:+ Tipo.str declarado_ +:+ "'")
                   (Token.linha token_nome) (Token.coluna token_nome) >>
                 ret declarado_
               else ret declarado_
             | None => ret declarado_
             end) a = (Retorno tipo, a2)
            /\ alcancado 0 (funcao_atual a) a a2 /\ inalterado a a2
            /\ (declarado_ <> Tipo.DESCONHECIDO -> tipo = declarado_)
            /\ (inicializador = None -> tipo = declarado_)).
  { destruct inicializador as [ini |].
    - destruct (expressao_segura ini _ _ _ _ Halc) as (ti & a' & E & Halc' & Hin').
      rewrite (bind_passo _ _ _ _ _ E).
      destruct (Tipo.eqb declarado_ Tipo.DESCONHECIDO) eqn:Ed.
      + exists ti, a'. split; [reflexivity |]. split; [exact Halc' |].
        split; [exact Hin' |]. split; [| discriminate].
        intros Hne. apply Tipo_eqb_eq in Ed. contradiction.
      + destruct (negb (tipos_compativeis declarado_ ti)).
        * eexists _, _. split; [reflexivity |].
          split; [apply alcancado_erro; exact Halc' |].
          split; [exact Hin' |]. split; [reflexivity | discriminate].
        * exists declarado_, a'. split; [reflexivity |]. split; [exact Halc' |].
          split; [exact Hin' |]. split; [reflexivity | discriminate].
    - exists declarado_, a. split; [reflexivity |]. split; [exact Halc |].
      split; [repeat split |]. split; reflexivity. }
  destruct H1 as (tipo & a2 & E1 & Halc2 & Hin2 & Hd1 & Hd2).
  rewrite (bind_passo _ _ _ _ _ E1).
  destruct (talvez_erro (constante && negb (bool_decide (is_Some inicializador)))
              ("Constante '" +:+ nome +:+ "' deve ser inicializada na declaração")
              (Token.linha token_nome) (Token.coluna token_nome) _ _ _ a2 Halc2)
    as (a3 & E3 & Halc3 & Hin3).
  rewrite (bind_passo _ _ _ _ _ E3).
  rewrite bind_ler.
  assert (Hesc : TabelaSimbolos.escopos (tabela a3) = TabelaSimbolos.escopos (tabela a)).
  { destruct Hin2 as (_ & H2 & _). destruct Hin3 as (_ & H3 & _). congruence. }
  assert (Hea : TabelaSimbolos.escopo_atual (tabela a3)
                = TabelaSimbolos.escopo_atual (tabela a)).
  { destruct Halc3 as (_ & _ & _ & Hd & _). lia. }
  set (simbolo := Simbolo.mk nome tipo (if constante then "constante" else "variavel")
                    (TabelaSimbolos.escopo_atual (tabela a3))
                    (Token.linha token_nome) (Token.coluna token_nome)
                    constante [] None (bool_decide (is_Some inicializador))).
  destruct (declarar_novo_livre a3 simbolo fs f) as (Ed & Hbu & Hob).
  { rewrite Hea. exact Hpos. }
  { rewrite Hesc. exact He. }
  { rewrite Hea. exact Hl. }
  { exact Hn. }
  rewrite (bind_passo _ _ _ _ _ Ed). unfold ret.
  eexists tipo, _, _. split; [reflexivity |].
  cbn [tabela com_tabela]. split; [exact Hbu |]. split; [| split; assumption].
  rewrite Hob. unfold simbolo, Simbolo.com_escopo. simpl. rewrite Hea. reflexivity.
Qed.

End DeclaracaoDeVariavel.

(** The theorem [variavel_declarada] on a concrete input. *)
Lemma variavel_declarada_witness :
  let tok := Token.mk IDENTIFICADOR "x" (VStr "x") 1 5 in
  let texto := ExpressaoLiteral (VStr "a") "texto" (Token.mk TEXTO "'a'" (VStr "a") 1 16) in
  let a := AnalisadorSemantico.mk TabelaSimbolos.nova [] [] None false in
  exists a1 r,
    AnalisadorSemantico.aceitar_declaracao
      (DeclaracaoVariavel "x" tok (Some "inteiro") (Some texto) false) a
    = (Retorno (Some Tipo.INTEIRO), a1)
    /\ TabelaSimbolos.buscar "x" (AnalisadorSemantico.tabela a1) = Some r
    /\ TabelaSimbolos.objetos (AnalisadorSemantico.tabela a1) !! r
       = Some (Simbolo.mk "x" Tipo.INTEIRO "variavel" 0 1 5 false [] None true).
Proof.
  intros tok texto a.
  assert (Hc : consistente a).
  { split; [split; [simpl; lia | reflexivity] |]. split; [| exact I].
    intros f nome r Hin Hlk. simpl in Hin. destruct Hin as [<- | []].
    rewrite lookup_empty in Hlk. discriminate. }
  destruct (variavel_declarada a "x" tok (Some "inteiro") (Some texto) false ∅ Hc
              eq_refl (lookup_empty _))
    as (tipo & a1 & r & E & Hb & Ho & Hd & _).
  assert (Ht : tipo = Tipo.INTEIRO) by (apply Hd; discriminate).
  subst tipo. exists a1, r. split; [exact E |]. split; [exact Hb | exact Ho].
Defined.

Section LimitesDoPara.
Import AnalisadorSemantico.

Lemma visitar_variavel_inicializada (a : AnalisadorSemantico) (nome : string)
    (token : Token) (r : Ref) (simbolo : Simbolo) :
  TabelaSimbolos.buscar nome (tabela a) = Some r ->
  TabelaSimbolos.objetos (tabela a) !! r = Some simbolo ->
  Simbolo.inicializado simbolo = true ->
  aceitar_expressao (ExpressaoVariavel nome token) a = (Retorno (Simbolo.tipo simbolo), a).
Proof.
  intros Hb Ho Hi. simpl. unfold visitar_variavel.
  rewrite (bind_passo _ _ a a (Some r)) by (unfold buscar, ler; rewrite Hb; reflexivity).
  rewrite (bind_passo _ _ _ _ _ (objeto_em a r simbolo Ho)), Hi. reflexivity.
Qed.

Lemma entra_e_sai (a : AnalisadorSemantico) :
  bem_formada (tabela a) ->
  (na_tabela TabelaSimbolos.entrar_escopo >> na_tabela TabelaSimbolos.sair_escopo) a
  = (Retorno tt, a).
Proof.
  intros [Hpos Hlen].
  unfold bind, na_tabela, TabelaSimbolos.entrar_escopo, TabelaSimbolos.sair_escopo,
    bind, ler, mudar. simpl.
  destruct (Z.ltb_spec 0 (TabelaSimbolos.escopo_atual (tabela a) + 1)) as [_ | H];
    [| lia].
  unfold TabelaSimbolos.escopos_pop. simpl.
  destruct (TabelaSimbolos.escopos (tabela a) ++ [∅]) eqn:E;
    [destruct (TabelaSimbolos.escopos (tabela a)); discriminate |].
  rewrite <- E. simpl. rewrite removelast_last, Z.add_simpl_r.
  destruct a as [[] ? ? ? ?]; reflexivity.
Qed.

(** X24. The bounds of a [para] loop are analysed with the loop variable
    already declared, as an initialised [INTEIRO] of the loop's own scope.
    So [para i de i ate i { }] records no error and no warning in any
    analyser, also when no [i] is declared outside the loop; after the
    loop the frames and the depth are those from before it. *)
Theorem limites_do_para_veem_a_variavel (a : AnalisadorSemantico)
    (variavel : string) (token_variavel token_inicio token_fim : Token) :
  consistente a ->
  exists a',
    aceitar_declaracao
      (DeclaracaoPara variavel token_variavel
         (ExpressaoVariavel variavel token_inicio)
         (ExpressaoVariavel variavel token_fim) None (DeclaracaoBloco [])) a
    = (Retorno None, a')
    /\ erros a' = erros a /\ avisos a' = avisos a
    /\ TabelaSimbolos.escopos (tabela a') = TabelaSimbolos.escopos (tabela a)
    /\ TabelaSimbolos.escopo_atual (tabela a') = TabelaSimbolos.escopo_atual (tabela a).
Proof.
  intros (Hb & _). pose proof Hb as [Hpos Hlen].
  destruct (quadros (tabela a) Hb) as (fs & fu & He & Hl).
  change (aceitar_declaracao
            (DeclaracaoPara variavel token_variavel
               (ExpressaoVariavel variavel token_inicio)
               (ExpressaoVariavel variavel token_fim) None (DeclaracaoBloco [])))
    with (visitar_para aceitar_declaracao variavel token_variavel
            (ExpressaoVariavel variavel token_inicio)
            (ExpressaoVariavel variavel token_fim) None (DeclaracaoBloco [])).
  unfold visitar_para.
  set (te := TabelaSimbolos.mk (TabelaSimbolos.objetos (tabela a))
               (TabelaSimbolos.escopos (tabela a) ++ [∅])
               (TabelaSimbolos.escopo_atual (tabela a) + 1)
               (TabelaSimbolos.todos_simbolos (tabela a))).
  set (ae := com_tabela te a).
  assert (Ee : na_tabela TabelaSimbolos.entrar_escopo a = (Retorno tt, ae))
    by reflexivity.
  rewrite (bind_passo _ _ _ _ _ Ee), bind_ler.
  set (simbolo := Simbolo.mk variavel Tipo.INTEIRO "variavel"
                    (TabelaSimbolos.escopo_atual (tabela ae))
                    (Token.linha token_variavel) (Token.coluna token_variavel)
                    false [] None true).
  destruct (declarar_novo_livre ae simbolo (TabelaSimbolos.escopos (tabela a)) ∅)
    as (Ed & Hbu & Hob).
  { simpl. lia. }
  { reflexivity. }
  { simpl. unfold Py.len in Hlen. lia. }
  { apply lookup_empty. }
  rewrite (bind_passo _ _ _ _ _ Ed).
  set (r := length (TabelaSimbolos.objetos (tabela ae))) in *.
  set (t2 := declarado (Simbolo.nome simbolo) r _) in *.
  set (a2 := com_tabela t2 ae).
  assert (Ev : forall token,
             aceitar_expressao (ExpressaoVariavel variavel token) a2
             = (Retorno Tipo.INTEIRO, a2)).
  { intros token.
    apply (visitar_variavel_inicializada a2 variavel token r
             (Simbolo.com_escopo (TabelaSimbolos.escopo_atual (tabela ae)) simbolo));
      [exact Hbu | exact Hob | reflexivity]. }
  rewrite (bind_passo _ _ _ _ _ (Ev token_inicio)).
  rewrite (bind_passo _ _ _ _ _ (Ev token_fim)).
  change (negb (numerico Tipo.INTEIRO)) with false. cbv iota.
  rewrite !bind_ret.
  assert (Hb2 : bem_formada (tabela a2)).
  { split; cbn [tabela com_tabela]; unfold t2, declarado; simpl; [lia |].
    unfold Py.len in *. rewrite length_alter, length_app. simpl. lia. }
  assert (Ec : aceitar_declaracao (DeclaracaoBloco []) a2 = (Retorno None, a2)).
  { change (aceitar_declaracao (DeclaracaoBloco []))
      with (visitar_bloco aceitar_declaracao []).
    unfold visitar_bloco. cbn [aceitar_todas].
    pose proof (entra_e_sai a2 Hb2) as Hes.
    unfold bind in Hes |- *. unfold ret at 1.
    destruct (na_tabela TabelaSimbolos.entrar_escopo a2) as [[[] | e] a3];
      [| discriminate Hes].
    rewrite Hes. reflexivity. }
  rewrite (bind_passo _ _ _ _ _ Ec).
  assert (He2 : TabelaSimbolos.escopos t2
                = TabelaSimbolos.escopos (tabela a) ++ [<[variavel := r]> ∅]).
  { unfold t2, declarado. simpl.
    replace (Z.to_nat (TabelaSimbolos.escopo_atual (tabela a) + 1))
      with (length (TabelaSimbolos.escopos (tabela a)))
      by (unfold Py.len in Hlen; lia).
    apply alter_ultimo. }
  assert (Es : TabelaSimbolos.sair_escopo t2
               = (Retorno tt,
                  TabelaSimbolos.mk (TabelaSimbolos.objetos t2)
                    (TabelaSimbolos.escopos (tabela a))
                    (TabelaSimbolos.escopo_atual (tabela a))
                    (TabelaSimbolos.todos_simbolos t2))).
  { unfold TabelaSimbolos.sair_escopo, bind, ler.
    change (TabelaSimbolos.escopo_atual t2)
      with (TabelaSimbolos.escopo_atual (tabela a) + 1).
    destruct (Z.ltb_spec 0 (TabelaSimbolos.escopo_atual (tabela a) + 1)) as [_ | H];
      [| lia].
    unfold TabelaSimbolos.escopos_pop. rewrite He2.
    destruct (TabelaSimbolos.escopos (tabela a) ++ [<[variavel := r]> ∅]) eqn:E;
      [destruct (TabelaSimbolos.escopos (tabela a)); discriminate |].
    rewrite <- E. unfold mudar, TabelaSimbolos.com_escopo_atual,
      TabelaSimbolos.com_escopos.
    cbn [TabelaSimbolos.escopos TabelaSimbolos.escopo_atual
         TabelaSimbolos.objetos TabelaSimbolos.todos_simbolos].
    rewrite ?He2, removelast_last.
    change (TabelaSimbolos.escopo_atual t2)
      with (TabelaSimbolos.escopo_atual (tabela a) + 1).
    rewrite Z.add_simpl_r. reflexivity. }
  eexists. split.
  - unfold bind at 1. unfold na_tabela. unfold a2 at 1. cbn [tabela com_tabela].
    rewrite Es. reflexivity.
  - repeat split.
Qed.

End LimitesDoPara.

(** The theorem [limites_do_para_veem_a_variavel] on a concrete input. *)
Lemma limites_do_para_veem_a_variavel_witness :
  let tok := Token.mk IDENTIFICADOR "i" (VStr "i") 1 6 in
  let a := AnalisadorSemantico.mk TabelaSimbolos.nova [] [] None false in
  exists a',
    AnalisadorSemantico.aceitar_declaracao
      (DeclaracaoPara "i" tok (ExpressaoVariavel "i" tok) (ExpressaoVariavel "i" tok)
         None (DeclaracaoBloco [])) a
    = (Retorno None, a')
    /\ AnalisadorSemantico.erros a' = [] /\ AnalisadorSemantico.avisos a' = []
    /\ TabelaSimbolos.buscar "i" (AnalisadorSemantico.tabela a') = None.
Proof.
  intros tok a.
  assert (Hc : consistente a).
  { split; [split; [simpl; lia | reflexivity] |]. split; [| exact I].
    intros f nome r Hin Hlk. simpl in Hin. destruct Hin as [<- | []].
    rewrite lookup_empty in Hlk. discriminate. }
  destruct (limites_do_para_veem_a_variavel a "i" tok tok tok Hc)
    as (a' & E & He & Hw & Hs & _).
  exists a'. split; [exact E |]. split; [exact He |]. split; [exact Hw |].
  unfold TabelaSimbolos.buscar. rewrite Hs. reflexivity.
Defined.

(** ** The emitter's state *)

Section EstadoDoEmissor.

Variable str_float : string -> string.
Variable bool_float : string -> bool.

Abbreviation emitir := (GeradorPython.aceitar_declaracao str_float bool_float).

Lemma comeca_com_proprio (p r : string) : comeca_com p (p +:+ r).
Proof. exists r. reflexivity. Qed.

Lemma repetir_mais_um (s : string) (n : nat) :
  Py.repetir s (S n) = Py.repetir s n +:+ s.
Proof.
  induction n as [| n IH]; simpl.
  - induction s as [| c s IHs]; [reflexivity |].
    change (String c (s +:+ "") = String c s). f_equal. exact IHs.
  - simpl in IH. rewrite IH at 1. rewrite append_assoc. reflexivity.
Qed.

Lemma comeca_com_fundo (g g' : GeradorPython.GeradorPython) (linha : string) :
  0 <= GeradorPython.indent_level g ->
  GeradorPython.indent_level g' = GeradorPython.indent_level g + 1 ->
  comeca_com (GeradorPython._indent g') linha ->
  comeca_com (GeradorPython._indent g) linha.
Proof.
  intros Hpos Hl [r ->]. unfold GeradorPython._indent. rewrite Hl.
  replace (Z.to_nat (GeradorPython.indent_level g + 1))
    with (S (Z.to_nat (GeradorPython.indent_level g))) by lia.
  rewrite repetir_mais_um, append_assoc. apply comeca_com_proprio.
Qed.

Lemma Forall_fundo (g g' : GeradorPython.GeradorPython) (linhas : list string) :
  0 <= GeradorPython.indent_level g ->
  GeradorPython.indent_level g' = GeradorPython.indent_level g + 1 ->
  Forall (comeca_com (GeradorPython._indent g')) linhas ->
  Forall (comeca_com (GeradorPython._indent g)) linhas.
Proof.
  intros Hpos Hl H. eapply Forall_impl; [exact H |].
  intros l. apply comeca_com_fundo; assumption.
Qed.

Lemma Forall_mesmo (g g' : GeradorPython.GeradorPython) (linhas : list string) :
  GeradorPython.indent_level g' = GeradorPython.indent_level g ->
  Forall (comeca_com (GeradorPython._indent g')) linhas ->
  Forall (comeca_com (GeradorPython._indent g)) linhas.
Proof. unfold GeradorPython._indent. intros ->. exact id. Qed.

Lemma comeca_com_nivel (g : GeradorPython.GeradorPython) (n : Z) (c : list string)
    (em : bool) (linha : string) :
  0 <= GeradorPython.indent_level g ->
  n = GeradorPython.indent_level g \/ n = GeradorPython.indent_level g + 1 ->
  comeca_com (GeradorPython._indent g)
    (GeradorPython._indent (GeradorPython.mk n c em) +:+ linha).
Proof.
  intros Hpos [-> | ->].
  - apply comeca_com_proprio.
  - apply (comeca_com_fundo g (GeradorPython.mk (GeradorPython.indent_level g + 1) c em));
      [exact Hpos | reflexivity | apply comeca_com_proprio].
Qed.

Lemma Forall_nivel (g : GeradorPython.GeradorPython) (n : Z) (c : list string)
    (em : bool) (linhas : list string) :
  0 <= GeradorPython.indent_level g ->
  n = GeradorPython.indent_level g \/ n = GeradorPython.indent_level g + 1 ->
  Forall (comeca_com (GeradorPython._indent (GeradorPython.mk n c em))) linhas ->
  Forall (comeca_com (GeradorPython._indent g)) linhas.
Proof.
  intros Hpos [-> | ->].
  - apply Forall_mesmo. reflexivity.
  - apply Forall_fundo; [exact Hpos | reflexivity].
Qed.

Ltac abre_emissor :=
  unfold GeradorPython.visitar_declaracao_expressao,
    GeradorPython.visitar_declaracao_variavel, GeradorPython.visitar_retorna,
    GeradorPython.visitar_escreva, GeradorPython.visitar_leia,
    GeradorPython.visitar_bloco, GeradorPython.visitar_se,
    GeradorPython.visitar_enquanto, GeradorPython.visitar_para,
    GeradorPython.visitar_funcao, GeradorPython._adicionar,
    GeradorPython.indentar, GeradorPython.desindentar, bind, mudar, ret, ler.

Ltac linhas_indentadas Hpos :=
  repeat first
    [ apply Forall_nil_2
    | apply Forall_app_2
    | apply Forall_cons_2
    | assumption
    | apply comeca_com_proprio
    | apply (comeca_com_nivel _ _ _ _ _ Hpos); simpl; lia
    | (eapply (Forall_nivel _ _ _ _ _ Hpos); [| eassumption]); simpl; lia ].

Ltac estado_em :=
  simpl in *;
  repeat match goal with
         | H : _ \/ _ |- _ => destruct H
         end;
  subst; auto.

Ltac fecha_emissor Hpos :=
  cbn [GeradorPython.indent_level GeradorPython.codigo GeradorPython.em_expressao
       GeradorPython.com_codigo GeradorPython.com_indent_level
       GeradorPython.com_em_expressao fst snd];
  rewrite <- ?app_assoc; rewrite ?Z.add_simpl_r;
  do 2 eexists; split; [reflexivity | split; [linhas_indentadas Hpos | estado_em]].

Ltac usa_emissor IH :=
  match goal with
  | |- context [emitir ?d ?g] =>
    let l := fresh "l" in let em := fresh "em" in
    let E := fresh "E" in let HF := fresh "HF" in let Hem := fresh "Hem" in
    destruct (IH g) as (l & em & E & HF & Hem); [simpl; lia |];
    rewrite E; clear E
  end.

Lemma aceitar_todas_emite (declaracoes : list Declaracao) :
  Forall (emite str_float bool_float) declaracoes ->
  forall g, 0 <= GeradorPython.indent_level g ->
    exists linhas em,
      GeradorPython.aceitar_todas emitir declaracoes g =
        (Retorno tt,
         GeradorPython.mk (GeradorPython.indent_level g)
           (GeradorPython.codigo g ++ linhas) em)
      /\ Forall (comeca_com (GeradorPython._indent g)) linhas
      /\ (em = false \/ em = GeradorPython.em_expressao g).
Proof.
  induction 1 as [| d r Hd _ IH]; intros g Hpos.
  - exists [], (GeradorPython.em_expressao g). simpl. unfold ret.
    rewrite app_nil_r. destruct g; repeat split; auto.
  - simpl. unfold bind. destruct (Hd g Hpos) as (l1 & em1 & -> & HF1 & Hem1).
    match goal with
    | |- context [GeradorPython.aceitar_todas _ r ?g'] =>
      destruct (IH g') as (l2 & em2 & -> & HF2 & Hem2); [exact Hpos |]
    end.
    fecha_emissor Hpos.
Qed.

#[local] Arguments GeradorPython._indent : simpl never.

Lemma emitir_emite (no : Declaracao) :
  emite str_float bool_float no
  /\ match no with
     | DeclaracaoSe _ bv bf =>
       emite str_float bool_float bv
       /\ match bf with
          | Some b => emite str_float bool_float b
          | None => True
          end
     | _ => True
     end.
Proof.
  induction no using Declaracao_inducao.
  - split; [| exact I]. intros g Hpos. simpl. abre_emissor.
    rewrite emitir_expressao_fragmento. fecha_emissor Hpos.
  - split; [| exact I]. intros g Hpos. simpl. abre_emissor.
    destruct ini; [rewrite emitir_expressao_fragmento |]; fecha_emissor Hpos.
  - split; [| exact I]. intros g Hpos.
    change (emitir (DeclaracaoBloco ds) g)
      with (GeradorPython.visitar_bloco emitir ds g).
    abre_emissor.
    destruct (aceitar_todas_emite ds (Forall_impl _ _ _ H (fun _ HQ => proj1 HQ)) g Hpos)
      as (l & em & -> & HF & Hem).
    fecha_emissor Hpos.
  - destruct IHno as [Hbv _].
    assert (Hbf : match bf with
                  | Some b => emite str_float bool_float b
                  | None => True
                  end) by (destruct bf; [apply H | exact I]).
    split; [| split; assumption].
    intros g Hpos.
    change (emitir (DeclaracaoSe c no bf) g)
      with (GeradorPython.visitar_se str_float bool_float emitir c no bf g).
    abre_emissor. rewrite emitir_expressao_fragmento.
    usa_emissor Hbv.
    destruct bf as [b |].
    + destruct H as [Hb Hfilhos].
      destruct b;
        try (destruct (GeradorPython.sem_declaracoes no); usa_emissor Hb;
             fecha_emissor Hpos).
      destruct Hfilhos as [Hbv2 Hbf2].
      destruct (GeradorPython.sem_declaracoes no); simpl;
        rewrite emitir_expressao_fragmento; usa_emissor Hbv2;
        (destruct bloco_falso as [b2 |]; [usa_emissor Hbf2 |]); fecha_emissor Hpos.
    + destruct (GeradorPython.sem_declaracoes no); fecha_emissor Hpos.
  - destruct IHno as [Hc _]. split; [| exact I]. intros g Hpos.
    change (emitir (DeclaracaoEnquanto c no) g)
      with (GeradorPython.visitar_enquanto str_float bool_float emitir c no g).
    abre_emissor. rewrite emitir_expressao_fragmento. usa_emissor Hc.
    fecha_emissor Hpos.
  - destruct IHno as [Hc _]. split; [| exact I]. intros g Hpos.
    change (emitir (DeclaracaoPara v tok i f p no) g)
      with (GeradorPython.visitar_para str_float bool_float emitir v tok i f p no g).
    abre_emissor. rewrite !emitir_expressao_fragmento.
    destruct p; [rewrite emitir_expressao_fragmento |]; usa_emissor Hc;
      fecha_emissor Hpos.
  - split; [| exact I]. intros g Hpos.
    change (emitir (DeclaracaoFuncao n tok ps tr corpo) g)
      with (GeradorPython.visitar_funcao emitir n tok ps tr corpo g).
    do 2 abre_emissor.
    match goal with
    | |- context [GeradorPython.aceitar_todas _ corpo ?g'] =>
      destruct (aceitar_todas_emite corpo
                  (Forall_impl _ _ _ H (fun _ HQ => proj1 HQ)) g')
        as (l & em & -> & HF & Hem); [simpl; lia |]
    end.
    destruct corpo; fecha_emissor Hpos.
  - split; [| exact I]. intros g Hpos. simpl. abre_emissor.
    destruct v; [rewrite emitir_expressao_fragmento |]; fecha_emissor Hpos.
  - split; [| exact I]. intros g Hpos. rewrite visitar_escreva_linha.
    unfold com_linha. fecha_emissor Hpos.
  - split; [| exact I]. intros g Hpos. simpl. abre_emissor.
    destruct m; [rewrite emitir_expressao_fragmento |]; fecha_emissor Hpos.
Qed.

Abbreviation emitir_expressao :=
  (GeradorPython.aceitar_expressao str_float bool_float).
Abbreviation frag := (fragmento str_float bool_float).

Lemma fragmento_de (no : Expressao) (g : GeradorPython.GeradorPython) (s : string) :
  emitir_expressao no g = (Retorno s, g) -> frag g no = s.
Proof. intros H. unfold fragmento. rewrite H. reflexivity. Qed.

Lemma fragmento_so_le_em (no : Expressao) :
  forall g g', GeradorPython.em_expressao g' = GeradorPython.em_expressao g ->
               frag g' no = frag g no.
Proof.
  induction no using Expressao_inducao; intros g g' Hem.
  - unfold fragmento. simpl. unfold GeradorPython.visitar_literal.
    destruct (String.eqb t "texto"); [reflexivity |].
    destruct (String.eqb t "logico"); reflexivity.
  - reflexivity.
  - assert (E : forall h, frag h (ExpressaoBinaria no1 o no2) =
                  "(" +:+ frag h no1 +:+ " "
                  +:+ GeradorPython.dict_get GeradorPython.mapa_ops
                        (Token.lexema o) (Token.lexema o)
                  +:+ " " +:+ frag h no2 +:+ ")").
    { intros h. apply fragmento_de. simpl.
      unfold GeradorPython.visitar_binaria, bind.
      rewrite !emitir_expressao_fragmento. reflexivity. }
    rewrite !E, (IHno1 g g' Hem), (IHno2 g g' Hem). reflexivity.
  - assert (E : forall h, frag h (ExpressaoUnaria o no) =
                  if String.eqb (Token.lexema o) "nao"
                  then "(not " +:+ frag h no +:+ ")"
                  else "(" +:+ Token.lexema o +:+ frag h no +:+ ")").
    { intros h. apply fragmento_de. simpl.
      unfold GeradorPython.visitar_unaria, bind.
      rewrite emitir_expressao_fragmento.
      destruct (String.eqb (Token.lexema o) "nao"); reflexivity. }
    rewrite !E, (IHno g g' Hem). reflexivity.
  - assert (E : forall h, frag h (ExpressaoAgrupamento no) = "(" +:+ frag h no +:+ ")").
    { intros h. apply fragmento_de. simpl.
      unfold GeradorPython.visitar_agrupamento, bind.
      rewrite emitir_expressao_fragmento. reflexivity. }
    rewrite !E, (IHno g g' Hem). reflexivity.
  - assert (E : forall h, frag h (ExpressaoAtribuicao n tok no) =
                  if GeradorPython.em_expressao h
                  then "(" +:+ n +:+ " := " +:+ frag h no +:+ ")"
                  else n +:+ " = " +:+ frag h no).
    { intros h. apply fragmento_de. simpl.
      unfold GeradorPython.visitar_atribuicao, bind.
      rewrite emitir_expressao_fragmento. unfold ler.
      destruct (GeradorPython.em_expressao h); reflexivity. }
    rewrite !E, (IHno g g' Hem), Hem. reflexivity.
  - assert (E : forall h, frag h (ExpressaoLogica no1 o no2) =
                  "(" +:+ frag h no1 +:+ " "
                  +:+ (if String.eqb (Token.lexema o) "e" then "and" else "or")
                  +:+ " " +:+ frag h no2 +:+ ")").
    { intros h. apply fragmento_de. simpl.
      unfold GeradorPython.visitar_logica, bind.
      rewrite !emitir_expressao_fragmento. reflexivity. }
    rewrite !E, (IHno1 g g' Hem), (IHno2 g g' Hem). reflexivity.
  - assert (Hargs : map (frag g') args = map (frag g) args).
    { induction H as [| x r Hx _ IHr]; [reflexivity |].
      simpl. rewrite (Hx g g' Hem), IHr. reflexivity. }
    assert (E : forall h, frag h (ExpressaoChamadaFuncao n tok args) =
                  n +:+ "(" +:+ Py.join ", " (map (frag h) args) +:+ ")").
    { intros h. apply fragmento_de.
      change (emitir_expressao (ExpressaoChamadaFuncao n tok args) h)
        with (GeradorPython.visitar_chamada_funcao emitir_expressao n tok args h).
      unfold GeradorPython.visitar_chamada_funcao, bind.
      rewrite aceitar_cada_fragmentos. reflexivity. }
    rewrite !E, Hargs. reflexivity.
  - assert (E : forall h, frag h (ExpressaoAcessoArray no1 no2 tok) =
                  frag h no1 +:+ "[" +:+ frag h no2 +:+ "]").
    { intros h. apply fragmento_de. simpl.
      unfold GeradorPython.visitar_acesso_array, bind.
      rewrite !emitir_expressao_fragmento. reflexivity. }
    rewrite !E, (IHno1 g g' Hem), (IHno2 g g' Hem). reflexivity.
Qed.

(** X25. Emitting an expression never raises and never changes the
    generator: no line is added and the indentation level stays. The text
    returned depends on the generator through [em_expressao] only. *)
Theorem expressao_emitida_sem_efeito (no : Expressao)
    (g : GeradorPython.GeradorPython) :
  emitir_expressao no g = (Retorno (frag g no), g)
  /\ forall g', GeradorPython.em_expressao g' = GeradorPython.em_expressao g ->
                emitir_expressao no g' = (Retorno (frag g no), g').
Proof.
  split; [apply emitir_expressao_fragmento |].
  intros g' Hem. rewrite emitir_expressao_fragmento.
  rewrite (fragmento_so_le_em no g g' Hem). reflexivity.
Qed.

(** X26. Emitting any declaration or statement, from a level that is not
    negative, returns the empty text and only appends lines: the lines
    emitted before stay, the indentation level is restored, and every new
    line begins with the indentation of the level the visit started at. *)
Theorem emissao_acrescenta_linhas_indentadas (no : Declaracao)
    (g : GeradorPython.GeradorPython) :
  0 <= GeradorPython.indent_level g ->
  exists linhas em,
    emitir no g =
      (Retorno "",
       GeradorPython.mk (GeradorPython.indent_level g)
         (GeradorPython.codigo g ++ linhas) em)
    /\ Forall (comeca_com (GeradorPython._indent g)) linhas.
Proof.
  intros Hpos. destruct (proj1 (emitir_emite no) g Hpos) as (l & em & E & HF & _).
  exists l, em. split; assumption.
Qed.

(** X27. The emitter never sets [em_expressao]: from a generator where
    it is [False] it is [False] after any declaration or statement, and an
    assignment expression is emitted as [nome = valor], never in the
    parenthesised [:=] form. *)
Theorem atribuicao_nunca_com_dois_pontos (g : GeradorPython.GeradorPython) :
  0 <= GeradorPython.indent_level g ->
  GeradorPython.em_expressao g = false ->
  (forall no, GeradorPython.em_expressao (snd (emitir no g)) = false)
  /\ (forall nome token_nome valor,
        emitir_expressao (ExpressaoAtribuicao nome token_nome valor) g =
          (Retorno (nome +:+ " = " +:+ frag g valor), g)).
Proof.
  intros Hpos Hem. split.
  - intros no. destruct (proj1 (emitir_emite no) g Hpos) as (l & em & -> & _ & [-> | ->]);
      [reflexivity | exact Hem].
  - intros nome token_nome valor. simpl.
    unfold GeradorPython.visitar_atribuicao, bind.
    rewrite emitir_expressao_fragmento. unfold ler. rewrite Hem. reflexivity.
Qed.

Lemma linhas_acrescentadas (no : Declaracao) (g : GeradorPython.GeradorPython)
    (linhas : list string) (r : Resultado string) (n : Z) (em : bool) :
  emitir no g = (r, GeradorPython.mk n (GeradorPython.codigo g ++ linhas) em) ->
  linhas_de str_float bool_float no g = linhas.
Proof. intros E. unfold linhas_de. rewrite E. simpl. apply drop_app_length. Qed.

(** X28. Empty bodies. A function with an empty body gets a [pass]
    line, and so does the empty then-branch of a [se]; but an empty [senao]
    branch, and the empty body of an [enquanto] or a [para], get no line at
    all: the header is the last line emitted for them. *)
Theorem corpos_vazios (g : GeradorPython.GeradorPython) (condicao : Expressao) :
  (forall nome token_nome parametros tipo_retorno,
      linhas_de str_float bool_float
        (DeclaracaoFuncao nome token_nome parametros tipo_retorno []) g =
        [ GeradorPython._indent g +:+ "def " +:+ nome +:+ "("
            +:+ Py.join ", " (map fst parametros) +:+ "):";
          GeradorPython._indent (mais_fundo g) +:+ "pass";
          GeradorPython._indent g +:+ "" ])
  /\ linhas_de str_float bool_float
       (DeclaracaoSe condicao (DeclaracaoBloco []) None) g =
       [ GeradorPython._indent g +:+ "if " +:+ frag g condicao +:+ ":";
         GeradorPython._indent (mais_fundo g) +:+ "pass" ]
  /\ linhas_de str_float bool_float
       (DeclaracaoSe condicao (DeclaracaoBloco []) (Some (DeclaracaoBloco []))) g =
       [ GeradorPython._indent g +:+ "if " +:+ frag g condicao +:+ ":";
         GeradorPython._indent (mais_fundo g) +:+ "pass";
         GeradorPython._indent g +:+ "else:" ]
  /\ linhas_de str_float bool_float
       (DeclaracaoEnquanto condicao (DeclaracaoBloco [])) g =
       [ GeradorPython._indent g +:+ "while " +:+ frag g condicao +:+ ":" ]
  /\ (forall variavel token_variavel inicio fim,
        linhas_de str_float bool_float
          (DeclaracaoPara variavel token_variavel inicio fim None (DeclaracaoBloco []))
          g =
          [ GeradorPython._indent g
            +:+ cabecalho_para variavel (frag g inicio) (frag g fim) None ]).
Proof.
  split; [| split; [| split; [| split]]].
  - intros nome token_nome parametros tipo_retorno.
    eapply linhas_acrescentadas. simpl. do 2 abre_emissor. simpl.
    rewrite <- ?app_assoc, ?Z.add_simpl_r. reflexivity.
  - eapply linhas_acrescentadas. simpl. abre_emissor.
    rewrite emitir_expressao_fragmento. simpl.
    rewrite <- ?app_assoc, ?Z.add_simpl_r. reflexivity.
  - eapply linhas_acrescentadas. simpl. abre_emissor.
    rewrite emitir_expressao_fragmento. simpl.
    rewrite <- ?app_assoc, ?Z.add_simpl_r. reflexivity.
  - eapply linhas_acrescentadas. simpl. abre_emissor.
    rewrite emitir_expressao_fragmento. simpl.
    rewrite Z.add_simpl_r. reflexivity.
  - intros variavel token_variavel inicio fim.
    eapply linhas_acrescentadas. simpl. abre_emissor.
    rewrite !emitir_expressao_fragmento. simpl.
    rewrite Z.add_simpl_r. reflexivity.
Qed.

Lemma gerar_linhas (declaracoes : list Declaracao)
    (g : GeradorPython.GeradorPython) :
  0 <= GeradorPython.indent_level g ->
  exists linhas em,
    GeradorPython.gerar str_float bool_float (Programa_ declaracoes) g =
      (Retorno
         (Py.join (Py.str1 Py.nova_linha)
            (GeradorPython.cabecalho ++ linhas ++ GeradorPython.rodape)),
       GeradorPython.mk (GeradorPython.indent_level g)
         (GeradorPython.cabecalho ++ linhas ++ GeradorPython.rodape) em)
    /\ Forall (comeca_com (GeradorPython._indent g)) linhas.
Proof.
  intros Hpos. unfold GeradorPython.gerar, GeradorPython.visitar_programa.
  unfold bind at 1. unfold mudar at 1.
  set (g0 := GeradorPython.com_codigo GeradorPython.cabecalho g).
  assert (Htodas : Forall (emite str_float bool_float) declaracoes).
  { apply Forall_forall. intros d _. apply (proj1 (emitir_emite d)). }
  destruct (aceitar_todas_emite declaracoes Htodas g0 Hpos) as (l & em & E & HF & _).
  unfold bind. rewrite E. unfold ret, mudar, ler, g0.
  cbn [GeradorPython.codigo GeradorPython.com_codigo GeradorPython.indent_level
       GeradorPython.em_expressao].
  exists l, em. rewrite <- app_assoc. split; [reflexivity | exact HF].
Qed.


End EstadoDoEmissor.

(** The theorem [emissao_acrescenta_linhas_indentadas] on a concrete input. *)
Lemma emissao_acrescenta_linhas_indentadas_witness :
  let tok := Token.mk RETORNA "retorna" (VStr "retorna") 1 1 in
  let g := GeradorPython.mk 1 ["def f():"] false in
  exists linhas em,
    GeradorPython.aceitar_declaracao (fun s => s) (fun _ => false)
      (DeclaracaoRetorna tok None) g =
      (Retorno "", GeradorPython.mk 1 (["def f():"] ++ linhas) em)
    /\ Forall (comeca_com "    ") linhas.
Proof.
  intros tok g.
  apply (emissao_acrescenta_linhas_indentadas (fun s => s) (fun _ => false)
           (DeclaracaoRetorna tok None) g).
  simpl; lia.
Defined.

(** The theorem [atribuicao_nunca_com_dois_pontos] on a concrete input. *)
Lemma atribuicao_nunca_com_dois_pontos_witness :
  let tok := Token.mk IDENTIFICADOR "x" (VStr "x") 1 1 in
  GeradorPython.aceitar_expressao (fun s => s) (fun _ => false)
    (ExpressaoAtribuicao "x" tok (ExpressaoVariavel "y" tok)) GeradorPython.novo
  = (Retorno "x = y", GeradorPython.novo).
Proof.
  intros tok.
  apply (proj2 (atribuicao_nunca_com_dois_pontos (fun s => s) (fun _ => false)
                  GeradorPython.novo ltac:(simpl; lia) eq_refl)).
Defined.


(** ** The compiler *)

Section Compilacao.

Variable str_float : string -> string.
Variable bool_float : string -> bool.
Variable imprimir_tokens : Scanner.Scanner -> bool.
Variable visualizar : Programa -> bool.
Variable imprimir : TabelaSimbolos.TabelaSimbolos -> bool.
Variable exec : string -> bool.

Abbreviation compilar_com :=
  (CompiladorLusitano.compilar str_float bool_float
     imprimir_tokens visualizar imprimir exec).

Ltac listagem_volta :=
  match goal with
  | Hl : forall m : bool, _ -> forall c1, _ -> CompiladorLusitano.se_verbose m c1 = _,
    Hv : _ = true -> _ /\ _ /\ _
    |- context [bind (CompiladorLusitano.se_verbose ?m) ?k ?c1] =>
    rewrite (bind_passo _ k c1 c1 true)
      by (apply Hl; [intros V; destruct (Hv V) as (? & ? & ?); auto | reflexivity]);
    cbn [negb]
  end.


End Compilacao.

